(** * Contest statistics engine of the fantasy-baseball tracker (app.py)

    A shallow embedding of the statistics pipeline of [app.py]:
    [parse_ip], [format_stat], [get_mlb_id], [get_team_names],
    [get_team_rosters], [compute_contest_stats] and [get_contest_data];
    of the pages that use it: [dashboard], [results], [create_contest]
    with the validators of [ContestForm] ([forms.py]), [delete_contest],
    [clear_contests], [clear_leagues] and the reading of the pitcher slots
    in [link_league]; followed by the properties established about them.

    Conventions of the embedding.
    - A Python [float] is an IEEE-754 binary64 number: [spec_float] with
      precision 53 and maximal exponent 1024, computed with the operations
      of the standard library's [SpecFloat] (round to nearest, ties to even).
    - A Python [str] is a [string] of 8-bit characters; the text handled here
      (statistic names, innings such as 6.2) is ASCII.
    - A [datetime.date] is its proleptic Gregorian ordinal ([date.toordinal]),
      an integer; subtracting two dates gives a number of days.
    - A raised exception is a value of [exn]; a function that can raise
      returns in the [result] type or in the monad [M].
    - Dictionaries whose iteration order is observable are insertion-ordered
      association lists ([odict]); process-wide caches that are only looked up
      are [gmap]s and [gset]s.
    - The answers of the two providers are taken in their decoded shape
      (records for teams, roster entries and game-log entries). An answer
      [Raise RequestException] is a request that failed inside its [try];
      any other [Raise e] is an answer whose reading raises [e] where the
      code reads it ([response.json()] and the subscripts that follow), and
      the code handles it or not as the source does at that place.
    - A column that holds JSON text is given by what [json.loads] makes of
      it, a value of [json]; [None] is an empty column or a text that is
      not JSON.
    - [@cache.memoize(timeout=86400)] is the function [memoize] around the
      body of each of the four decorated functions, over the store [Memo],
      which is part of the state: the file cache outlives the module's
      dictionaries. An entry is valid up to the second at which it expires.
      [cache.delete_memoized] and [cache.clear] act on this store.
    - [list.sort] is the algorithm of CPython 3.11 for lists of fewer than
      64 elements (see [sort_by_value]), so that lists with a NaN among the
      keys come out as they do in Python.

    Left out of the embedding:
    - [OperationalError]: the database does not fail, so every retry loop
      runs its body once; the unique constraint on [PlayerCache.espn_id] is
      kept, since it decides whether a row can be added;
    - the decryption of the league's cookies;
    - the diagnostic branches for hard-coded contests (lines 397-407,
      427-429, 596-598, 602-604, 632-634, 675-726), which only write to the
      log;
    - the accounts ([register], [login], [logout], [load_user]), the pages
      [home] and [my_leagues], the export [download_snapshot], the start-up
      [init_db_with_retries], and the request and the database write of
      [link_league]. *)

From Stdlib Require Import ZArith List String Ascii Bool Lia QArith Qabs.
From Stdlib Require Import Sorting.Sorted Sorting.Permutation.
From Stdlib Require Import Floats.SpecFloat.
From stdpp Require Import gmap strings.

Import ListNotations.
Open Scope Z_scope.

(** ** Python exceptions and results *)

Inductive exn : Type :=
| ValueError
| TypeError
| OverflowError
| KeyError
| IndexError
| IntegrityError
| RequestException.

Inductive result (A : Type) : Type :=
| Ok (a : A)
| Raise (e : exn).
Arguments Ok {A} a.
Arguments Raise {A} e.

Definition rbind {A B : Type} (r : result A) (k : A -> result B) : result B :=
  match r with
  | Ok a => k a
  | Raise e => Raise e
  end.

(** ** Python floats: binary64 *)

Module PyFloat.

Definition prec : Z := 53.
Definition emax : Z := 1024.

Definition add : spec_float -> spec_float -> spec_float := SFadd prec emax.
Definition mul : spec_float -> spec_float -> spec_float := SFmul prec emax.
Definition div : spec_float -> spec_float -> spec_float := SFdiv prec emax.

(** [x < y], [x > y], [x == y]: every comparison with a NaN is false. *)
Definition ltb (x y : spec_float) : bool := SFltb x y.
Definition gtb (x y : spec_float) : bool := SFltb y x.
Definition eqb (x y : spec_float) : bool := SFeqb x y.
Definition leb (x y : spec_float) : bool := SFleb x y.

(** The float nearest to an integer. *)
Definition of_Z (z : Z) : spec_float := binary_normalize prec emax z 0 false.

Definition zero : spec_float := S754_zero false.

Definition is_nan (x : spec_float) : bool :=
  match x with S754_nan => true | _ => false end.

(** [float(n)] for a Python int: [OverflowError] when [n] does not fit. *)
Definition of_int (z : Z) : result spec_float :=
  match of_Z z with
  | S754_infinity _ => Raise OverflowError
  | x => Ok x
  end.

(** The float nearest to [(-1)^neg * d * 10^x], as [strtod] computes it. *)
Definition of_decimal (neg : bool) (d x : Z) : spec_float :=
  match d with
  | Zpos p =>
      if 0 <=? x then binary_round prec emax neg (p * Z.to_pos (10 ^ x)) 0
      else
        let '(q, e, l) := SFdiv_core_binary prec emax (Zpos p) 0 (10 ^ (- x)) 0 in
        binary_round_aux prec emax neg q e l
  | _ => S754_zero neg
  end.

(** The integer nearest to [n / d], ties to even ([0 <= n], [0 < d]). *)
Definition div_half_even (n d : Z) : Z :=
  let q := n / d in
  let r := n mod d in
  match 2 * r ?= d with
  | Lt => q
  | Gt => q + 1
  | Eq => if Z.even q then q else q + 1
  end.

(** [round(x)] with one argument: the nearest integer, ties to even. *)
Definition round_half_even (m : positive) (e : Z) : Z :=
  match e with
  | Zneg n => div_half_even (Zpos m) (2 ^ Zpos n)
  | _ => Zpos m * 2 ^ e
  end.

Definition round (x : spec_float) : result Z :=
  match x with
  | S754_zero _ => Ok 0
  | S754_finite s m e => Ok (cond_Zopp s (round_half_even m e))
  | S754_infinity _ => Raise OverflowError
  | S754_nan => Raise ValueError
  end.

(** [int(x)]: truncation toward zero. *)
Definition trunc (x : spec_float) : result Z :=
  match x with
  | S754_zero _ => Ok 0
  | S754_finite s m e =>
      Ok (cond_Zopp s (match e with
                       | Zneg n => Zpos m / 2 ^ Zpos n
                       | _ => Zpos m * 2 ^ e
                       end))
  | S754_infinity _ => Raise OverflowError
  | S754_nan => Raise ValueError
  end.

(** The rational number a float stands for (0 for infinities and NaN). *)
Definition to_Q (x : spec_float) : Q :=
  match x with
  | S754_finite s m e =>
      let v := match e with
               | Zneg n => Zpos m # (2 ^ n)
               | _ => inject_Z (Zpos m * 2 ^ e)
               end in
      if s then Qopp v else v
  | _ => 0%Q
  end.

Definition is_finite (x : spec_float) : bool :=
  match x with
  | S754_zero _ | S754_finite _ _ _ => true
  | _ => false
  end.

End PyFloat.

(** ** Python strings *)

Module PyStr.

Definition chars (s : string) : list ascii := list_ascii_of_string s.
Definition of_chars (l : list ascii) : string := string_of_list_ascii l.

Definition code (c : ascii) : Z := Z.of_N (N_of_ascii c).

Definition is_digit (c : ascii) : bool := (48 <=? code c) && (code c <=? 57).

(** [Py_ISSPACE]: tab, line feed, vertical tab, form feed, carriage
    return and space. *)
Definition is_space (c : ascii) : bool :=
  ((9 <=? code c) && (code c <=? 13)) || (code c =? 32).

Definition lower (c : ascii) : ascii :=
  if (65 <=? code c) && (code c <=? 90)
  then ascii_of_N (N_of_ascii c + 32) else c.

Definition upper_char (c : ascii) : ascii :=
  if (97 <=? code c) && (code c <=? 122)
  then ascii_of_N (N_of_ascii c - 32) else c.

(** [s.upper()] *)
Definition upper (s : string) : string := of_chars (map upper_char (chars s)).

(** [c in s] for a one-character [c]. *)
Definition contains_char (c : ascii) (s : string) : bool :=
  existsb (Ascii.eqb c) (chars s).

Fixpoint is_prefix (p s : list ascii) : bool :=
  match p, s with
  | [], _ => true
  | a :: p', b :: s' => Ascii.eqb a b && is_prefix p' s'
  | _ :: _, [] => false
  end.

Fixpoint contains_chars (p s : list ascii) : bool :=
  is_prefix p s ||
  match s with
  | [] => false
  | _ :: s' => contains_chars p s'
  end.

(** [p in s] *)
Definition contains (p s : string) : bool := contains_chars (chars p) (chars s).

(** [s.split(sep)] for a one-character separator: the pieces between
    the occurrences of [sep], always at least one piece. *)
Fixpoint split_chars (sep : ascii) (s : list ascii) : list (list ascii) :=
  match s with
  | [] => [[]]
  | c :: s' =>
      if Ascii.eqb c sep then [] :: split_chars sep s'
      else match split_chars sep s' with
           | piece :: rest => (c :: piece) :: rest
           | [] => [[c]]
           end
  end.

Definition split (sep : ascii) (s : string) : list string :=
  map of_chars (split_chars sep (chars s)).

(** ** [str(n)] for an int *)

Definition digit_char (d : Z) : ascii := ascii_of_N (Z.to_N (48 + d)).

Fixpoint digits_from (fuel : nat) (n : Z) (acc : list ascii) : list ascii :=
  match fuel with
  | O => acc
  | S fuel' =>
      let acc' := digit_char (n mod 10) :: acc in
      if n <? 10 then acc' else digits_from fuel' (n / 10) acc'
  end.

(** Decimal digits of a non-negative integer, most significant first. *)
Definition digits_of (n : Z) : list ascii :=
  digits_from (S (Z.to_nat (Z.log2 n))) n [].

Definition of_int (n : Z) : string :=
  if n <? 0 then of_chars ("-"%char :: digits_of (- n))
  else of_chars (digits_of n).

(** ** [float(s)] for a string

    The steps of [PyFloat_FromString]: underscores are removed (each
    must stand between two digits), white space is stripped at both
    ends, and the rest must be, in full, a decimal number read by
    [strtod] or one of inf, infinity, nan with an optional sign. *)

Fixpoint strip_underscores (prev : option ascii) (s : list ascii)
  : option (list ascii) :=
  match s with
  | [] => match prev with
          | Some "_"%char => None
          | _ => Some []
          end
  | c :: s' =>
      if Ascii.eqb c "_" then
        match prev with
        | Some p => if is_digit p then strip_underscores (Some c) s' else None
        | None => None
        end
      else
        let bad := match prev with
                   | Some "_"%char => negb (is_digit c)
                   | _ => false
                   end in
        if bad then None
        else option_map (cons c) (strip_underscores (Some c) s')
  end.

Fixpoint lstrip (s : list ascii) : list ascii :=
  match s with
  | c :: s' => if is_space c then lstrip s' else s
  | [] => []
  end.

Definition rstrip (s : list ascii) : list ascii := rev (lstrip (rev s)).

Fixpoint span_digits (s : list ascii) : list ascii * list ascii :=
  match s with
  | c :: s' =>
      if is_digit c
      then let '(ds, r) := span_digits s' in (c :: ds, r)
      else ([], s)
  | [] => ([], [])
  end.

Definition digit_val (c : ascii) : Z := code c - 48.

Definition Z_of_digits (ds : list ascii) : Z :=
  fold_left (fun acc c => 10 * acc + digit_val c) ds 0.

Definition parse_sign (s : list ascii) : bool * list ascii :=
  match s with
  | "-"%char :: r => (true, r)
  | "+"%char :: r => (false, r)
  | _ => (false, s)
  end.

(** [_Py_dg_strtod]: the longest prefix that is a decimal number, and
    what follows it. An exponent mark without digits is not part of
    the number. *)
Definition strtod (s : list ascii) : option (spec_float * list ascii) :=
  let '(neg, s1) := parse_sign s in
  let '(ip, s2) := span_digits s1 in
  let '(fp, s3) := match s2 with
                   | "."%char :: r => span_digits r
                   | _ => ([], s2)
                   end in
  match ip ++ fp with
  | [] => None
  | ds =>
      let '(ex, s4) :=
        match s3 with
        | c :: r =>
            if Ascii.eqb (lower c) "e" then
              let '(eneg, r1) := parse_sign r in
              let '(ed, r2) := span_digits r1 in
              match ed with
              | [] => (0, s3)
              | _ => (cond_Zopp eneg (Z_of_digits ed), r2)
              end
            else (0, s3)
        | [] => (0, s3)
        end in
      Some (PyFloat.of_decimal neg (Z_of_digits ds) (ex - Z.of_nat (length fp)), s4)
  end.

(** [_Py_parse_inf_or_nan] *)
Definition parse_inf_or_nan (s : list ascii) : option (spec_float * list ascii) :=
  let '(neg, s1) := parse_sign s in
  let low := map lower s1 in
  if is_prefix (chars "inf") low then
    let r := skipn 3 s1 in
    if is_prefix (chars "inity") (map lower r)
    then Some (S754_infinity neg, skipn 5 r)
    else Some (S754_infinity neg, r)
  else if is_prefix (chars "nan") low then Some (S754_nan, skipn 3 s1)
  else None.

Definition to_float (s : string) : result spec_float :=
  match strip_underscores None (chars s) with
  | None => Raise ValueError
  | Some s0 =>
      match rstrip (lstrip s0) with
      | [] => Raise ValueError
      | s1 =>
          let parsed := match strtod s1 with
                        | Some r => Some r
                        | None => parse_inf_or_nan s1
                        end in
          match parsed with
          | Some (x, []) => Ok x
          | _ => Raise ValueError
          end
      end
  end.

End PyStr.

(** ** [parse_ip] (app.py, lines 322-331) *)

(** The body of the [try] block. [ip] is already a string, so [str(ip)]
    is [ip] itself. Unpacking [split('.')] into two names raises
    [ValueError] unless there are exactly two pieces. *)
Definition parse_ip_try (ip_str : string) : result spec_float :=
  if negb (PyStr.contains_char "." ip_str) then PyStr.to_float ip_str
  else
    match PyStr.split "." ip_str with
    | [whole; frac] =>
        rbind (PyStr.to_float whole) (fun w =>
        rbind (PyStr.to_float frac) (fun f =>
        Ok (PyFloat.add w (PyFloat.div f (PyFloat.of_Z 3)))))
    | _ => Raise ValueError
    end.

(** [except Exception]: a warning is logged and [0.0] returned. *)
Definition parse_ip (ip_str : string) : spec_float :=
  match parse_ip_try ip_str with
  | Ok v => v
  | Raise _ => PyFloat.zero
  end.

(** ** [format_stat] (app.py, lines 1289-1299) *)

Definition ratio_categories : list string :=
  ["OBP"; "AVG"; "SLUGGING PERCENTAGE"; "ERA"; "WHIP"; "K/BB"]%string.

Definition in_list (s : string) (l : list string) : bool :=
  existsb (String.eqb s) l.

(** The digits of [n] padded with zeros on the left to [width] characters. *)
Definition zero_pad (width : nat) (n : Z) : list ascii :=
  let ds := PyStr.digits_of n in
  repeat "0"%char (width - length ds) ++ ds.

(** The format [.4f]: four decimals, the exact binary value rounded half
    to even; the sign is kept when the value rounds to zero. *)
Definition format_4f (value : spec_float) : string :=
  match value with
  | S754_nan => "nan"
  | S754_infinity s => if s then "-inf" else "inf"
  | S754_zero s => if s then "-0.0000" else "0.0000"
  | S754_finite s m e =>
      let n := match e with
               | Zneg k => PyFloat.div_half_even (Zpos m * 10000) (2 ^ Zpos k)
               | _ => Zpos m * 2 ^ e * 10000
               end in
      PyStr.of_chars
        ((if s then ["-"%char] else []) ++
         PyStr.digits_of (n / 10000) ++ "."%char :: zero_pad 4 (n mod 10000))
  end.

Definition format_stat (value : spec_float) (category : string) : result string :=
  if in_list category ratio_categories then Ok (format_4f value)
  else if String.eqb category "INNINGS PITCHED" then
    rbind (PyFloat.round (PyFloat.mul value (PyFloat.of_Z 3))) (fun total_outs =>
    let whole := total_outs / 3 in
    let frac := total_outs mod 3 in
    Ok (PyStr.of_int whole ++ "." ++ PyStr.of_int frac)%string)
  else
    rbind (PyFloat.trunc value) (fun n => Ok (PyStr.of_int n)).

(** ** Dates

    [date y m d] is [datetime.date(y, m, d).toordinal()]; [isoformat] is
    [str] of a date, the inverse reading of the ordinal. *)

Module Date.

Definition is_leap (y : Z) : bool :=
  (y mod 4 =? 0) && (negb (y mod 100 =? 0) || (y mod 400 =? 0)).

Definition days_before_year (y : Z) : Z :=
  let p := y - 1 in p * 365 + p / 4 - p / 100 + p / 400.

Definition days_in_month (y m : Z) : Z :=
  if m =? 2 then (if is_leap y then 29 else 28)
  else if (m =? 4) || (m =? 6) || (m =? 9) || (m =? 11) then 30
  else 31.

Definition days_before_month (y m : Z) : Z :=
  fold_left (fun acc k => acc + days_in_month y (Z.of_nat k))
            (seq 1 (Z.to_nat (m - 1))) 0.

Definition date (y m d : Z) : Z :=
  days_before_year y + days_before_month y m + d.

(** The year of an ordinal: the estimate [n / 366 + 1] is raised while
    the next year still starts at or before [n] (at most a few steps). *)
Fixpoint year_from (fuel : nat) (y n : Z) : Z :=
  match fuel with
  | O => y
  | S fuel' =>
      if days_before_year (y + 1) <? n then year_from fuel' (y + 1) n else y
  end.

Definition year_of (n : Z) : Z := year_from (Z.to_nat (n / 366 + 2)) ((n - 1) / 366 + 1) n.

Fixpoint month_from (fuel : nat) (y m r : Z) : Z * Z :=
  match fuel with
  | O => (m, r)
  | S fuel' =>
      if days_in_month y m <? r
      then month_from fuel' y (m + 1) (r - days_in_month y m)
      else (m, r)
  end.

Definition ymd (n : Z) : Z * Z * Z :=
  let y := year_of n in
  let '(m, d) := month_from 11 y 1 (n - days_before_year y) in
  (y, m, d).

Definition pad (width : nat) (n : Z) : string :=
  let ds := PyStr.digits_of n in
  PyStr.of_chars (repeat "0"%char (width - length ds) ++ ds).

Definition isoformat (n : Z) : string :=
  let '(y, m, d) := ymd n in
  (pad 4 y ++ "-" ++ pad 2 m ++ "-" ++ pad 2 d)%string.

End Date.

(** ** Insertion-ordered dictionaries

    A Python [dict] iterates in insertion order; assigning to a key that is
    present keeps its position. *)

Section ODict.
Context {K V : Type} `{EqDecision K}.

Definition odict : Type := list (K * V).

Fixpoint od_get (k : K) (d : odict) : option V :=
  match d with
  | [] => None
  | (k', v) :: d' => if decide (k = k') then Some v else od_get k d'
  end.

Fixpoint od_set (k : K) (v : V) (d : odict) : odict :=
  match d with
  | [] => [(k, v)]
  | (k', v') :: d' =>
      if decide (k = k') then (k', v) :: d' else (k', v') :: od_set k v d'
  end.

Definition od_values (d : odict) : list V := map snd d.
Definition od_keys (d : odict) : list K := map fst d.
End ODict.
Arguments odict : clear implicits.

(** ** Data model *)

(** A value of a statistic in a game-log entry of the statistics provider:
    counts are JSON integers, rates and innings are JSON strings. *)
Inductive stat_value : Type :=
| SInt (n : Z)
| SStr (s : string)
| SNull.

(** One entry of a game log: its date (the ordinal of the entry's
    [date] field, when it has one) and its [stat] object. *)
Record game_split : Type := {
  split_date : option Z;
  split_stat : gmap string stat_value
}.

(** A roster entry of the lineup provider. *)
Record entry : Type := {
  lineupSlotId : Z;
  playerId : Z;
  fullName : option string
}.

Record roster_team : Type := {
  rt_id : Z;
  rt_entries : list entry
}.

(** A team of the [mTeam] view. *)
Record team_json : Type := {
  tj_id : Z;
  tj_name : option string;
  tj_location : string;
  tj_nickname : string
}.

(** A JSON value as [json.loads] returns it. *)
#[local] Unset Elimination Schemes.
Inductive json : Type :=
| JNull
| JBool (b : bool)
| JInt (n : Z)
| JFloat (x : spec_float)
| JStr (s : string)
| JList (items : list json)
| JObject (members : list (string * json)).
#[local] Set Elimination Schemes.

(** Rows of the tables [League], [Contest], [ContestResult], [PlayerCache].
    [active_pitcher_slots] holds what [json.loads] makes of the column,
    [None] when the column is empty or its text is not JSON. *)
Record League : Type := {
  espn_league_id : Z;
  active_pitcher_slots : option json
}.

Record Contest : Type := {
  contest_id : Z;
  contest_league : option League;
  contest_stat_category : string;
  contest_start_date : Z;
  contest_end_date : Z
}.

Record PlayerCache : Type := {
  pc_espn_id : Z;
  pc_mlb_id : option Z;
  pc_player_name : string;
  pc_game_log : option (list game_split);
  pc_season : Z;
  pc_group : string
}.

(** The team accumulator: [{'num', 'den'}] or [{'total'}]. *)
Inductive accum : Type :=
| Ratio (num den : spec_float)
| Total (total : spec_float).

Record status : Type := {
  is_started : bool;
  days_to_start : option Z;
  days_remaining : option Z;
  is_complete : bool;
  winner : option (list string)
}.

Record chart_data : Type := {
  chart_labels : list string;
  chart_label : string;
  chart_values : list spec_float;
  chart_background : list string;
  chart_border : list string
}.

Definition rankings : Type := list (string * spec_float).

(** What [compute_contest_stats] returns. *)
Definition contest_stats : Type := (rankings * chart_data * string * status)%type.

(** A stored result. The columns [rankings], [chart_data] and [status]
    hold JSON text: each is given by what [json.loads] makes of it, [None]
    when the text does not decode. [last_updated] is a number of seconds,
    so that its date is the quotient by 86400. *)
Record ContestResult : Type := {
  cr_contest_id : Z;
  cr_rankings : option rankings;
  cr_chart_data : option chart_data;
  cr_warning_message : string;
  cr_status : option status;
  cr_last_updated : Z
}.

(** ** The outside world and the process state *)

(** An outbound request to the lineup provider or the statistics provider. *)
Inductive request : Type :=
| ReqTeams (league : Z)
| ReqRoster (league period : Z)
| ReqSearch (name : string)
| ReqGameLog (mlb_id : Z) (group : string).

(** The environment of one call: the configured season, the clock (the
    local date and the time in seconds) and the answers of the two
    providers. A request that fails inside its [try] (no answer, or an
    error status) is [Raise RequestException]. An answer that arrives but
    cannot be read is [Raise e], where [e] is the exception that reading it
    raises: [ValueError] for a body that is not JSON, [KeyError] for a
    missing member, [TypeError] for a member of another type. A game log
    without the expected structure is [Ok None]. *)
Record World : Type := {
  YEAR : Z;
  today : Z;
  utcnow : Z;
  espn_teams : Z -> result (list team_json);
  espn_roster : Z -> Z -> result (list roster_team);
  mlb_search : string -> result (list Z);
  mlb_game_log : Z -> string -> result (option (list game_split))
}.

(** The store of [cache.memoize] (Flask-Caching, [FileSystemCache]): for
    each decorated function, the value stored under the arguments of a call
    with the time at which the entry expires. The league's cookies, which
    the embedding leaves out, are not part of the keys. *)
Record Memo : Type := {
  memo_get_mlb_id : gmap (string * Z) (Z * option Z);
  memo_get_team_names : gmap Z (Z * odict Z string);
  memo_get_team_rosters : gmap (Z * Z * Z * Z) (Z * gmap Z (list roster_team));
  memo_compute_contest_stats : gmap Z (Z * contest_stats)
}.

Definition empty_memo : Memo :=
  {| memo_get_mlb_id := ∅; memo_get_team_names := ∅;
     memo_get_team_rosters := ∅; memo_compute_contest_stats := ∅ |}.

Definition with_memo_get_mlb_id (t : gmap (string * Z) (Z * option Z)) (m : Memo) : Memo :=
  {| memo_get_mlb_id := t;
     memo_get_team_names := memo_get_team_names m;
     memo_get_team_rosters := memo_get_team_rosters m;
     memo_compute_contest_stats := memo_compute_contest_stats m |}.

Definition with_memo_get_team_names (t : gmap Z (Z * odict Z string)) (m : Memo) : Memo :=
  {| memo_get_mlb_id := memo_get_mlb_id m;
     memo_get_team_names := t;
     memo_get_team_rosters := memo_get_team_rosters m;
     memo_compute_contest_stats := memo_compute_contest_stats m |}.

Definition with_memo_get_team_rosters
    (t : gmap (Z * Z * Z * Z) (Z * gmap Z (list roster_team))) (m : Memo) : Memo :=
  {| memo_get_mlb_id := memo_get_mlb_id m;
     memo_get_team_names := memo_get_team_names m;
     memo_get_team_rosters := t;
     memo_compute_contest_stats := memo_compute_contest_stats m |}.

Definition with_memo_compute_contest_stats (t : gmap Z (Z * contest_stats)) (m : Memo) : Memo :=
  {| memo_get_mlb_id := memo_get_mlb_id m;
     memo_get_team_names := memo_get_team_names m;
     memo_get_team_rosters := memo_get_team_rosters m;
     memo_compute_contest_stats := t |}.

(** Module-level caches, the memo, the database tables, and the requests
    sent so far. *)
Record State : Type := {
  mlb_id_cache : gmap Z Z;
  game_log_cache : gmap (Z * string) (list game_split);
  processed_players : gset Z;
  team_names_cache : gmap Z (odict Z string);
  roster_cache : gmap (Z * Z * Z) (gmap Z (list roster_team));
  memo : Memo;
  db_contests : list Contest;
  db_player_cache : list PlayerCache;
  db_contest_results : list ContestResult;
  requests : list request
}.

(** ** The state and exception monad *)

Definition M (A : Type) : Type := State -> result A * State.

Definition ret {A : Type} (a : A) : M A := fun st => (Ok a, st).
Definition raise {A : Type} (e : exn) : M A := fun st => (Raise e, st).

Definition bind {A B : Type} (m : M A) (k : A -> M B) : M B :=
  fun st =>
    match m st with
    | (Ok a, st') => k a st'
    | (Raise e, st') => (Raise e, st')
    end.

Definition get_state : M State := fun st => (Ok st, st).
Definition modify (f : State -> State) : M unit := fun st => (Ok tt, f st).
Definition lift {A : Type} (r : result A) : M A := fun st => (r, st).

Declare Scope monad_scope.
Delimit Scope monad_scope with monad.
Notation "x <- m ;; k" := (bind m (fun x => k))
  (at level 100, m at next level, right associativity) : monad_scope.
Notation "m ;;; k" := (bind m (fun _ => k))
  (at level 100, right associativity) : monad_scope.
Open Scope monad_scope.

(** [for x in l: body], threading a loop-carried value. *)
Fixpoint for_each {A B : Type} (l : list A) (body : A -> B -> M B) (b : B) : M B :=
  match l with
  | [] => ret b
  | x :: l' => b' <- body x b ;; for_each l' body b'
  end.

Definition send (r : request) : M unit :=
  modify (fun st => {|
    mlb_id_cache := mlb_id_cache st;
    game_log_cache := game_log_cache st;
    processed_players := processed_players st;
    team_names_cache := team_names_cache st;
    roster_cache := roster_cache st;
    memo := memo st;
    db_contests := db_contests st;
    db_player_cache := db_player_cache st;
    db_contest_results := db_contest_results st;
    requests := requests st ++ [r] |}).

Definition set_mlb_id_cache (c : gmap Z Z) (st : State) : State :=
  {| mlb_id_cache := c;
     game_log_cache := game_log_cache st;
     processed_players := processed_players st;
     team_names_cache := team_names_cache st;
     roster_cache := roster_cache st;
     memo := memo st;
     db_contests := db_contests st;
     db_player_cache := db_player_cache st;
     db_contest_results := db_contest_results st;
     requests := requests st |}.

Definition set_game_log_cache (c : gmap (Z * string) (list game_split)) (st : State) : State :=
  {| mlb_id_cache := mlb_id_cache st;
     game_log_cache := c;
     processed_players := processed_players st;
     team_names_cache := team_names_cache st;
     roster_cache := roster_cache st;
     memo := memo st;
     db_contests := db_contests st;
     db_player_cache := db_player_cache st;
     db_contest_results := db_contest_results st;
     requests := requests st |}.

Definition set_processed_players (c : gset Z) (st : State) : State :=
  {| mlb_id_cache := mlb_id_cache st;
     game_log_cache := game_log_cache st;
     processed_players := c;
     team_names_cache := team_names_cache st;
     roster_cache := roster_cache st;
     memo := memo st;
     db_contests := db_contests st;
     db_player_cache := db_player_cache st;
     db_contest_results := db_contest_results st;
     requests := requests st |}.

Definition set_team_names_cache (c : gmap Z (odict Z string)) (st : State) : State :=
  {| mlb_id_cache := mlb_id_cache st;
     game_log_cache := game_log_cache st;
     processed_players := processed_players st;
     team_names_cache := c;
     roster_cache := roster_cache st;
     memo := memo st;
     db_contests := db_contests st;
     db_player_cache := db_player_cache st;
     db_contest_results := db_contest_results st;
     requests := requests st |}.

Definition set_roster_cache (c : gmap (Z * Z * Z) (gmap Z (list roster_team))) (st : State) : State :=
  {| mlb_id_cache := mlb_id_cache st;
     game_log_cache := game_log_cache st;
     processed_players := processed_players st;
     team_names_cache := team_names_cache st;
     roster_cache := c;
     memo := memo st;
     db_contests := db_contests st;
     db_player_cache := db_player_cache st;
     db_contest_results := db_contest_results st;
     requests := requests st |}.

Definition set_memo (m : Memo) (st : State) : State :=
  {| mlb_id_cache := mlb_id_cache st;
     game_log_cache := game_log_cache st;
     processed_players := processed_players st;
     team_names_cache := team_names_cache st;
     roster_cache := roster_cache st;
     memo := m;
     db_contests := db_contests st;
     db_player_cache := db_player_cache st;
     db_contest_results := db_contest_results st;
     requests := requests st |}.

Definition set_db_player_cache (c : list PlayerCache) (st : State) : State :=
  {| mlb_id_cache := mlb_id_cache st;
     game_log_cache := game_log_cache st;
     processed_players := processed_players st;
     team_names_cache := team_names_cache st;
     roster_cache := roster_cache st;
     memo := memo st;
     db_contests := db_contests st;
     db_player_cache := c;
     db_contest_results := db_contest_results st;
     requests := requests st |}.

Definition set_db_contest_results (c : list ContestResult) (st : State) : State :=
  {| mlb_id_cache := mlb_id_cache st;
     game_log_cache := game_log_cache st;
     processed_players := processed_players st;
     team_names_cache := team_names_cache st;
     roster_cache := roster_cache st;
     memo := memo st;
     db_contests := db_contests st;
     db_player_cache := db_player_cache st;
     db_contest_results := c;
     requests := requests st |}.

(** ** Constants of the module *)

Definition manual_mlb_mappings : odict Z Z :=
  [(30820, 458681); (39832, 660271); (4917888, 686973); (40934, 642557);
   (31864, 592836); (32525, 593871); (5134630, 684007)].

Definition valid_stats : list string :=
  ["OBP"; "HR"; "RBI"; "AVG"; "HITS"; "RUNS SCORED"; "WALKS"; "STOLEN BASES";
   "SLUGGING PERCENTAGE"; "INNINGS PITCHED"; "HITS ALLOWED"; "ERA";
   "WALKS ALLOWED"; "STRIKEOUTS"; "QUALITY STARTS"; "WINS"; "SAVES";
   "SAVES + HOLDS"; "WHIP"; "K/BB"]%string.

Definition hitting_categories : list string :=
  ["OBP"; "HR"; "RBI"; "AVG"; "HITS"; "RUNS SCORED"; "WALKS"; "STOLEN BASES";
   "SLUGGING PERCENTAGE"]%string.

Definition pitching_categories : list string :=
  ["INNINGS PITCHED"; "HITS ALLOWED"; "ERA"; "WALKS ALLOWED"; "STRIKEOUTS";
   "QUALITY STARTS"; "WINS"; "SAVES"; "SAVES + HOLDS"; "WHIP"; "K/BB"]%string.

Definition lower_is_better : list string :=
  ["HITS ALLOWED"; "ERA"; "WALKS ALLOWED"; "WHIP"]%string.

Definition all_star_break : list Z :=
  [Date.date 2025 7 14; Date.date 2025 7 15; Date.date 2025 7 16; Date.date 2025 7 17].

Definition default_pitcher_slots : list Z := [13; 14; 15].

Definition background_colors : list string :=
  ["#4CAF50"; "#2196F3"; "#FF9800"; "#F44336"; "#9C27B0"; "#3F51B5";
   "#FFEB3B"; "#009688"; "#E91E63"; "#607D8B"; "#FFC107"; "#795548"]%string.

Definition border_colors : list string :=
  ["#388E3C"; "#1976D2"; "#F57C00"; "#D32F2F"; "#7B1FA2"; "#303F9F";
   "#FBC02D"; "#00796B"; "#C2185B"; "#455A64"; "#FFB300"; "#5D4037"]%string.

Definition in_Zs (x : Z) (l : list Z) : bool := existsb (Z.eqb x) l.

(** The days [lo, lo + 1, ..., hi]: the values a date takes in
    [while d <= hi: ...; d += timedelta(days=1)] started at [lo]. *)
Definition days (lo hi : Z) : list Z :=
  map (fun i => lo + Z.of_nat i) (seq 0 (Z.to_nat (hi - lo + 1))).

(** ** Pure parts of [compute_contest_stats] *)

(** [for slot in v]: the items of a list, the characters of a string,
    the keys of an object; any other value is not iterable. *)
Definition json_iter (v : json) : result (list json) :=
  match v with
  | JList items => Ok items
  | JStr s => Ok (map (fun c => JStr (String c EmptyString)) (PyStr.chars s))
  | JObject members => Ok (map (fun kv => JStr (fst kv)) members)
  | JNull | JBool _ | JInt _ | JFloat _ => Raise TypeError
  end.

(** [slot in [13, 14, 15]]: [slot] equals one of the three integers, as
    an integer does and a float of the same value; the slot is kept as that
    integer, which stands for it in every later [in]. *)
Definition as_slot (v : json) : option Z :=
  match v with
  | JInt n => if in_Zs n [13; 14; 15] then Some n else None
  | JFloat x => find (fun n => PyFloat.eqb x (PyFloat.of_Z n)) [13; 14; 15]
  | _ => None
  end.

(** Lines 386-394: the league's active pitcher slots. An empty column
    gives the default slots, and so does a text that is not JSON (the
    [JSONDecodeError] is handled); a value that is not iterable raises
    [TypeError], which this [try] does not handle. *)
Definition pitcher_slots (league : League) : result (list Z) :=
  rbind (match active_pitcher_slots league with
         | Some v => json_iter v
         | None => Ok (map JInt default_pitcher_slots)
         end) (fun loaded =>
    match omap as_slot loaded with
    | [] => Ok default_pitcher_slots
    | slots => Ok slots
    end).

Definition nonempty (s : option string) : option string :=
  match s with
  | Some (String c r) => Some (String c r)
  | _ => None
  end.

(** Lines 439-462: the started players of one team, as
    [(player_id, player_name, lineup_slot_id)]. *)
Definition started_of (stat_category : string) (slots : list Z)
    (entries : list entry) : list (Z * string * Z) :=
  flat_map (fun e =>
    match nonempty (fullName e) with
    | None => []
    | Some player_name =>
        if in_list stat_category hitting_categories then
          if lineupSlotId e <=? 12
          then [(playerId e, player_name, lineupSlotId e)] else []
        else if in_list stat_category pitching_categories then
          if in_Zs (lineupSlotId e) slots
          then [(playerId e, player_name, lineupSlotId e)] else []
        else []
    end) entries.

(** Lines 435-465. The log lines read [team_names[team_id]], which raises
    [KeyError] for a team the league does not list. *)
Definition started_players_of (stat_category : string) (slots : list Z)
    (team_names : odict Z string) (roster_data : list roster_team)
  : result (odict Z (list (Z * string * Z))) :=
  fold_left (fun acc team =>
    rbind acc (fun started_players =>
      match od_get (rt_id team) team_names with
      | None => Raise KeyError
      | Some _ =>
          Ok (od_set (rt_id team)
                     (started_of stat_category slots (rt_entries team))
                     started_players)
      end)) roster_data (Ok []).

Definition float_of_value (v : stat_value) : result spec_float :=
  match v with
  | SInt n => PyFloat.of_int n
  | SStr s => PyStr.to_float s
  | SNull => Raise TypeError
  end.

Definition str_of_value (v : stat_value) : string :=
  match v with
  | SInt n => PyStr.of_int n
  | SStr s => s
  | SNull => "None"
  end.

Definition str_containing (needle : string) (v : stat_value) : bool :=
  match v with
  | SStr s => PyStr.contains needle s
  | _ => false
  end.

Definition stat_get (aggregated_stats : gmap string spec_float) (key : string) : spec_float :=
  default PyFloat.zero (aggregated_stats !! key).

(** Lines 546-564: one [key, value] of a game entry added to the
    day's aggregate. [OverflowError] is not among the handled exceptions. *)
Definition add_stat (aggregated_stats : gmap string spec_float)
    (key : string) (value : stat_value) : result (gmap string spec_float) :=
  let current := stat_get aggregated_stats key in
  if String.eqb key "inningsPitched" then
    Ok (<[key := PyFloat.add current (parse_ip (str_of_value value))]> aggregated_stats)
  else
    match float_of_value value with
    | Ok x => Ok (<[key := PyFloat.add current x]> aggregated_stats)
    | Raise ValueError | Raise TypeError =>
        if String.eqb key "homeRuns" && str_containing "HR" value then
          Ok (<[key := PyFloat.add current (PyFloat.of_Z 1)]> aggregated_stats)
        else if String.eqb key "rbi" && str_containing "RBI" value then
          Ok (<[key := PyFloat.add current (PyFloat.of_Z 1)]> aggregated_stats)
        else Ok (<[key := current]> aggregated_stats)
    | Raise e => Raise e
    end.

(** Lines 543-564: the entries of one day summed key by key. *)
Definition aggregate (daily_stats_list : list (gmap string stat_value))
  : result (gmap string spec_float) :=
  fold_left (fun acc stat_dict =>
    fold_left (fun acc' kv => rbind acc' (fun a => add_stat a (fst kv) (snd kv)))
              (map_to_list stat_dict) acc)
    daily_stats_list (Ok ∅).

Definition team_stats_t : Type := odict string accum.

Definition add_total (x : spec_float) (a : accum) : result accum :=
  match a with
  | Total t => Ok (Total (PyFloat.add t x))
  | Ratio _ _ => Raise KeyError
  end.

Definition add_ratio (n d : spec_float) (a : accum) : result accum :=
  match a with
  | Ratio num den => Ok (Ratio (PyFloat.add num n) (PyFloat.add den d))
  | Total _ => Raise KeyError
  end.

Definition update_team (team_stats : team_stats_t) (team_name : string)
    (f : accum -> result accum) : result team_stats_t :=
  match od_get team_name team_stats with
  | None => Raise KeyError
  | Some a => rbind (f a) (fun a' => Ok (od_set team_name a' team_stats))
  end.

(** Lines 567-672: the contribution of one player-day to the team's
    accumulator. A [continue] leaves [team_stats] as it is. *)
Definition accumulate (stat_category : string) (slots : list Z)
    (lineup_slot_id : Z) (aggregated_stats : gmap string spec_float)
    (team_name : string) (team_stats : team_stats_t) : result team_stats_t :=
  let stat := stat_get aggregated_stats in
  let total x := update_team team_stats team_name (add_total x) in
  let ratio n d := update_team team_stats team_name (add_ratio n d) in
  if String.eqb stat_category "OBP" then
    let h := stat "hits" in
    let bb := stat "baseOnBalls" in
    let hbp := stat "hitByPitch" in
    let ab := stat "atBats" in
    let sf := stat "sacFlies" in
    let pa := PyFloat.add (PyFloat.add (PyFloat.add ab bb) hbp) sf in
    if PyFloat.gtb pa PyFloat.zero then
      if PyFloat.gtb h ab then Ok team_stats
      else ratio (PyFloat.add (PyFloat.add h bb) hbp) pa
    else Ok team_stats
  else if String.eqb stat_category "AVG" then
    let h := stat "hits" in
    let bb := stat "baseOnBalls" in
    let hbp := stat "hitByPitch" in
    let ab := stat "atBats" in
    let sf := stat "sacFlies" in
    let pa := PyFloat.add (PyFloat.add (PyFloat.add ab bb) hbp) sf in
    if PyFloat.gtb pa PyFloat.zero then
      if PyFloat.gtb h ab then Ok team_stats
      else ratio h ab
    else Ok team_stats
  else if String.eqb stat_category "HR" then total (stat "homeRuns")
  else if String.eqb stat_category "RBI" then total (stat "rbi")
  else if String.eqb stat_category "HITS" then total (stat "hits")
  else if String.eqb stat_category "RUNS SCORED" then total (stat "runs")
  else if String.eqb stat_category "WALKS" then total (stat "baseOnBalls")
  else if String.eqb stat_category "STOLEN BASES" then total (stat "stolenBases")
  else if String.eqb stat_category "SLUGGING PERCENTAGE" then
    let total_bases := stat "totalBases" in
    let bb := stat "baseOnBalls" in
    let hbp := stat "hitByPitch" in
    let ab := stat "atBats" in
    let sf := stat "sacFlies" in
    let pa := PyFloat.add (PyFloat.add (PyFloat.add ab bb) hbp) sf in
    if PyFloat.gtb pa PyFloat.zero then
      if PyFloat.gtb total_bases (PyFloat.mul (PyFloat.of_Z 4) ab) then Ok team_stats
      else ratio total_bases ab
    else Ok team_stats
  else if String.eqb stat_category "INNINGS PITCHED" then
    let ip := stat "inningsPitched" in
    if negb (in_Zs lineup_slot_id slots) then Ok team_stats
    else total ip
  else if String.eqb stat_category "HITS ALLOWED" then total (stat "hits")
  else if String.eqb stat_category "ERA" then
    let er := stat "earnedRuns" in
    let ip := stat "inningsPitched" in
    if PyFloat.gtb ip PyFloat.zero then
      if PyFloat.ltb er PyFloat.zero then Ok team_stats
      else ratio (PyFloat.mul er (PyFloat.of_Z 9)) ip
    else Ok team_stats
  else if String.eqb stat_category "WALKS ALLOWED" then total (stat "baseOnBalls")
  else if String.eqb stat_category "STRIKEOUTS" then total (stat "strikeOuts")
  else if String.eqb stat_category "QUALITY STARTS" then total (stat "qualityStarts")
  else if String.eqb stat_category "WINS" then total (stat "wins")
  else if String.eqb stat_category "SAVES" then total (stat "saves")
  else if String.eqb stat_category "SAVES + HOLDS" then
    total (PyFloat.add (stat "saves") (stat "holds"))
  else if String.eqb stat_category "WHIP" then
    let hits := stat "hits" in
    let bb := stat "baseOnBalls" in
    let ip := stat "inningsPitched" in
    if PyFloat.gtb ip PyFloat.zero then
      if PyFloat.ltb hits PyFloat.zero || PyFloat.ltb bb PyFloat.zero then Ok team_stats
      else ratio (PyFloat.add hits bb) ip
    else Ok team_stats
  else if String.eqb stat_category "K/BB" then
    ratio (stat "strikeOuts") (stat "baseOnBalls")
  else Ok team_stats.

(** Line 739: the value of a team. *)
Definition finalize (data : accum) : spec_float :=
  match data with
  | Ratio num den =>
      if PyFloat.gtb den PyFloat.zero then PyFloat.div num den
      else if PyFloat.gtb num PyFloat.zero then PyFloat.of_Z 999
      else PyFloat.zero
  | Total total => total
  end.

(** Lines 736-742. *)
Definition rankings_of (team_stats : team_stats_t) : rankings :=
  map (fun item => (fst item, finalize (snd item))) team_stats.

(** [list.sort(key=lambda x: x[1], reverse=...)] as CPython 3.11 runs
    it ([listobject.c]) on fewer than 64 elements, where the whole list is one
    run of the merge sort: the longest run at the head of the list, either
    never descending or strictly descending, is found by [count_run] and
    reversed when it descends; each later element is then put in its place
    by [binarysort], a binary search for the first element that the new one
    is below. Keys are compared with [<] only. For [reverse=True] the list
    is reversed, sorted, and reversed again. From 64 elements on CPython
    cuts the list into several runs and merges them: on keys that [<]
    orders totally (no NaN among them) this gives the list computed here,
    the stable sort. *)
Fixpoint descending_run (prev : spec_float) (l : rankings) : nat :=
  match l with
  | x :: l' => if PyFloat.ltb (snd x) prev then S (descending_run (snd x) l') else O
  | [] => O
  end.

Fixpoint ascending_run (prev : spec_float) (l : rankings) : nat :=
  match l with
  | x :: l' => if PyFloat.ltb (snd x) prev then O else S (ascending_run (snd x) l')
  | [] => O
  end.

(** The length of the run at the head, and whether it descends. *)
Definition count_run (l : rankings) : nat * bool :=
  match l with
  | a :: b :: l' =>
      if PyFloat.ltb (snd b) (snd a)
      then (2 + descending_run (snd b) l', true)%nat
      else (2 + ascending_run (snd b) l', false)%nat
  | _ => (length l, false)
  end.

(** [do { p = l + ((r - l) >> 1); if pivot < a[p]: r = p else: l = p + 1 }
    while (l < r)]; the loop runs at most [length a] times. *)
Fixpoint bisect (fuel : nat) (pivot : spec_float) (a : rankings) (l r : nat) : nat :=
  match fuel with
  | O => l
  | S fuel' =>
      let p := (l + (r - l) / 2)%nat in
      match nth_error a p with
      | Some x =>
          let l' := if PyFloat.ltb pivot (snd x) then l else S p in
          let r' := if PyFloat.ltb pivot (snd x) then p else r in
          if (l' <? r')%nat then bisect fuel' pivot a l' r' else l'
      | None => l
      end
  end.

Definition binary_insert (a : rankings) (pivot : string * spec_float) : rankings :=
  let i := bisect (length a) (snd pivot) a 0 (length a) in
  firstn i a ++ pivot :: skipn i a.

Definition binarysort (run rest : rankings) : rankings :=
  fold_left binary_insert rest run.

Definition sort_ascending (l : rankings) : rankings :=
  if (length l <? 2)%nat then l
  else
    let '(n, descending) := count_run l in
    binarysort (if descending then rev (firstn n l) else firstn n l) (skipn n l).

Definition sort_by_value (reverse : bool) (l : rankings) : rankings :=
  if reverse then rev (sort_ascending (rev l)) else sort_ascending l.

(** Lines 744-745. *)
Definition rank (stat_category : string) (team_stats : team_stats_t) : rankings :=
  sort_by_value (negb (in_list stat_category lower_is_better))
                (rankings_of team_stats).

(** Lines 747-749. *)
Definition warning_of (no_data_days : list Z) : string :=
  match no_data_days with
  | [] => ""
  | _ =>
      ("Warning: No pitching stats found for "
         ++ PyStr.of_int (Z.of_nat (length no_data_days)) ++ " day(s): "
         ++ String.concat ", " (map Date.isoformat no_data_days)
         ++ ". Try a different date range.")%string
  end.

(** Lines 751-760. *)
Definition chart_of (stat_category : string) (r : rankings) : chart_data :=
  {| chart_labels := map fst r;
     chart_label := stat_category;
     chart_values := map snd r;
     chart_background := background_colors;
     chart_border := border_colors |}.

(** Lines 770-776. *)
Definition winners_of (r : rankings) : list string :=
  match r with
  | (_, top_score) :: _ =>
      map fst (List.filter (fun tv => PyFloat.eqb (snd tv) top_score) r)
  | [] => []
  end.

(** Lines 762-777. *)
Definition status_of (end_date today_ : Z) (r : rankings) : status :=
  if today_ <? end_date then
    {| is_started := true; days_to_start := None;
       days_remaining := Some (end_date - today_);
       is_complete := false; winner := None |}
  else
    {| is_started := true; days_to_start := None;
       days_remaining := None;
       is_complete := true; winner := Some (winners_of r) |}.

(** Lines 364-374. *)
Definition not_started (stat_category : string) (start_date today_ : Z) : contest_stats :=
  ([],
   {| chart_labels := []; chart_label := stat_category; chart_values := [];
      chart_background := []; chart_border := [] |},
   "Contest not started yet."%string,
   {| is_started := false; days_to_start := Some (start_date - today_);
      days_remaining := None; is_complete := false; winner := None |}).

(** Lines 425-426 and 673-674: whether a day joins [no_data_days]. *)
Definition empty_roster_is_no_data (stat_category : string) (chunk_date : Z) : bool :=
  negb (in_Zs chunk_date all_star_break)
  || negb (in_list stat_category pitching_categories).

Definition no_stats_is_no_data (stat_category : string) (chunk_date : Z)
    (daily_stats_found : bool) : bool :=
  negb daily_stats_found
  && in_list stat_category pitching_categories
  && negb (in_Zs chunk_date all_star_break).

(** ** Database helpers *)

Fixpoint update_first {A : Type} (p : A -> bool) (f : A -> A) (l : list A) : list A :=
  match l with
  | [] => []
  | x :: l' => if p x then f x :: l' else x :: update_first p f l'
  end.

(** [db.session.add] and [commit] of a new [PlayerCache]: the column
    [espn_id] is declared unique. *)
Definition add_player_cache (row : PlayerCache) : M unit :=
  st <- get_state ;;
  if existsb (fun r => pc_espn_id r =? pc_espn_id row) (db_player_cache st)
  then raise IntegrityError
  else modify (set_db_player_cache (db_player_cache st ++ [row])).

Definition with_mlb_id (mlb_id : Z) (r : PlayerCache) : PlayerCache :=
  {| pc_espn_id := pc_espn_id r; pc_mlb_id := Some mlb_id;
     pc_player_name := pc_player_name r; pc_game_log := pc_game_log r;
     pc_season := pc_season r; pc_group := pc_group r |}.

Definition with_game_log (game_log : list game_split) (r : PlayerCache) : PlayerCache :=
  {| pc_espn_id := pc_espn_id r; pc_mlb_id := pc_mlb_id r;
     pc_player_name := pc_player_name r; pc_game_log := Some game_log;
     pc_season := pc_season r; pc_group := pc_group r |}.

(** [str.strip()]: white space of [str.isspace] removed at both ends. *)
Definition is_space_str (c : ascii) : bool :=
  PyStr.is_space c || ((28 <=? PyStr.code c) && (PyStr.code c <=? 31)).

Fixpoint lstrip_str (s : list ascii) : list ascii :=
  match s with
  | c :: s' => if is_space_str c then lstrip_str s' else s
  | [] => []
  end.

Definition strip (s : string) : string :=
  PyStr.of_chars (rev (lstrip_str (rev (lstrip_str (PyStr.chars s))))).

(** Lines 281-286. *)
Definition team_display_name (t : team_json) : string :=
  match nonempty (tj_name t) with
  | Some name => name
  | None =>
      match strip (tj_location t ++ " " ++ tj_nickname t)%string with
      | EmptyString => ("Team " ++ PyStr.of_int (tj_id t))%string
      | name => name
      end
  end.

(** ** The engine *)

Section Engine.

Variable w : World.

Definition season_start : Z := Date.date (YEAR w) 3 18.

(** [cache.get(key)] of the file cache: the value of an entry that has not
    expired. *)
Definition cache_get {V : Type} (now : Z) (entry : option (Z * V)) : option V :=
  match entry with
  | Some (expires, rv) => if now <=? expires then Some rv else None
  | None => None
  end.

(** [@cache.memoize(timeout=86400)] around a function [f], for one call:
    [key] stands for the arguments. A value found in the store is returned
    and [f] does not run; a stored [None] counts as not found. Otherwise
    [f] runs, and when it returns its value is stored for 86400 seconds;
    when it raises nothing is stored. The clock is [utcnow], in seconds. *)
Definition memoize {K V : Type} `{Countable K}
    (table : Memo -> gmap K (Z * V)) (with_table : gmap K (Z * V) -> Memo -> Memo)
    (found : V -> bool) (key : K) (f : M V) : M V :=
  st <- get_state ;;
  match cache_get (utcnow w) (table (memo st) !! key) with
  | Some rv =>
      if found rv then ret rv
      else
        rv' <- f ;;
        modify (fun st' =>
          set_memo (with_table (<[key := (utcnow w + 86400, rv')]> (table (memo st')))
                               (memo st')) st') ;;;
        ret rv'
  | None =>
      rv <- f ;;
      modify (fun st' =>
        set_memo (with_table (<[key := (utcnow w + 86400, rv)]> (table (memo st')))
                             (memo st')) st') ;;;
      ret rv
  end.

Definition not_none {A : Type} (rv : option A) : bool :=
  match rv with
  | Some _ => true
  | None => false
  end.

(** The body of [get_mlb_id] (lines 203-260). *)
Definition get_mlb_id_uncached (player_name : string) (player_id : Z) : M (option Z) :=
  match player_name with
  | EmptyString => ret None
  | _ =>
      match od_get player_id manual_mlb_mappings with
      | Some mlb_id => ret (Some mlb_id)
      | None =>
          st <- get_state ;;
          let same_player r := (pc_espn_id r =? player_id) && (pc_season r =? YEAR w) in
          let cached := match find same_player (db_player_cache st) with
                        | Some r => match pc_mlb_id r with
                                    | Some id => if id =? 0 then None else Some id
                                    | None => None
                                    end
                        | None => None
                        end in
          match cached with
          | Some mlb_id => ret (Some mlb_id)
          | None =>
              send (ReqSearch player_name) ;;;
              match mlb_search w player_name with
              | Raise RequestException => ret None
              | Raise e => raise e
              | Ok [] => ret None
              | Ok (mlb_id :: _) =>
                  match find same_player (db_player_cache st) with
                  | Some _ =>
                      modify (fun st' =>
                        set_db_player_cache
                          (update_first same_player (with_mlb_id mlb_id) (db_player_cache st')) st')
                  | None =>
                      add_player_cache
                        {| pc_espn_id := player_id; pc_mlb_id := Some mlb_id;
                           pc_player_name := player_name; pc_game_log := None;
                           pc_season := YEAR w; pc_group := "hitting" |}
                  end ;;;
                  ret (Some mlb_id)
              end
          end
      end
  end.

(** [get_mlb_id] with its decorator (line 202). *)
Definition get_mlb_id (player_name : string) (player_id : Z) : M (option Z) :=
  memoize memo_get_mlb_id with_memo_get_mlb_id not_none (player_name, player_id)
          (get_mlb_id_uncached player_name player_id).

(** The body of [get_team_names] (lines 263-290). *)
Definition get_team_names_uncached (league_id : Z) : M (odict Z string) :=
  st <- get_state ;;
  match team_names_cache st !! league_id with
  | Some team_names => ret team_names
  | None =>
      send (ReqTeams league_id) ;;;
      match espn_teams w league_id with
      | Raise RequestException => raise ValueError
      | Raise e => raise e
      | Ok teams_data =>
          let team_names :=
            fold_left (fun d t => od_set (tj_id t) (team_display_name t) d)
                      teams_data [] in
          modify (fun st' =>
            set_team_names_cache (<[league_id := team_names]> (team_names_cache st')) st') ;;;
          ret team_names
      end
  end.

(** [get_team_names] with its decorator (line 262). *)
Definition get_team_names (league_id : Z) : M (odict Z string) :=
  memoize memo_get_team_names with_memo_get_team_names (fun _ => true) league_id
          (get_team_names_uncached league_id).

(** The body of [get_team_rosters] (lines 293-320). *)
Definition get_team_rosters_uncached (league_id start_date end_date season_start_ : Z)
  : M (gmap Z (list roster_team)) :=
  st <- get_state ;;
  match roster_cache st !! (league_id, start_date, end_date) with
  | Some rosters => ret rosters
  | None =>
      rosters <- for_each (days start_date end_date) (fun current rosters =>
        let scoring_period := current - season_start_ + 1 in
        send (ReqRoster league_id scoring_period) ;;;
        match espn_roster w league_id scoring_period with
        | Raise RequestException => ret (<[current := []]> rosters)
        | Raise e => raise e
        | Ok roster_data => ret (<[current := roster_data]> rosters)
        end) ∅ ;;
      modify (fun st' =>
        set_roster_cache
          (<[(league_id, start_date, end_date) := rosters]> (roster_cache st')) st') ;;;
      ret rosters
  end.

(** [get_team_rosters] with its decorator (line 292). *)
Definition get_team_rosters (league_id start_date end_date season_start_ : Z)
  : M (gmap Z (list roster_team)) :=
  memoize memo_get_team_rosters with_memo_get_team_rosters (fun _ => true)
          (league_id, start_date, end_date, season_start_)
          (get_team_rosters_uncached league_id start_date end_date season_start_).

(** Lines 485-532: the player's game log, from the [PlayerCache] table
    or from the statistics provider; [None] where the code says
    [continue]. The answer is decoded outside the [try] blocks, and the
    inner one handles [KeyError] and [IndexError] only. *)
Definition fetch_game_log (player_id : Z) (player_name : string)
    (mlb_id : Z) (group : string) : M (option (list game_split)) :=
  st <- get_state ;;
  let same_row r :=
    (pc_espn_id r =? player_id) && (pc_season r =? YEAR w)
    && String.eqb (pc_group r) group in
  let player_cache := find same_row (db_player_cache st) in
  match player_cache ≫= pc_game_log with
  | Some game_log => ret (Some game_log)
  | None =>
      send (ReqGameLog mlb_id group) ;;;
      match mlb_game_log w mlb_id group with
      | Raise RequestException | Raise KeyError | Raise IndexError => ret None
      | Raise e => raise e
      | Ok None => ret None
      | Ok (Some game_log) =>
          modify (fun st' =>
            set_game_log_cache
              (<[(player_id, group) := game_log]> (game_log_cache st')) st') ;;;
          match player_cache with
          | Some _ =>
              modify (fun st' =>
                set_db_player_cache
                  (update_first same_row (with_game_log game_log) (db_player_cache st')) st')
          | None =>
              add_player_cache
                {| pc_espn_id := player_id; pc_mlb_id := Some mlb_id;
                   pc_player_name := player_name; pc_game_log := Some game_log;
                   pc_season := YEAR w; pc_group := group |}
          end ;;;
          ret (Some game_log)
      end
  end.

(** Lines 470-483: the player's canonical id; [None] where the code
    says [continue] (no id, or the id was already processed today). *)
Definition resolve_player (player_id : Z) (player_name : string) : M (option Z) :=
  st <- get_state ;;
  known <- match mlb_id_cache st !! player_id with
           | Some _ => ret true
           | None =>
               found <- get_mlb_id player_name player_id ;;
               match found with
               | Some mlb_id =>
                   if mlb_id =? 0 then ret false
                   else
                     modify (fun st' =>
                       set_mlb_id_cache (<[player_id := mlb_id]> (mlb_id_cache st')) st') ;;;
                     ret true
               | None => ret false
               end
           end ;;
  if negb known then ret None
  else
    st' <- get_state ;;
    match mlb_id_cache st' !! player_id with
    | None => ret None
    | Some mlb_id =>
        if mlb_id =? 0 then ret None
        else if bool_decide (mlb_id ∈ processed_players st') then ret None
        else
          modify (fun s => set_processed_players ({[mlb_id]} ∪ processed_players s) s) ;;;
          ret (Some mlb_id)
    end.

(** Lines 469-672: one started player on one day. The loop carries
    [team_stats] and [daily_stats_found]. *)
Definition process_player (stat_category : string) (slots : list Z)
    (group : string) (chunk_date : Z) (team_name : string)
    (player : Z * string * Z) (acc : team_stats_t * bool)
  : M (team_stats_t * bool) :=
  let '(player_id, player_name, lineup_slot_id) := player in
  resolved <- resolve_player player_id player_name ;;
  match resolved with
  | None => ret acc
  | Some mlb_id =>
      fetched <- fetch_game_log player_id player_name mlb_id group ;;
      match fetched with
      | None => ret acc
      | Some fetched_log =>
          st <- get_state ;;
          let game_log := default fetched_log (game_log_cache st !! (player_id, group)) in
          let daily_stats_list :=
            map split_stat
                (List.filter (fun s => bool_decide (split_date s = Some chunk_date)) game_log) in
          match daily_stats_list with
          | [] => ret acc
          | _ =>
              aggregated_stats <- lift (aggregate daily_stats_list) ;;
              team_stats <- lift (accumulate stat_category slots lineup_slot_id
                                             aggregated_stats team_name (fst acc)) ;;
              ret (team_stats, true)
          end
      end
  end.

(** Lines 418-678: one day of a chunk. The loop carries [team_stats]
    and [no_data_days]. *)
Definition process_day (stat_category : string) (slots : list Z)
    (team_names : odict Z string) (rosters : gmap Z (list roster_team))
    (chunk_date : Z) (acc : team_stats_t * list Z)
  : M (team_stats_t * list Z) :=
  let '(team_stats, no_data_days) := acc in
  modify (set_processed_players ∅) ;;;
  match default [] (rosters !! chunk_date) with
  | [] =>
      ret (team_stats,
           if empty_roster_is_no_data stat_category chunk_date
           then no_data_days ++ [chunk_date] else no_data_days)
  | roster_data =>
      started_players <-
        lift (started_players_of stat_category slots team_names roster_data) ;;
      let group := if in_list stat_category hitting_categories
                   then "hitting"%string else "pitching"%string in
      day <- for_each started_players (fun team day =>
               match od_get (fst team) team_names with
               | None => raise KeyError
               | Some team_name =>
                   for_each (snd team)
                     (process_player stat_category slots group chunk_date team_name) day
               end) (team_stats, false) ;;
      ret (fst day,
           if no_stats_is_no_data stat_category chunk_date (snd day)
           then no_data_days ++ [chunk_date] else no_data_days)
  end.

(** The first days of the weekly chunks: the values of [current] in
    [while current <= effective_end], which advances by seven days as
    long as a chunk is full. *)
Definition chunk_starts (start_date effective_end : Z) : list Z :=
  map (fun i => start_date + 7 * Z.of_nat i)
      (seq 0 (Z.to_nat ((effective_end - start_date) / 7 + 1))).

(** Lines 409-679. *)
Definition process_range (league_id : Z) (stat_category : string)
    (slots : list Z) (team_names : odict Z string)
    (start_date effective_end : Z) (acc : team_stats_t * list Z)
  : M (team_stats_t * list Z) :=
  for_each (chunk_starts start_date effective_end) (fun current acc' =>
    let chunk_end := Z.min (current + 6) effective_end in
    rosters <- get_team_rosters league_id current chunk_end season_start ;;
    for_each (days current chunk_end)
             (process_day stat_category slots team_names rosters) acc') acc.

(** What a run computes before the results are laid out: the team
    accumulators and the days without data. *)
Record aggregation : Type := {
  agg_team_stats : team_stats_t;
  agg_no_data_days : list Z
}.

Definition initial_accum (stat_category : string) : accum :=
  if in_list stat_category ratio_categories
  then Ratio PyFloat.zero PyFloat.zero else Total PyFloat.zero.

(** Lines 376-679. *)
Definition run_aggregation (league : League) (stat_category : string)
    (start_date end_date : Z) : M aggregation :=
  let effective_end := Z.min end_date (today w) in
  team_names <- get_team_names (espn_league_id league) ;;
  let team_stats :=
    fold_left (fun d team_name => od_set team_name (initial_accum stat_category) d)
              (od_values team_names) [] in
  slots <- lift (pitcher_slots league) ;;
  out <- process_range (espn_league_id league) stat_category slots team_names
                       start_date effective_end (team_stats, []) ;;
  ret {| agg_team_stats := fst out; agg_no_data_days := snd out |}.

(** Lines 736-780. *)
Definition results_of (stat_category : string) (end_date : Z) (a : aggregation)
  : contest_stats :=
  let r := rank stat_category (agg_team_stats a) in
  (r, chart_of stat_category r, warning_of (agg_no_data_days a),
   status_of end_date (today w) r).

(** The body of the [try] block of [compute_contest_stats]
    (lines 340-780). *)
Definition compute_contest_stats_body (cid : Z) : M contest_stats :=
  st <- get_state ;;
  match find (fun c => contest_id c =? cid) (db_contests st) with
  | None => raise ValueError
  | Some contest =>
      match contest_league contest with
      | None => raise ValueError
      | Some league =>
          let stat_category := PyStr.upper (contest_stat_category contest) in
          if negb (in_list stat_category valid_stats) then raise ValueError
          else
            let start_date := contest_start_date contest in
            let end_date := contest_end_date contest in
            if today w <? start_date
            then ret (not_started stat_category start_date (today w))
            else
              a <- run_aggregation league stat_category start_date end_date ;;
              ret (results_of stat_category end_date a)
      end
  end.

(** [except Exception]: whatever the body raises is raised again as a
    [ValueError]. *)
Definition reraise_as_value_error {A : Type} (m : M A) : M A :=
  fun st =>
    match m st with
    | (Raise _, st') => (Raise ValueError, st')
    | r => r
    end.

(** The body of [compute_contest_stats] (lines 334-792). The database
    raises no [OperationalError] here, so the retry loop runs its body
    once. *)
Definition compute_contest_stats_uncached (cid : Z) : M contest_stats :=
  reraise_as_value_error (compute_contest_stats_body cid).

(** [compute_contest_stats] with its decorator (line 333). *)
Definition compute_contest_stats (cid : Z) : M contest_stats :=
  memoize memo_compute_contest_stats with_memo_compute_contest_stats (fun _ => true) cid
          (compute_contest_stats_uncached cid).

(** ** [get_contest_data] (lines 794-844) *)

Definition date_of (timestamp : Z) : Z := timestamp / 86400.

(** [order_by(last_updated.desc()).first()] *)
Definition latest_result (cid : Z) (rows : list ContestResult) : option ContestResult :=
  fold_left (fun best r =>
    if cr_contest_id r =? cid then
      match best with
      | Some b => if cr_last_updated b <? cr_last_updated r then Some r else best
      | None => Some r
      end
    else best) rows None.

(** Line 808. *)
Definition needs_update (result_ : option ContestResult) (end_date : Z) : bool :=
  match result_ with
  | None => true
  | Some r => (date_of (cr_last_updated r) <? today w) && (today w <=? end_date)
  end.

(** Line 813: the stored payload, [None] on a [JSONDecodeError]. *)
Definition decode (r : ContestResult) : option contest_stats :=
  rk ← cr_rankings r;
  ch ← cr_chart_data r;
  s ← cr_status r;
  Some (rk, ch, cr_warning_message r, s).

(** Lines 821-828: the new [ContestResult]. *)
Definition snapshot_row (cid : Z) (cs : contest_stats) : ContestResult :=
  let '(rk, ch, warning_message, s) := cs in
  {| cr_contest_id := cid;
     cr_rankings := Some rk;
     cr_chart_data := Some ch;
     cr_warning_message := warning_message;
     cr_status := Some s;
     cr_last_updated := utcnow w |}.

(** Lines 818-833. *)
Definition recompute_and_store (cid : Z) : M contest_stats :=
  cs <- compute_contest_stats cid ;;
  modify (fun st =>
    set_db_contest_results (db_contest_results st ++ [snapshot_row cid cs]) st) ;;;
  ret cs.

Definition get_contest_data_body (cid : Z) : M contest_stats :=
  st <- get_state ;;
  match find (fun c => contest_id c =? cid) (db_contests st) with
  | None => raise ValueError
  | Some contest =>
      let result_ := latest_result cid (db_contest_results st) in
      if needs_update result_ (contest_end_date contest)
      then recompute_and_store cid
      else
        match result_ ≫= decode with
        | Some cs => ret cs
        | None => recompute_and_store cid
        end
  end.

Definition get_contest_data (cid : Z) : M contest_stats :=
  reraise_as_value_error (get_contest_data_body cid).

End Engine.

(** ** A league of two teams

    The scenario of the home-run contest: team A (one hitter, Al) hits two
    home runs on June 1st and none on June 2nd, team B (one hitter, Bo) one
    on each day. The contest runs over these two days; the day of the call
    is a parameter. *)

Module Scenario.

Definition day1 : Z := Date.date 2025 6 1.
Definition day2 : Z := Date.date 2025 6 2.

Definition league : League :=
  {| espn_league_id := 3438;
     active_pitcher_slots := Some (JList [JInt 13; JInt 14; JInt 15]) |}.

Definition contest (stat_category : string) : Contest :=
  {| contest_id := 1; contest_league := Some league;
     contest_stat_category := stat_category;
     contest_start_date := day1; contest_end_date := day2 |}.

Definition game (d : Z) (home_runs : Z) : game_split :=
  {| split_date := Some d; split_stat := {[ "homeRuns"%string := SInt home_runs ]} |}.

Definition teams : list team_json :=
  [ {| tj_id := 1; tj_name := Some "A"%string; tj_location := ""; tj_nickname := "" |};
    {| tj_id := 2; tj_name := Some "B"%string; tj_location := ""; tj_nickname := "" |} ].

Definition roster : list roster_team :=
  [ {| rt_id := 1;
       rt_entries := [ {| lineupSlotId := 0; playerId := 101; fullName := Some "Al"%string |} ] |};
    {| rt_id := 2;
       rt_entries := [ {| lineupSlotId := 1; playerId := 102; fullName := Some "Bo"%string |} ] |} ].

Definition world (today_ : Z) : World :=
  {| YEAR := 2025;
     today := today_;
     utcnow := today_ * 86400 + 3600;
     espn_teams := fun _ => Ok teams;
     espn_roster := fun _ _ => Ok roster;
     mlb_search := fun name =>
       if String.eqb name "Al" then Ok [9001]
       else if String.eqb name "Bo" then Ok [9002] else Ok [];
     mlb_game_log := fun mlb_id _ =>
       if mlb_id =? 9001 then Ok (Some [game day1 2; game day2 0])
       else if mlb_id =? 9002 then Ok (Some [game day1 1; game day2 1])
       else Ok None |}.

(** The same world at eight in the evening. *)
Definition evening (today_ : Z) : World :=
  {| YEAR := YEAR (world today_);
     today := today_;
     utcnow := today_ * 86400 + 72000;
     espn_teams := espn_teams (world today_);
     espn_roster := espn_roster (world today_);
     mlb_search := mlb_search (world today_);
     mlb_game_log := mlb_game_log (world today_) |}.

(** The results of the contest as a finished computation returns them. *)
Definition final_stats : contest_stats :=
  ([("A"%string, PyFloat.of_Z 2); ("B"%string, PyFloat.of_Z 2)],
   chart_of "HR" [("A"%string, PyFloat.of_Z 2); ("B"%string, PyFloat.of_Z 2)],
   ""%string,
   {| is_started := true; days_to_start := None; days_remaining := None;
      is_complete := true; winner := Some ["A"%string; "B"%string] |}).

(** A stored result of the contest with the given time stamp. *)
Definition snapshot (last_updated : Z) : ContestResult :=
  {| cr_contest_id := 1;
     cr_rankings := Some (fst (fst (fst final_stats)));
     cr_chart_data := Some (snd (fst (fst final_stats)));
     cr_warning_message := snd (fst final_stats);
     cr_status := Some (snd final_stats);
     cr_last_updated := last_updated |}.

(** A fresh process with one contest in the database. *)
Definition state (stat_category : string) : State :=
  {| mlb_id_cache := ∅; game_log_cache := ∅; processed_players := ∅;
     team_names_cache := ∅; roster_cache := ∅; memo := empty_memo;
     db_contests := [contest stat_category];
     db_player_cache := []; db_contest_results := []; requests := [] |}.

(** The same with stored results. *)
Definition state_with (stat_category : string) (rows : list ContestResult) : State :=
  set_db_contest_results rows (state stat_category).

(** A world in which every request to the lineup provider for a day's
    roster fails. *)
Definition world_without_rosters (today_ : Z) : World :=
  {| YEAR := 2025;
     today := today_;
     utcnow := today_ * 86400 + 3600;
     espn_teams := fun _ => Ok teams;
     espn_roster := fun _ _ => Raise RequestException;
     mlb_search := fun _ => Ok [];
     mlb_game_log := fun _ _ => Ok None |}.

(** A contest over the four days of the break. *)
Definition break_contest (stat_category : string) : Contest :=
  {| contest_id := 2; contest_league := Some league;
     contest_stat_category := stat_category;
     contest_start_date := Date.date 2025 7 14;
     contest_end_date := Date.date 2025 7 17 |}.

(** A third team C, and a provider whose game logs hold, for June 1st,
    one home run for team A, the text nan for team B and two home runs for
    team C. *)
Definition teams_abc : list team_json :=
  teams ++ [ {| tj_id := 3; tj_name := Some "C"%string; tj_location := ""; tj_nickname := "" |} ].

Definition roster_abc : list roster_team :=
  roster ++
  [ {| rt_id := 3;
       rt_entries := [ {| lineupSlotId := 2; playerId := 103; fullName := Some "Cy"%string |} ] |} ].

Definition world_with_nan (today_ : Z) : World :=
  {| YEAR := 2025;
     today := today_;
     utcnow := today_ * 86400 + 3600;
     espn_teams := fun _ => Ok teams_abc;
     espn_roster := fun _ _ => Ok roster_abc;
     mlb_search := fun name =>
       if String.eqb name "Al" then Ok [9001]
       else if String.eqb name "Bo" then Ok [9002]
       else if String.eqb name "Cy" then Ok [9003] else Ok [];
     mlb_game_log := fun mlb_id _ =>
       if mlb_id =? 9001 then Ok (Some [game day1 1])
       else if mlb_id =? 9002
       then Ok (Some [ {| split_date := Some day1;
                          split_stat := {[ "homeRuns"%string := SStr "nan" ]} |} ])
       else if mlb_id =? 9003 then Ok (Some [game day1 2])
       else Ok None |}.

Definition break_state (stat_category : string) : State :=
  {| mlb_id_cache := ∅; game_log_cache := ∅; processed_players := ∅;
     team_names_cache := ∅; roster_cache := ∅; memo := empty_memo;
     db_contests := [break_contest stat_category];
     db_player_cache := []; db_contest_results := []; requests := [] |}.

End Scenario.

(** ** Vocabulary of the statements *)

(** [db.session.get(Contest, contest_id)] *)
Definition stored_contest (st : State) (cid : Z) : option Contest :=
  find (fun c => contest_id c =? cid) (db_contests st).

(** What the memo answers to a call of [compute_contest_stats] at the
    time of [w]: the stored value that has not expired. *)
Definition memoized_stats (w : World) (st : State) (cid : Z) : option contest_stats :=
  cache_get (utcnow w) (memo_compute_contest_stats (memo st) !! cid).

(** What the memo of [get_mlb_id] answers for a player: an identifier
    that was stored and has not expired (a stored [None] is no answer). *)
Definition memoized_mlb_id (w : World) (st : State) (player_name : string)
    (player_id : Z) : option Z :=
  match cache_get (utcnow w) (memo_get_mlb_id (memo st) !! (player_name, player_id)) with
  | Some (Some mlb_id) => Some mlb_id
  | _ => None
  end.

(** The memo holds computed results: what it answers for the contest is
    a result that the body of [compute_contest_stats] returned for the
    contest as it is stored now, at a time [w0] of which [P] holds. *)
Definition memo_computed (P : World -> Prop) (w : World) (st : State) (cid : Z) : Prop :=
  forall out,
    memoized_stats w st cid = Some out ->
    exists w0 st0,
      P w0 /\ stored_contest st0 cid = stored_contest st cid
      /\ fst (compute_contest_stats_uncached w0 cid st0) = Ok out.

(** The status a call returned, when it returned. *)
Definition returned_status (r : result contest_stats * State) : option status :=
  match fst r with
  | Ok out => Some (snd out)
  | Raise _ => None
  end.

(** The value at the head of the sorted rankings. *)
Definition top_value (r : rankings) : option spec_float :=
  match r with
  | (_, v) :: _ => Some v
  | [] => None
  end.

(** Rankings whose values are numbers: no NaN among them. *)
Definition numbers (r : rankings) : Prop :=
  Forall (fun tv => PyFloat.is_nan (snd tv) = false) r.

(** Values never decrease, resp. never increase, along the list. *)
Definition ascending (r : rankings) : Prop :=
  StronglySorted (fun a b => PyFloat.leb (snd a) (snd b) = true) r.

Definition descending (r : rankings) : Prop :=
  StronglySorted (fun a b => PyFloat.leb (snd b) (snd a) = true) r.

(** [a] stands at an earlier place than [b]. *)
Definition ranked_before (a b : string * spec_float) (r : rankings) : Prop :=
  exists l1 l2 l3, r = l1 ++ a :: l2 ++ b :: l3.

(** The roster the lineup provider gives for a day: empty when the
    request fails. *)
Definition fetched_roster (w : World) (league_id d : Z) : list roster_team :=
  match espn_roster w league_id (d - season_start w + 1) with
  | Ok roster_data => roster_data
  | Raise _ => []
  end.

(** The latest stored result is returned as it is: nothing is computed
    and nothing is written. *)
Definition served_from_store (w : World) (cid : Z) (st : State) : Prop :=
  exists r cs,
    latest_result cid (db_contest_results st) = Some r /\
    decode r = Some cs /\
    get_contest_data w cid st = (Ok cs, st).

(** A computation leaves a component of the state as it was. *)
Definition keeps {A X : Type} (f : State -> X) (m : M A) : Prop :=
  forall st, f (snd (m st)) = f st.

(** ** Vocabulary of the innings round trip *)

(** A string of decimal digits. *)
Definition all_digits (l : list ascii) : Prop := Forall (fun c => PyStr.is_digit c = true) l.

(** The float a rounding step returns for the mantissa [m] at exponent [e]
    when [n] low bits are dropped: the mantissa is rounded half to even,
    and a carry into a 54th bit moves the exponent up by one. *)
Definition rounded (m e n : Z) : spec_float :=
  if PyFloat.div_half_even m (2 ^ n) <? 2 ^ 53
  then S754_finite false (Z.to_pos (PyFloat.div_half_even m (2 ^ n))) (e + n)
  else S754_finite false (Z.to_pos (2 ^ 52)) (e + n + 1).

(** The mantissa of the floats nearest to 1/3 and to 2/3, which stand at
    the exponents -54 and -53. *)
Definition third : Z := 6004799503160661.

Definition frac_exponent (f : Z) : Z := if f =? 1 then -54 else -53.

(** The fraction added to the mantissa of [w] when [w] has [d] bits. *)
Definition frac_part (d f : Z) : Z :=
  if f =? 0 then 0
  else PyFloat.div_half_even third (2 ^ (d - 53 - frac_exponent f)).

(** For integers of [d] bits, a fraction [f] and a product that loses
    [j] more bits: the roundings of the sum, of the product by three and to
    the nearest integer bring back [f], with no tie left to the parity of
    [w]. *)
Definition binade_ok (d f j : Z) : bool :=
  let g := frac_part d f in
  let t := 53 - d - j in
  let h := PyFloat.div_half_even (3 * g) (2 ^ j) in
  (0 <=? g) && (g <? 2 ^ (53 - d))
  && ((1 <=? t) || negb (2 * ((3 * g) mod 2 ^ j) =? 2 ^ j))
  && (if t =? 0 then h =? f
      else negb (2 * (h mod 2 ^ t) =? 2 ^ t) && (PyFloat.div_half_even h (2 ^ t) =? f)).

Definition binades_ok : bool :=
  forallb (fun d =>
    forallb (fun f =>
      forallb (fun j => binade_ok (Z.of_nat d) f j) [1; 2]) [0; 1; 2]) (seq 1 51).

(** ** Vocabulary of the day's aggregate *)

(** The aggregate of a key after one more value of it (lines 546-564):
    innings go through [parse_ip]; any other value is added as a float
    when it converts; a value that does not convert counts for one when it
    is a home-run or runs-batted-in text, and for nothing otherwise. *)
Definition added (key : string) (value : stat_value) (current : spec_float) : spec_float :=
  if String.eqb key "inningsPitched"
  then PyFloat.add current (parse_ip (str_of_value value))
  else
    match float_of_value value with
    | Ok x => PyFloat.add current x
    | Raise _ =>
        if (String.eqb key "homeRuns" && str_containing "HR" value)
           || (String.eqb key "rbi" && str_containing "RBI" value)
        then PyFloat.add current (PyFloat.of_Z 1)
        else current
    end.

(** An integer too large for a float, under a key other than the innings. *)
Definition overflows (key : string) (value : stat_value) : bool :=
  negb (String.eqb key "inningsPitched")
  && match float_of_value value with
     | Raise OverflowError => true
     | _ => false
     end.

(** The total of one key over the game entries of a day, taken in their
    order; [None] when no entry has the key. *)
Definition day_total (key : string) (daily_stats_list : list (gmap string stat_value))
  : option spec_float :=
  fold_left (fun total stat_dict =>
    match stat_dict !! key with
    | Some value => Some (added key value (default PyFloat.zero total))
    | None => total
    end) daily_stats_list None.

(** ** Vocabulary of the team accumulators *)

(** Two accumulators of the same shape: both [{'num', 'den'}] or both
    [{'total'}]. *)
Definition same_kind (a b : accum) : bool :=
  match a, b with
  | Ratio _ _, Ratio _ _ => true
  | Total _, Total _ => true
  | _, _ => false
  end.

(** ** The pages (app.py, lines 912-1322, and forms.py)

    The request handlers that create, show and delete contests. A handler
    runs for a logged-in user, given by the user's id, and returns a
    response and the new state of the site.
    - The tables [League] and [Contest] are lists of rows with the columns
      the handlers read; the engine sees the contests through
      [engine_state], which joins each contest with its league as
      [contest.league] does. Dates are ordinals; the text a contest row
      stores is the ISO form of the date, which [date.fromisoformat] reads
      back.
    - [flash] appends to the list of flashed messages; [redirect] and
      [render_template] are values of [response].
    - [form.validate_on_submit()] holds when the form was submitted and the
      validators declared in [forms.py] accept its fields.
    - A new row takes the id after the largest one of its table.
    - The branches [except InvalidToken] are left out with the decryption of
      the cookies: [get_contest_data] lets nothing but [ValueError] out. *)

Record LeagueRow : Type := {
  league_id : Z;
  league_user_id : Z;
  league_name : string;
  league_espn_id : Z;
  league_slots : option json
}.

Record ContestRow : Type := {
  row_id : Z;
  row_user_id : Z;
  row_league_id : Z;
  row_stat_category : string;
  row_start_date : Z;
  row_end_date : Z;
  row_title : string;
  row_created_at : Z
}.

(** A flashed or displayed text: a literal, or [str(e)] of an exception. *)
Inductive message : Type :=
| Msg (text : string)
| MsgOf (e : exn).

(** What a handler returns: a redirection to an endpoint (with the contest
    id it carries, if any), a rendered template, the results page or the
    dashboard with their data, or a plain text. *)
Inductive response : Type :=
| Redirect (endpoint : string) (contest : option Z)
| Render (template : string)
| RenderResults (contest : ContestRow) (data : contest_stats)
| RenderDashboard (contest_data : list (ContestRow * chart_data * string * status))
| Text (body : message).

(** The state of the site. [site_engine] holds the caches, the player
    cache, the stored results and the requests sent; the contests the engine
    reads are those of [engine_state]. *)
Record Site : Type := {
  site_leagues : list LeagueRow;
  site_contests : list ContestRow;
  site_engine : State;
  site_flashes : list (message * string)
}.

Definition set_db_contests (c : list Contest) (st : State) : State :=
  {| mlb_id_cache := mlb_id_cache st;
     game_log_cache := game_log_cache st;
     processed_players := processed_players st;
     team_names_cache := team_names_cache st;
     roster_cache := roster_cache st;
     memo := memo st;
     db_contests := c;
     db_player_cache := db_player_cache st;
     db_contest_results := db_contest_results st;
     requests := requests st |}.

Definition league_of (l : LeagueRow) : League :=
  {| espn_league_id := league_espn_id l; active_pitcher_slots := league_slots l |}.

(** A contest with its league, as the engine reads it. *)
Definition contest_of (leagues : list LeagueRow) (c : ContestRow) : Contest :=
  {| contest_id := row_id c;
     contest_league :=
       option_map league_of (find (fun l => league_id l =? row_league_id c) leagues);
     contest_stat_category := row_stat_category c;
     contest_start_date := row_start_date c;
     contest_end_date := row_end_date c |}.

Definition engine_state (s : Site) : State :=
  set_db_contests (map (contest_of (site_leagues s)) (site_contests s)) (site_engine s).

Definition with_engine (st : State) (s : Site) : Site :=
  {| site_leagues := site_leagues s; site_contests := site_contests s;
     site_engine := st; site_flashes := site_flashes s |}.

Definition with_contests (c : list ContestRow) (s : Site) : Site :=
  {| site_leagues := site_leagues s; site_contests := c;
     site_engine := site_engine s; site_flashes := site_flashes s |}.

Definition with_leagues (l : list LeagueRow) (s : Site) : Site :=
  {| site_leagues := l; site_contests := site_contests s;
     site_engine := site_engine s; site_flashes := site_flashes s |}.

(** A call of the engine from a handler. *)
Definition run_engine {A : Type} (m : M A) (s : Site) : result A * Site :=
  let r := m (engine_state s) in (fst r, with_engine (snd r) s).

(** [flash(message, category)] *)
Definition flash (m : message) (category : string) (s : Site) : Site :=
  {| site_leagues := site_leagues s; site_contests := site_contests s;
     site_engine := site_engine s;
     site_flashes := site_flashes s ++ [(m, category)] |}.

(** [db.session.get(Contest, contest_id)] *)
Definition get_contest (s : Site) (cid : Z) : option ContestRow :=
  find (fun c => row_id c =? cid) (site_contests s).

(** [current_user.leagues] and [current_user.contests] *)
Definition user_leagues (uid : Z) (s : Site) : list LeagueRow :=
  List.filter (fun l => league_user_id l =? uid) (site_leagues s).

Definition user_contests (uid : Z) (s : Site) : list ContestRow :=
  List.filter (fun c => row_user_id c =? uid) (site_contests s).

Definition next_id (ids : list Z) : Z := 1 + fold_left Z.max ids 0.

(** [ContestResult.query.filter(...).delete()]: the stored results of the
    contests whose id is in [cids] are deleted. *)
Definition delete_results (cids : list Z) (s : Site) : Site :=
  with_engine
    (set_db_contest_results
       (List.filter (fun r => negb (in_Zs (cr_contest_id r) cids))
                    (db_contest_results (site_engine s)))
       (site_engine s)) s.

(** [cache.delete_memoized(compute_contest_stats, contest_id)] and
    [cache.clear()]. *)
Definition delete_memoized_stats (cid : Z) (s : Site) : Site :=
  with_engine
    (set_memo (with_memo_compute_contest_stats
                 (delete cid (memo_compute_contest_stats (memo (site_engine s))))
                 (memo (site_engine s)))
              (site_engine s)) s.

Definition cache_clear (s : Site) : Site :=
  with_engine (set_memo empty_memo (site_engine s)) s.

Definition no_access : message := Msg "Contest not found or you don't have access.".

(** [results] (lines 1056-1071). *)
Definition results (w : World) (uid cid : Z) (s : Site) : response * Site :=
  match get_contest s cid with
  | None => (Text no_access, s)
  | Some contest =>
      if negb (row_user_id contest =? uid) then (Text no_access, s)
      else
        match run_engine (get_contest_data w cid) s with
        | (Ok data, s') => (RenderResults contest data, s')
        | (Raise e, s') => (Text (MsgOf e), s')
        end
  end.

(** [delete_contest] (lines 1169-1193). *)
Definition delete_contest (uid cid : Z) (s : Site) : response * Site :=
  match get_contest s cid with
  | Some contest =>
      if row_user_id contest =? uid then
        let s1 := delete_results [cid] s in
        let s2 := with_contests
                    (List.filter (fun c => negb (row_id c =? cid)) (site_contests s1)) s1 in
        let s3 := delete_memoized_stats cid s2 in
        (Redirect "dashboard" None,
         flash (Msg "Contest deleted successfully.") "success" s3)
      else
        (Redirect "dashboard" None,
         flash (Msg "Contest not found or you don't have permission to delete it.")
               "error" s)
  | None =>
      (Redirect "dashboard" None,
       flash (Msg "Contest not found or you don't have permission to delete it.")
             "error" s)
  end.

(** [clear_contests] (lines 1195-1215). *)
Definition clear_contests (uid : Z) (s : Site) : response * Site :=
  let s1 := delete_results (map row_id (user_contests uid s)) s in
  let s2 := with_contests
              (List.filter (fun c => negb (row_user_id c =? uid)) (site_contests s1)) s1 in
  let s3 := cache_clear s2 in
  (Redirect "dashboard" None, flash (Msg "All contests cleared successfully.") "success" s3).

(** [clear_leagues] (lines 1301-1322). *)
Definition clear_leagues (uid : Z) (s : Site) : response * Site :=
  let s1 := delete_results (map row_id (user_contests uid s)) s in
  let s2 := with_contests
              (List.filter (fun c => negb (row_user_id c =? uid)) (site_contests s1)) s1 in
  let s3 := with_leagues
              (List.filter (fun l => negb (league_user_id l =? uid)) (site_leagues s2)) s2 in
  let s4 := cache_clear s3 in
  (Redirect "link_league" None,
   flash (Msg "All leagues cleared successfully. Please link your leagues again.")
         "success" s4).

(** [order_by(Contest.created_at.desc())]: the latest first. *)
Fixpoint insert_by_created (c : ContestRow) (l : list ContestRow) : list ContestRow :=
  match l with
  | [] => [c]
  | d :: l' =>
      if row_created_at c <? row_created_at d then d :: insert_by_created c l'
      else c :: l
  end.

Definition latest_first (l : list ContestRow) : list ContestRow :=
  fold_right insert_by_created [] l.

(** [dashboard] (lines 1032-1054): a contest whose data cannot be had is
    flashed as an error and left out. *)
Definition dashboard (w : World) (uid : Z) (s : Site) : response * Site :=
  match user_leagues uid s with
  | [] => (Redirect "link_league" None, s)
  | _ =>
      let shown :=
        fold_left (fun acc contest =>
          match run_engine (get_contest_data w (row_id contest)) (snd acc) with
          | (Ok (_, chart, warning_message, st), s') =>
              (fst acc ++ [(contest, chart, warning_message, st)], s')
          | (Raise e, s') => (fst acc, flash (MsgOf e) "error" s')
          end) (latest_first (user_contests uid s)) ([], s) in
      (RenderDashboard (fst shown), snd shown)
  end.

(** The choices of [ContestForm.stat_category] (forms.py, lines 25-46). *)
Definition stat_category_choices : list (string * string) :=
  [("OBP", "OBP"); ("HR", "Home Runs"); ("RBI", "RBI"); ("AVG", "Batting Average");
   ("HITS", "Hits"); ("RUNS SCORED", "Runs Scored"); ("WALKS", "Walks");
   ("STOLEN BASES", "Stolen Bases"); ("SLUGGING PERCENTAGE", "Slugging Percentage");
   ("INNINGS PITCHED", "Innings Pitched"); ("HITS ALLOWED", "Hits Allowed");
   ("ERA", "ERA"); ("WALKS ALLOWED", "Walks Allowed"); ("STRIKEOUTS", "Strikeouts");
   ("QUALITY STARTS", "Quality Starts"); ("WINS", "Wins"); ("SAVES", "Saves");
   ("SAVES + HOLDS", "Saves + Holds"); ("WHIP", "WHIP"); ("K/BB", "K/BB")]%string.

(** A submitted [ContestForm]; a date that does not parse is [None]. *)
Record ContestForm : Type := {
  form_submitted : bool;
  form_league_id : Z;
  form_stat_category : string;
  form_title : string;
  form_start_date : option Z;
  form_end_date : option Z
}.

(** [form.validate_on_submit()] for a [ContestForm] whose league choices
    are the user's leagues: each select field holds one of its choices, the
    required fields are filled (a league id of 0 and a missing date count as
    empty), and the title has at most 100 characters. *)
Definition contest_form_validates (leagues : list LeagueRow) (form : ContestForm) : bool :=
  form_submitted form
  && in_Zs (form_league_id form) (map league_id leagues)
  && negb (form_league_id form =? 0)
  && in_list (form_stat_category form) (map fst stat_category_choices)
  && negb (String.eqb (form_stat_category form) "")
  && (Z.of_nat (String.length (form_title form)) <=? 100)
  && bool_decide (is_Some (form_start_date form))
  && bool_decide (is_Some (form_end_date form)).

Definition add_result (row : ContestResult) (s : Site) : Site :=
  with_engine
    (set_db_contest_results (db_contest_results (site_engine s) ++ [row]) (site_engine s)) s.

(** Lines 1002-1026: the first result of a new contest, computed in at
    most [attempts] tries; a [ValueError] leads to the next try, and when
    none is left the failure is flashed. *)
Fixpoint store_first_result (w : World) (cid : Z) (attempts : nat) (s : Site) : Site :=
  match attempts with
  | O =>
      flash (Msg ("Error computing contest stats due to database or API issues. "
                  ++ "Contest created but results not available.")) "error" s
  | S attempts' =>
      match run_engine (compute_contest_stats w cid) s with
      | (Ok data, s') => add_result (snapshot_row w cid data) s'
      | (Raise _, s') => store_first_result w cid attempts' s'
      end
  end.

(** [create_contest] (lines 964-1030). *)
Definition create_contest (w : World) (uid : Z) (form : ContestForm) (s : Site)
  : response * Site :=
  match user_leagues uid s with
  | [] => (Redirect "link_league" None, s)
  | leagues =>
      if negb (contest_form_validates leagues form)
      then (Render "create_contest.html", s)
      else
        match form_start_date form, form_end_date form with
        | Some start_date, Some end_date =>
            if end_date <=? start_date then
              (Render "create_contest.html",
               flash (Msg "Start date must be before end date.") "message" s)
            else
              let contest :=
                {| row_id := next_id (map row_id (site_contests s));
                   row_user_id := uid;
                   row_league_id := form_league_id form;
                   row_stat_category := form_stat_category form;
                   row_start_date := start_date;
                   row_end_date := end_date;
                   row_title := form_title form;
                   row_created_at := utcnow w |} in
              let s1 := with_contests (site_contests s ++ [contest]) s in
              let s2 := if start_date <=? today w
                        then store_first_result w (row_id contest) 3 s1
                        else s1 in
              (Redirect "results" (Some (row_id contest)), s2)
        | _, _ => (Render "create_contest.html", s)
        end
  end.

(** ** Linking a league (lines 929-943) *)

(** [int(s)] for a string: white space is stripped at both ends, then an
    optional sign and decimal digits, which single underscores may
    separate; more than 4300 digits are refused. *)
Definition to_int (s : string) : result Z :=
  match PyStr.rstrip (PyStr.lstrip (PyStr.chars s)) with
  | [] => Raise ValueError
  | s1 =>
      let '(neg, s2) := PyStr.parse_sign s1 in
      match s2 with
      | [] => Raise ValueError
      | c :: _ =>
          if negb (PyStr.is_digit c) then Raise ValueError
          else
            match PyStr.strip_underscores None s2 with
            | None => Raise ValueError
            | Some ds =>
                if forallb PyStr.is_digit ds && (length ds <=? 4300)%nat
                then Ok (cond_Zopp neg (PyStr.Z_of_digits ds))
                else Raise ValueError
            end
      end
  end.

(** Line 932: the keys of [lineupSlotCounts] from 13 to 15 whose count
    is positive, in the order of the object. *)
Definition counted_slots (lineupSlotCounts : odict string Z) : result (list Z) :=
  fold_left (fun acc kv =>
    rbind acc (fun slots =>
      rbind (to_int (fst kv)) (fun k =>
        if (13 <=? k) && (k <=? 15) && (0 <? snd kv)
        then Ok (slots ++ [k]) else Ok slots)))
    lineupSlotCounts (Ok []).

(** Lines 932-935. *)
Definition linked_slots (lineupSlotCounts : odict string Z) : result (list Z) :=
  rbind (counted_slots lineupSlotCounts) (fun slots =>
    match slots with
    | [] => Ok default_pitcher_slots
    | _ => Ok slots
    end).

(** Line 942: what [json.loads] makes of the column that holds
    [json.dumps(active_pitcher_slots)]. *)
Definition dumped_slots (slots : list Z) : option json := Some (JList (map JInt slots)).

(** * Properties *)

(** ** The monad *)

Lemma bind_ok {A B : Type} (m : M A) (k : A -> M B) (st st' : State) (b : B) :
  bind m k st = (Ok b, st') ->
  exists a st1, m st = (Ok a, st1) /\ k a st1 = (Ok b, st').
Proof.
  unfold bind. destruct (m st) as [[a | e] st1]; intros H.
  - exists a, st1. split; [reflexivity | exact H].
  - discriminate H.
Qed.

Lemma reraise_ok {A : Type} (m : M A) (st st' : State) (a : A) :
  reraise_as_value_error m st = (Ok a, st') -> m st = (Ok a, st').
Proof.
  unfold reraise_as_value_error. destruct (m st) as [[a' | e] st1]; intros H.
  - exact H.
  - discriminate H.
Qed.

Lemma reraise_of_ok {A : Type} (m : M A) (st st' : State) (a : A) :
  m st = (Ok a, st') -> reraise_as_value_error m st = (Ok a, st').
Proof.
  unfold reraise_as_value_error. intros ->. reflexivity.
Qed.

Lemma run_ok {A : Type} (m : M A) (st : State) (a : A) :
  fst (m st) = Ok a -> m st = (Ok a, snd (m st)).
Proof.
  intros H. rewrite <- H. apply surjective_pairing.
Qed.

(** ** The memo *)

Lemma set_memo_same (st : State) : set_memo (memo st) st = st.
Proof. destruct st. reflexivity. Qed.

Section Memoize.
Context {K V : Type} `{Countable K}.
Variable w : World.
Variable table : Memo -> gmap K (Z * V).
Variable with_table : gmap K (Z * V) -> Memo -> Memo.
Variable found : V -> bool.

Lemma memoize_hit (key : K) (f : M V) (st : State) (rv : V) :
  cache_get (utcnow w) (table (memo st) !! key) = Some rv -> found rv = true ->
  memoize w table with_table found key f st = (Ok rv, st).
Proof.
  intros Hget Hfound. unfold memoize, bind at 1. cbn [get_state].
  rewrite Hget, Hfound. reflexivity.
Qed.

Lemma memoize_miss (key : K) (f : M V) (st : State) :
  (forall rv, cache_get (utcnow w) (table (memo st) !! key) = Some rv -> found rv = false) ->
  memoize w table with_table found key f st
  = match f st with
    | (Ok rv, st1) =>
        (Ok rv,
         set_memo (with_table (<[key := (utcnow w + 86400, rv)]> (table (memo st1)))
                              (memo st1)) st1)
    | (Raise e, st1) => (Raise e, st1)
    end.
Proof.
  intros Hmiss. unfold memoize, bind at 1. cbn [get_state].
  destruct (cache_get (utcnow w) (table (memo st) !! key)) as [rv |] eqn:Hget.
  - rewrite (Hmiss rv eq_refl). unfold bind, modify, ret.
    destruct (f st) as [[rv' | e] st1]; reflexivity.
  - unfold bind, modify, ret. destruct (f st) as [[rv' | e] st1]; reflexivity.
Qed.

(** A call that returns gives a stored value, or runs the function. *)
Lemma memoize_ok (key : K) (f : M V) (st st' : State) (rv : V) :
  memoize w table with_table found key f st = (Ok rv, st') ->
  (cache_get (utcnow w) (table (memo st) !! key) = Some rv /\ st' = st)
  \/ exists st1,
       f st = (Ok rv, st1)
       /\ st' = set_memo (with_table (<[key := (utcnow w + 86400, rv)]> (table (memo st1)))
                                     (memo st1)) st1.
Proof.
  intros Hrun.
  destruct (cache_get (utcnow w) (table (memo st) !! key)) as [rv0 |] eqn:Hget;
    [destruct (found rv0) eqn:Hfound |].
  - rewrite (memoize_hit key f st rv0 Hget Hfound) in Hrun. left. inversion Hrun; subst. auto.
  - rewrite memoize_miss in Hrun by (intros rv1 E; congruence).
    destruct (f st) as [[rv1 | e] st1]; inversion Hrun; subst. right. eauto.
  - rewrite memoize_miss in Hrun by (intros rv1 E; congruence).
    destruct (f st) as [[rv1 | e] st1]; inversion Hrun; subst. right. eauto.
Qed.
(** The two ways in which a call returns. *)
Lemma memoize_cases (key : K) (f : M V) (st st' : State) (rv : V) :
  memoize w table with_table found key f st = (Ok rv, st') ->
  (cache_get (utcnow w) (table (memo st) !! key) = Some rv /\ found rv = true /\ st' = st)
  \/ ((forall rv0, cache_get (utcnow w) (table (memo st) !! key) = Some rv0 ->
                   found rv0 = false)
      /\ exists st1,
           f st = (Ok rv, st1)
           /\ st' = set_memo (with_table (<[key := (utcnow w + 86400, rv)]> (table (memo st1)))
                                         (memo st1)) st1).
Proof.
  intros Hrun.
  destruct (cache_get (utcnow w) (table (memo st) !! key)) as [rv0 |] eqn:Hget;
    [destruct (found rv0) eqn:Hfound |].
  - rewrite (memoize_hit key f st rv0 Hget Hfound) in Hrun. left. inversion Hrun; subst. auto.
  - rewrite memoize_miss in Hrun by (intros rv1 E; congruence).
    destruct (f st) as [[rv1 | e] st1]; inversion Hrun; subst. right.
    split; [intros rv2 E; congruence | eauto].
  - rewrite memoize_miss in Hrun by (intros rv1 E; congruence).
    destruct (f st) as [[rv1 | e] st1]; inversion Hrun; subst. right.
    split; [intros rv2 E; congruence | eauto].
Qed.

End Memoize.

Lemma compute_contest_stats_hit (w : World) (cid : Z) (st : State) (out : contest_stats) :
  memoized_stats w st cid = Some out -> compute_contest_stats w cid st = (Ok out, st).
Proof.
  intros H. unfold compute_contest_stats. apply memoize_hit; [exact H | reflexivity].
Qed.

Lemma compute_contest_stats_miss (w : World) (cid : Z) (st : State) :
  memoized_stats w st cid = None ->
  compute_contest_stats w cid st
  = match compute_contest_stats_uncached w cid st with
    | (Ok out, st1) =>
        (Ok out,
         set_memo (with_memo_compute_contest_stats
                     (<[cid := (utcnow w + 86400, out)]> (memo_compute_contest_stats (memo st1)))
                     (memo st1)) st1)
    | (Raise e, st1) => (Raise e, st1)
    end.
Proof.
  intros H. unfold compute_contest_stats. apply memoize_miss.
  intros rv E. unfold memoized_stats in H. congruence.
Qed.

(** A result of [compute_contest_stats] is a result of its body: the one
    of this call, or the one the memo holds. *)
Lemma compute_contest_stats_computed (P : World -> Prop) (w : World) (cid : Z)
    (st st' : State) (out : contest_stats) :
  compute_contest_stats w cid st = (Ok out, st') ->
  memo_computed P w st cid -> P w ->
  exists w0 st0 st0',
    P w0 /\ stored_contest st0 cid = stored_contest st cid
    /\ compute_contest_stats_uncached w0 cid st0 = (Ok out, st0').
Proof.
  intros Hrun Hmemo HP. unfold compute_contest_stats in Hrun.
  apply memoize_ok in Hrun. destruct Hrun as [[Hget _] | (st1 & Hf & _)].
  - destruct (Hmemo out Hget) as (w0 & st0 & HP0 & Hsame & Hout).
    exists w0, st0, (snd (compute_contest_stats_uncached w0 cid st0)).
    split; [exact HP0 |]. split; [exact Hsame |]. apply run_ok. exact Hout.
  - exists w, st, st1. auto.
Qed.

(** A call that the memo does not answer returns what its body returns. *)
Lemma compute_contest_stats_miss_ok (w : World) (cid : Z) (st st' : State)
    (out : contest_stats) :
  memoized_stats w st cid = None ->
  compute_contest_stats w cid st = (Ok out, st') ->
  exists st1, compute_contest_stats_uncached w cid st = (Ok out, st1).
Proof.
  intros Hmiss H. rewrite (compute_contest_stats_miss w cid st Hmiss) in H.
  destruct (compute_contest_stats_uncached w cid st) as [[out1 | e] st1];
    inversion H; subst. exists st1. reflexivity.
Qed.

(** ** What a successful [compute_contest_stats] went through *)

Lemma compute_contest_stats_ok (w : World) (cid : Z) (st st' : State) (out : contest_stats) :
  compute_contest_stats_uncached w cid st = (Ok out, st') ->
  exists contest league,
    stored_contest st cid = Some contest /\
    contest_league contest = Some league /\
    in_list (PyStr.upper (contest_stat_category contest)) valid_stats = true /\
    ((today w < contest_start_date contest /\
      out = not_started (PyStr.upper (contest_stat_category contest))
                        (contest_start_date contest) (today w) /\
      st' = st)
     \/
     (contest_start_date contest <= today w /\
      exists a,
        run_aggregation w league (PyStr.upper (contest_stat_category contest))
                        (contest_start_date contest) (contest_end_date contest) st
        = (Ok a, st') /\
        out = results_of w (PyStr.upper (contest_stat_category contest))
                         (contest_end_date contest) a)).
Proof.
  intros H. apply reraise_ok in H.
  unfold compute_contest_stats_body, stored_contest in *.
  unfold bind at 1 in H. cbn [get_state] in H.
  destruct (find _ (db_contests st)) as [contest |]; [| discriminate H].
  destruct (contest_league contest) as [league |] eqn:Hl; [| discriminate H].
  destruct (in_list _ valid_stats) eqn:Hv; cbn [negb] in H; [| discriminate H].
  exists contest, league.
  split; [reflexivity |]. split; [exact Hl |]. split; [exact Hv |].
  destruct (today w <? contest_start_date contest) eqn:Ht.
  - left. apply Z.ltb_lt in Ht. inversion H; subst. auto.
  - right. apply Z.ltb_ge in Ht. split; [exact Ht |].
    apply bind_ok in H. destruct H as (a & st1 & Ha & Hr).
    inversion Hr; subst. exists a. auto.
Qed.

(** ** C4: the innings parser *)

(** C4. [parse_ip] reads 6.2 as six innings and two thirds (within 1e-9),
    6 as 6.0 and a word as 0.0; it is defined on every string, and whenever
    the conversion raises, the value is 0.0. *)
Theorem parse_ip_spec :
  (Qabs (PyFloat.to_Q (parse_ip "6.2") - (6 + (2 # 3))) <= 1 # 1000000000)%Q /\
  parse_ip "6" = PyFloat.of_Z 6 /\
  parse_ip "garbage" = PyFloat.zero /\
  (forall s : string,
      parse_ip_try s = Ok (parse_ip s) \/
      ((exists e, parse_ip_try s = Raise e) /\ parse_ip s = PyFloat.zero)).
Proof.
  split; [| split; [| split]].
  - vm_compute. intros H. discriminate H.
  - vm_compute. reflexivity.
  - vm_compute. reflexivity.
  - intros s. unfold parse_ip. destruct (parse_ip_try s) as [v | e].
    + left. reflexivity.
    + right. split; [exists e |]; reflexivity.
Qed.

(** ** C8: a contest that has not started *)

Lemma not_started_uncached (w : World) (st : State) (cid : Z)
    (contest : Contest) (league : League) :
  stored_contest st cid = Some contest ->
  contest_league contest = Some league ->
  in_list (PyStr.upper (contest_stat_category contest)) valid_stats = true ->
  today w < contest_start_date contest ->
  compute_contest_stats_uncached w cid st
  = (Ok (not_started (PyStr.upper (contest_stat_category contest))
                     (contest_start_date contest) (today w)), st).
Proof.
  intros Hc Hl Hv Ht. unfold stored_contest in Hc.
  unfold compute_contest_stats_uncached, reraise_as_value_error, compute_contest_stats_body.
  unfold bind at 1. cbn [get_state]. rewrite Hc, Hl, Hv. cbn [negb].
  apply Z.ltb_lt in Ht. rewrite Ht. reflexivity.
Qed.

(** C8. When the start date is after today, [compute_contest_stats]
    returns the NOT_STARTED status (not started, days to start, no winner)
    with empty rankings and sends no request to a provider; the state is
    left as it was but for the memo. This holds of a call that computes and
    of a call that the memo answers, given that the memo holds computed
    results, none computed after today. The days to start are those of the
    day of the computation: start date - today when the call computes, and
    not fewer when the memo answers. *)
Theorem not_started_no_requests (w : World) (st : State) (cid : Z)
    (contest : Contest) (league : League) :
  stored_contest st cid = Some contest ->
  contest_league contest = Some league ->
  in_list (PyStr.upper (contest_stat_category contest)) valid_stats = true ->
  today w < contest_start_date contest ->
  memo_computed (fun w0 => today w0 <= today w) w st cid ->
  exists chart d m,
    compute_contest_stats w cid st =
      (Ok ([], chart, "Contest not started yet."%string,
           {| is_started := false;
              days_to_start := Some d;
              days_remaining := None;
              is_complete := false;
              winner := None |}), set_memo m st)
    /\ contest_start_date contest - today w <= d
    /\ (memoized_stats w st cid = None -> d = contest_start_date contest - today w)
    /\ chart_labels chart = [] /\ chart_values chart = []
    /\ requests (snd (compute_contest_stats w cid st)) = requests st.
Proof.
  intros Hc Hl Hv Ht Hmemo.
  destruct (memoized_stats w st cid) as [out |] eqn:Hget.
  - destruct (Hmemo out Hget) as (w0 & st0 & Hw0 & Hsame & Hout).
    rewrite Hc in Hsame.
    rewrite (not_started_uncached w0 st0 cid contest league Hsame Hl Hv) in Hout by lia.
    cbn [fst] in Hout. injection Hout as <-.
    rewrite (compute_contest_stats_hit w cid st _ Hget). unfold not_started.
    eexists. exists (contest_start_date contest - today w0), (memo st).
    rewrite set_memo_same. split; [reflexivity |].
    split; [lia |]. split; [discriminate |]. repeat split.
  - rewrite (compute_contest_stats_miss w cid st Hget).
    rewrite (not_started_uncached w st cid contest league Hc Hl Hv Ht). unfold not_started.
    eexists. exists (contest_start_date contest - today w). eexists.
    split; [reflexivity |]. split; [lia |]. split; [reflexivity |]. repeat split.
Qed.

Lemma not_started_no_requests_witness :
  let w0 := Scenario.evening (Date.date 2025 5 1) in
  let w := Scenario.world (Date.date 2025 5 2) in
  let st := snd (compute_contest_stats w0 1 (Scenario.state "HR")) in
  exists chart d m,
    compute_contest_stats w 1 st =
      (Ok ([], chart, "Contest not started yet."%string,
           {| is_started := false;
              days_to_start := Some d;
              days_remaining := None;
              is_complete := false;
              winner := None |}), set_memo m st)
    /\ contest_start_date (Scenario.contest "HR") - today w <= d
    /\ (memoized_stats w st 1 = None -> d = contest_start_date (Scenario.contest "HR") - today w)
    /\ chart_labels chart = [] /\ chart_values chart = []
    /\ requests (snd (compute_contest_stats w 1 st)) = requests st.
Proof.
  intros w0 w st.
  apply (not_started_no_requests w st 1 (Scenario.contest "HR") Scenario.league).
  - reflexivity.
  - reflexivity.
  - vm_compute. reflexivity.
  - vm_compute. reflexivity.
  - intros out Hout. exists w0, (Scenario.state "HR").
    split; [vm_compute; intros H; discriminate H |]. split; [reflexivity |].
    vm_compute in Hout. injection Hout as <-. vm_compute. reflexivity.
Defined.

(** ** C2: a contest in progress *)

(** C2 (as amended). When start date <= today < end date, a call of
    [compute_contest_stats] that computes gives the IN_PROGRESS status:
    started, not complete, the days remaining up to the end date, and no
    winner. A call that the memo answers gives the memoized status as it
    is: IN_PROGRESS with the days remaining on the day of the computation
    when that day was not before the start date. *)
Theorem in_progress_status (w : World) (st st' : State) (cid : Z)
    (contest : Contest) (out : contest_stats) :
  stored_contest st cid = Some contest ->
  contest_start_date contest <= today w ->
  today w < contest_end_date contest ->
  memo_computed (fun w0 => contest_start_date contest <= today w0 <= today w) w st cid ->
  compute_contest_stats w cid st = (Ok out, st') ->
  exists d,
    snd out = {| is_started := true;
                 days_to_start := None;
                 days_remaining := Some d;
                 is_complete := false;
                 winner := None |}
    /\ contest_end_date contest - today w <= d
    /\ (memoized_stats w st cid = None -> d = contest_end_date contest - today w).
Proof.
  intros Hc Hs He Hmemo H.
  assert (Hbody : forall w0 st0 st0',
             stored_contest st0 cid = Some contest ->
             contest_start_date contest <= today w0 <= today w ->
             compute_contest_stats_uncached w0 cid st0 = (Ok out, st0') ->
             snd out = {| is_started := true;
                          days_to_start := None;
                          days_remaining := Some (contest_end_date contest - today w0);
                          is_complete := false;
                          winner := None |}).
  { intros w0 st0 st0' Hc0 Hw0 H0. apply compute_contest_stats_ok in H0.
    destruct H0 as (contest' & league & Hc' & _ & _ & [(Hlt & _) | (_ & a & _ & ->)]);
      rewrite Hc0 in Hc'; inversion Hc'; subst contest'; [lia |].
    unfold results_of, status_of. cbn [snd].
    assert (Hlt : (today w0 <? contest_end_date contest) = true) by (apply Z.ltb_lt; lia).
    rewrite Hlt. reflexivity. }
  destruct (memoized_stats w st cid) as [out0 |] eqn:Hget.
  - rewrite (compute_contest_stats_hit w cid st out0 Hget) in H. inversion H; subst.
    destruct (Hmemo out Hget) as (w0 & st0 & Hw0 & Hsame & Hout).
    rewrite Hc in Hsame. apply run_ok in Hout.
    exists (contest_end_date contest - today w0).
    split; [apply (Hbody w0 st0 _ Hsame Hw0 Hout) |]. split; [lia | discriminate].
  - rewrite (compute_contest_stats_miss w cid st Hget) in H.
    destruct (compute_contest_stats_uncached w cid st) as [[out1 | e] st1] eqn:Hrun;
      inversion H; subst.
    exists (contest_end_date contest - today w).
    split; [apply (Hbody w st st1 Hc ltac:(lia) Hrun) |]. split; [lia | reflexivity].
Qed.

Lemma in_progress_status_witness :
  let w := Scenario.world Scenario.day1 in
  let st := snd (compute_contest_stats w 1 (Scenario.state "HR")) in
  exists out st',
    compute_contest_stats w 1 st = (Ok out, st') /\
    exists d,
      snd out = {| is_started := true;
                   days_to_start := None;
                   days_remaining := Some d;
                   is_complete := false;
                   winner := None |}
      /\ contest_end_date (Scenario.contest "HR") - today w <= d
      /\ (memoized_stats w st 1 = None ->
          d = contest_end_date (Scenario.contest "HR") - today w).
Proof.
  intros w st. eexists. eexists. split.
  - apply run_ok. vm_compute. reflexivity.
  - apply (in_progress_status w st (snd (compute_contest_stats w 1 st))
             1 (Scenario.contest "HR")).
    + reflexivity.
    + vm_compute. intros H. discriminate H.
    + vm_compute. reflexivity.
    + intros out Hout. exists w, (Scenario.state "HR").
      split; [vm_compute; split; intros H; discriminate H |]. split; [reflexivity |].
      vm_compute in Hout. injection Hout as <-. vm_compute. reflexivity.
    + apply run_ok. vm_compute. reflexivity.
Defined.

(** C2 as stated fails on the end date itself: with start date <= today =
    end date the contest is already COMPLETE and has its winners. *)
Lemma in_progress_fails_on_end_date :
  contest_start_date (Scenario.contest "HR") <= today (Scenario.world Scenario.day2)
  /\ today (Scenario.world Scenario.day2) <= contest_end_date (Scenario.contest "HR")
  /\ returned_status
       (compute_contest_stats (Scenario.world Scenario.day2) 1 (Scenario.state "HR"))
     = Some {| is_started := true;
               days_to_start := None;
               days_remaining := None;
               is_complete := true;
               winner := Some ["A"%string; "B"%string] |}.
Proof.
  split; [| split].
  - vm_compute. intros H. discriminate H.
  - vm_compute. intros H. discriminate H.
  - vm_compute. reflexivity.
Qed.

(** Nor is the status that of today when the memo answers: the result
    computed in the evening before the start date is returned five hours
    later, on the start date, and says that the contest has not started. *)
Lemma memoized_not_started_on_start_date :
  let w0 := Scenario.evening (Scenario.day1 - 1) in
  let w := Scenario.world Scenario.day1 in
  let st := snd (compute_contest_stats w0 1 (Scenario.state "HR")) in
  contest_start_date (Scenario.contest "HR") <= today w
  /\ today w < contest_end_date (Scenario.contest "HR")
  /\ returned_status (compute_contest_stats w 1 st)
     = Some {| is_started := false;
               days_to_start := Some 1;
               days_remaining := None;
               is_complete := false;
               winner := None |}
  /\ option_map is_started (returned_status (compute_contest_stats_uncached w 1 st))
     = Some true.
Proof.
  cbv zeta. split; [| split; [| split]].
  - vm_compute. intros H. discriminate H.
  - vm_compute. reflexivity.
  - vm_compute. reflexivity.
  - vm_compute. reflexivity.
Qed.

(** ** The winners *)

Lemma winners_of_spec (r : rankings) (team : string) :
  In team (winners_of r) <->
  exists v top, top_value r = Some top /\ In (team, v) r /\ PyFloat.eqb v top = true.
Proof.
  destruct r as [| [t0 top] rest].
  - cbn. split; [intros [] | intros (v & t & H & _); discriminate H].
  - unfold winners_of, top_value. rewrite in_map_iff. split.
    + intros ([t v] & Ht & Hin). cbn in Ht. subst t.
      apply filter_In in Hin. destruct Hin as [Hin Heq].
      exists v, top. auto.
    + intros (v & top' & Htop & Hin & Heq). inversion Htop; subst top'.
      exists (team, v). split; [reflexivity |].
      apply filter_In. auto.
Qed.

(** ** C6: the validity guards of the batting ratios *)

(** C6 (as amended). A player-day with more hits than at-bats leaves the
    team accumulators unchanged for OBP and AVG; for SLUGGING PERCENTAGE the
    guard is on total bases: a player-day with more total bases than four
    times the at-bats leaves them unchanged. *)
Theorem implausible_day_contributes_nothing
    (stat_category : string) (slots : list Z) (lineup_slot_id : Z)
    (aggregated_stats : gmap string spec_float) (team_name : string)
    (team_stats : team_stats_t) :
  ((stat_category = "OBP"%string \/ stat_category = "AVG"%string) /\
   PyFloat.gtb (stat_get aggregated_stats "hits")
               (stat_get aggregated_stats "atBats") = true)
  \/
  (stat_category = "SLUGGING PERCENTAGE"%string /\
   PyFloat.gtb (stat_get aggregated_stats "totalBases")
               (PyFloat.mul (PyFloat.of_Z 4) (stat_get aggregated_stats "atBats")) = true) ->
  accumulate stat_category slots lineup_slot_id aggregated_stats team_name team_stats
  = Ok team_stats.
Proof.
  intros [[[-> | ->] H] | [-> H]]; unfold accumulate; cbn [String.eqb Ascii.eqb Bool.eqb];
    rewrite H; destruct (PyFloat.gtb _ PyFloat.zero); reflexivity.
Qed.

Lemma implausible_day_contributes_nothing_witness :
  accumulate "AVG" [13; 14; 15] 3
             (<["hits"%string := PyFloat.of_Z 3]> (<["atBats"%string := PyFloat.of_Z 2]> ∅))
             "A" [("A"%string, Ratio PyFloat.zero PyFloat.zero)]
  = Ok [("A"%string, Ratio PyFloat.zero PyFloat.zero)].
Proof.
  apply implausible_day_contributes_nothing.
  left. split; [right; reflexivity | vm_compute; reflexivity].
Defined.

(** C6 as stated fails for SLUGGING PERCENTAGE: three hits in two at-bats,
    for three total bases, are added to the team's accumulator. *)
Lemma slugging_counts_hits_above_at_bats :
  let aggregated_stats : gmap string spec_float :=
    <["hits"%string := PyFloat.of_Z 3]>
      (<["atBats"%string := PyFloat.of_Z 2]>
         (<["totalBases"%string := PyFloat.of_Z 3]> ∅)) in
  PyFloat.gtb (stat_get aggregated_stats "hits")
              (stat_get aggregated_stats "atBats") = true
  /\ accumulate "SLUGGING PERCENTAGE" [13; 14; 15] 3 aggregated_stats
                "A" [("A"%string, Ratio PyFloat.zero PyFloat.zero)]
     = Ok [("A"%string, Ratio (PyFloat.of_Z 3) (PyFloat.of_Z 2))].
Proof.
  vm_compute. split; reflexivity.
Qed.

(** ** The order of floats *)

Ltac compare_cases :=
  repeat match goal with
         | H : context [Z.compare ?a ?b] |- _ => destruct (Z.compare_spec a b)
         | H : context [Pos.compare ?a ?b] |- _ => destruct (Pos.compare_spec a b)
         | |- context [Z.compare ?a ?b] => destruct (Z.compare_spec a b)
         | |- context [Pos.compare ?a ?b] => destruct (Pos.compare_spec a b)
         end.

Ltac float_order :=
  unfold PyFloat.ltb, PyFloat.gtb, PyFloat.leb, PyFloat.eqb in *;
  unfold SFltb, SFleb, SFeqb, SFcompare in *; cbn [PyFloat.is_nan] in *;
  repeat match goal with b : bool |- _ => destruct b end;
  change (Pos.compare_cont Eq) with Pos.compare in *;
  try discriminate; try reflexivity;
  compare_cases; cbn [CompOpp] in *; try discriminate; try reflexivity; try lia.

Lemma ltb_leb (x y : spec_float) :
  PyFloat.ltb x y = true -> PyFloat.leb x y = true.
Proof. destruct x, y; intros; float_order. Qed.

Lemma not_ltb_leb (x y : spec_float) :
  PyFloat.is_nan x = false -> PyFloat.is_nan y = false ->
  PyFloat.ltb x y = false -> PyFloat.leb y x = true.
Proof. destruct x, y; intros; float_order. Qed.

Lemma ltb_not_leb (x y : spec_float) :
  PyFloat.ltb x y = true -> PyFloat.leb y x = false.
Proof. destruct x, y; intros; float_order. Qed.

Lemma leb_trans (x y z : spec_float) :
  PyFloat.leb x y = true -> PyFloat.leb y z = true -> PyFloat.leb x z = true.
Proof. destruct x, y, z; intros; float_order. Qed.

Lemma leb_refl (x : spec_float) :
  PyFloat.is_nan x = false -> PyFloat.leb x x = true.
Proof. destruct x; intros; float_order. Qed.

Lemma eqb_zero_not_gtb (x : spec_float) :
  PyFloat.eqb x PyFloat.zero = true -> PyFloat.gtb x PyFloat.zero = false.
Proof. unfold PyFloat.zero. destruct x; intros; float_order. Qed.

(** ** The sort *)

Lemma binary_insert_perm (a : rankings) (pivot : string * spec_float) :
  Permutation (binary_insert a pivot) (pivot :: a).
Proof.
  unfold binary_insert.
  set (i := bisect _ _ _ _ _).
  rewrite <- (firstn_skipn i a) at 3.
  apply Permutation_sym, Permutation_middle.
Qed.

Lemma binarysort_perm (rest run : rankings) :
  Permutation (binarysort run rest) (run ++ rest).
Proof.
  unfold binarysort. revert run.
  induction rest as [| x rest IH]; intros run; cbn [fold_left].
  - rewrite app_nil_r. apply Permutation_refl.
  - eapply Permutation_trans; [apply IH |].
    eapply Permutation_trans;
      [apply Permutation_app_tail, binary_insert_perm |].
    cbn [app]. apply Permutation_middle.
Qed.

Lemma sort_ascending_perm (l : rankings) : Permutation (sort_ascending l) l.
Proof.
  unfold sort_ascending. destruct (length l <? 2)%nat; [apply Permutation_refl |].
  destruct (count_run l) as [n descending].
  eapply Permutation_trans; [apply binarysort_perm |].
  apply Permutation_trans with (firstn n l ++ skipn n l);
    [| rewrite firstn_skipn; apply Permutation_refl].
  apply Permutation_app_tail.
  destruct descending; [apply Permutation_sym, Permutation_rev | apply Permutation_refl].
Qed.

Lemma sort_by_value_perm (reverse : bool) (l : rankings) :
  Permutation (sort_by_value reverse l) l.
Proof.
  unfold sort_by_value. destruct reverse.
  - apply Permutation_trans with (sort_ascending (rev l)).
    + apply Permutation_sym, Permutation_rev.
    + apply Permutation_trans with (rev l).
      * apply sort_ascending_perm.
      * apply Permutation_sym, Permutation_rev.
  - apply sort_ascending_perm.
Qed.

Lemma numbers_perm (l l' : rankings) :
  Permutation l l' -> numbers l -> numbers l'.
Proof.
  unfold numbers. intros Hp Hn. rewrite List.Forall_forall in *.
  intros x Hx. apply Hn. apply Permutation_in with l'; [apply Permutation_sym |]; assumption.
Qed.

Lemma StronglySorted_app {A : Type} (R : A -> A -> Prop) (l1 l2 : list A) :
  StronglySorted R l1 -> StronglySorted R l2 ->
  (forall a b, In a l1 -> In b l2 -> R a b) ->
  StronglySorted R (l1 ++ l2).
Proof.
  intros H1 H2 H12. induction l1 as [| x l1 IH]; cbn.
  - exact H2.
  - apply StronglySorted_inv in H1. destruct H1 as [H1 Hx]. constructor.
    + apply IH; [exact H1 |]. intros a b Ha Hb. apply H12; [right |]; assumption.
    + rewrite List.Forall_forall in *. intros z Hz. apply in_app_or in Hz.
      destruct Hz as [Hz | Hz]; [apply Hx; exact Hz |].
      apply H12; [left; reflexivity | exact Hz].
Qed.

Lemma StronglySorted_rev {A : Type} (R : A -> A -> Prop) (l : list A) :
  StronglySorted R l -> StronglySorted (fun a b => R b a) (rev l).
Proof.
  intros H. induction l as [| x l IH]; cbn.
  - constructor.
  - apply StronglySorted_inv in H. destruct H as [H Hx].
    apply StronglySorted_app.
    + apply IH. exact H.
    + constructor; constructor.
    + intros a b Ha [<- | []]. rewrite List.Forall_forall in Hx. apply Hx.
      apply in_rev. exact Ha.
Qed.

(** In a sorted list, of two members the one that is not [R]-after
    the other stands first. *)
Lemma StronglySorted_before {A : Type} (R : A -> A -> Prop) (l : list A) (a b : A) :
  StronglySorted R l -> R b b ->
  In a l -> In b l -> ~ R b a ->
  exists l1 l2 l3, l = l1 ++ a :: l2 ++ b :: l3.
Proof.
  intros Hs Hbb. induction Hs as [| x l Hs IH Hx]; intros Ha Hb Hn.
  - destruct Ha.
  - rewrite List.Forall_forall in Hx.
    destruct Ha as [-> | Ha], Hb as [Hb | Hb].
    + subst b. contradiction.
    + apply in_split in Hb. destruct Hb as (l2 & l3 & ->).
      exists [], l2, l3. reflexivity.
    + subst x. exfalso. apply Hn. apply Hx. exact Ha.
    + destruct (IH Ha Hb Hn) as (l1 & l2 & l3 & ->).
      exists (x :: l1), l2, l3. reflexivity.
Qed.

Lemma ltb_leb_ltb (x y z : spec_float) :
  PyFloat.ltb x y = true -> PyFloat.leb y z = true -> PyFloat.ltb x z = true.
Proof. destruct x, y, z; intros; float_order. Qed.

Lemma ltb_trans (x y z : spec_float) :
  PyFloat.ltb x y = true -> PyFloat.ltb y z = true -> PyFloat.ltb x z = true.
Proof. destruct x, y, z; intros; float_order. Qed.

Lemma ltb_number (x y : spec_float) :
  PyFloat.ltb x y = true -> PyFloat.is_nan x = false /\ PyFloat.is_nan y = false.
Proof. destruct x, y; intros; split; float_order. Qed.

Lemma StronglySorted_nth {A : Type} (R : A -> A -> Prop) (l : list A) :
  StronglySorted R l ->
  forall (j k : nat) (x y : A),
    (j < k)%nat -> nth_error l j = Some x -> nth_error l k = Some y -> R x y.
Proof.
  intros Hs. induction Hs as [| z l Hs IH Hz]; intros j k x y Hjk Hx Hy.
  - destruct j; discriminate Hx.
  - destruct k as [| k]; [lia |]. cbn [nth_error] in Hy.
    destruct j as [| j]; cbn [nth_error] in Hx.
    + injection Hx as ->. rewrite List.Forall_forall in Hz. apply Hz.
      eapply nth_error_In. exact Hy.
    + apply (IH j k); [lia | assumption | assumption].
Qed.

Lemma StronglySorted_app_inv {A : Type} (R : A -> A -> Prop) (l1 l2 : list A) :
  StronglySorted R (l1 ++ l2) ->
  StronglySorted R l1 /\ StronglySorted R l2 /\
  forall a b, In a l1 -> In b l2 -> R a b.
Proof.
  induction l1 as [| x l1 IH]; cbn [app]; intros H.
  - split; [constructor |]. split; [exact H |]. intros a b [].
  - apply StronglySorted_inv in H. destruct H as [H Hx].
    destruct (IH H) as (H1 & H2 & H12). rewrite List.Forall_forall in Hx.
    split.
    + constructor; [exact H1 |]. rewrite List.Forall_forall. intros y Hy.
      apply Hx. apply in_or_app. left. exact Hy.
    + split; [exact H2 |]. intros a b [<- | Ha] Hb.
      * apply Hx. apply in_or_app. right. exact Hb.
      * apply H12; assumption.
Qed.

Lemma StronglySorted_impl {A : Type} (R S : A -> A -> Prop) (l : list A) :
  (forall a b, R a b -> S a b) -> StronglySorted R l -> StronglySorted S l.
Proof.
  intros HRS H. induction H as [| x l H IH Hx]; constructor; [exact IH |].
  rewrite List.Forall_forall in *. intros y Hy. apply HRS, Hx, Hy.
Qed.

(** The binary search of [binarysort] in a sorted list: the elements
    before the place found are not above the pivot, those from it on are. *)
Lemma bisect_bounds (pivot : spec_float) (a : rankings) :
  ascending a ->
  forall (fuel l r : nat),
    (l < r <= length a)%nat -> (r - l <= fuel)%nat ->
    (forall j x, (j < l)%nat -> nth_error a j = Some x -> PyFloat.ltb pivot (snd x) = false) ->
    (forall j x, (r <= j)%nat -> nth_error a j = Some x -> PyFloat.ltb pivot (snd x) = true) ->
    (forall j x, (j < bisect fuel pivot a l r)%nat -> nth_error a j = Some x ->
                 PyFloat.ltb pivot (snd x) = false) /\
    (forall j x, (bisect fuel pivot a l r <= j)%nat -> nth_error a j = Some x ->
                 PyFloat.ltb pivot (snd x) = true).
Proof.
  intros Hs. induction fuel as [| fuel IH]; intros l r Hlr Hfuel Hlo Hhi; [lia |].
  cbn [bisect].
  assert (Hdiv : ((r - l) / 2 < r - l)%nat) by (apply Nat.div_lt; lia).
  set (p := (l + (r - l) / 2)%nat) in *.
  assert (Hp : (l <= p < r)%nat) by (unfold p; lia).
  destruct (nth_error a p) as [x |] eqn:Hx;
    [| apply nth_error_None in Hx; lia].
  destruct (PyFloat.ltb pivot (snd x)) eqn:Hlt.
  - assert (Hhi' : forall j y, (p <= j)%nat -> nth_error a j = Some y ->
                               PyFloat.ltb pivot (snd y) = true).
    { intros j y Hj Hy. destruct (Nat.eq_dec j p) as [-> | Hne].
      - rewrite Hx in Hy. injection Hy as <-. exact Hlt.
      - apply ltb_leb_ltb with (snd x); [exact Hlt |].
        apply (StronglySorted_nth _ _ Hs p j); [lia | assumption | assumption]. }
    destruct (l <? p)%nat eqn:Hc.
    + apply Nat.ltb_lt in Hc. apply IH; [lia | lia | exact Hlo | exact Hhi'].
    + apply Nat.ltb_ge in Hc. split; [exact Hlo |].
      intros j y Hj Hy. apply (Hhi' j y); [lia | exact Hy].
  - assert (Hlo' : forall j y, (j < S p)%nat -> nth_error a j = Some y ->
                               PyFloat.ltb pivot (snd y) = false).
    { intros j y Hj Hy. destruct (Nat.eq_dec j p) as [-> | Hne].
      - rewrite Hx in Hy. injection Hy as <-. exact Hlt.
      - destruct (PyFloat.ltb pivot (snd y)) eqn:Hy'; [| reflexivity].
        rewrite <- Hlt. symmetry. apply ltb_leb_ltb with (snd y); [exact Hy' |].
        apply (StronglySorted_nth _ _ Hs j p); [lia | assumption | assumption]. }
    destruct (S p <? r)%nat eqn:Hc.
    + apply Nat.ltb_lt in Hc. apply IH; [lia | lia | exact Hlo' | exact Hhi].
    + apply Nat.ltb_ge in Hc. split; [exact Hlo' |].
      intros j y Hj Hy. apply (Hhi j y); [lia | exact Hy].
Qed.

Lemma bisect_spec (pivot : spec_float) (a : rankings) :
  ascending a ->
  let i := bisect (length a) pivot a 0 (length a) in
  Forall (fun x => PyFloat.ltb pivot (snd x) = false) (firstn i a) /\
  Forall (fun x => PyFloat.ltb pivot (snd x) = true) (skipn i a).
Proof.
  intros Hs i.
  assert (H : (forall j x, (j < i)%nat -> nth_error a j = Some x ->
                           PyFloat.ltb pivot (snd x) = false) /\
              (forall j x, (i <= j)%nat -> nth_error a j = Some x ->
                           PyFloat.ltb pivot (snd x) = true)).
  { destruct (Nat.eq_dec (length a) 0%nat) as [Hz | Hz].
    - apply length_zero_iff_nil in Hz. subst a.
      split; intros j x _ Hx; destruct j; discriminate Hx.
    - subst i. apply bisect_bounds; [exact Hs | lia | lia | |].
      + intros j x Hj. lia.
      + intros j x Hj Hx.
        assert (Hlen : (j < length a)%nat) by (apply nth_error_Some; congruence).
        lia. }
  destruct H as [Hlo Hhi]. split; rewrite List.Forall_forall; intros x Hx.
  - apply In_nth_error in Hx. destruct Hx as (j & Hj).
    assert (Hlt : (j < i)%nat).
    { assert (Hj' : (j < length (firstn i a))%nat)
        by (apply nth_error_Some; congruence).
      rewrite length_firstn in Hj'. lia. }
    rewrite nth_error_firstn in Hj.
    destruct (j <? i)%nat eqn:E; [| apply Nat.ltb_ge in E; lia].
    apply (Hlo j x Hlt Hj).
  - apply In_nth_error in Hx. destruct Hx as (j & Hj).
    rewrite nth_error_skipn in Hj. apply (Hhi (i + j)%nat x); [lia | exact Hj].
Qed.

Lemma numbers_app (l1 l2 : rankings) : numbers (l1 ++ l2) <-> numbers l1 /\ numbers l2.
Proof. unfold numbers. apply List.Forall_app. Qed.

Lemma binary_insert_sorted (a : rankings) (pivot : string * spec_float) :
  PyFloat.is_nan (snd pivot) = false -> numbers a ->
  ascending a -> ascending (binary_insert a pivot).
Proof.
  intros Hp Hn Hs. pose proof (bisect_spec (snd pivot) a Hs) as Hb. cbv zeta in Hb.
  unfold binary_insert. set (i := bisect _ _ _ _ _) in *.
  destruct Hb as [Hlo Hhi]. rewrite List.Forall_forall in Hlo, Hhi.
  unfold ascending in Hs. rewrite <- (firstn_skipn i a) in Hs, Hn.
  apply numbers_app in Hn. destruct Hn as [Hn1 Hn2].
  apply StronglySorted_app_inv in Hs. destruct Hs as (Hs1 & Hs2 & _).
  unfold numbers in Hn1. rewrite List.Forall_forall in Hn1.
  apply StronglySorted_app; [exact Hs1 | |].
  - constructor; [exact Hs2 |]. rewrite List.Forall_forall. intros y Hy.
    apply ltb_leb. apply Hhi. exact Hy.
  - intros x y Hx [<- | Hy].
    + apply not_ltb_leb; [exact Hp | apply Hn1; exact Hx | apply Hlo; exact Hx].
    + apply leb_trans with (snd pivot).
      * apply not_ltb_leb; [exact Hp | apply Hn1; exact Hx | apply Hlo; exact Hx].
      * apply ltb_leb. apply Hhi. exact Hy.
Qed.

Lemma ltb_not_eqb (x y v : spec_float) :
  PyFloat.ltb y x = true -> PyFloat.eqb x v = true -> PyFloat.eqb y v = false.
Proof. destruct x, y, v; intros; float_order. Qed.

Lemma ltb_not_eqb_above (x y v : spec_float) :
  PyFloat.ltb x y = true -> PyFloat.eqb x v = true -> PyFloat.eqb y v = false.
Proof. destruct x, y, v; intros; float_order. Qed.

Lemma filter_rev {A : Type} (p : A -> bool) (l : list A) :
  List.filter p (rev l) = rev (List.filter p l).
Proof.
  induction l as [| x l IH]; cbn [rev List.filter]; [reflexivity |].
  rewrite List.filter_app, IH. cbn [List.filter].
  destruct (p x); cbn [rev]; [reflexivity | apply app_nil_r].
Qed.

Lemma binary_insert_filter (v : spec_float) (a : rankings) (pivot : string * spec_float) :
  ascending a ->
  List.filter (fun tv => PyFloat.eqb (snd tv) v) (binary_insert a pivot)
  = List.filter (fun tv => PyFloat.eqb (snd tv) v) (a ++ [pivot]).
Proof.
  intros Hs. pose proof (bisect_spec (snd pivot) a Hs) as Hb. cbv zeta in Hb.
  unfold binary_insert. set (i := bisect _ _ _ _ _) in *.
  destruct Hb as [_ Hhi]. rewrite List.Forall_forall in Hhi.
  transitivity (List.filter (fun tv => PyFloat.eqb (snd tv) v)
                            ((firstn i a ++ skipn i a) ++ [pivot]));
    [| rewrite firstn_skipn; reflexivity].
  rewrite !List.filter_app. rewrite <- app_assoc. f_equal.
  cbn [List.filter]. destruct (PyFloat.eqb (snd pivot) v) eqn:Hv.
  - assert (Hnone : List.filter (fun tv => PyFloat.eqb (snd tv) v) (skipn i a) = []).
    { induction (skipn i a) as [| y l IH]; [reflexivity |]. cbn [List.filter].
      rewrite (ltb_not_eqb_above (snd pivot) (snd y) v);
        [| apply Hhi; left; reflexivity | exact Hv].
      apply IH. intros z Hz. apply Hhi. right. exact Hz. }
    rewrite Hnone. reflexivity.
  - rewrite app_nil_r. reflexivity.
Qed.

Lemma binarysort_sorted (rest run : rankings) :
  numbers run -> numbers rest -> ascending run ->
  ascending (binarysort run rest)
  /\ forall v, List.filter (fun tv => PyFloat.eqb (snd tv) v) (binarysort run rest)
               = List.filter (fun tv => PyFloat.eqb (snd tv) v) (run ++ rest).
Proof.
  unfold binarysort. revert run.
  induction rest as [| x rest IH]; intros run Hn Hr Hs; cbn [fold_left].
  - rewrite app_nil_r. split; [exact Hs | reflexivity].
  - inversion Hr as [| ? ? Hx Hrest]; subst.
    destruct (IH (binary_insert run x)) as [Hs' Hf'].
    + apply numbers_perm with (x :: run);
        [apply Permutation_sym, binary_insert_perm | constructor; assumption].
    + exact Hrest.
    + apply binary_insert_sorted; assumption.
    + split; [exact Hs' |]. intros v. rewrite Hf'.
      rewrite !List.filter_app, (binary_insert_filter v run x Hs).
      rewrite List.filter_app. rewrite <- app_assoc. f_equal.
      change (x :: rest) with ([x] ++ rest). rewrite List.filter_app. reflexivity.
Qed.

Lemma ascending_run_sorted (l : rankings) :
  numbers l ->
  forall prev : spec_float,
    PyFloat.is_nan prev = false ->
    ascending (firstn (ascending_run prev l) l)
    /\ Forall (fun x => PyFloat.leb prev (snd x) = true) (firstn (ascending_run prev l) l).
Proof.
  induction l as [| x l IH]; intros Hn prev Hp; cbn [ascending_run].
  - split; constructor.
  - inversion Hn as [| ? ? Hx Hl]; subst.
    destruct (PyFloat.ltb (snd x) prev) eqn:Hlt; cbn [firstn]; [split; constructor |].
    destruct (IH Hl (snd x) Hx) as [Hs Hall].
    assert (Hle : PyFloat.leb prev (snd x) = true) by (apply not_ltb_leb; assumption).
    split.
    + constructor; assumption.
    + constructor; [exact Hle |]. rewrite List.Forall_forall in *.
      intros y Hy. apply leb_trans with (snd x); [exact Hle | apply Hall; exact Hy].
Qed.

Lemma descending_run_sorted (l : rankings) (prev : spec_float) :
  StronglySorted (fun a b => PyFloat.ltb (snd b) (snd a) = true)
                 (firstn (descending_run prev l) l)
  /\ Forall (fun x => PyFloat.ltb (snd x) prev = true) (firstn (descending_run prev l) l).
Proof.
  revert prev. induction l as [| x l IH]; intros prev; cbn [descending_run].
  - split; constructor.
  - destruct (PyFloat.ltb (snd x) prev) eqn:Hlt; cbn [firstn]; [| split; constructor].
    destruct (IH (snd x)) as [Hs Hall]. split.
    + constructor; assumption.
    + constructor; [exact Hlt |]. rewrite List.Forall_forall in *.
      intros y Hy. apply ltb_trans with (snd x); [apply Hall; exact Hy | exact Hlt].
Qed.

(** In a strictly descending list no two elements have the same value. *)
Lemma filter_strictly_descending (v : spec_float) (l : rankings) :
  StronglySorted (fun a b => PyFloat.ltb (snd b) (snd a) = true) l ->
  (length (List.filter (fun tv => PyFloat.eqb (snd tv) v) l) <= 1)%nat.
Proof.
  intros Hs. induction Hs as [| x l Hs IH Hx]; cbn [List.filter length]; [lia |].
  destruct (PyFloat.eqb (snd x) v) eqn:Hv; [| exact IH].
  assert (Hnone : List.filter (fun tv => PyFloat.eqb (snd tv) v) l = []).
  { clear IH Hs. induction l as [| y l IH]; [reflexivity |]. cbn [List.filter].
    inversion Hx as [| ? ? Hy Hl]; subst.
    rewrite (ltb_not_eqb (snd x) (snd y) v Hy Hv). apply IH. exact Hl. }
  rewrite Hnone. cbn. lia.
Qed.

Lemma rev_short {A : Type} (l : list A) : (length l <= 1)%nat -> rev l = l.
Proof. destruct l as [| x [| y l]]; cbn; intros H; [reflexivity | reflexivity | lia]. Qed.

Lemma count_run_spec (l : rankings) (n : nat) (descending : bool) :
  numbers l -> count_run l = (n, descending) ->
  let run := if descending then rev (firstn n l) else firstn n l in
  ascending run
  /\ forall v, List.filter (fun tv => PyFloat.eqb (snd tv) v) run
               = List.filter (fun tv => PyFloat.eqb (snd tv) v) (firstn n l).
Proof.
  intros Hn Hc. unfold count_run in Hc.
  destruct l as [| a [| b l]].
  - injection Hc as <- <-. cbn. split; [constructor | reflexivity].
  - injection Hc as <- <-. cbn. split; [repeat constructor | reflexivity].
  - inversion Hn as [| ? ? Ha Hn']; subst. inversion Hn' as [| ? ? Hb Hl]; subst.
    destruct (PyFloat.ltb (snd b) (snd a)) eqn:Hlt; injection Hc as <- <-; cbv zeta.
    + destruct (descending_run_sorted l (snd b)) as [Hs Hall].
      assert (Hd : StronglySorted (fun x y => PyFloat.ltb (snd y) (snd x) = true)
                                  (firstn (2 + descending_run (snd b) l) (a :: b :: l))).
      { cbn [Nat.add firstn]. constructor; [constructor; assumption |].
        constructor; [exact Hlt |]. rewrite List.Forall_forall in *.
        intros y Hy. apply ltb_trans with (snd b); [apply Hall; exact Hy | exact Hlt]. }
      split.
      * unfold ascending.
        apply (StronglySorted_impl (fun x y => PyFloat.ltb (snd x) (snd y) = true));
          [intros x y; apply ltb_leb |].
        apply (StronglySorted_rev (fun x y => PyFloat.ltb (snd y) (snd x) = true)).
        exact Hd.
      * intros v. rewrite filter_rev. apply rev_short.
        apply filter_strictly_descending. exact Hd.
    + destruct (ascending_run_sorted l Hl (snd b) Hb) as [Hs Hall].
      split; [| reflexivity]. cbn [Nat.add firstn].
      assert (Hab : PyFloat.leb (snd a) (snd b) = true) by (apply not_ltb_leb; assumption).
      constructor; [constructor; assumption |].
      constructor; [exact Hab |]. rewrite List.Forall_forall in *.
      intros y Hy. apply leb_trans with (snd b); [exact Hab | apply Hall; exact Hy].
Qed.

Lemma sort_ascending_stable (l : rankings) :
  numbers l ->
  ascending (sort_ascending l)
  /\ forall v, List.filter (fun tv => PyFloat.eqb (snd tv) v) (sort_ascending l)
               = List.filter (fun tv => PyFloat.eqb (snd tv) v) l.
Proof.
  intros Hn. unfold sort_ascending.
  destruct (length l <? 2)%nat eqn:Hlen.
  - split; [| reflexivity]. apply Nat.ltb_lt in Hlen.
    destruct l as [| x [| y l]]; [constructor | repeat constructor | cbn in Hlen; lia].
  - destruct (count_run l) as [n descending] eqn:Hc.
    pose proof (count_run_spec l n descending Hn Hc) as Hrun. cbv zeta in Hrun.
    destruct Hrun as [Hs Hf].
    assert (Hparts : numbers (firstn n l) /\ numbers (skipn n l)).
    { apply numbers_app. rewrite firstn_skipn. exact Hn. }
    destruct Hparts as [Hn1 Hn2].
    destruct (binarysort_sorted (skipn n l)
                (if descending then rev (firstn n l) else firstn n l)) as [Hs' Hf'].
    + destruct descending; [| exact Hn1].
      apply numbers_perm with (firstn n l); [apply Permutation_rev | exact Hn1].
    + exact Hn2.
    + exact Hs.
    + split; [exact Hs' |]. intros v. rewrite Hf', List.filter_app, Hf.
      rewrite <- List.filter_app, firstn_skipn. reflexivity.
Qed.

Lemma sort_ascending_sorted (l : rankings) :
  numbers l -> ascending (sort_ascending l).
Proof. intros Hn. apply sort_ascending_stable. exact Hn. Qed.

Lemma filter_sort_ascending (v : spec_float) (l : rankings) :
  numbers l ->
  List.filter (fun tv => PyFloat.eqb (snd tv) v) (sort_ascending l)
  = List.filter (fun tv => PyFloat.eqb (snd tv) v) l.
Proof. intros Hn. apply sort_ascending_stable. exact Hn. Qed.

Lemma rank_perm (stat_category : string) (team_stats : team_stats_t) :
  Permutation (rank stat_category team_stats) (rankings_of team_stats).
Proof. apply sort_by_value_perm. Qed.

Lemma rank_sorted (stat_category : string) (team_stats : team_stats_t) :
  numbers (rankings_of team_stats) ->
  if in_list stat_category lower_is_better
  then ascending (rank stat_category team_stats)
  else descending (rank stat_category team_stats).
Proof.
  intros Hn. unfold rank, sort_by_value.
  destruct (in_list stat_category lower_is_better); cbn [negb].
  - apply sort_ascending_sorted. exact Hn.
  - unfold descending.
    apply (StronglySorted_rev (fun a b => PyFloat.leb (snd a) (snd b) = true)).
    apply sort_ascending_sorted.
    apply numbers_perm with (rankings_of team_stats); [apply Permutation_rev | exact Hn].
Qed.

(** The categories that sort upwards are the four of line 744. *)
Lemma lower_is_better_spec (stat_category : string) :
  in_list stat_category lower_is_better
  = in_list stat_category ["HITS ALLOWED"; "ERA"; "WALKS ALLOWED"; "WHIP"]%string.
Proof. reflexivity. Qed.

(** The head of a sorted list of numbers is its extreme value. *)
Lemma head_extreme (R : spec_float -> spec_float -> Prop) (r : rankings)
    (top : spec_float) (team : string) (v : spec_float) :
  (forall x, PyFloat.is_nan x = false -> R x x) ->
  numbers r ->
  StronglySorted (fun a b => R (snd a) (snd b)) r ->
  top_value r = Some top -> In (team, v) r -> R top v.
Proof.
  intros Hrefl Hn Hs Htop Hin. destruct r as [| [t0 v0] r]; [discriminate Htop |].
  injection Htop as ->. apply StronglySorted_inv in Hs. destruct Hs as [_ Hall].
  inversion Hn as [| ? ? Hv0 _]; subst. destruct Hin as [E | Hin].
  - injection E as _ <-. apply Hrefl. exact Hv0.
  - rewrite List.Forall_forall in Hall. apply (Hall (team, v) Hin).
Qed.

(** ** C5: the order of the rankings *)




(** ** C3: a complete contest and its winners *)

(** C3 (as amended). Once today is past the end date,
    [compute_contest_stats] gives the COMPLETE status (for a memoized
    result: when it was computed on the end date or later), and its winners
    are exactly the teams whose value equals the value at the head of the
    rankings, however many they are. When no value is NaN, the value at the
    head is the extreme one: the smallest for HITS ALLOWED, ERA, WALKS
    ALLOWED and WHIP, the largest for every other category. In the home-run
    scenario (A: 2 and 0, B: 1 and 1) both teams total 2 and the winners
    are A and B. *)
Theorem complete_status_winners :
  (forall (w : World) (st st' : State) (cid : Z) (contest : Contest)
          (out : contest_stats),
      stored_contest st cid = Some contest ->
      contest_start_date contest < contest_end_date contest ->
      contest_end_date contest < today w ->
      memo_computed (fun w0 => contest_end_date contest <= today w0) w st cid ->
      compute_contest_stats w cid st = (Ok out, st') ->
      is_started (snd out) = true /\
      is_complete (snd out) = true /\
      days_remaining (snd out) = None /\
      exists winners,
        winner (snd out) = Some winners /\
        (forall team,
            In team winners <->
            exists v top, top_value (fst (fst (fst out))) = Some top /\
                          In (team, v) (fst (fst (fst out))) /\
                          PyFloat.eqb v top = true) /\
        (numbers (fst (fst (fst out))) ->
         forall top team v,
           top_value (fst (fst (fst out))) = Some top ->
           In (team, v) (fst (fst (fst out))) ->
           if in_list (PyStr.upper (contest_stat_category contest))
                      ["HITS ALLOWED"; "ERA"; "WALKS ALLOWED"; "WHIP"]%string
           then PyFloat.leb top v = true
           else PyFloat.leb v top = true))
  /\
  (let run := compute_contest_stats (Scenario.world (Scenario.day2 + 1)) 1
                                    (Scenario.state "HR") in
   option_map (fun out => fst (fst (fst out)))
              (match fst run with Ok out => Some out | Raise _ => None end)
   = Some [("A"%string, PyFloat.of_Z 2); ("B"%string, PyFloat.of_Z 2)]
   /\ option_map winner (returned_status run) = Some (Some ["A"%string; "B"%string])).
Proof.
  split.
  - intros w st st' cid contest out Hc Hse He Hmemo H.
    destruct (compute_contest_stats_computed _ w cid st st' out H Hmemo (Z.lt_le_incl _ _ He))
      as (w0 & st0 & st0' & He0 & Hsame & H0).
    rewrite Hc in Hsame. apply compute_contest_stats_ok in H0.
    destruct H0 as (contest' & league & Hc' & _ & _ & [(Hlt & _) | (_ & a & _ & ->)]);
      rewrite Hsame in Hc'; inversion Hc'; subst contest'.
    + lia.
    + unfold results_of, status_of. cbn [fst snd].
      assert (Hge : (today w0 <? contest_end_date contest) = false)
        by (apply Z.ltb_ge; lia).
      rewrite Hge. cbn [is_started is_complete days_remaining winner]. repeat split.
      eexists. split; [reflexivity |]. split; [intros team; apply winners_of_spec |].
      intros Hn top team v Htop Hin.
      set (stat_category := PyStr.upper (contest_stat_category contest)) in *.
      pose proof (rank_sorted stat_category (agg_team_stats a)) as Hs.
      rewrite <- lower_is_better_spec.
      assert (Hnum : numbers (rankings_of (agg_team_stats a)))
        by (apply numbers_perm with (rank stat_category (agg_team_stats a));
            [apply rank_perm | exact Hn]).
      specialize (Hs Hnum).
      destruct (in_list stat_category lower_is_better).
      * apply (head_extreme (fun x y => PyFloat.leb x y = true)
                            (rank stat_category (agg_team_stats a)) top team v);
          [apply leb_refl | assumption | exact Hs | assumption | assumption].
      * apply (head_extreme (fun x y => PyFloat.leb y x = true)
                            (rank stat_category (agg_team_stats a)) top team v);
          [apply leb_refl | assumption | exact Hs | assumption | assumption].
  - vm_compute. split; reflexivity.
Qed.

Lemma complete_status_winners_witness :
  let w := Scenario.world (Scenario.day2 + 8) in
  let st := Scenario.state "HR" in
  exists out st',
    compute_contest_stats w 1 st = (Ok out, st') /\
    is_started (snd out) = true /\
    is_complete (snd out) = true /\
    days_remaining (snd out) = None /\
    exists winners,
      winner (snd out) = Some winners /\
      (forall team,
          In team winners <->
          exists v top, top_value (fst (fst (fst out))) = Some top /\
                        In (team, v) (fst (fst (fst out))) /\
                        PyFloat.eqb v top = true) /\
      (numbers (fst (fst (fst out))) ->
       forall top team v,
         top_value (fst (fst (fst out))) = Some top ->
         In (team, v) (fst (fst (fst out))) ->
         PyFloat.leb v top = true).
Proof.
  intros w st. eexists. eexists. split.
  - apply run_ok. vm_compute. reflexivity.
  - apply (proj1 complete_status_winners w st (snd (compute_contest_stats w 1 st))
             1 (Scenario.contest "HR")).
    + reflexivity.
    + vm_compute. reflexivity.
    + vm_compute. reflexivity.
    + intros out Hout. vm_compute in Hout. discriminate Hout.
    + apply run_ok. vm_compute. reflexivity.
Defined.

(** C3 as stated fails when a value is NaN: with one home run for team
    A, the text nan for team B and two home runs for team C, team A stands
    at the head of the rankings of the complete home-run contest and is its
    only winner, although team C has the largest value. *)
Lemma winner_below_largest_value_with_nan :
  let w := Scenario.world_with_nan (Scenario.day2 + 1) in
  let run := compute_contest_stats w 1 (Scenario.state "HR") in
  contest_end_date (Scenario.contest "HR") < today w
  /\ option_map (fun out => fst (fst (fst out)))
                (match fst run with Ok out => Some out | Raise _ => None end)
     = Some [("A"%string, PyFloat.of_Z 1); ("B"%string, S754_nan);
             ("C"%string, PyFloat.of_Z 2)]
  /\ option_map winner (returned_status run) = Some (Some ["A"%string])
  /\ PyFloat.ltb (PyFloat.of_Z 1) (PyFloat.of_Z 2) = true.
Proof.
  cbv zeta. split; [vm_compute; reflexivity |].
  split; [vm_compute; reflexivity |]. split; vm_compute; reflexivity.
Qed.

(** ** C1: the value of a ratio and the place of the sentinel *)

(** C1 (as amended). The value of a ratio accumulator is
    numerator / denominator when the denominator is positive, the sentinel
    999.0 when the denominator is 0 and the numerator positive, and 0.0 when
    both are 0. In the rankings, when no team's value is NaN, a team at the
    sentinel stands before every team whose value is below 999 for OBP, AVG,
    SLUGGING PERCENTAGE and K/BB, which sort descending, and after every
    such team for ERA and WHIP, which sort ascending. *)
Theorem ratio_value_and_sentinel_rank :
  (forall num den,
      PyFloat.gtb den PyFloat.zero = true ->
      finalize (Ratio num den) = PyFloat.div num den) /\
  (forall num den,
      PyFloat.eqb den PyFloat.zero = true -> PyFloat.gtb num PyFloat.zero = true ->
      finalize (Ratio num den) = PyFloat.of_Z 999) /\
  (forall num den,
      PyFloat.eqb den PyFloat.zero = true -> PyFloat.eqb num PyFloat.zero = true ->
      finalize (Ratio num den) = PyFloat.zero) /\
  (forall stat_category team_stats t num den u data,
      numbers (rankings_of team_stats) ->
      In (t, Ratio num den) team_stats ->
      PyFloat.eqb den PyFloat.zero = true -> PyFloat.gtb num PyFloat.zero = true ->
      In (u, data) team_stats ->
      PyFloat.ltb (finalize data) (PyFloat.of_Z 999) = true ->
      (In stat_category ["OBP"; "AVG"; "SLUGGING PERCENTAGE"; "K/BB"]%string ->
       ranked_before (t, PyFloat.of_Z 999) (u, finalize data)
                     (rank stat_category team_stats))
      /\
      (In stat_category ["ERA"; "WHIP"]%string ->
       ranked_before (u, finalize data) (t, PyFloat.of_Z 999)
                     (rank stat_category team_stats))).
Proof.
  assert (Hsent : forall num den,
             PyFloat.eqb den PyFloat.zero = true -> PyFloat.gtb num PyFloat.zero = true ->
             finalize (Ratio num den) = PyFloat.of_Z 999).
  { intros num den Hd Hn. cbn. rewrite (eqb_zero_not_gtb den Hd), Hn. reflexivity. }
  split; [| split; [exact Hsent | split]].
  - intros num den Hd. cbn. rewrite Hd. reflexivity.
  - intros num den Hd Hn. cbn.
    rewrite (eqb_zero_not_gtb den Hd), (eqb_zero_not_gtb num Hn). reflexivity.
  - intros cat ts t num den u data Hnum Ht Hd Hn Hu Hlt.
    assert (Hin_t : In (t, PyFloat.of_Z 999) (rank cat ts)).
    { apply Permutation_in with (rankings_of ts);
        [apply Permutation_sym, rank_perm |].
      unfold rankings_of. apply in_map_iff. exists (t, Ratio num den).
      cbn [fst snd]. rewrite (Hsent num den Hd Hn). auto. }
    assert (Hin_u : In (u, finalize data) (rank cat ts)).
    { apply Permutation_in with (rankings_of ts);
        [apply Permutation_sym, rank_perm |].
      unfold rankings_of. apply in_map_iff. exists (u, data). auto. }
    pose proof (rank_sorted cat ts Hnum) as Hs.
    assert (Hnu : PyFloat.is_nan (finalize data) = false).
    { destruct (finalize data); [reflexivity | reflexivity | discriminate Hlt | reflexivity]. }
    split; intros Hcat.
    + assert (Hdesc : in_list cat lower_is_better = false).
      { cbn [In] in Hcat. destruct Hcat as [<- | [<- | [<- | [<- | []]]]]; reflexivity. }
      rewrite Hdesc in Hs.
      apply (StronglySorted_before _ _ _ _ Hs); cbn [snd].
      * apply leb_refl. exact Hnu.
      * exact Hin_t.
      * exact Hin_u.
      * rewrite (ltb_not_leb _ _ Hlt). discriminate.
    + assert (Hasc : in_list cat lower_is_better = true).
      { cbn [In] in Hcat. destruct Hcat as [<- | [<- | []]]; reflexivity. }
      rewrite Hasc in Hs.
      apply (StronglySorted_before _ _ _ _ Hs); cbn [snd].
      * reflexivity.
      * exact Hin_u.
      * exact Hin_t.
      * rewrite (ltb_not_leb _ _ Hlt). discriminate.
Qed.

Lemma ratio_value_and_sentinel_rank_witness :
  let team_stats := [("A"%string, Ratio (PyFloat.of_Z 10) (PyFloat.of_Z 4));
                     ("B"%string, Ratio (PyFloat.of_Z 5) PyFloat.zero)] in
  ranked_before ("B"%string, PyFloat.of_Z 999)
                ("A"%string, finalize (Ratio (PyFloat.of_Z 10) (PyFloat.of_Z 4)))
                (rank "K/BB" team_stats)
  /\ ranked_before ("A"%string, finalize (Ratio (PyFloat.of_Z 10) (PyFloat.of_Z 4)))
                   ("B"%string, PyFloat.of_Z 999)
                   (rank "ERA" team_stats).
Proof.
  intros team_stats.
  assert (Hnum : numbers (rankings_of team_stats)) by (repeat constructor).
  assert (Hb : In ("B"%string, Ratio (PyFloat.of_Z 5) PyFloat.zero) team_stats)
    by (right; left; reflexivity).
  assert (Ha : In ("A"%string, Ratio (PyFloat.of_Z 10) (PyFloat.of_Z 4)) team_stats)
    by (left; reflexivity).
  split.
  - apply (proj2 (proj2 (proj2 ratio_value_and_sentinel_rank)) "K/BB"%string team_stats
             "B"%string (PyFloat.of_Z 5) PyFloat.zero "A"%string
             (Ratio (PyFloat.of_Z 10) (PyFloat.of_Z 4)) Hnum Hb);
      [vm_compute; reflexivity | vm_compute; reflexivity | exact Ha
       | vm_compute; reflexivity | cbn; tauto].
  - apply (proj2 (proj2 (proj2 ratio_value_and_sentinel_rank)) "ERA"%string team_stats
             "B"%string (PyFloat.of_Z 5) PyFloat.zero "A"%string
             (Ratio (PyFloat.of_Z 10) (PyFloat.of_Z 4)) Hnum Hb);
      [vm_compute; reflexivity | vm_compute; reflexivity | exact Ha
       | vm_compute; reflexivity | cbn; tauto].
Defined.

(** C1 as stated fails for a finite ratio above the sentinel: with 1000
    strikeouts for one walk, team A (ratio 1000.0) stands before team B,
    which has strikeouts and no walk (sentinel 999.0). *)
Lemma sentinel_below_larger_ratio :
  let team_stats := [("A"%string, Ratio (PyFloat.of_Z 1000) (PyFloat.of_Z 1));
                     ("B"%string, Ratio (PyFloat.of_Z 5) PyFloat.zero)] in
  PyFloat.is_finite (finalize (Ratio (PyFloat.of_Z 1000) (PyFloat.of_Z 1))) = true
  /\ PyFloat.gtb (PyFloat.of_Z 1) PyFloat.zero = true
  /\ PyFloat.eqb PyFloat.zero PyFloat.zero = true
  /\ PyFloat.gtb (PyFloat.of_Z 5) PyFloat.zero = true
  /\ rank "K/BB" team_stats
     = [("A"%string, PyFloat.of_Z 1000); ("B"%string, PyFloat.of_Z 999)].
Proof.
  vm_compute. repeat split; reflexivity.
Qed.

(** With a NaN among the values the place of the sentinel is not kept
    either: team C at the sentinel stands after team A, whose ratio is 5,
    when team B between them has no number. *)
Lemma sentinel_after_smaller_ratio_with_nan :
  let team_stats := [("A"%string, Ratio (PyFloat.of_Z 5) (PyFloat.of_Z 1));
                     ("B"%string, Ratio S754_nan (PyFloat.of_Z 1));
                     ("C"%string, Ratio (PyFloat.of_Z 5) PyFloat.zero)] in
  rank "K/BB" team_stats
  = [("A"%string, PyFloat.of_Z 5); ("B"%string, S754_nan); ("C"%string, PyFloat.of_Z 999)].
Proof.
  vm_compute. reflexivity.
Qed.

(** ** What a computation leaves untouched *)

Lemma keeps_ret {A X : Type} (f : State -> X) (a : A) : keeps f (ret a).
Proof. intros st. reflexivity. Qed.

Lemma keeps_raise {A X : Type} (f : State -> X) (e : exn) : keeps f (@raise A e).
Proof. intros st. reflexivity. Qed.

Lemma keeps_lift {A X : Type} (f : State -> X) (r : result A) : keeps f (lift r).
Proof. intros st. reflexivity. Qed.

Lemma keeps_get_state {X : Type} (f : State -> X) : keeps f get_state.
Proof. intros st. reflexivity. Qed.

Lemma keeps_modify {X : Type} (f : State -> X) (g : State -> State) :
  (forall st, f (g st) = f st) -> keeps f (modify g).
Proof. intros H st. apply H. Qed.

Lemma keeps_bind {A B X : Type} (f : State -> X) (m : M A) (k : A -> M B) :
  keeps f m -> (forall a, keeps f (k a)) -> keeps f (bind m k).
Proof.
  intros Hm Hk st. unfold bind. specialize (Hm st).
  destruct (m st) as [[a | e] st1]; cbn [snd] in *.
  - rewrite (Hk a st1). exact Hm.
  - exact Hm.
Qed.

Lemma keeps_for_each {A B X : Type} (f : State -> X) (l : list A)
    (body : A -> B -> M B) (b : B) :
  (forall x b', keeps f (body x b')) -> keeps f (for_each l body b).
Proof.
  intros H. revert b. induction l as [| x l IH]; intros b; cbn [for_each].
  - apply keeps_ret.
  - apply keeps_bind; [apply H | intros b'; apply IH].
Qed.

Lemma keeps_reraise {A X : Type} (f : State -> X) (m : M A) :
  keeps f m -> keeps f (reraise_as_value_error m).
Proof.
  intros H st. unfold reraise_as_value_error. specialize (H st).
  destruct (m st) as [[a | e] st1]; exact H.
Qed.

Lemma keeps_memoize {K V X : Type} `{Countable K} (f : State -> X) (w : World)
    (table : Memo -> gmap K (Z * V)) (with_table : gmap K (Z * V) -> Memo -> Memo)
    (found : V -> bool) (key : K) (m : M V) :
  (forall t st, f (set_memo (with_table t (memo st)) st) = f st) ->
  keeps f m -> keeps f (memoize w table with_table found key m).
Proof.
  intros Hf Hm. unfold memoize.
  apply keeps_bind; [apply keeps_get_state |]. intros st0.
  assert (Hcall : keeps f (rv <- m ;;
                           modify (fun st' =>
                             set_memo (with_table (<[key := (utcnow w + 86400, rv)]>
                                                     (table (memo st'))) (memo st')) st') ;;;
                           ret rv)).
  { apply keeps_bind; [exact Hm |]. intros rv.
    apply keeps_bind; [| intros; apply keeps_ret].
    apply keeps_modify. intros st. apply Hf. }
  destruct (cache_get (utcnow w) (table (memo st0) !! key)) as [rv |]; [| exact Hcall].
  destruct (found rv); [apply keeps_ret | exact Hcall].
Qed.

(** Goals [keeps f m] for a component [f] that [m] never assigns. *)
Ltac keeps_step :=
  match goal with
  | |- keeps _ (bind _ _) => apply keeps_bind
  | |- keeps _ (ret _) => apply keeps_ret
  | |- keeps _ (raise _) => apply keeps_raise
  | |- keeps _ (lift _) => apply keeps_lift
  | |- keeps _ get_state => apply keeps_get_state
  | |- keeps _ (for_each _ _ _) => apply keeps_for_each
  | |- keeps _ (send _) => apply keeps_modify; intros; reflexivity
  | |- keeps _ (modify _) => apply keeps_modify; intros; reflexivity
  | |- keeps _ (memoize _ _ _ _ _ _) => apply keeps_memoize; [intros; reflexivity |]
  | |- keeps _ (reraise_as_value_error _) => apply keeps_reraise
  | |- keeps _ (match ?x with _ => _ end) => destruct x
  | |- forall _, _ => intro
  end.

Ltac keeps_auto := repeat keeps_step; auto.

Section Frames.
Context {X : Type} (f : State -> X).
Hypothesis f_requests : forall r st,
  f (snd (send r st)) = f st.
Hypothesis f_player_cache : forall c st, f (set_db_player_cache c st) = f st.
Hypothesis f_mlb_id_cache : forall c st, f (set_mlb_id_cache c st) = f st.
Hypothesis f_game_log_cache : forall c st, f (set_game_log_cache c st) = f st.
Hypothesis f_processed : forall c st, f (set_processed_players c st) = f st.
Hypothesis f_memo_get_mlb_id : forall t st,
  f (set_memo (with_memo_get_mlb_id t (memo st)) st) = f st.
Variable w : World.

Ltac frame_step :=
  match goal with
  | |- keeps _ (bind _ _) => apply keeps_bind
  | |- keeps _ (ret _) => apply keeps_ret
  | |- keeps _ (raise _) => apply keeps_raise
  | |- keeps _ (lift _) => apply keeps_lift
  | |- keeps _ get_state => apply keeps_get_state
  | |- keeps _ (for_each _ _ _) => apply keeps_for_each
  | |- keeps _ (send _) => intros ?; apply f_requests
  | |- keeps _ (modify _) =>
      apply keeps_modify; intros;
      first [apply f_player_cache | apply f_mlb_id_cache
            | apply f_game_log_cache | apply f_processed]
  | |- keeps _ (match ?x with _ => _ end) => destruct x
  | |- forall _, _ => intro
  end.

Lemma keeps_add_player_cache (row : PlayerCache) : keeps f (add_player_cache row).
Proof. unfold add_player_cache. repeat frame_step. Qed.

Lemma keeps_get_mlb_id (player_name : string) (player_id : Z) :
  keeps f (get_mlb_id w player_name player_id).
Proof.
  unfold get_mlb_id. apply keeps_memoize; [exact f_memo_get_mlb_id |].
  unfold get_mlb_id_uncached.
  repeat first [apply keeps_add_player_cache | frame_step].
Qed.

Lemma keeps_fetch_game_log (player_id : Z) (player_name : string)
    (mlb_id : Z) (group : string) :
  keeps f (fetch_game_log w player_id player_name mlb_id group).
Proof.
  unfold fetch_game_log.
  repeat first [apply keeps_add_player_cache | frame_step].
Qed.

Lemma keeps_resolve_player (player_id : Z) (player_name : string) :
  keeps f (resolve_player w player_id player_name).
Proof.
  unfold resolve_player.
  repeat first [apply keeps_get_mlb_id | frame_step].
Qed.

Lemma keeps_process_player (stat_category : string) (slots : list Z)
    (group : string) (chunk_date : Z) (team_name : string)
    (player : Z * string * Z) (acc : team_stats_t * bool) :
  keeps f (process_player w stat_category slots group chunk_date team_name player acc).
Proof.
  unfold process_player. destruct player as [[player_id player_name] slot].
  repeat first [apply keeps_resolve_player | apply keeps_fetch_game_log | frame_step].
Qed.

Lemma keeps_process_day (stat_category : string) (slots : list Z)
    (team_names : odict Z string) (rosters : gmap Z (list roster_team))
    (chunk_date : Z) (acc : team_stats_t * list Z) :
  keeps f (process_day w stat_category slots team_names rosters chunk_date acc).
Proof.
  unfold process_day. destruct acc as [team_stats no_data_days].
  repeat first [apply keeps_process_player | frame_step].
Qed.
End Frames.

Lemma keeps_results_process_day (w : World) (stat_category : string) (slots : list Z)
    (team_names : odict Z string) (rosters : gmap Z (list roster_team))
    (chunk_date : Z) (acc : team_stats_t * list Z) :
  keeps db_contest_results
        (process_day w stat_category slots team_names rosters chunk_date acc).
Proof. apply keeps_process_day; intros; reflexivity. Qed.

Lemma keeps_results_compute (w : World) (cid : Z) :
  keeps db_contest_results (compute_contest_stats w cid).
Proof.
  unfold compute_contest_stats, compute_contest_stats_uncached,
    compute_contest_stats_body, run_aggregation, process_range,
    get_team_names, get_team_names_uncached, get_team_rosters, get_team_rosters_uncached.
  repeat first [apply keeps_results_process_day | keeps_step].
Qed.

(** ** C7: reuse of the stored result *)

Lemma needs_update_false (w : World) (r : ContestResult) (end_date : Z) :
  needs_update w (Some r) end_date = false <->
  (today w <= date_of (cr_last_updated r) \/ end_date < today w).
Proof.
  unfold needs_update. rewrite andb_false_iff, Z.ltb_ge, Z.leb_gt. tauto.
Qed.

Lemma recompute_and_store_ok (w : World) (cid : Z) (st st' : State) (cs : contest_stats) :
  recompute_and_store w cid st = (Ok cs, st') ->
  fst (compute_contest_stats w cid st) = Ok cs /\
  db_contest_results st' = db_contest_results st ++ [snapshot_row w cid cs].
Proof.
  unfold recompute_and_store. intros H.
  apply bind_ok in H. destruct H as (cs' & st1 & Hc & H).
  pose proof (keeps_results_compute w cid st) as Hk. rewrite Hc in Hk. cbn [snd] in Hk.
  unfold bind, modify, ret in H. inversion H; subst.
  cbn [db_contest_results set_db_contest_results]. rewrite Hc, Hk. auto.
Qed.

Lemma recompute_and_store_raise (w : World) (cid : Z) (st st' : State) (e : exn) :
  recompute_and_store w cid st = (Raise e, st') ->
  fst (compute_contest_stats w cid st) = Raise e /\
  db_contest_results st' = db_contest_results st.
Proof.
  unfold recompute_and_store, bind. intros H.
  pose proof (keeps_results_compute w cid st) as Hk.
  destruct (compute_contest_stats w cid st) as [[cs | e'] st1]; cbn in *.
  - discriminate H.
  - inversion H; subst. auto.
Qed.

Lemma get_contest_data_paths (w : World) (cid : Z) (st : State) (contest : Contest) :
  stored_contest st cid = Some contest ->
  (exists r cs,
      latest_result cid (db_contest_results st) = Some r /\
      decode r = Some cs /\
      (today w <= date_of (cr_last_updated r) \/ contest_end_date contest < today w) /\
      get_contest_data w cid st = (Ok cs, st))
  \/
  ((forall r,
       latest_result cid (db_contest_results st) = Some r ->
       decode r = None \/
       (date_of (cr_last_updated r) < today w /\ today w <= contest_end_date contest)) /\
   get_contest_data w cid st = reraise_as_value_error (recompute_and_store w cid) st).
Proof.
  intros Hc. unfold stored_contest in Hc.
  assert (Hre : forall m : M contest_stats,
             get_contest_data_body w cid st = m st ->
             get_contest_data w cid st = reraise_as_value_error m st).
  { intros m Hm. unfold get_contest_data, reraise_as_value_error. rewrite Hm. reflexivity. }
  assert (Hbody : get_contest_data_body w cid st =
                  (if needs_update w (latest_result cid (db_contest_results st))
                                   (contest_end_date contest)
                   then recompute_and_store w cid
                   else match latest_result cid (db_contest_results st) ≫= decode with
                        | Some cs => ret cs
                        | None => recompute_and_store w cid
                        end) st).
  { unfold get_contest_data_body. unfold bind at 1. cbn [get_state]. rewrite Hc. reflexivity. }
  destruct (latest_result cid (db_contest_results st)) as [r |] eqn:Hr.
  - destruct (needs_update w (Some r) (contest_end_date contest)) eqn:Hn.
    + right. split; [| apply Hre; exact Hbody].
      intros r' Hr'. inversion Hr'; subst r'. right.
      unfold needs_update in Hn. apply andb_true_iff in Hn.
      rewrite Z.ltb_lt, Z.leb_le in Hn. exact Hn.
    + cbn [mbind option_bind] in Hbody. destruct (decode r) as [cs |] eqn:Hd.
      * left. exists r, cs. apply needs_update_false in Hn.
        repeat split; try assumption.
        unfold get_contest_data. apply reraise_of_ok. exact Hbody.
      * right. split; [| apply Hre; exact Hbody].
        intros r' Hr'. inversion Hr'; subst r'. left. exact Hd.
  - right. cbn [needs_update] in Hbody. split; [| apply Hre; exact Hbody].
    intros r' Hr'. discriminate Hr'.
Qed.

(** C7 (as amended). [get_contest_data] returns the latest stored result
    without computing if and only if there is one, its payload decodes,
    and either its date is not before today or the contest's end date is
    past. In every other case it calls [compute_contest_stats]: when the
    call returns, its result is returned and one row holding it is appended
    to the stored results, which are otherwise kept as they were; when it
    raises, nothing is stored. The call computes when the memo has no
    result of the contest that has not expired; otherwise its result is the
    memoized one, which is stored again under the new time stamp. *)
Theorem stored_result_reuse (w : World) (cid : Z) (st : State) (contest : Contest) :
  stored_contest st cid = Some contest ->
  (served_from_store w cid st <->
   exists r,
     latest_result cid (db_contest_results st) = Some r /\
     decode r <> None /\
     (today w <= date_of (cr_last_updated r) \/ contest_end_date contest < today w))
  /\
  (~ served_from_store w cid st ->
   match fst (compute_contest_stats w cid st) with
   | Ok cs =>
       fst (get_contest_data w cid st) = Ok cs /\
       db_contest_results (snd (get_contest_data w cid st))
       = db_contest_results st ++ [snapshot_row w cid cs]
   | Raise _ =>
       fst (get_contest_data w cid st) = Raise ValueError /\
       db_contest_results (snd (get_contest_data w cid st)) = db_contest_results st
   end)
  /\
  (memoized_stats w st cid = None ->
   fst (compute_contest_stats w cid st) = fst (compute_contest_stats_uncached w cid st))
  /\
  (forall cs, memoized_stats w st cid = Some cs ->
              compute_contest_stats w cid st = (Ok cs, st)).
Proof.
  intros Hc.
  assert (Hmemo : (memoized_stats w st cid = None ->
                   fst (compute_contest_stats w cid st)
                   = fst (compute_contest_stats_uncached w cid st))
                  /\ (forall cs, memoized_stats w st cid = Some cs ->
                                 compute_contest_stats w cid st = (Ok cs, st))).
  { split.
    - intros Hmiss. rewrite (compute_contest_stats_miss w cid st Hmiss).
      destruct (compute_contest_stats_uncached w cid st) as [[cs | e] st1]; reflexivity.
    - intros cs Hhit. apply compute_contest_stats_hit. exact Hhit. }
  destruct (get_contest_data_paths w cid st contest Hc)
    as [(r & cs & Hr & Hd & Hf & Hg) | (Hstale & Hg)].
  - split; [| split; [| exact Hmemo]].
    + split.
      * intros _. exists r. rewrite Hd. repeat split; [exact Hr | discriminate | exact Hf].
      * intros _. exists r, cs. auto.
    + intros Hn. exfalso. apply Hn. exists r, cs. auto.
  - assert (Hnot : ~ served_from_store w cid st).
    { intros (r & cs & Hr & Hd & Hs).
      rewrite Hg in Hs. apply reraise_ok in Hs.
      apply recompute_and_store_ok in Hs. destruct Hs as [_ Hs].
      apply (f_equal (@length _)) in Hs. rewrite length_app in Hs. cbn in Hs. lia. }
    split; [| split; [| exact Hmemo]].
    + split; [intros H; contradiction |].
      intros (r & Hr & Hd & Hf). destruct (Hstale r Hr) as [Hd' | Hs'].
      * contradiction.
      * lia.
    + intros _. rewrite Hg. unfold reraise_as_value_error.
      destruct (recompute_and_store w cid st) as [[cs | e] st1] eqn:Hrec.
      * apply recompute_and_store_ok in Hrec. destruct Hrec as [-> Hdb]. auto.
      * apply recompute_and_store_raise in Hrec. destruct Hrec as [Hraise Hdb].
        rewrite Hraise. auto.
Qed.

Lemma stored_result_reuse_witness :
  let w := Scenario.world (Scenario.day2 + 5) in
  let st := Scenario.state_with "HR" [Scenario.snapshot ((Scenario.day2 + 1) * 86400)] in
  (served_from_store w 1 st <->
   exists r,
     latest_result 1 (db_contest_results st) = Some r /\
     decode r <> None /\
     (today w <= date_of (cr_last_updated r)
      \/ contest_end_date (Scenario.contest "HR") < today w))
  /\
  (~ served_from_store w 1 st ->
   match fst (compute_contest_stats w 1 st) with
   | Ok cs =>
       fst (get_contest_data w 1 st) = Ok cs /\
       db_contest_results (snd (get_contest_data w 1 st))
       = db_contest_results st ++ [snapshot_row w 1 cs]
   | Raise _ =>
       fst (get_contest_data w 1 st) = Raise ValueError /\
       db_contest_results (snd (get_contest_data w 1 st)) = db_contest_results st
   end)
  /\
  (memoized_stats w st 1 = None ->
   fst (compute_contest_stats w 1 st) = fst (compute_contest_stats_uncached w 1 st))
  /\
  (forall cs, memoized_stats w st 1 = Some cs ->
              compute_contest_stats w 1 st = (Ok cs, st)).
Proof.
  intros w st.
  apply (stored_result_reuse w 1 st (Scenario.contest "HR")).
  reflexivity.
Defined.

(** C7 as stated fails for a stored result dated after today (its time
    stamp is taken in UTC, today is the local date): it is returned without
    computing although its date is not today and the contest has not
    ended. *)
Lemma reuse_of_result_dated_after_today :
  let w := Scenario.world Scenario.day1 in
  let row := Scenario.snapshot ((Scenario.day1 + 1) * 86400) in
  let st := Scenario.state_with "HR" [row] in
  latest_result 1 (db_contest_results st) = Some row
  /\ get_contest_data w 1 st = (Ok Scenario.final_stats, st)
  /\ date_of (cr_last_updated row) <> today w
  /\ ~ contest_end_date (Scenario.contest "HR") < today w.
Proof.
  cbv zeta. split; [| split; [| split]].
  - reflexivity.
  - vm_compute. reflexivity.
  - vm_compute. intros H. discriminate H.
  - vm_compute. intros H. discriminate H.
Qed.

(** Nor is a computation forced when the stored result is a day old: the
    result that was computed and stored in the evening of June 1st is, five
    hours later on June 2nd, returned from the memo and stored a second
    time, with one day remaining, while a computation would give the
    contest as complete. *)
Lemma memoized_result_stored_as_new :
  let w1 := Scenario.evening Scenario.day1 in
  let w2 := Scenario.world Scenario.day2 in
  let st1 := snd (get_contest_data w1 1 (Scenario.state "HR")) in
  ~ served_from_store w2 1 st1
  /\ fst (get_contest_data w2 1 st1) = fst (get_contest_data w1 1 (Scenario.state "HR"))
  /\ option_map days_remaining (returned_status (get_contest_data w2 1 st1))
     = Some (Some 1)
  /\ option_map is_complete (returned_status (compute_contest_stats_uncached w2 1 st1))
     = Some true
  /\ map cr_last_updated (db_contest_results (snd (get_contest_data w2 1 st1)))
     = [utcnow w1; utcnow w2]
  /\ map cr_status (db_contest_results (snd (get_contest_data w2 1 st1)))
     = [option_map snd (match fst (get_contest_data w1 1 (Scenario.state "HR")) with
                        | Ok cs => Some cs
                        | Raise _ => None
                        end);
        option_map snd (match fst (get_contest_data w1 1 (Scenario.state "HR")) with
                        | Ok cs => Some cs
                        | Raise _ => None
                        end)].
Proof.
  cbv zeta. split.
  - intros (r & cs & _ & _ & H).
    apply (f_equal (fun x => length (db_contest_results (snd x)))) in H.
    vm_compute in H. discriminate H.
  - repeat split; vm_compute; reflexivity.
Qed.

(** ** C9: days without a roster *)

Lemma in_days (lo hi d : Z) : In d (days lo hi) <-> lo <= d <= hi.
Proof.
  unfold days. rewrite in_map_iff. split.
  - intros (i & <- & Hi). apply in_seq in Hi. lia.
  - intros H. exists (Z.to_nat (d - lo)). split; [lia |]. apply in_seq. lia.
Qed.

Lemma NoDup_days (lo hi : Z) : List.NoDup (days lo hi).
Proof.
  unfold days. apply Finite.Injective_map_NoDup.
  - intros i j H. lia.
  - apply List.seq_NoDup.
Qed.

Lemma process_day_empty_roster (w : World) (stat_category : string) (slots : list Z)
    (team_names : odict Z string) (rosters : gmap Z (list roster_team))
    (d : Z) (team_stats : team_stats_t) (no_data_days : list Z) (st : State) :
  default [] (rosters !! d) = [] ->
  process_day w stat_category slots team_names rosters d (team_stats, no_data_days) st
  = (Ok (team_stats,
         if empty_roster_is_no_data stat_category d
         then no_data_days ++ [d] else no_data_days),
     set_processed_players ∅ st).
Proof.
  intros H. unfold process_day. rewrite H. reflexivity.
Qed.

Lemma process_day_no_data_days (w : World) (stat_category : string) (slots : list Z)
    (team_names : odict Z string) (rosters : gmap Z (list roster_team))
    (d : Z) (acc acc' : team_stats_t * list Z) (st st' : State) :
  process_day w stat_category slots team_names rosters d acc st = (Ok acc', st') ->
  snd acc' = snd acc \/ snd acc' = snd acc ++ [d].
Proof.
  destruct acc as [team_stats no_data_days]. unfold process_day. intros H.
  apply bind_ok in H. destruct H as ([] & st1 & _ & H).
  destruct (default [] (rosters !! d)) as [| team roster_data].
  - inversion H; subst. cbn [snd].
    destruct (empty_roster_is_no_data stat_category d); auto.
  - apply bind_ok in H. destruct H as (started & st2 & _ & H).
    apply bind_ok in H. destruct H as (day & st3 & _ & H).
    inversion H; subst. cbn [snd].
    destruct (no_stats_is_no_data stat_category d (snd day)); auto.
Qed.

Lemma keeps_roster_cache_process_day (w : World) (stat_category : string)
    (slots : list Z) (team_names : odict Z string)
    (rosters : gmap Z (list roster_team)) (d : Z) (acc : team_stats_t * list Z) :
  keeps roster_cache (process_day w stat_category slots team_names rosters d acc).
Proof. apply keeps_process_day; intros; reflexivity. Qed.

(** The days of one chunk. *)
Lemma chunk_days_no_data (w : World) (stat_category : string) (slots : list Z)
    (team_names : odict Z string) (rosters : gmap Z (list roster_team))
    (ds : list Z) :
  List.NoDup ds ->
  forall (acc acc' : team_stats_t * list Z) (st st' : State),
    for_each ds (process_day w stat_category slots team_names rosters) acc st
    = (Ok acc', st') ->
    roster_cache st' = roster_cache st /\
    exists extra,
      snd acc' = snd acc ++ extra /\
      (forall x, In x extra -> In x ds) /\
      (forall d, In d ds -> default [] (rosters !! d) = [] ->
                 (In d extra <-> empty_roster_is_no_data stat_category d = true)).
Proof.
  induction ds as [| x ds IH]; intros Hnd acc acc' st st' H.
  - cbn in H. inversion H; subst. split; [reflexivity |].
    exists []. rewrite app_nil_r. split; [reflexivity |].
    split; [intros ? [] | intros ? []].
  - cbn [for_each] in H. apply bind_ok in H. destruct H as (acc1 & st1 & H1 & H).
    inversion Hnd as [| ? ? Hx Hnd']; subst.
    destruct (IH Hnd' acc1 acc' st1 st' H) as (Hrc & extra' & He' & Hsub & Hflag).
    pose proof (keeps_roster_cache_process_day w stat_category slots team_names
                  rosters x acc st) as Hk.
    rewrite H1 in Hk. cbn [snd] in Hk.
    split; [congruence |].
    assert (Hshape : exists e1, snd acc1 = snd acc ++ e1 /\
                                (forall y, In y e1 -> y = x) /\
                                (default [] (rosters !! x) = [] ->
                                 (In x e1 <-> empty_roster_is_no_data stat_category x = true))).
    { destruct (process_day_no_data_days _ _ _ _ _ _ _ _ _ _ H1) as [E | E].
      - exists []. rewrite app_nil_r. split; [exact E |].
        split; [intros ? [] |]. intros Hempty.
        destruct acc as [ts nd].
        rewrite (process_day_empty_roster _ _ _ _ _ _ _ _ _ Hempty) in H1.
        inversion H1; subst. cbn [snd] in E.
        destruct (empty_roster_is_no_data stat_category x).
        + apply (f_equal (@length _)) in E. rewrite length_app in E. cbn in E. lia.
        + split; [intros [] | discriminate].
      - exists [x]. split; [exact E |].
        split; [intros y [<- | []]; reflexivity |]. intros Hempty.
        destruct acc as [ts nd].
        rewrite (process_day_empty_roster _ _ _ _ _ _ _ _ _ Hempty) in H1.
        inversion H1; subst. cbn [snd] in E.
        destruct (empty_roster_is_no_data stat_category x).
        + split; [reflexivity | intros _; left; reflexivity].
        + apply (f_equal (@length _)) in E. rewrite length_app in E. cbn in E. lia. }
    destruct Hshape as (e1 & He1 & Hone & Hx1).
    exists (e1 ++ extra'). split; [rewrite He', He1, app_assoc; reflexivity |].
    split.
    + intros y Hy. apply in_app_or in Hy. destruct Hy as [Hy | Hy].
      * left. symmetry. apply Hone. exact Hy.
      * right. apply Hsub. exact Hy.
    + intros d [<- | Hd] Hempty.
      * rewrite in_app_iff. rewrite <- (Hx1 Hempty). split; [| auto].
        intros [Hin | Hin]; [exact Hin |]. exfalso. apply Hx. apply Hsub. exact Hin.
      * rewrite in_app_iff. rewrite <- (Hflag d Hd Hempty). split; [| auto].
        intros [Hin | Hin]; [| exact Hin]. exfalso.
        apply Hone in Hin. subst d. contradiction.
Qed.

(** A range of days that is not cached is fetched day by day. *)
Lemma fetch_days (w : World) (league_id : Z) (ds : list Z) :
  forall (rosters rosters' : gmap Z (list roster_team)) (st st' : State),
    for_each ds (fun current rosters0 =>
          let scoring_period := current - season_start w + 1 in
          send (ReqRoster league_id scoring_period) ;;;
          match espn_roster w league_id scoring_period with
          | Raise RequestException => ret (<[current := []]> rosters0)
          | Raise e => raise e
          | Ok roster_data => ret (<[current := roster_data]> rosters0)
          end) rosters st = (Ok rosters', st') ->
    roster_cache st' = roster_cache st /\ memo st' = memo st /\
    (forall d, In d ds -> rosters' !! d = Some (fetched_roster w league_id d)) /\
    (forall d, ~ In d ds -> rosters' !! d = rosters !! d).
Proof.
  induction ds as [| x ds IH]; intros rosters rosters' st st' H.
  - cbn in H. inversion H; subst.
    split; [reflexivity |]. split; [reflexivity |]. split; [intros ? [] | reflexivity].
  - cbn [for_each] in H. apply bind_ok in H. destruct H as (r1 & st1 & H1 & H).
    assert (Hr1 : r1 = <[x := fetched_roster w league_id x]> rosters /\
                  roster_cache st1 = roster_cache st /\ memo st1 = memo st).
    { unfold fetched_roster. cbv zeta in H1. unfold bind, send, modify in H1.
      destruct (espn_roster w league_id (x - season_start w + 1)) as [roster_data | []];
        inversion H1; subst; auto. }
    destruct Hr1 as (-> & Hc1 & Hm1).
    destruct (IH _ _ _ _ H) as (Hc & Hm & Hin & Hout).
    split; [congruence |]. split; [congruence |]. split.
    + intros d [<- | Hd]; [| apply Hin; exact Hd].
      destruct (in_dec Z.eq_dec x ds) as [Hx | Hx]; [apply Hin; exact Hx |].
      rewrite (Hout x Hx). apply lookup_insert_eq.
    + intros d Hd. rewrite (Hout d (fun Hds => Hd (or_intror Hds))).
      apply lookup_insert_ne. intros ->. apply Hd. left. reflexivity.
Qed.

Lemma get_team_rosters_uncached_miss (w : World) (league_id lo hi : Z)
    (st st' : State) (rosters : gmap Z (list roster_team)) :
  roster_cache st !! (league_id, lo, hi) = None ->
  get_team_rosters_uncached w league_id lo hi (season_start w) st = (Ok rosters, st') ->
  roster_cache st' = <[(league_id, lo, hi) := rosters]> (roster_cache st)
  /\ memo st' = memo st
  /\ forall d, lo <= d <= hi -> rosters !! d = Some (fetched_roster w league_id d).
Proof.
  intros Hmiss H. unfold get_team_rosters_uncached in H.
  unfold bind at 1 in H. cbn [get_state] in H. rewrite Hmiss in H.
  apply bind_ok in H. destruct H as (r & st1 & Hf & H).
  apply fetch_days in Hf. destruct Hf as (Hc & Hm & Hin & _).
  unfold bind, modify, ret in H. inversion H; subst.
  cbn [roster_cache memo set_roster_cache]. rewrite Hc.
  split; [reflexivity |]. split; [exact Hm |].
  intros d Hd. apply Hin. apply in_days. exact Hd.
Qed.

(** The rosters of a range of days that neither the module's cache nor
    the memo holds are fetched, and kept in both. *)
Lemma get_team_rosters_miss (w : World) (league_id lo hi : Z)
    (st st' : State) (rosters : gmap Z (list roster_team)) :
  roster_cache st !! (league_id, lo, hi) = None ->
  cache_get (utcnow w)
            (memo_get_team_rosters (memo st) !! (league_id, lo, hi, season_start w)) = None ->
  get_team_rosters w league_id lo hi (season_start w) st = (Ok rosters, st') ->
  roster_cache st' = <[(league_id, lo, hi) := rosters]> (roster_cache st)
  /\ memo_get_team_rosters (memo st')
     = <[(league_id, lo, hi, season_start w) := (utcnow w + 86400, rosters)]>
         (memo_get_team_rosters (memo st))
  /\ forall d, lo <= d <= hi -> rosters !! d = Some (fetched_roster w league_id d).
Proof.
  intros Hmiss Hmemo H. unfold get_team_rosters in H.
  apply memoize_ok in H. destruct H as [[Hhit _] | (st1 & H & ->)]; [congruence |].
  apply get_team_rosters_uncached_miss in H; [| exact Hmiss].
  destruct H as (Hc & Hm & Hin).
  cbn [roster_cache memo set_memo memo_get_team_rosters with_memo_get_team_rosters].
  rewrite Hm. auto.
Qed.

Lemma keeps_memo_rosters_process_day (w : World) (stat_category : string)
    (slots : list Z) (team_names : odict Z string)
    (rosters : gmap Z (list roster_team)) (d : Z) (acc : team_stats_t * list Z) :
  keeps (fun st => memo_get_team_rosters (memo st))
        (process_day w stat_category slots team_names rosters d acc).
Proof. apply keeps_process_day; intros; reflexivity. Qed.

(** The weekly chunks. *)
Lemma chunks_no_data (w : World) (league_id : Z) (stat_category : string)
    (slots : list Z) (team_names : odict Z string) (effective_end : Z)
    (cs : list Z) :
  StronglySorted (fun a b => a + 7 <= b) cs ->
  forall (acc acc' : team_stats_t * list Z) (st st' : State),
    (forall c, In c cs ->
               roster_cache st !! (league_id, c, Z.min (c + 6) effective_end) = None) ->
    (forall c, In c cs ->
               cache_get (utcnow w)
                         (memo_get_team_rosters (memo st)
                            !! (league_id, c, Z.min (c + 6) effective_end, season_start w))
               = None) ->
    for_each cs (fun current acc0 =>
      let chunk_end := Z.min (current + 6) effective_end in
      rosters <- get_team_rosters w league_id current chunk_end (season_start w) ;;
      for_each (days current chunk_end)
               (process_day w stat_category slots team_names rosters) acc0) acc st
    = (Ok acc', st') ->
    exists extra,
      snd acc' = snd acc ++ extra /\
      (forall x, In x extra ->
                 exists c, In c cs /\ c <= x <= Z.min (c + 6) effective_end) /\
      (forall c d, In c cs -> c <= d <= Z.min (c + 6) effective_end ->
                   fetched_roster w league_id d = [] ->
                   (In d extra <-> empty_roster_is_no_data stat_category d = true)).
Proof.
  induction cs as [| c cs IH]; intros Hs acc acc' st st' Hmiss Hmemo H.
  - cbn in H. inversion H; subst. exists []. rewrite app_nil_r.
    split; [reflexivity |]. split; [intros ? [] | intros ? ? []].
  - apply StronglySorted_inv in Hs. destruct Hs as [Hs Hgap].
    rewrite List.Forall_forall in Hgap.
    cbn [for_each] in H. apply bind_ok in H. destruct H as (acc1 & st1 & H1 & H).
    cbv zeta in H1. apply bind_ok in H1. destruct H1 as (rosters & st0 & Hr & H1).
    apply get_team_rosters_miss in Hr;
      [| apply Hmiss; left; reflexivity | apply Hmemo; left; reflexivity].
    destruct Hr as (Hcache & Hmemo0 & Hros).
    pose proof (keeps_for_each (fun st => memo_get_team_rosters (memo st))
                  (days c (Z.min (c + 6) effective_end))
                  (process_day w stat_category slots team_names rosters) acc
                  (keeps_memo_rosters_process_day w stat_category slots team_names rosters)
                  st0) as Hkm.
    rewrite H1 in Hkm. cbn [snd] in Hkm.
    apply chunk_days_no_data in H1; [| apply NoDup_days].
    destruct H1 as (Hc1 & e1 & He1 & Hsub1 & Hflag1).
    assert (Hmiss' : forall c', In c' cs ->
              roster_cache st1 !! (league_id, c', Z.min (c' + 6) effective_end) = None).
    { intros c' Hc'. rewrite Hc1, Hcache. rewrite lookup_insert_ne.
      - apply Hmiss. right. exact Hc'.
      - intros E. inversion E. specialize (Hgap c' Hc'). lia. }
    assert (Hmemo' : forall c', In c' cs ->
              cache_get (utcnow w)
                        (memo_get_team_rosters (memo st1)
                           !! (league_id, c', Z.min (c' + 6) effective_end, season_start w))
              = None).
    { intros c' Hc'. rewrite Hkm, Hmemo0. rewrite lookup_insert_ne.
      - apply Hmemo. right. exact Hc'.
      - intros E. inversion E. specialize (Hgap c' Hc'). lia. }
    destruct (IH Hs acc1 acc' st1 st' Hmiss' Hmemo' H) as (e' & He' & Hsub' & Hflag').
    exists (e1 ++ e'). split; [rewrite He', He1, app_assoc; reflexivity |].
    split.
    + intros x Hx. apply in_app_or in Hx. destruct Hx as [Hx | Hx].
      * exists c. split; [left; reflexivity |]. apply in_days. apply Hsub1. exact Hx.
      * destruct (Hsub' x Hx) as (c' & Hc' & Hr'). exists c'. split; [right |]; assumption.
    + intros c0 d [<- | Hc0] Hd Hempty; rewrite in_app_iff.
      * assert (Hd' : In d (days c (Z.min (c + 6) effective_end)))
          by (apply in_days; exact Hd).
        rewrite <- (Hflag1 d Hd'); [| rewrite (Hros d Hd); exact Hempty].
        split; [| auto]. intros [Hin | Hin]; [exact Hin |]. exfalso.
        destruct (Hsub' d Hin) as (c' & Hc' & Hr'). specialize (Hgap c' Hc'). lia.
      * rewrite <- (Hflag' c0 d Hc0 Hd Hempty).
        split; [| auto]. intros [Hin | Hin]; [| exact Hin]. exfalso.
        apply Hsub1 in Hin. apply in_days in Hin. specialize (Hgap c0 Hc0). lia.
Qed.

Lemma chunk_starts_from_sorted (start_date : Z) (n k : nat) :
  StronglySorted (fun a b => a + 7 <= b)
                 (map (fun i => start_date + 7 * Z.of_nat i) (seq k n)).
Proof.
  revert k. induction n as [| n IH]; intros k; cbn.
  - constructor.
  - constructor; [apply IH |].
    rewrite List.Forall_forall. intros x Hx. apply in_map_iff in Hx.
    destruct Hx as (i & <- & Hi). apply in_seq in Hi. lia.
Qed.

Lemma chunk_of_day (start_date effective_end d : Z) :
  start_date <= d <= effective_end ->
  exists c, In c (chunk_starts start_date effective_end) /\
            c <= d <= Z.min (c + 6) effective_end.
Proof.
  intros Hd. exists (start_date + 7 * ((d - start_date) / 7)).
  pose proof (Z.div_mod (d - start_date) 7 ltac:(lia)) as Hdm.
  pose proof (Z.mod_pos_bound (d - start_date) 7 ltac:(lia)) as Hm.
  assert (Hq : 0 <= (d - start_date) / 7) by (apply Z.div_pos; lia).
  assert (Hle : (d - start_date) / 7 <= (effective_end - start_date) / 7)
    by (apply Z.div_le_mono; lia).
  split.
  - unfold chunk_starts. apply in_map_iff.
    exists (Z.to_nat ((d - start_date) / 7)). split; [lia |]. apply in_seq. lia.
  - lia.
Qed.

Lemma in_Zs_In (x : Z) (l : list Z) : in_Zs x l = true <-> In x l.
Proof.
  unfold in_Zs. rewrite existsb_exists. split.
  - intros (y & Hy & E). apply Z.eqb_eq in E. subst. exact Hy.
  - intros H. exists x. split; [exact H | apply Z.eqb_refl].
Qed.

Lemma in_list_In (s : string) (l : list string) : in_list s l = true <-> In s l.
Proof.
  unfold in_list. rewrite existsb_exists. split.
  - intros (y & Hy & E). apply String.eqb_eq in E. subst. exact Hy.
  - intros H. exists s. split; [exact H | apply String.eqb_refl].
Qed.

Lemma empty_roster_is_no_data_spec (stat_category : string) (d : Z) :
  empty_roster_is_no_data stat_category d = true <->
  ~ (In d all_star_break /\ In stat_category pitching_categories).
Proof.
  unfold empty_roster_is_no_data.
  rewrite <- in_Zs_In, <- in_list_In.
  destruct (in_Zs d all_star_break), (in_list stat_category pitching_categories);
    cbn; intuition congruence.
Qed.

Lemma keeps_roster_cache_get_team_names (w : World) (league_id : Z) :
  keeps roster_cache (get_team_names w league_id).
Proof. unfold get_team_names, get_team_names_uncached. keeps_auto. Qed.

Lemma keeps_memo_rosters_get_team_names (w : World) (league_id : Z) :
  keeps (fun st => memo_get_team_rosters (memo st)) (get_team_names w league_id).
Proof. unfold get_team_names, get_team_names_uncached. keeps_auto. Qed.

(** C9 (as amended). In a run whose rosters are not cached (neither in
    the module's cache nor in the memo), a day of the computed range whose
    roster request fails (or brings no team) is among the no-data days, and
    so counted in the warning, except when it falls in the break window and
    the category is a pitching category; for a hitting category the days of
    the break are recorded like any other. *)
Theorem empty_roster_days_recorded (w : World) (league : League)
    (stat_category : string) (start_date end_date : Z) (st st' : State)
    (a : aggregation) (d : Z) :
  (forall lo hi, roster_cache st !! (espn_league_id league, lo, hi) = None) ->
  (forall lo hi,
      cache_get (utcnow w)
                (memo_get_team_rosters (memo st)
                   !! (espn_league_id league, lo, hi, season_start w)) = None) ->
  run_aggregation w league stat_category start_date end_date st = (Ok a, st') ->
  start_date <= d <= Z.min end_date (today w) ->
  fetched_roster w (espn_league_id league) d = [] ->
  (In d (agg_no_data_days a) <->
   ~ (In d all_star_break /\ In stat_category pitching_categories))
  /\ snd (fst (results_of w stat_category end_date a)) = warning_of (agg_no_data_days a).
Proof.
  intros Hmiss Hmemo H Hd Hempty. split; [| reflexivity].
  unfold run_aggregation in H. cbv zeta in H.
  apply bind_ok in H. destruct H as (team_names & st1 & Hn & H).
  apply bind_ok in H. destruct H as (slots & st1' & Hslots & H).
  unfold lift in Hslots. injection Hslots as _ <-.
  apply bind_ok in H. destruct H as (out & st2 & Hp & H).
  inversion H; subst. cbn [agg_no_data_days].
  pose proof (keeps_roster_cache_get_team_names w (espn_league_id league) st) as Hk.
  pose proof (keeps_memo_rosters_get_team_names w (espn_league_id league) st) as Hkm.
  rewrite Hn in Hk, Hkm. cbn [snd] in Hk, Hkm.
  unfold process_range in Hp.
  apply chunks_no_data in Hp.
  - destruct Hp as (extra & He & _ & Hflag). cbn [snd] in He. rewrite He. cbn [app].
    destruct (chunk_of_day _ _ _ Hd) as (c & Hc & Hr).
    rewrite (Hflag c d Hc Hr Hempty). apply empty_roster_is_no_data_spec.
  - apply chunk_starts_from_sorted.
  - intros c _. rewrite Hk. apply Hmiss.
  - intros c _. rewrite Hkm. apply Hmemo.
Qed.

Lemma empty_roster_days_recorded_witness :
  exists a st',
    run_aggregation (Scenario.world_without_rosters (Date.date 2025 7 20))
                    Scenario.league "ERA" (Date.date 2025 7 10) (Date.date 2025 7 17)
                    (Scenario.break_state "ERA") = (Ok a, st') /\
    (In (Date.date 2025 7 12) (agg_no_data_days a) <->
     ~ (In (Date.date 2025 7 12) all_star_break /\ In "ERA"%string pitching_categories))
    /\ snd (fst (results_of (Scenario.world_without_rosters (Date.date 2025 7 20))
                            "ERA" (Date.date 2025 7 17) a))
       = warning_of (agg_no_data_days a).
Proof.
  eexists. eexists. split.
  - apply run_ok. vm_compute. reflexivity.
  - apply (empty_roster_days_recorded
             (Scenario.world_without_rosters (Date.date 2025 7 20)) Scenario.league
             "ERA" (Date.date 2025 7 10) (Date.date 2025 7 17)
             (Scenario.break_state "ERA")
             (snd (run_aggregation (Scenario.world_without_rosters (Date.date 2025 7 20))
                    Scenario.league "ERA" (Date.date 2025 7 10) (Date.date 2025 7 17)
                    (Scenario.break_state "ERA")))).
    + intros lo hi. reflexivity.
    + intros lo hi. reflexivity.
    + apply run_ok. vm_compute. reflexivity.
    + vm_compute. split; intros H; discriminate H.
    + reflexivity.
Defined.

(** C9 as stated fails for a hitting category: with HR, the four days of
    the break, whose rosters could not be fetched, are all in the warning;
    with ERA they are left out. *)
Lemma break_days_reported_for_hitting :
  let w := Scenario.world_without_rosters (Date.date 2025 7 20) in
  let warning (r : result contest_stats * State) :=
    match fst r with
    | Ok out => Some (snd (fst out))
    | Raise _ => None
    end in
  Forall (fun d => In d all_star_break /\
                   espn_roster w 3438 (d - season_start w + 1) = Raise RequestException)
         (days (Date.date 2025 7 14) (Date.date 2025 7 17))
  /\ warning (compute_contest_stats w 2 (Scenario.break_state "HR"))
     = Some ("Warning: No pitching stats found for 4 day(s): "
             ++ "2025-07-14, 2025-07-15, 2025-07-16, 2025-07-17"
             ++ ". Try a different date range.")%string
  /\ warning (compute_contest_stats w 2 (Scenario.break_state "ERA")) = Some ""%string.
Proof.
  cbv zeta. split; [| split].
  - vm_compute.
    repeat (apply List.Forall_cons; [split; [auto 10 | reflexivity] |]).
    apply List.Forall_nil.
  - vm_compute. reflexivity.
  - vm_compute. reflexivity.
Qed.

(** ** C10: the round trip of the innings encoding *)

(** *** Rounding in [SpecFloat] *)

Lemma iter_pos_nat {A : Type} (f : A -> A) (p : positive) (x : A) :
  SpecFloat.iter_pos f p x = Nat.iter (Pos.to_nat p) f x.
Proof.
  revert x. induction p as [p IH | p IH |]; intros x; cbn [SpecFloat.iter_pos].
  - rewrite !IH. rewrite Pos2Nat.inj_xI.
    replace (S (2 * Pos.to_nat p)) with (Pos.to_nat p + (Pos.to_nat p + 1))%nat by lia.
    rewrite !Nat.iter_add. reflexivity.
  - rewrite !IH. rewrite Pos2Nat.inj_xO.
    replace (2 * Pos.to_nat p)%nat with (Pos.to_nat p + Pos.to_nat p)%nat by lia.
    rewrite Nat.iter_add. reflexivity.
  - reflexivity.
Qed.

Lemma shr_1_spec (m : Z) (r s : bool) :
  0 <= m ->
  shr_1 {| shr_m := m; shr_r := r; shr_s := s |} =
  {| shr_m := m / 2; shr_r := Z.odd m; shr_s := r || s |}.
Proof.
  intros Hm. destruct m as [| p | p]; [reflexivity | | lia].
  destruct p as [p | p |]; cbn [shr_1].
  - f_equal. rewrite Pos2Z.inj_xI. symmetry.
    replace (2 * Z.pos p + 1) with (1 + Z.pos p * 2) by lia.
    rewrite Z.div_add by lia. reflexivity.
  - f_equal. rewrite Pos2Z.inj_xO. rewrite Z.mul_comm. symmetry. apply Z.div_mul. lia.
  - reflexivity.
Qed.

Lemma pow2_pred (k : Z) : 1 <= k -> 2 ^ k = 2 ^ (k - 1) * 2.
Proof.
  intros Hk. transitivity (2 ^ ((k - 1) + 1)); [f_equal; lia |].
  rewrite Z.pow_add_r by lia. reflexivity.
Qed.

Lemma shr_iter (n : nat) (m : Z) :
  0 <= m -> (1 <= n)%nat ->
  Nat.iter n shr_1 {| shr_m := m; shr_r := false; shr_s := false |} =
  {| shr_m := m / 2 ^ Z.of_nat n;
     shr_r := Z.odd (m / 2 ^ (Z.of_nat n - 1));
     shr_s := negb (m mod 2 ^ (Z.of_nat n - 1) =? 0) |}.
Proof.
  intros Hm Hn. induction n as [| n IH]; [lia |].
  destruct n as [| n].
  - cbn [Nat.iter]. rewrite shr_1_spec by exact Hm.
    change (Z.of_nat 1) with 1. change (1 - 1) with 0.
    rewrite Z.pow_0_r, Z.pow_1_r, Z.div_1_r, Z.mod_1_r. reflexivity.
  - rewrite Nat.iter_succ. rewrite IH by lia.
    rewrite shr_1_spec by (apply Z.div_pos; lia).
    replace (Z.of_nat (S (S n)) - 1) with (Z.of_nat (S n)) by lia.
    set (k := Z.of_nat (S n)). assert (Hk : 1 <= k) by lia.
    replace (Z.of_nat (S (S n))) with (k + 1) by lia.
    assert (Hp : 2 ^ k = 2 ^ (k - 1) * 2) by (apply pow2_pred; lia).
    assert (Hpos : 0 < 2 ^ (k - 1)) by (apply Z.pow_pos_nonneg; lia).
    f_equal.
    + rewrite Z.pow_add_r by lia. rewrite Z.pow_1_r. rewrite Z.div_div by lia. reflexivity.
    + rewrite Hp. rewrite Z.rem_mul_r by lia.
      rewrite Zmod_odd.
      pose proof (Z.mod_pos_bound m (2 ^ (k - 1)) Hpos) as Hb.
      destruct (Z.odd (m / 2 ^ (k - 1))); cbn [orb].
      * symmetry. apply negb_true_iff, Z.eqb_neq. lia.
      * rewrite Z.mul_0_r, Z.add_0_r. reflexivity.
Qed.

Lemma round_loc_spec (n : Z) (m : Z) :
  0 <= m -> 1 <= n ->
  round_nearest_even (m / 2 ^ n)
    (loc_of_shr_record {| shr_m := m / 2 ^ n;
                          shr_r := Z.odd (m / 2 ^ (n - 1));
                          shr_s := negb (m mod 2 ^ (n - 1) =? 0) |})
  = PyFloat.div_half_even m (2 ^ n).
Proof.
  intros Hm Hn. unfold PyFloat.div_half_even.
  assert (Hp : 2 ^ n = 2 ^ (n - 1) * 2) by (apply pow2_pred; lia).
  assert (Hpos : 0 < 2 ^ (n - 1)) by (apply Z.pow_pos_nonneg; lia).
  pose proof (Z.mod_pos_bound m (2 ^ (n - 1)) Hpos) as Hb.
  assert (Hr : m mod 2 ^ n = m mod 2 ^ (n - 1)
                             + 2 ^ (n - 1) * (if Z.odd (m / 2 ^ (n - 1)) then 1 else 0)).
  { rewrite Hp at 1. rewrite Z.rem_mul_r by lia. rewrite Zmod_odd. reflexivity. }
  rewrite Hr. cbn [loc_of_shr_record].
  destruct (Z.odd (m / 2 ^ (n - 1))); destruct (m mod 2 ^ (n - 1) =? 0) eqn:E;
    cbn [negb round_nearest_even].
  - apply Z.eqb_eq in E. rewrite E.
    replace (2 * (0 + 2 ^ (n - 1) * 1) ?= 2 ^ n) with Eq; [reflexivity |].
    symmetry. apply Z.compare_eq_iff. lia.
  - apply Z.eqb_neq in E.
    replace (2 * (m mod 2 ^ (n - 1) + 2 ^ (n - 1) * 1) ?= 2 ^ n) with Gt; [reflexivity |].
    symmetry. apply Z.compare_gt_iff. lia.
  - apply Z.eqb_eq in E. rewrite E.
    replace (2 * (0 + 2 ^ (n - 1) * 0) ?= 2 ^ n) with Lt; [reflexivity |].
    symmetry. apply Z.compare_lt_iff. lia.
  - apply Z.eqb_neq in E.
    replace (2 * (m mod 2 ^ (n - 1) + 2 ^ (n - 1) * 0) ?= 2 ^ n) with Lt; [reflexivity |].
    symmetry. apply Z.compare_lt_iff. lia.
Qed.

Lemma digits2_pos_size (p : positive) : digits2_pos p = Pos.size p.
Proof. induction p; cbn; congruence. Qed.

Lemma Zdigits2_bounds (m d : Z) :
  1 <= d -> 2 ^ (d - 1) <= m < 2 ^ d -> Zdigits2 m = d.
Proof.
  intros Hd Hm. assert (Hpos : 0 < 2 ^ (d - 1)) by (apply Z.pow_pos_nonneg; lia).
  destruct m as [| p | p]; try lia.
  cbn [Zdigits2]. rewrite digits2_pos_size.
  assert (H : Z.log2 (Z.pos p) = d - 1).
  { apply Z.log2_unique; [lia |]. replace (Z.succ (d - 1)) with d by lia. exact Hm. }
  destruct p; cbn [Z.log2 Pos.size] in *; lia.
Qed.

Lemma div_half_even_bounds (m d : Z) :
  0 < d -> m / d <= PyFloat.div_half_even m d <= m / d + 1.
Proof.
  intros Hd. unfold PyFloat.div_half_even.
  destruct (2 * (m mod d) ?= d); [destruct (Z.even (m / d)) | |]; lia.
Qed.

Lemma fexp_normal (x : Z) : -1074 <= x - 53 -> fexp 53 1024 x = x - 53.
Proof. intros H. unfold fexp, emin. lia. Qed.

Lemma binary_round_aux_exact (m e : Z) :
  2 ^ 52 <= m < 2 ^ 53 -> -1074 <= e <= 971 ->
  binary_round_aux 53 1024 false m e loc_Exact = S754_finite false (Z.to_pos m) e.
Proof.
  intros Hm He.
  assert (Hd : Zdigits2 m = 53) by (apply Zdigits2_bounds; [lia | exact Hm]).
  unfold binary_round_aux, shr_fexp. rewrite Hd.
  rewrite fexp_normal by lia.
  replace (53 + e - 53 - e) with 0 by lia.
  cbn [shr shr_record_of_loc shr_m loc_of_shr_record round_nearest_even].
  rewrite Hd. rewrite fexp_normal by lia.
  replace (53 + e - 53 - e) with 0 by lia.
  cbn [shr shr_record_of_loc shr_m].
  destruct m as [| p | p]; try lia.
  replace (e <=? 1024 - 53) with true by (symmetry; apply Z.leb_le; lia).
  reflexivity.
Qed.

Lemma binary_round_aux_round (m e n : Z) :
  1 <= n -> 2 ^ (52 + n) <= m < 2 ^ (53 + n) ->
  -1074 <= e + n -> e + n + 1 <= 971 ->
  binary_round_aux 53 1024 false m e loc_Exact =
  if PyFloat.div_half_even m (2 ^ n) <? 2 ^ 53
  then S754_finite false (Z.to_pos (PyFloat.div_half_even m (2 ^ n))) (e + n)
  else S754_finite false (Z.to_pos (2 ^ 52)) (e + n + 1).
Proof.
  intros Hn Hm Hlo Hhi.
  assert (Hd : Zdigits2 m = 53 + n) by (apply Zdigits2_bounds; [lia |];
    replace (53 + n - 1) with (52 + n) by lia; exact Hm).
  assert (Hpn : 0 < 2 ^ n) by (apply Z.pow_pos_nonneg; lia).
  assert (Hm0 : 0 <= m).
  { assert (0 < 2 ^ (52 + n)) by (apply Z.pow_pos_nonneg; lia). lia. }
  assert (Hq : 2 ^ 52 <= PyFloat.div_half_even m (2 ^ n) <= 2 ^ 53).
  { pose proof (div_half_even_bounds m (2 ^ n) Hpn) as Hb.
    assert (2 ^ 52 <= m / 2 ^ n).
    { apply Z.div_le_lower_bound; [lia |]. rewrite <- Z.pow_add_r by lia.
      replace (n + 52) with (52 + n) by lia. lia. }
    assert (m / 2 ^ n < 2 ^ 53).
    { apply Z.div_lt_upper_bound; [lia |]. rewrite <- Z.pow_add_r by lia.
      replace (n + 53) with (53 + n) by lia. lia. }
    lia. }
  unfold binary_round_aux, shr_fexp. rewrite Hd.
  rewrite fexp_normal by lia.
  replace (53 + n + e - 53 - e) with n by lia.
  destruct n as [| pn | pn]; try lia.
  cbn [shr shr_record_of_loc].
  rewrite iter_pos_nat. rewrite shr_iter by lia.
  rewrite positive_nat_Z. cbn [shr_m].
  rewrite round_loc_spec by lia.
  set (q := PyFloat.div_half_even m (2 ^ Z.pos pn)) in *.
  destruct (q <? 2 ^ 53) eqn:Hlt.
  - apply Z.ltb_lt in Hlt.
    assert (Hdq : Zdigits2 q = 53) by (apply Zdigits2_bounds; lia).
    rewrite Hdq. rewrite fexp_normal by lia.
    replace (53 + (e + Z.pos pn) - 53 - (e + Z.pos pn)) with 0 by lia.
    cbn [shr shr_record_of_loc shr_m].
    destruct q as [| p | p]; try lia.
    replace (e + Z.pos pn <=? 1024 - 53) with true by (symmetry; apply Z.leb_le; lia).
    reflexivity.
  - apply Z.ltb_ge in Hlt. assert (Hq53 : q = 2 ^ 53) by lia. rewrite Hq53.
    replace (Zdigits2 (2 ^ 53)) with 54 by reflexivity.
    rewrite fexp_normal by lia.
    replace (54 + (e + Z.pos pn) - 53 - (e + Z.pos pn)) with 1 by lia.
    cbn [shr shr_record_of_loc SpecFloat.iter_pos].
    replace (shr_m (shr_1 {| shr_m := 2 ^ 53; shr_r := false; shr_s := false |}))
      with (2 ^ 52) by reflexivity.
    replace (e + Z.pos pn + 1 <=? 1024 - 53) with true by (symmetry; apply Z.leb_le; lia).
    reflexivity.
Qed.

Lemma div_half_even_shift (a c d : Z) :
  0 < d -> Z.even a = true \/ 2 * (c mod d) <> d ->
  PyFloat.div_half_even (a * d + c) d = a + PyFloat.div_half_even c d.
Proof.
  intros Hd Ht. unfold PyFloat.div_half_even.
  rewrite (Z.add_comm (a * d)), Z.div_add by lia. rewrite Z.mod_add by lia.
  destruct (Z.compare_spec (2 * (c mod d)) d) as [E | E | E]; try lia.
  destruct Ht as [Ha | Hne]; [| contradiction].
  rewrite Z.add_comm, Z.even_add, Ha.
  destruct (Z.even (c / d)); cbn; lia.
Qed.

Lemma div_half_even_scale (a d k : Z) :
  0 < d -> 0 < k -> PyFloat.div_half_even (a * k) (d * k) = PyFloat.div_half_even a d.
Proof.
  intros Hd Hk. unfold PyFloat.div_half_even.
  rewrite Z.div_mul_cancel_r by lia. rewrite Z.mul_mod_distr_r by lia.
  destruct (Z.compare_spec (2 * (a mod d)) d);
    destruct (Z.compare_spec (2 * (a mod d * k)) (d * k)); try reflexivity; nia.
Qed.

Lemma pos_iter_xO (p n : positive) : Z.pos (Pos.iter xO p n) = Z.pos p * 2 ^ Z.pos n.
Proof.
  induction n as [| n IH] using Pos.peano_ind.
  - cbn. lia.
  - rewrite Pos.iter_succ. rewrite Pos2Z.inj_xO, IH.
    rewrite Pos2Z.inj_succ. rewrite Z.pow_succ_r by lia. lia.
Qed.

Lemma shl_align_left (mx : positive) (ex ex' : Z) :
  ex' < ex -> shl_align mx ex ex' = (Z.to_pos (Z.pos mx * 2 ^ (ex - ex')), ex').
Proof.
  intros H. unfold shl_align.
  destruct (ex' - ex) as [| d | d] eqn:E; try lia.
  replace (ex - ex') with (Z.pos d) by lia.
  rewrite <- pos_iter_xO. reflexivity.
Qed.

Lemma shl_align_none (mx : positive) (ex ex' : Z) :
  ex <= ex' -> shl_align mx ex ex' = (mx, ex).
Proof.
  intros H. unfold shl_align. destruct (ex' - ex) eqn:E; try lia; reflexivity.
Qed.

Lemma binary_round_wide (p : positive) (e n : Z) :
  0 <= n -> 2 ^ (52 + n) <= Z.pos p < 2 ^ (53 + n) -> -1074 <= e + n ->
  binary_round 53 1024 false p e = binary_round_aux 53 1024 false (Z.pos p) e loc_Exact.
Proof.
  intros Hn Hp He. unfold binary_round.
  assert (Hd : Zdigits2 (Z.pos p) = 53 + n)
    by (apply Zdigits2_bounds; [lia |]; replace (53 + n - 1) with (52 + n) by lia; exact Hp).
  cbn [Zdigits2] in Hd. rewrite Hd. rewrite fexp_normal by lia.
  rewrite shl_align_none by lia. reflexivity.
Qed.

Lemma binary_round_narrow (p : positive) (d : Z) :
  1 <= d <= 53 -> 2 ^ (d - 1) <= Z.pos p < 2 ^ d ->
  binary_round 53 1024 false p 0 =
  S754_finite false (Z.to_pos (Z.pos p * 2 ^ (53 - d))) (d - 53).
Proof.
  intros Hd Hp. unfold binary_round.
  assert (Hdig : Zdigits2 (Z.pos p) = d) by (apply Zdigits2_bounds; lia).
  cbn [Zdigits2] in Hdig. rewrite Hdig. rewrite fexp_normal by lia.
  replace (d + 0 - 53) with (d - 53) by lia.
  assert (Hpow : 2 ^ (d - 1) * 2 ^ (53 - d) = 2 ^ 52)
    by (rewrite <- Z.pow_add_r by lia; f_equal; lia).
  assert (Hpow' : 2 ^ d * 2 ^ (53 - d) = 2 ^ 53)
    by (rewrite <- Z.pow_add_r by lia; f_equal; lia).
  assert (Hs : 0 < 2 ^ (53 - d)) by (apply Z.pow_pos_nonneg; lia).
  assert (Hm : 2 ^ 52 <= Z.pos p * 2 ^ (53 - d) < 2 ^ 53) by nia.
  destruct (Z.eq_dec d 53) as [-> | Hne].
  - rewrite shl_align_none by lia.
    change (2 ^ (53 - 53)) with 1 in *. rewrite Z.mul_1_r in *.
    apply binary_round_aux_exact; lia.
  - rewrite shl_align_left by lia. replace (0 - (d - 53)) with (53 - d) by lia.
    rewrite Z2Pos.id by lia.
    rewrite binary_round_aux_exact by lia. reflexivity.
Qed.

Lemma add_finite (mx my : positive) (ex ey n : Z) :
  ey < ex -> 1 <= n ->
  2 ^ (52 + n) <= Z.pos mx * 2 ^ (ex - ey) + Z.pos my < 2 ^ (53 + n) ->
  -1074 <= ey + n -> ey + n + 1 <= 971 ->
  PyFloat.add (S754_finite false mx ex) (S754_finite false my ey)
  = rounded (Z.pos mx * 2 ^ (ex - ey) + Z.pos my) ey n.
Proof.
  intros Hlt Hn HM Hlo Hhi. unfold PyFloat.add, PyFloat.prec, PyFloat.emax, SFadd.
  rewrite Z.min_r by lia.
  rewrite shl_align_left by lia. rewrite shl_align_none by lia.
  cbn [fst cond_Zopp].
  assert (Hs : 0 < 2 ^ (ex - ey)) by (apply Z.pow_pos_nonneg; lia).
  rewrite Z2Pos.id by nia.
  set (M := Z.pos mx * 2 ^ (ex - ey) + Z.pos my) in *.
  assert (HM0 : 0 < M) by (unfold M; nia).
  destruct M as [| pM | pM] eqn:EM; try lia.
  cbn [binary_normalize].
  rewrite (binary_round_wide pM ey n) by lia.
  apply binary_round_aux_round; assumption.
Qed.

Lemma mul_finite (m1 m2 : positive) (e1 e2 n : Z) :
  1 <= n ->
  2 ^ (52 + n) <= Z.pos m1 * Z.pos m2 < 2 ^ (53 + n) ->
  -1074 <= e1 + e2 + n -> e1 + e2 + n + 1 <= 971 ->
  PyFloat.mul (S754_finite false m1 e1) (S754_finite false m2 e2)
  = rounded (Z.pos m1 * Z.pos m2) (e1 + e2) n.
Proof.
  intros Hn HM Hlo Hhi. unfold PyFloat.mul, PyFloat.prec, PyFloat.emax, SFmul. cbn [xorb].
  rewrite Pos2Z.inj_mul. apply binary_round_aux_round; assumption.
Qed.

(** [round] of a rounded product: the carry does not change the value. *)
Lemma round_rounded (m n t : Z) :
  1 <= n -> 0 <= t ->
  2 ^ (52 + n) <= m < 2 ^ (53 + n) ->
  PyFloat.round (rounded m (- t - n) n)
  = Ok (if t =? 0 then PyFloat.div_half_even m (2 ^ n)
        else PyFloat.div_half_even (PyFloat.div_half_even m (2 ^ n)) (2 ^ t)).
Proof.
  intros Hn Ht Hm. unfold rounded.
  assert (Hpn : 0 < 2 ^ n) by (apply Z.pow_pos_nonneg; lia).
  assert (Hq : 2 ^ 52 <= PyFloat.div_half_even m (2 ^ n) <= 2 ^ 53).
  { pose proof (div_half_even_bounds m (2 ^ n) Hpn) as Hb.
    assert (2 ^ 52 <= m / 2 ^ n).
    { apply Z.div_le_lower_bound; [lia |]. rewrite <- Z.pow_add_r by lia.
      replace (n + 52) with (52 + n) by lia. lia. }
    assert (m / 2 ^ n < 2 ^ 53).
    { apply Z.div_lt_upper_bound; [lia |]. rewrite <- Z.pow_add_r by lia.
      replace (n + 53) with (53 + n) by lia. lia. }
    lia. }
  set (q := PyFloat.div_half_even m (2 ^ n)) in *.
  replace (- t - n + n) with (- t) by lia.
  destruct (q <? 2 ^ 53) eqn:Hlt.
  - cbn [PyFloat.round cond_Zopp]. f_equal. unfold PyFloat.round_half_even.
    rewrite Z2Pos.id by lia.
    destruct t as [| pt | pt]; try lia.
    + change (- 0) with 0. change (2 ^ 0) with 1. rewrite Z.mul_1_r. reflexivity.
    + change (- Z.pos pt) with (Z.neg pt). reflexivity.
  - apply Z.ltb_ge in Hlt. assert (Hq53 : q = 2 ^ 53) by lia.
    cbn [PyFloat.round cond_Zopp]. f_equal. unfold PyFloat.round_half_even.
    rewrite Z2Pos.id by lia. rewrite Hq53.
    destruct (Z.eqb_spec t 0) as [-> | Hne]; [reflexivity |].
    destruct (Z.eq_dec t 1) as [-> | Hne1]; [reflexivity |].
    destruct (- t + 1) as [| pe | pe] eqn:E; try lia.
    replace (Z.pos pe) with (t - 1) by lia.
    rewrite <- (div_half_even_scale (2 ^ 52) (2 ^ (t - 1)) 2).
    + f_equal. rewrite <- pow2_pred by lia. reflexivity.
    + apply Z.pow_pos_nonneg; lia.
    + lia.
Qed.

Lemma binades_ok_true : binades_ok = true.
Proof. vm_compute. reflexivity. Qed.

Lemma binade_ok_at (d f j : Z) :
  1 <= d <= 51 -> 0 <= f <= 2 -> 1 <= j <= 2 -> binade_ok d f j = true.
Proof.
  intros Hd Hf Hj. pose proof binades_ok_true as H. unfold binades_ok in H.
  rewrite forallb_forall in H. specialize (H (Z.to_nat d)).
  rewrite Z2Nat.id in H by lia.
  assert (Hin : In (Z.to_nat d) (seq 1 51)) by (apply in_seq; lia).
  specialize (H Hin). rewrite forallb_forall in H.
  assert (Hinf : In f [0; 1; 2]) by (cbn; lia).
  specialize (H f Hinf). rewrite forallb_forall in H.
  apply H. cbn. lia.
Qed.

Lemma times_three_rounds (w d f : Z) :
  1 <= d <= 51 -> 2 ^ (d - 1) <= w < 2 ^ d -> 0 <= f <= 2 ->
  PyFloat.round
    (PyFloat.mul (S754_finite false (Z.to_pos (w * 2 ^ (53 - d) + frac_part d f)) (d - 53))
                 (PyFloat.of_Z 3))
  = Ok (3 * w + f).
Proof.
  intros Hd Hw Hf.
  set (g := frac_part d f).
  set (m1 := w * 2 ^ (53 - d) + g).
  set (j := if 3 * m1 <? 2 ^ 54 then 1 else 2).
  assert (Hj : 1 <= j <= 2) by (unfold j; destruct (3 * m1 <? 2 ^ 54); lia).
  pose proof (binade_ok_at d f j Hd Hf Hj) as Hok.
  unfold binade_ok in Hok. fold g in Hok. cbv zeta in Hok.
  set (t := 53 - d - j) in *.
  set (h := PyFloat.div_half_even (3 * g) (2 ^ j)) in *.
  apply andb_true_iff in Hok. destruct Hok as [Hok Hfin].
  apply andb_true_iff in Hok. destruct Hok as [Hok Htie].
  apply andb_true_iff in Hok. destruct Hok as [Hg0 Hg1].
  apply Z.leb_le in Hg0. apply Z.ltb_lt in Hg1.
  assert (Ht : 0 <= t) by (unfold t; lia).
  assert (Hpd : 2 ^ (d - 1) * 2 ^ (53 - d) = 2 ^ 52)
    by (rewrite <- Z.pow_add_r by lia; f_equal; lia).
  assert (Hpd' : 2 ^ d * 2 ^ (53 - d) = 2 ^ 53)
    by (rewrite <- Z.pow_add_r by lia; f_equal; lia).
  assert (Hs : 0 < 2 ^ (53 - d)) by (apply Z.pow_pos_nonneg; lia).
  assert (Hm1 : 2 ^ 52 <= m1 < 2 ^ 53) by (unfold m1; nia).
  assert (Hpj : 0 < 2 ^ j) by (apply Z.pow_pos_nonneg; lia).
  assert (Hpt : 0 < 2 ^ t) by (apply Z.pow_pos_nonneg; lia).
  assert (Htj : 2 ^ (53 - d) = 2 ^ t * 2 ^ j)
    by (rewrite <- Z.pow_add_r by lia; f_equal; unfold t; lia).
  change (PyFloat.of_Z 3) with (S754_finite false 6755399441055744 (-51)).
  assert (Hprod : Z.pos (Z.to_pos m1) * 6755399441055744 = 3 * m1 * 2 ^ 51)
    by (rewrite Z2Pos.id by lia; change (2 ^ 51) with 2251799813685248; lia).
  assert (Hbits : 2 ^ (53 + j - 1) <= 3 * m1 < 2 ^ (53 + j)).
  { unfold j. destruct (3 * m1 <? 2 ^ 54) eqn:E.
    - apply Z.ltb_lt in E. change (2 ^ (53 + 1 - 1)) with (2 ^ 53).
      change (2 ^ (53 + 1)) with (2 ^ 54). change (2 ^ 52) with 4503599627370496 in Hm1.
      change (2 ^ 53) with 9007199254740992 in *. lia.
    - apply Z.ltb_ge in E. change (2 ^ (53 + 2 - 1)) with (2 ^ 54).
      change (2 ^ (53 + 2)) with (2 ^ 55). change (2 ^ 53) with 9007199254740992 in Hm1.
      change (2 ^ 55) with 36028797018963968. lia. }
  rewrite (mul_finite _ _ _ _ (51 + j)).
  - rewrite Hprod.
    replace (d - 53 + -51) with (- t - (51 + j)) by (unfold t; lia).
    rewrite round_rounded.
    + f_equal.
      assert (Hq2 : PyFloat.div_half_even (3 * m1 * 2 ^ 51) (2 ^ (51 + j))
                    = 3 * w * 2 ^ t + h).
      { replace (2 ^ (51 + j)) with (2 ^ j * 2 ^ 51)
          by (rewrite <- Z.pow_add_r by lia; f_equal; lia).
        rewrite div_half_even_scale by (try assumption; apply Z.pow_pos_nonneg; lia).
        replace (3 * m1) with (3 * w * 2 ^ t * 2 ^ j + 3 * g) by (unfold m1; nia).
        rewrite div_half_even_shift; [reflexivity | assumption |].
        apply orb_true_iff in Htie. destruct Htie as [Hge | Hno].
        - left. apply Z.leb_le in Hge.
          rewrite (pow2_pred t) by lia.
          rewrite Z.mul_assoc. rewrite Z.even_mul. apply orb_true_r.
        - right. apply negb_true_iff, Z.eqb_neq in Hno. exact Hno. }
      rewrite Hq2.
      destruct (t =? 0) eqn:Et.
      * apply Z.eqb_eq in Et. apply Z.eqb_eq in Hfin. rewrite Et.
        change (2 ^ 0) with 1. lia.
      * apply andb_true_iff in Hfin. destruct Hfin as [Hno Heq].
        apply negb_true_iff, Z.eqb_neq in Hno. apply Z.eqb_eq in Heq.
        rewrite div_half_even_shift; [lia | assumption | right; exact Hno].
    + lia.
    + exact Ht.
    + replace (52 + (51 + j)) with ((53 + j - 1) + 51) by lia.
      replace (53 + (51 + j)) with ((53 + j) + 51) by lia.
      rewrite (Z.pow_add_r 2 (53 + j - 1) 51), (Z.pow_add_r 2 (53 + j) 51) by lia.
      change (2 ^ 51) with 2251799813685248. lia.
  - lia.
  - rewrite Hprod.
    replace (52 + (51 + j)) with ((53 + j - 1) + 51) by lia.
    replace (53 + (51 + j)) with ((53 + j) + 51) by lia.
    rewrite (Z.pow_add_r 2 (53 + j - 1) 51), (Z.pow_add_r 2 (53 + j) 51) by lia.
      change (2 ^ 51) with 2251799813685248. lia.
  - lia.
  - lia.
Qed.

Lemma of_decimal_int (w d : Z) :
  1 <= d <= 53 -> 2 ^ (d - 1) <= w < 2 ^ d ->
  PyFloat.of_decimal false w 0 = S754_finite false (Z.to_pos (w * 2 ^ (53 - d))) (d - 53).
Proof.
  intros Hd Hw.
  assert (Hpos : 0 < 2 ^ (d - 1)) by (apply Z.pow_pos_nonneg; lia).
  destruct w as [| p | p]; try lia.
  unfold PyFloat.of_decimal, PyFloat.prec, PyFloat.emax.
  change (0 <=? 0) with true. cbv iota.
  change (Z.to_pos (10 ^ 0)) with 1%positive. rewrite Pos.mul_1_r.
  apply binary_round_narrow; assumption.
Qed.

Lemma innings_value (w d f : Z) :
  1 <= d <= 51 -> 2 ^ (d - 1) <= w < 2 ^ d -> 0 <= f <= 2 ->
  PyFloat.add (PyFloat.of_decimal false w 0)
              (PyFloat.div (PyFloat.of_decimal false f 0) (PyFloat.of_Z 3))
  = S754_finite false (Z.to_pos (w * 2 ^ (53 - d) + frac_part d f)) (d - 53).
Proof.
  intros Hd Hw Hf.
  rewrite (of_decimal_int w d) by lia.
  assert (Hpd : 2 ^ (d - 1) * 2 ^ (53 - d) = 2 ^ 52)
    by (rewrite <- Z.pow_add_r by lia; f_equal; lia).
  assert (Hpd' : 2 ^ d * 2 ^ (53 - d) = 2 ^ 53)
    by (rewrite <- Z.pow_add_r by lia; f_equal; lia).
  assert (Hs : 0 < 2 ^ (53 - d)) by (apply Z.pow_pos_nonneg; lia).
  assert (Hm : 2 ^ 52 <= w * 2 ^ (53 - d) < 2 ^ 53) by nia.
  pose proof (binade_ok_at d f 1 Hd Hf ltac:(lia)) as Hok.
  unfold binade_ok in Hok. cbv zeta in Hok.
  apply andb_true_iff in Hok. destruct Hok as [Hok _].
  apply andb_true_iff in Hok. destruct Hok as [Hok _].
  apply andb_true_iff in Hok. destruct Hok as [Hg0 Hg1].
  apply Z.leb_le in Hg0. apply Z.ltb_lt in Hg1.
  assert (Hcases : f = 0 \/ f = 1 \/ f = 2) by lia.
  destruct Hcases as [-> | Hf12].
  - change (PyFloat.div (PyFloat.of_decimal false 0 0) (PyFloat.of_Z 3))
      with (S754_zero false).
    change (frac_part d 0) with 0. rewrite Z.add_0_r.
    reflexivity.
  - assert (Hy : PyFloat.div (PyFloat.of_decimal false f 0) (PyFloat.of_Z 3)
                 = S754_finite false (Z.to_pos third) (frac_exponent f))
      by (destruct Hf12 as [-> | ->]; vm_compute; reflexivity).
    rewrite Hy.
    set (ey := frac_exponent f) in *.
    assert (Hey : ey = -54 \/ ey = -53)
      by (unfold ey; destruct Hf12 as [-> | ->]; cbn; auto).
    set (n := d - 53 - ey).
    assert (Hn : 1 <= n) by (unfold n; lia).
    assert (Hpn : 0 < 2 ^ n) by (apply Z.pow_pos_nonneg; lia).
    assert (Hthird : 0 < third < 2 ^ 53) by (unfold third; split; reflexivity).
    assert (Hne : 2 ^ 53 <= 2 ^ (- ey))
      by (apply Z.pow_le_mono_r; lia).
    assert (Hsplit : 2 ^ (53 - d) * 2 ^ n = 2 ^ (- ey))
      by (rewrite <- Z.pow_add_r by lia; f_equal; unfold n; lia).
    assert (HM : Z.pos (Z.to_pos (w * 2 ^ (53 - d))) * 2 ^ (d - 53 - ey)
                 + Z.pos (Z.to_pos third)
                 = w * 2 ^ (53 - d) * 2 ^ n + third).
    { rewrite !Z2Pos.id by lia. reflexivity. }
    rewrite (add_finite _ _ _ _ n).
    + rewrite HM. unfold rounded.
      assert (Hq : PyFloat.div_half_even (w * 2 ^ (53 - d) * 2 ^ n + third) (2 ^ n)
                   = w * 2 ^ (53 - d) + frac_part d f).
      { rewrite div_half_even_shift.
        - unfold frac_part. fold ey. fold n.
          replace (f =? 0) with false by (symmetry; apply Z.eqb_neq; lia).
          reflexivity.
        - exact Hpn.
        - left. rewrite (pow2_pred (53 - d)) by lia.
          rewrite Z.mul_assoc, Z.even_mul. apply orb_true_r. }
      rewrite Hq.
      replace (w * 2 ^ (53 - d) + frac_part d f <? 2 ^ 53) with true
        by (symmetry; apply Z.ltb_lt; nia).
      f_equal. unfold n. lia.
    + lia.
    + exact Hn.
    + rewrite HM.
      replace (52 + n) with ((d - 1) + - ey) by (unfold n; lia).
      replace (53 + n) with (d + - ey) by (unfold n; lia).
      rewrite (Z.pow_add_r 2 (d - 1) (- ey)), (Z.pow_add_r 2 d (- ey)) by lia.
      rewrite <- Z.mul_assoc, Hsplit. nia.
    + unfold n. lia.
    + unfold n. lia.
Qed.

Lemma innings_round_trip_value (w f : Z) :
  1 <= w < 2 ^ 51 -> 0 <= f <= 2 ->
  PyFloat.round
    (PyFloat.mul
       (PyFloat.add (PyFloat.of_decimal false w 0)
                    (PyFloat.div (PyFloat.of_decimal false f 0) (PyFloat.of_Z 3)))
       (PyFloat.of_Z 3))
  = Ok (3 * w + f)
  /\ PyFloat.round (PyFloat.mul (PyFloat.of_decimal false w 0) (PyFloat.of_Z 3))
     = Ok (3 * w).
Proof.
  intros Hw Hf.
  set (d := Z.log2 w + 1).
  assert (Hlog : 2 ^ (d - 1) <= w < 2 ^ d).
  { unfold d. replace (Z.log2 w + 1 - 1) with (Z.log2 w) by lia.
    pose proof (Z.log2_spec w ltac:(lia)) as H. unfold Z.succ in H. exact H. }
  assert (Hd : 1 <= d <= 51).
  { unfold d. pose proof (Z.log2_nonneg w).
    assert (Z.log2 w < 51) by (apply Z.log2_lt_pow2; lia). lia. }
  split.
  - rewrite (innings_value w d f) by assumption.
    apply times_three_rounds; assumption.
  - rewrite (of_decimal_int w d) by lia.
    pose proof (times_three_rounds w d 0 Hd Hlog ltac:(lia)) as H.
    change (frac_part d 0) with 0 in H. rewrite !Z.add_0_r in H. exact H.
Qed.

(** *** Strings of digits *)

Lemma digit_char_spec (k : Z) :
  0 <= k <= 9 ->
  PyStr.is_digit (PyStr.digit_char k) = true /\ PyStr.digit_val (PyStr.digit_char k) = k.
Proof.
  intros Hk.
  assert (H : k = 0 \/ k = 1 \/ k = 2 \/ k = 3 \/ k = 4 \/ k = 5 \/ k = 6 \/ k = 7
              \/ k = 8 \/ k = 9) by lia.
  repeat (destruct H as [-> | H]; [split; reflexivity |]). subst k. split; reflexivity.
Qed.

Lemma digit_not_special (c : ascii) :
  PyStr.is_digit c = true ->
  Ascii.eqb c "." = false /\ Ascii.eqb c "_" = false /\ PyStr.is_space c = false
  /\ PyStr.parse_sign [c] = (false, [c]).
Proof.
  destruct c as [[] [] [] [] [] [] [] []]; vm_compute; intros H;
    try discriminate H; repeat split.
Qed.

Lemma parse_sign_digit (c : ascii) (r : list ascii) :
  PyStr.is_digit c = true -> PyStr.parse_sign (c :: r) = (false, c :: r).
Proof.
  destruct c as [[] [] [] [] [] [] [] []]; vm_compute; intros H;
    try discriminate H; reflexivity.
Qed.

Lemma fold_digits_app (l1 l2 : list ascii) (a : Z) :
  fold_left (fun acc c => 10 * acc + PyStr.digit_val c) (l1 ++ l2) a
  = fold_left (fun acc c => 10 * acc + PyStr.digit_val c) l2
              (fold_left (fun acc c => 10 * acc + PyStr.digit_val c) l1 a).
Proof. apply fold_left_app. Qed.

Lemma digits_from_spec (fuel : nat) :
  forall (n : Z) (acc : list ascii),
    (1 <= fuel)%nat -> 0 <= n < 2 ^ Z.of_nat fuel ->
    exists X,
      PyStr.digits_from fuel n acc = X ++ acc /\ X <> [] /\ all_digits X /\
      forall a, fold_left (fun acc c => 10 * acc + PyStr.digit_val c) X a
                = a * 10 ^ Z.of_nat (length X) + n.
Proof.
  induction fuel as [| fuel IH]; intros n acc Hf Hn; [lia |].
  cbn [PyStr.digits_from].
  assert (Hmod : 0 <= n mod 10 <= 9) by (pose proof (Z.mod_pos_bound n 10); lia).
  destruct (digit_char_spec (n mod 10) Hmod) as [Hd Hv].
  destruct (n <? 10) eqn:E.
  - apply Z.ltb_lt in E. exists [PyStr.digit_char (n mod 10)].
    split; [reflexivity |]. split; [discriminate |]. split.
    + constructor; [exact Hd | constructor].
    + intros a. cbn. rewrite Hv. rewrite Z.mod_small by lia. lia.
  - apply Z.ltb_ge in E.
    assert (Hfuel : (1 <= fuel)%nat).
    { destruct fuel; [| lia]. exfalso.
      assert (H2 : 2 ^ Z.of_nat 1 = 2) by reflexivity. rewrite H2 in Hn. lia. }
    assert (Hdiv : 0 <= n / 10 < 2 ^ Z.of_nat fuel).
    { split; [apply Z.div_pos; lia |].
      rewrite Nat2Z.inj_succ, Z.pow_succ_r in Hn by lia.
      apply Z.div_lt_upper_bound; lia. }
    destruct (IH (n / 10) (PyStr.digit_char (n mod 10) :: acc) Hfuel Hdiv)
      as (X & HX & Hne & Hall & Hfold).
    exists (X ++ [PyStr.digit_char (n mod 10)]).
    split; [rewrite HX, <- app_assoc; reflexivity |].
    split; [destruct X; discriminate |].
    split.
    + apply Forall_app. split; [exact Hall | constructor; [exact Hd | constructor]].
    + intros a. rewrite fold_digits_app, Hfold. cbn [fold_left]. rewrite Hv.
      rewrite length_app. cbn [length]. rewrite Nat2Z.inj_add.
      rewrite Z.pow_add_r by lia.
      assert (H10 : 10 ^ Z.of_nat 1 = 10) by reflexivity. rewrite H10.
      pose proof (Z.div_mod n 10 ltac:(lia)). lia.
Qed.

Lemma digits_of_spec (n : Z) :
  0 <= n ->
  PyStr.digits_of n <> [] /\ all_digits (PyStr.digits_of n)
  /\ PyStr.Z_of_digits (PyStr.digits_of n) = n.
Proof.
  intros Hn. unfold PyStr.digits_of.
  assert (Hb : 0 <= n < 2 ^ Z.of_nat (S (Z.to_nat (Z.log2 n)))).
  { split; [exact Hn |]. rewrite Nat2Z.inj_succ, Z2Nat.id by apply Z.log2_nonneg.
    destruct (Z.eq_dec n 0) as [-> | Hne]; [reflexivity |].
    apply Z.log2_spec. lia. }
  destruct (digits_from_spec (S (Z.to_nat (Z.log2 n))) n [] ltac:(lia) Hb)
    as (X & HX & Hne & Hall & Hfold).
  rewrite HX, app_nil_r. split; [exact Hne |]. split; [exact Hall |].
  unfold PyStr.Z_of_digits. rewrite Hfold. lia.
Qed.

Lemma chars_of_chars (l : list ascii) : PyStr.chars (PyStr.of_chars l) = l.
Proof. apply list_ascii_of_string_of_list_ascii. Qed.

Lemma of_chars_app (l1 l2 : list ascii) :
  PyStr.of_chars (l1 ++ l2) = (PyStr.of_chars l1 ++ PyStr.of_chars l2)%string.
Proof.
  unfold PyStr.of_chars. induction l1 as [| c l1 IH]; cbn; [reflexivity |].
  rewrite IH. reflexivity.
Qed.

Lemma of_int_nonneg (n : Z) : 0 <= n -> PyStr.of_int n = PyStr.of_chars (PyStr.digits_of n).
Proof.
  intros Hn. unfold PyStr.of_int.
  replace (n <? 0) with false by (symmetry; apply Z.ltb_ge; lia). reflexivity.
Qed.

Lemma span_all_digits (ds : list ascii) :
  all_digits ds -> PyStr.span_digits ds = (ds, []).
Proof.
  induction 1 as [| c ds Hc _ IH]; cbn [PyStr.span_digits]; [reflexivity |].
  rewrite Hc, IH. reflexivity.
Qed.

Lemma strip_underscores_digits (ds : list ascii) :
  all_digits ds ->
  forall prev, (ds = [] -> prev <> Some "_"%char) ->
               PyStr.strip_underscores prev ds = Some ds.
Proof.
  induction 1 as [| c ds Hc Hds IH]; intros prev Hp; cbn [PyStr.strip_underscores].
  - destruct prev as [p |]; [| reflexivity].
    destruct (Ascii.eqb_spec p "_") as [-> | Hne].
    + exfalso. apply (Hp eq_refl). reflexivity.
    + destruct p as [[] [] [] [] [] [] [] []]; try reflexivity. contradiction.
  - destruct (digit_not_special c Hc) as (_ & Hu & _ & _). rewrite Hu.
    assert (Hbad : match prev with
                   | Some "_"%char => negb (PyStr.is_digit c)
                   | _ => false
                   end = false).
    { rewrite Hc. cbn [negb].
      destruct prev as [[[] [] [] [] [] [] [] []] |]; reflexivity. }
    rewrite Hbad. rewrite IH; [reflexivity |].
    intros _ E. inversion E; subst. rewrite Hc in *.
    vm_compute in Hc. discriminate Hc.
Qed.

Lemma lstrip_digit (c : ascii) (l : list ascii) :
  PyStr.is_digit c = true -> PyStr.lstrip (c :: l) = c :: l.
Proof.
  intros Hc. destruct (digit_not_special c Hc) as (_ & _ & Hs & _).
  cbn [PyStr.lstrip]. rewrite Hs. reflexivity.
Qed.

Lemma strip_digits (ds : list ascii) :
  all_digits ds -> PyStr.rstrip (PyStr.lstrip ds) = ds.
Proof.
  intros H. destruct H as [| c ds Hc Hds]; [reflexivity |].
  rewrite lstrip_digit by exact Hc. unfold PyStr.rstrip.
  assert (Hall : all_digits (rev (c :: ds))).
  { apply Forall_rev. constructor; assumption. }
  destruct (rev (c :: ds)) as [| x r] eqn:E.
  - apply (f_equal (@length _)) in E. rewrite length_rev in E. discriminate E.
  - inversion Hall; subst. rewrite lstrip_digit by assumption.
    rewrite <- E. apply rev_involutive.
Qed.

Lemma strtod_digits (ds : list ascii) :
  ds <> [] -> all_digits ds ->
  PyStr.strtod ds = Some (PyFloat.of_decimal false (PyStr.Z_of_digits ds) 0, []).
Proof.
  intros Hne Hall. unfold PyStr.strtod.
  destruct ds as [| c r]; [contradiction |].
  inversion Hall as [| ? ? Hc Hr]; subst.
  rewrite (parse_sign_digit c r Hc).
  rewrite (span_all_digits (c :: r) Hall).
  rewrite app_nil_r. reflexivity.
Qed.

Lemma to_float_digits (ds : list ascii) :
  ds <> [] -> all_digits ds ->
  PyStr.to_float (PyStr.of_chars ds)
  = Ok (PyFloat.of_decimal false (PyStr.Z_of_digits ds) 0).
Proof.
  intros Hne Hall. unfold PyStr.to_float. rewrite chars_of_chars.
  rewrite (strip_underscores_digits ds Hall None) by (intros; discriminate).
  rewrite (strip_digits ds Hall).
  destruct ds as [| c r] eqn:E; [contradiction |]. rewrite <- E in *.
  rewrite (strtod_digits ds Hne Hall). rewrite E. reflexivity.
Qed.

Lemma no_dot_in_digits (ds : list ascii) :
  all_digits ds -> existsb (Ascii.eqb ".") ds = false.
Proof.
  induction 1 as [| c ds Hc _ IH]; cbn [existsb]; [reflexivity |].
  destruct (digit_not_special c Hc) as (Hd & _).
  rewrite Ascii.eqb_sym, Hd, IH. reflexivity.
Qed.

Lemma split_digits (ds : list ascii) :
  all_digits ds -> PyStr.split_chars "." ds = [ds].
Proof.
  induction 1 as [| c ds Hc _ IH]; cbn [PyStr.split_chars]; [reflexivity |].
  destruct (digit_not_special c Hc) as (Hd & _). rewrite Hd, IH. reflexivity.
Qed.

Lemma split_dotted (ds fs : list ascii) :
  all_digits ds -> all_digits fs ->
  PyStr.split_chars "." (ds ++ "."%char :: fs) = [ds; fs].
Proof.
  intros Hds Hfs. induction Hds as [| c ds Hc _ IH]; cbn [app PyStr.split_chars].
  - rewrite Ascii.eqb_refl. rewrite (split_digits fs Hfs). reflexivity.
  - destruct (digit_not_special c Hc) as (Hd & _). rewrite Hd, IH. reflexivity.
Qed.

Lemma parse_ip_dotted (ds fs : list ascii) :
  ds <> [] -> all_digits ds -> fs <> [] -> all_digits fs ->
  parse_ip (PyStr.of_chars ds ++ "." ++ PyStr.of_chars fs)
  = PyFloat.add (PyFloat.of_decimal false (PyStr.Z_of_digits ds) 0)
                (PyFloat.div (PyFloat.of_decimal false (PyStr.Z_of_digits fs) 0)
                             (PyFloat.of_Z 3)).
Proof.
  intros Hd1 Hd2 Hf1 Hf2.
  assert (E : (PyStr.of_chars ds ++ "." ++ PyStr.of_chars fs)%string
              = PyStr.of_chars (ds ++ "."%char :: fs)).
  { rewrite of_chars_app. reflexivity. }
  rewrite E. unfold parse_ip, parse_ip_try.
  unfold PyStr.contains_char, PyStr.split. rewrite chars_of_chars.
  rewrite existsb_app. cbn [existsb]. rewrite Ascii.eqb_refl.
  rewrite orb_true_r. cbn [orb negb].
  rewrite (split_dotted ds fs Hd2 Hf2). cbn [map].
  rewrite (to_float_digits ds Hd1 Hd2), (to_float_digits fs Hf1 Hf2).
  reflexivity.
Qed.

Lemma parse_ip_plain (ds : list ascii) :
  ds <> [] -> all_digits ds ->
  parse_ip (PyStr.of_chars ds) = PyFloat.of_decimal false (PyStr.Z_of_digits ds) 0.
Proof.
  intros Hd1 Hd2. unfold parse_ip, parse_ip_try, PyStr.contains_char.
  rewrite chars_of_chars, (no_dot_in_digits ds Hd2). cbn [negb].
  rewrite (to_float_digits ds Hd1 Hd2). reflexivity.
Qed.

(** C10 (as amended). For every natural number [w] below 2^51 and every
    [f] among 0, 1, 2, formatting the parsed innings gives the text back:
    w.f is read and printed as w.f, and w alone as w.0. *)
Theorem innings_round_trip (w f : Z) :
  0 <= w < 2 ^ 51 -> 0 <= f <= 2 ->
  format_stat (parse_ip (PyStr.of_int w ++ "." ++ PyStr.of_int f)) "INNINGS PITCHED"
  = Ok (PyStr.of_int w ++ "." ++ PyStr.of_int f)%string
  /\ format_stat (parse_ip (PyStr.of_int w)) "INNINGS PITCHED"
     = Ok (PyStr.of_int w ++ ".0")%string.
Proof.
  intros Hw Hf.
  assert (Hcases : f = 0 \/ f = 1 \/ f = 2) by lia.
  destruct (Z.eq_dec w 0) as [-> | Hw0].
  - split; [destruct Hcases as [-> | [-> | ->]] |]; vm_compute; reflexivity.
  - destruct (digits_of_spec w ltac:(lia)) as (Hw1 & Hw2 & Hw3).
    destruct (digits_of_spec f ltac:(lia)) as (Hf1 & Hf2 & Hf3).
    destruct (innings_round_trip_value w f ltac:(lia) Hf) as [Hv Hv0].
    rewrite !of_int_nonneg by lia.
    rewrite (parse_ip_dotted _ _ Hw1 Hw2 Hf1 Hf2), (parse_ip_plain _ Hw1 Hw2).
    rewrite Hw3, Hf3.
    unfold format_stat.
    change (in_list "INNINGS PITCHED" ratio_categories) with false.
    change ("INNINGS PITCHED" =? "INNINGS PITCHED")%string with true. cbv iota.
    rewrite Hv, Hv0. cbn [rbind].
    assert (Hq : (3 * w + f) / 3 = w) by (symmetry; apply (Z.div_unique _ 3 w f); lia).
    assert (Hr : (3 * w + f) mod 3 = f) by (symmetry; apply (Z.mod_unique _ 3 w f); lia).
    assert (Hq0 : (3 * w) / 3 = w) by (symmetry; apply (Z.div_unique _ 3 w 0); lia).
    assert (Hr0 : (3 * w) mod 3 = 0) by (symmetry; apply (Z.mod_unique _ 3 w 0); lia).
    rewrite Hq, Hr, Hq0, Hr0. rewrite !of_int_nonneg by lia.
    split; reflexivity.
Qed.

Lemma innings_round_trip_witness :
  format_stat (parse_ip (PyStr.of_int 6 ++ "." ++ PyStr.of_int 2)) "INNINGS PITCHED"
  = Ok (PyStr.of_int 6 ++ "." ++ PyStr.of_int 2)%string
  /\ format_stat (parse_ip (PyStr.of_int 6)) "INNINGS PITCHED"
     = Ok (PyStr.of_int 6 ++ ".0")%string.
Proof.
  apply (innings_round_trip 6 2).
  - split; [lia | reflexivity].
  - lia.
Defined.

(** C10 as stated fails from 2^51 on, where a float has no bit left
    for thirds: 2251799813685248.1 is printed as 2251799813685248.2. *)
Lemma innings_round_trip_fails_at_2_51 :
  PyStr.of_int 2251799813685248 = "2251799813685248"%string
  /\ PyStr.of_int 1 = "1"%string
  /\ format_stat (parse_ip "2251799813685248.1") "INNINGS PITCHED"
     = Ok "2251799813685248.2"%string.
Proof.
  vm_compute. repeat split; reflexivity.
Qed.

(** * Properties of the engine's parts and of the pages *)

(** ** The active pitcher slots *)

Lemma as_slot_range (v : json) (slot : Z) :
  as_slot v = Some slot -> In slot [13; 14; 15].
Proof.
  destruct v; cbn [as_slot]; try discriminate.
  - destruct (in_Zs n [13; 14; 15]) eqn:E; [| discriminate].
    intros H. injection H as <-. apply in_Zs_In. exact E.
  - intros H. apply find_some in H. apply H.
Qed.

Lemma omap_as_slot_range (loaded : list json) :
  Forall (fun slot => In slot [13; 14; 15]) (omap as_slot loaded).
Proof.
  induction loaded as [| v loaded IH]; cbn [omap list_omap]; [constructor |].
  destruct (as_slot v) as [slot |] eqn:E; [| exact IH].
  constructor; [apply (as_slot_range v slot E) | exact IH].
Qed.

Lemma omap_as_slot_ints (stored : list Z) :
  omap as_slot (map JInt stored)
  = List.filter (fun slot => in_Zs slot [13; 14; 15]) stored.
Proof.
  induction stored as [| n stored IH]; [reflexivity |].
  cbn [map omap list_omap List.filter as_slot].
  destruct (in_Zs n [13; 14; 15]); cbn [omap list_omap] in *; rewrite IH; reflexivity.
Qed.

Lemma pitcher_slots_range (league : League) (slots : list Z) :
  pitcher_slots league = Ok slots ->
  slots <> [] /\ Forall (fun slot => In slot [13; 14; 15]) slots.
Proof.
  unfold pitcher_slots.
  destruct (match active_pitcher_slots league with
            | Some v => json_iter v
            | None => Ok (map JInt default_pitcher_slots)
            end) as [loaded | e]; cbn [rbind]; [| discriminate].
  pose proof (omap_as_slot_range loaded) as Hf.
  destruct (omap as_slot loaded) as [| slot rest]; intros H; injection H as <-.
  - split; [discriminate |]. unfold default_pitcher_slots.
    repeat (apply List.Forall_cons; [cbn; auto |]). apply List.Forall_nil.
  - split; [discriminate | exact Hf].
Qed.

(** X1. Whatever the league row holds in its column of pitcher slots,
    the slots read from it are never empty and are all among 13, 14 and 15.
    Reading raises exactly when the column holds JSON that is not iterable
    (a number, true, false or null), and then [TypeError]; an empty column
    and a text that is not JSON give the default slots. When the column
    holds a list of integers with one of 13, 14, 15 among them, the slots
    are the valid ones of the list, in their order. *)
Theorem pitcher_slots_valid (league : League) :
  (forall slots,
      pitcher_slots league = Ok slots ->
      slots <> [] /\ Forall (fun slot => In slot [13; 14; 15]) slots)
  /\ (forall e,
        pitcher_slots league = Raise e <->
        e = TypeError
        /\ exists v, active_pitcher_slots league = Some v
                     /\ match v with
                        | JNull | JBool _ | JInt _ | JFloat _ => True
                        | JStr _ | JList _ | JObject _ => False
                        end)
  /\ (active_pitcher_slots league = None ->
      pitcher_slots league = Ok default_pitcher_slots)
  /\ (forall stored,
        active_pitcher_slots league = Some (JList (map JInt stored)) ->
        (exists slot, In slot stored /\ In slot [13; 14; 15]) ->
        pitcher_slots league
        = Ok (List.filter (fun slot => in_Zs slot [13; 14; 15]) stored)).
Proof.
  split; [| split; [| split]].
  - apply pitcher_slots_range.
  - intros e. unfold pitcher_slots.
    destruct (active_pitcher_slots league) as [v |]; cbn [rbind].
    + destruct v as [| b | n | x | s0 | items | members]; cbn [json_iter rbind].
      1, 2, 3, 4:
        split;
        [intros H; injection H as <-; split;
         [reflexivity | eexists; split; [reflexivity | exact I]]
        | intros [-> _]; reflexivity].
      all: split;
        [destruct (omap as_slot _); discriminate
        | intros (_ & v & Hv & Hscalar); injection Hv as <-; destruct Hscalar].
    + split; [discriminate | intros (_ & v & Hv & _); discriminate Hv].
  - intros Hnone. unfold pitcher_slots. rewrite Hnone. reflexivity.
  - intros stored Hs (slot & Hin & Hv). unfold pitcher_slots. rewrite Hs.
    cbn [json_iter rbind]. rewrite omap_as_slot_ints.
    destruct (List.filter _ stored) eqn:E; [| reflexivity].
    assert (Hx : In slot (List.filter (fun slot => in_Zs slot [13; 14; 15]) stored)).
    { apply List.filter_In. split; [exact Hin | apply in_Zs_In; exact Hv]. }
    rewrite E in Hx. destruct Hx.
Qed.

(** ** Insertion-ordered dictionaries *)

Section ODictFacts.
Context {K V : Type} `{EqDecision K}.
Implicit Types (d : odict K V) (k : K) (v : V).

Lemma od_get_set_same k v d : od_get k (od_set k v d) = Some v.
Proof.
  induction d as [| [k' v'] d IH]; cbn.
  - destruct (decide (k = k)); [reflexivity | contradiction].
  - destruct (decide (k = k')) as [-> | Hne]; cbn.
    + destruct (decide (k' = k')); [reflexivity | contradiction].
    + destruct (decide (k = k')); [contradiction | exact IH].
Qed.

Lemma od_get_set_other k k' v d : k <> k' -> od_get k' (od_set k v d) = od_get k' d.
Proof.
  intros Hne. induction d as [| [k0 v0] d IH]; cbn.
  - destruct (decide (k' = k)); [congruence | reflexivity].
  - destruct (decide (k = k0)) as [-> | Hk]; cbn.
    + destruct (decide (k' = k0)); [congruence | reflexivity].
    + destruct (decide (k' = k0)); [reflexivity | exact IH].
Qed.

Lemma od_get_keys k d : od_get k d = None <-> ~ In k (od_keys d).
Proof.
  induction d as [| [k' v'] d IH]; cbn.
  - tauto.
  - destruct (decide (k = k')) as [-> | Hne].
    + split; [discriminate | intros Hn; exfalso; apply Hn; auto].
    + rewrite IH. split.
      * intros Hn [Heq | Hin]; [congruence | auto].
      * intros Hn Hin. apply Hn. auto.
Qed.

Lemma od_get_In k v d : od_get k d = Some v -> In (k, v) d.
Proof.
  induction d as [| [k' v'] d IH]; cbn; [discriminate |].
  destruct (decide (k = k')) as [-> | Hne].
  - intros [= ->]. auto.
  - auto.
Qed.

(** Assigning to a key that is present keeps the keys and their order;
    a new key goes to the end. *)
Lemma od_keys_set k v d :
  od_keys (od_set k v d) =
  match od_get k d with
  | Some _ => od_keys d
  | None => od_keys d ++ [k]
  end.
Proof.
  induction d as [| [k' v'] d IH]; cbn; [reflexivity |].
  destruct (decide (k = k')) as [-> | Hne]; cbn; [reflexivity |].
  unfold od_keys in IH. rewrite IH. destruct (od_get k d); reflexivity.
Qed.

Lemma od_keys_set_In k k' v d :
  In k' (od_keys (od_set k v d)) <-> k' = k \/ In k' (od_keys d).
Proof.
  rewrite od_keys_set. destruct (od_get k d) as [v0 |] eqn:Hg.
  - split; [auto |]. intros [-> | Hin]; [| exact Hin].
    apply od_get_In in Hg. apply (in_map fst) in Hg. exact Hg.
  - rewrite in_app_iff. cbn. split.
    + intros [Hin | [-> | []]]; auto.
    + intros [-> | Hin]; auto.
Qed.

Lemma od_keys_set_NoDup k v d :
  List.NoDup (od_keys d) -> List.NoDup (od_keys (od_set k v d)).
Proof.
  intros Hd. rewrite od_keys_set. destruct (od_get k d) eqn:Hg; [exact Hd |].
  apply od_get_keys in Hg.
  apply List.NoDup_app; [exact Hd | repeat constructor; intros [] |].
  intros x Hx [<- | []]. contradiction.
Qed.

End ODictFacts.

(** ** The started players *)

(** X2. Whatever slots the league row holds, a started player has a
    name, comes from an entry of the team's roster, and stands in a batting
    slot (at most 12) for a hitting category or in one of the pitcher slots
    13, 14, 15 for a pitching category: nobody on the bench (slot 16) or on
    the injured list (slot 17) is started. *)
Theorem started_players_are_active (stat_category : string) (league : League)
    (slots : list Z) (entries : list entry)
    (player_id : Z) (player_name : string) (slot : Z) :
  pitcher_slots league = Ok slots ->
  In (player_id, player_name, slot) (started_of stat_category slots entries) ->
  player_name <> ""%string
  /\ (exists e, In e entries /\ playerId e = player_id
                /\ fullName e = Some player_name /\ lineupSlotId e = slot)
  /\ ((In stat_category hitting_categories /\ slot <= 12)
      \/ (In stat_category pitching_categories /\ In slot [13; 14; 15]))
  /\ slot <> 16 /\ slot <> 17.
Proof.
  unfold started_of. intros Hslots H. apply in_flat_map in H. destruct H as (e & He & H).
  destruct (fullName e) as [[| c r] |] eqn:Hn; cbn [nonempty] in H; try destruct H.
  assert (Hcases :
    (In stat_category hitting_categories /\ lineupSlotId e <= 12
     \/ In stat_category pitching_categories /\ In (lineupSlotId e) [13; 14; 15])
    /\ (player_id, player_name, slot) = (playerId e, String c r, lineupSlotId e)).
  { destruct (in_list stat_category hitting_categories) eqn:Hh.
    - destruct (lineupSlotId e <=? 12) eqn:Hs; [| destruct H].
      destruct H as [H | []]. split; [| auto]. left.
      split; [apply in_list_In; exact Hh | apply Z.leb_le; exact Hs].
    - destruct (in_list stat_category pitching_categories) eqn:Hp; [| destruct H].
      destruct (in_Zs (lineupSlotId e) slots) eqn:Hs; [| destruct H].
      destruct H as [H | []]. split; [| auto]. right.
      split; [apply in_list_In; exact Hp |].
      apply in_Zs_In in Hs.
      destruct (pitcher_slots_range league slots Hslots) as [_ Hv].
      rewrite List.Forall_forall in Hv. apply Hv. exact Hs. }
  destruct Hcases as [Hc Heq]. inversion Heq; subst.
  split; [discriminate |]. split; [exists e; auto |]. split; [exact Hc |].
  destruct Hc as [[_ Hs] | [_ Hs]].
  - lia.
  - cbn in Hs. lia.
Qed.

Lemma fold_rbind_raise {A B : Type} (step : B -> A -> result B) (l : list A) (e : exn) :
  fold_left (fun acc x => rbind acc (fun b => step b x)) l (Raise e) = Raise e.
Proof. induction l as [| x l IH]; cbn; [reflexivity | exact IH]. Qed.

Lemma started_players_fold (stat_category : string) (slots : list Z)
    (team_names : odict Z string) (roster_data : list roster_team) :
  forall started_players : odict Z (list (Z * string * Z)),
    fold_left (fun acc team =>
      rbind acc (fun started_players =>
        match od_get (rt_id team) team_names with
        | None => Raise KeyError
        | Some _ =>
            Ok (od_set (rt_id team)
                       (started_of stat_category slots (rt_entries team))
                       started_players)
        end)) roster_data (Ok started_players)
    = if forallb (fun team => bool_decide (od_get (rt_id team) team_names <> None)) roster_data
      then Ok (fold_left (fun sp team =>
                 od_set (rt_id team) (started_of stat_category slots (rt_entries team)) sp)
               roster_data started_players)
      else Raise KeyError.
Proof.
  induction roster_data as [| team l IH]; intros sp; cbn [fold_left forallb]; [reflexivity |].
  cbn [rbind]. destruct (od_get (rt_id team) team_names) eqn:Hg.
  - rewrite bool_decide_true by discriminate. cbn [andb]. apply IH.
  - rewrite bool_decide_false by (intros Hn; apply Hn; reflexivity). cbn [andb].
    apply (fold_rbind_raise (fun started_players team0 =>
             match od_get (rt_id team0) team_names with
             | None => Raise KeyError
             | Some _ =>
                 Ok (od_set (rt_id team0)
                            (started_of stat_category slots (rt_entries team0))
                            started_players)
             end)).
Qed.

Lemma od_fold_set_other {A K V : Type} `{EqDecision K} (key : A -> K) (val : A -> V)
    (l : list A) (k : K) :
  ~ In k (map key l) ->
  forall d : odict K V,
    od_get k (fold_left (fun d0 x => od_set (key x) (val x) d0) l d) = od_get k d.
Proof.
  induction l as [| x l IH]; intros Hnot d; cbn [fold_left map] in *; [reflexivity |].
  rewrite IH by (intros Hin; apply Hnot; right; exact Hin).
  apply od_get_set_other. intros Heq. apply Hnot. left. exact Heq.
Qed.

Lemma od_fold_set_keys {A K V : Type} `{EqDecision K} (key : A -> K) (val : A -> V)
    (l : list A) :
  forall d : odict K V,
    List.NoDup (od_keys d) ->
    let d' := fold_left (fun d0 x => od_set (key x) (val x) d0) l d in
    List.NoDup (od_keys d')
    /\ (forall k, In k (od_keys d') <-> In k (od_keys d) \/ In k (map key l)).
Proof.
  induction l as [| x l IH]; intros d Hd; cbn [fold_left map].
  - split; [exact Hd |]. intros k. cbn. tauto.
  - destruct (IH (od_set (key x) (val x) d) (od_keys_set_NoDup _ _ _ Hd)) as (Hn & Hk).
    split; [exact Hn |].
    intros k. rewrite Hk, od_keys_set_In. cbn. intuition auto.
Qed.

Lemma od_fold_set_distinct {A K V : Type} `{EqDecision K} (key : A -> K) (val : A -> V)
    (l : list A) :
  List.NoDup (map key l) ->
  forall d : odict K V,
    (forall x, In x l -> od_get (key x) d = None) ->
    let d' := fold_left (fun d0 x => od_set (key x) (val x) d0) l d in
    od_keys d' = od_keys d ++ map key l
    /\ (forall x, In x l -> od_get (key x) d' = Some (val x)).
Proof.
  induction l as [| x l IH]; intros Hl d Hd; cbn [fold_left map].
  - split; [symmetry; apply app_nil_r | intros x []].
  - cbn [map] in Hl. apply List.NoDup_cons_iff in Hl. destruct Hl as [Hx Hl].
    destruct (IH Hl (od_set (key x) (val x) d)) as (Hk & Hg).
    { intros y Hy. rewrite od_get_set_other; [apply Hd; right; exact Hy |].
      intros Heq. apply Hx. rewrite Heq. apply in_map. exact Hy. }
    split.
    + rewrite Hk, od_keys_set, (Hd x) by (left; reflexivity).
      rewrite <- app_assoc. reflexivity.
    + intros y [<- | Hy]; [| apply Hg; exact Hy].
      rewrite od_fold_set_other by exact Hx. apply od_get_set_same.
Qed.

(** X3. The started players of a day are laid out by team: the call
    returns when every team of the day's roster is a team of the league,
    with one entry per team id; when the ids of the roster are distinct, the
    entries stand in the roster's order and each holds the started players
    of its team. A roster team that the league does not list makes the call
    raise [KeyError]. *)
Theorem started_players_of_spec (stat_category : string) (slots : list Z)
    (team_names : odict Z string) (roster_data : list roster_team) :
  (Forall (fun team => od_get (rt_id team) team_names <> None) roster_data ->
   exists started_players,
     started_players_of stat_category slots team_names roster_data = Ok started_players
     /\ List.NoDup (od_keys started_players)
     /\ (forall team_id,
           In team_id (od_keys started_players) <-> In team_id (map rt_id roster_data))
     /\ (List.NoDup (map rt_id roster_data) ->
         od_keys started_players = map rt_id roster_data
         /\ forall team, In team roster_data ->
                         od_get (rt_id team) started_players
                         = Some (started_of stat_category slots (rt_entries team))))
  /\
  (Exists (fun team => od_get (rt_id team) team_names = None) roster_data ->
   started_players_of stat_category slots team_names roster_data = Raise KeyError).
Proof.
  unfold started_players_of. rewrite started_players_fold. split.
  - intros Hall.
    assert (Hb : forallb (fun team => bool_decide (od_get (rt_id team) team_names <> None))
                         roster_data = true).
    { apply forallb_forall. intros team Hin. apply bool_decide_eq_true.
      rewrite List.Forall_forall in Hall. apply Hall. exact Hin. }
    rewrite Hb. eexists. split; [reflexivity |].
    destruct (od_fold_set_keys rt_id
                (fun team => started_of stat_category slots (rt_entries team))
                roster_data [] (List.NoDup_nil _)) as (Hn & Hk).
    split; [exact Hn |]. split.
    + intros team_id. rewrite Hk. cbn. tauto.
    + intros Hd.
      apply (od_fold_set_distinct rt_id
               (fun team => started_of stat_category slots (rt_entries team))
               roster_data Hd []).
      intros; reflexivity.
  - intros Hex. apply List.Exists_exists in Hex. destruct Hex as (team & Hin & Hnone).
    destruct (forallb _ roster_data) eqn:Hb; [| reflexivity].
    rewrite forallb_forall in Hb. specialize (Hb team Hin).
    apply bool_decide_eq_true in Hb. contradiction.
Qed.

(** ** The aggregate of a day *)

Lemma to_float_raises (s : string) (e : exn) :
  PyStr.to_float s = Raise e -> e = ValueError.
Proof.
  unfold PyStr.to_float.
  destruct (PyStr.strip_underscores None (PyStr.chars s)) as [s0 |]; [| congruence].
  destruct (PyStr.rstrip (PyStr.lstrip s0)) as [| c s1]; [congruence |].
  destruct (match PyStr.strtod (c :: s1) with
            | Some r => Some r
            | None => PyStr.parse_inf_or_nan (c :: s1)
            end) as [[x [| c' r]] |]; congruence.
Qed.

Lemma float_of_value_raises (v : stat_value) (e : exn) :
  float_of_value v = Raise e ->
  e = ValueError \/ e = TypeError \/ e = OverflowError.
Proof.
  destruct v as [n | s |]; cbn.
  - unfold PyFloat.of_int. destruct (PyFloat.of_Z n); intros [= <-]; auto.
  - intros H. apply to_float_raises in H. auto.
  - intros [= <-]. auto.
Qed.

Lemma add_stat_cases (a : gmap string spec_float) (key : string) (value : stat_value) :
  add_stat a key value =
  if overflows key value then Raise OverflowError
  else Ok (<[key := added key value (stat_get a key)]> a).
Proof.
  unfold add_stat, overflows, added.
  destruct (String.eqb key "inningsPitched"); cbn [negb andb]; [reflexivity |].
  destruct (float_of_value value) as [x | e] eqn:Hv; [reflexivity |].
  destruct (float_of_value_raises _ _ Hv) as [-> | [-> | ->]]; try reflexivity.
  - destruct (String.eqb key "homeRuns" && str_containing "HR" value); [reflexivity |].
    destruct (String.eqb key "rbi" && str_containing "RBI" value); reflexivity.
  - destruct (String.eqb key "homeRuns" && str_containing "HR" value); [reflexivity |].
    destruct (String.eqb key "rbi" && str_containing "RBI" value); reflexivity.
Qed.

(** The entries of one game, whatever the order in which they are read. *)
Lemma add_entries (l : list (string * stat_value)) :
  forall a : gmap string spec_float,
    fold_left (fun acc kv => rbind acc (fun a0 => add_stat a0 (fst kv) (snd kv))) l (Ok a)
    = if existsb (fun kv => overflows (fst kv) (snd kv)) l then Raise OverflowError
      else Ok (fold_left (fun a0 kv =>
                 <[fst kv := added (fst kv) (snd kv) (stat_get a0 (fst kv))]> a0) l a).
Proof.
  induction l as [| [k v] l IH]; intros a; cbn [fold_left existsb fst snd rbind];
    [reflexivity |].
  rewrite add_stat_cases. destruct (overflows k v); cbn [orb].
  - apply (fold_rbind_raise (fun a0 kv => add_stat a0 (fst kv) (snd kv))).
  - apply IH.
Qed.

Lemma added_entries (l : list (string * stat_value)) :
  NoDup (l.*1) ->
  forall (a : gmap string spec_float) (key : string),
    fold_left (fun a0 kv =>
      <[fst kv := added (fst kv) (snd kv) (stat_get a0 (fst kv))]> a0) l a !! key
    = match list_find (fun kv => fst kv = key) l with
      | Some (_, kv) => Some (added key (snd kv) (stat_get a key))
      | None => a !! key
      end.
Proof.
  induction l as [| [k v] l IH]; intros Hl a key; cbn [fold_left]; [reflexivity |].
  rewrite fmap_cons in Hl. apply NoDup_cons in Hl. destruct Hl as [Hk Hl].
  rewrite (IH Hl). cbn [list_find fst snd]. destruct (decide (k = key)) as [-> | Hne].
  - cbn [fmap option_fmap option_map].
    destruct (list_find (fun kv => kv.1 = key) l) as [[i [k' v']] |] eqn:Hf.
    + exfalso. apply list_find_Some in Hf. destruct Hf as (Hi & Heq & _).
      cbn in Heq. subst k'. apply Hk. apply list_elem_of_fmap.
      exists (key, v'). split; [reflexivity |]. eapply list_elem_of_lookup_2. exact Hi.
    + cbn. apply lookup_insert_eq.
  - cbn. destruct (list_find (fun kv => kv.1 = key) l) as [[i [k' v']] |] eqn:Hf; cbn.
    + unfold stat_get. rewrite lookup_insert_ne by exact Hne. reflexivity.
    + apply lookup_insert_ne. exact Hne.
Qed.

Lemma added_dict (d : gmap string stat_value) (a : gmap string spec_float) (key : string) :
  fold_left (fun a0 kv =>
    <[fst kv := added (fst kv) (snd kv) (stat_get a0 (fst kv))]> a0) (map_to_list d) a !! key
  = match d !! key with
    | Some value => Some (added key value (stat_get a key))
    | None => a !! key
    end.
Proof.
  rewrite added_entries by apply NoDup_fst_map_to_list.
  destruct (list_find (fun kv => kv.1 = key) (map_to_list d)) as [[i [k v]] |] eqn:Hf.
  - apply list_find_Some in Hf. destruct Hf as (Hi & Heq & _). cbn in Heq. subst k.
    apply list_elem_of_lookup_2, elem_of_map_to_list in Hi. rewrite Hi. reflexivity.
  - destruct (d !! key) as [v |] eqn:Hd; [| reflexivity].
    exfalso. apply list_find_None in Hf. rewrite Forall_forall in Hf.
    apply (Hf (key, v)); [apply elem_of_map_to_list; exact Hd | reflexivity].
Qed.

Lemma overflows_dict (d : gmap string stat_value) :
  existsb (fun kv => overflows (fst kv) (snd kv)) (map_to_list d) = true <->
  exists key value, d !! key = Some value /\ overflows key value = true.
Proof.
  rewrite existsb_exists. split.
  - intros ([k v] & Hin & Ho). exists k, v. split; [| exact Ho].
    apply elem_of_map_to_list, list_elem_of_In. exact Hin.
  - intros (k & v & Hd & Ho). exists (k, v). split; [| exact Ho].
    apply list_elem_of_In, elem_of_map_to_list. exact Hd.
Qed.

Lemma overflows_spec (key : string) (value : stat_value) :
  overflows key value = true <->
  key <> "inningsPitched"%string
  /\ exists n, value = SInt n /\ PyFloat.of_int n = Raise OverflowError.
Proof.
  unfold overflows. rewrite andb_true_iff, negb_true_iff, String.eqb_neq.
  split; intros [Hk H]; (split; [exact Hk |]).
  - destruct value as [n | s |]; cbn in H.
    + exists n. split; [reflexivity |].
      destruct (PyFloat.of_int n) as [x | []]; try discriminate H. reflexivity.
    + destruct (PyStr.to_float s) as [x | e] eqn:Hs; [discriminate H |].
      apply to_float_raises in Hs. subst e. discriminate H.
    + discriminate H.
  - destruct H as (n & -> & Hn). cbn. rewrite Hn. reflexivity.
Qed.

Lemma aggregate_from (ds : list (gmap string stat_value)) :
  forall a : gmap string spec_float,
    fold_left (fun acc stat_dict =>
      fold_left (fun acc' kv => rbind acc' (fun a0 => add_stat a0 (fst kv) (snd kv)))
                (map_to_list stat_dict) acc) ds (Ok a)
    = if existsb (fun d => existsb (fun kv => overflows (fst kv) (snd kv)) (map_to_list d)) ds
      then Raise OverflowError
      else Ok (fold_left (fun a0 d =>
                 fold_left (fun a1 kv =>
                   <[fst kv := added (fst kv) (snd kv) (stat_get a1 (fst kv))]> a1)
                   (map_to_list d) a0) ds a).
Proof.
  induction ds as [| d ds IH]; intros a; cbn [fold_left existsb]; [reflexivity |].
  rewrite add_entries.
  destruct (existsb (fun kv => overflows (fst kv) (snd kv)) (map_to_list d)); cbn [orb].
  - clear IH. induction ds as [| d' ds IH]; cbn [fold_left]; [reflexivity |].
    rewrite (fold_rbind_raise (fun a0 kv => add_stat a0 (fst kv) (snd kv))). exact IH.
  - apply IH.
Qed.

Lemma aggregate_values (ds : list (gmap string stat_value)) (key : string) :
  forall a : gmap string spec_float,
    fold_left (fun a0 d =>
      fold_left (fun a1 kv =>
        <[fst kv := added (fst kv) (snd kv) (stat_get a1 (fst kv))]> a1)
        (map_to_list d) a0) ds a !! key
    = fold_left (fun total stat_dict =>
        match stat_dict !! key with
        | Some value => Some (added key value (default PyFloat.zero total))
        | None => total
        end) ds (a !! key).
Proof.
  induction ds as [| d ds IH]; intros a; cbn [fold_left]; [reflexivity |].
  rewrite IH, added_dict. reflexivity.
Qed.

(** X4. The game entries of a day are added up key by key, in the order
    of the entries and whatever the order of the keys inside an entry: when
    no value is an integer too large for a float, the aggregate is defined
    and holds, for each key, the total of that key alone (a doubleheader
    gives the sum of its two games). *)
Theorem aggregate_by_key (daily_stats_list : list (gmap string stat_value)) :
  Forall (fun stat_dict =>
            forall key value, stat_dict !! key = Some value -> overflows key value = false)
         daily_stats_list ->
  exists aggregated_stats,
    aggregate daily_stats_list = Ok aggregated_stats
    /\ forall key, aggregated_stats !! key = day_total key daily_stats_list.
Proof.
  intros Hall. unfold aggregate. rewrite aggregate_from.
  destruct (existsb _ daily_stats_list) eqn:Hex.
  - exfalso. apply existsb_exists in Hex. destruct Hex as (d & Hin & Ho).
    apply overflows_dict in Ho. destruct Ho as (k & v & Hd & Ho).
    rewrite List.Forall_forall in Hall. rewrite (Hall d Hin k v Hd) in Ho. discriminate Ho.
  - eexists. split; [reflexivity |]. intros key.
    rewrite aggregate_values. reflexivity.
Qed.

(** X5. The only exception the aggregate of a day lets through is the
    [OverflowError] of an integer too large for a float, and it is raised
    exactly when some entry holds such an integer under a key other than the
    innings; text that is not a number and null values never raise. *)
Theorem aggregate_raises (daily_stats_list : list (gmap string stat_value)) :
  (forall e, aggregate daily_stats_list = Raise e -> e = OverflowError)
  /\
  (aggregate daily_stats_list = Raise OverflowError <->
   Exists (fun stat_dict =>
             exists key n,
               stat_dict !! key = Some (SInt n)
               /\ key <> "inningsPitched"%string
               /\ PyFloat.of_int n = Raise OverflowError) daily_stats_list).
Proof.
  unfold aggregate. rewrite aggregate_from.
  destruct (existsb _ daily_stats_list) eqn:Hex.
  - split; [intros e [= <-]; reflexivity |]. split; [intros _ | reflexivity].
    apply existsb_exists in Hex. destruct Hex as (d & Hin & Ho).
    apply overflows_dict in Ho. destruct Ho as (k & v & Hd & Ho).
    apply overflows_spec in Ho. destruct Ho as (Hk & n & -> & Hn).
    apply List.Exists_exists. exists d. split; [exact Hin |]. exists k, n. auto.
  - split; [intros e H; discriminate H |]. split; [intros H; discriminate H |].
    intros H. exfalso. apply List.Exists_exists in H.
    destruct H as (d & Hin & k & n & Hd & Hk & Hn).
    assert (Ht : existsb (fun d => existsb (fun kv => overflows (fst kv) (snd kv))
                                           (map_to_list d)) daily_stats_list = true).
    { apply existsb_exists. exists d. split; [exact Hin |].
      apply overflows_dict. exists k, (SInt n). split; [exact Hd |].
      apply overflows_spec. split; [exact Hk |]. exists n. auto. }
    rewrite Ht in Hex. discriminate Hex.
Qed.

(** ** The team accumulators *)

Lemma update_team_ok (team_stats team_stats' : team_stats_t) (team_name : string)
    (f : accum -> result accum) :
  update_team team_stats team_name f = Ok team_stats' ->
  od_keys team_stats' = od_keys team_stats
  /\ (forall other, other <> team_name ->
                    od_get other team_stats' = od_get other team_stats)
  /\ exists a a', od_get team_name team_stats = Some a /\ f a = Ok a'
                  /\ od_get team_name team_stats' = Some a'.
Proof.
  unfold update_team. destruct (od_get team_name team_stats) as [a |] eqn:Hg; [| discriminate].
  destruct (f a) as [a' | e] eqn:Hf; cbn [rbind]; [| discriminate].
  intros [= <-]. split; [| split].
  - rewrite od_keys_set, Hg. reflexivity.
  - intros other Hne. apply od_get_set_other. congruence.
  - exists a, a'. split; [reflexivity |]. split; [exact Hf |]. apply od_get_set_same.
Qed.

Ltac accumulate_branches :=
  repeat match goal with
         | |- context [if ?c then _ else _] => destruct c
         end.

Lemma accumulate_ok (stat_category : string) (slots : list Z) (lineup_slot_id : Z)
    (aggregated_stats : gmap string spec_float) (team_name : string)
    (team_stats team_stats' : team_stats_t) :
  accumulate stat_category slots lineup_slot_id aggregated_stats team_name team_stats
  = Ok team_stats' ->
  od_keys team_stats' = od_keys team_stats
  /\ forall other, other <> team_name ->
                   od_get other team_stats' = od_get other team_stats.
Proof.
  unfold accumulate. accumulate_branches;
    first [ intros [= <-]; split; [reflexivity | intros; reflexivity]
          | intros H; apply update_team_ok in H; destruct H as (Hk & Ho & _); auto ].
Qed.

(** X6. A player-day never breaks the team accumulators: when the team
    has an accumulator of the shape its category starts with, [accumulate]
    returns, whatever the category and the day's numbers; the teams and
    their order are kept, the accumulators of the other teams are left as
    they were, and the team's own keeps its shape. *)
Theorem accumulate_never_raises (stat_category : string) (slots : list Z)
    (lineup_slot_id : Z) (aggregated_stats : gmap string spec_float)
    (team_name : string) (team_stats : team_stats_t) (a : accum) :
  od_get team_name team_stats = Some a ->
  same_kind a (initial_accum stat_category) = true ->
  exists team_stats' a',
    accumulate stat_category slots lineup_slot_id aggregated_stats team_name team_stats
    = Ok team_stats'
    /\ od_keys team_stats' = od_keys team_stats
    /\ (forall other, other <> team_name ->
                      od_get other team_stats' = od_get other team_stats)
    /\ od_get team_name team_stats' = Some a'
    /\ same_kind a' a = true.
Proof.
  intros Hg Hk.
  assert (Hsome : exists team_stats' a',
             accumulate stat_category slots lineup_slot_id aggregated_stats
                        team_name team_stats = Ok team_stats'
             /\ od_get team_name team_stats' = Some a' /\ same_kind a' a = true).
  { unfold accumulate.
    repeat match goal with
           | |- context [String.eqb stat_category ?s] =>
               destruct (String.eqb_spec stat_category s) as [-> | ?]; cbv iota
           end;
    accumulate_branches;
    first [ exists team_stats, a; split; [reflexivity |]; split; [exact Hg |];
            destruct a; reflexivity
          | destruct a as [num den | total]; vm_compute in Hk; try discriminate Hk;
            unfold update_team; rewrite Hg; cbn [add_ratio add_total rbind];
            eexists _, _; split; [reflexivity |];
            split; [apply od_get_set_same | reflexivity] ]. }
  destruct Hsome as (ts' & a' & Hacc & Hg' & Hk').
  exists ts', a'. destruct (accumulate_ok _ _ _ _ _ _ _ Hacc) as [Hkeys Hother].
  auto.
Qed.

Lemma accumulate_never_raises_witness :
  let aggregated_stats : gmap string spec_float :=
    <["earnedRuns"%string := PyFloat.of_Z 2]>
      (<["inningsPitched"%string := PyFloat.of_Z 6]> ∅) in
  let team_stats : team_stats_t :=
    [("A"%string, Ratio PyFloat.zero PyFloat.zero);
     ("B"%string, Ratio PyFloat.zero PyFloat.zero)] in
  exists team_stats' a',
    accumulate "ERA" [13; 14; 15] 14 aggregated_stats "B" team_stats = Ok team_stats'
    /\ od_keys team_stats' = od_keys team_stats
    /\ (forall other, other <> "B"%string ->
                      od_get other team_stats' = od_get other team_stats)
    /\ od_get "B"%string team_stats' = Some a'
    /\ same_kind a' (Ratio PyFloat.zero PyFloat.zero) = true.
Proof.
  intros aggregated_stats team_stats.
  apply (accumulate_never_raises "ERA" [13; 14; 15] 14 aggregated_stats "B" team_stats
                                 (Ratio PyFloat.zero PyFloat.zero));
    reflexivity.
Defined.

Lemma started_players_are_active_witness :
  let league := {| espn_league_id := 1;
                   active_pitcher_slots := Some (JList [JInt 14; JInt 20]) |} in
  let entries := [ {| lineupSlotId := 14; playerId := 7; fullName := Some "Cy"%string |};
                   {| lineupSlotId := 16; playerId := 8; fullName := Some "Di"%string |} ] in
  "Cy"%string <> ""%string
  /\ (exists e, In e entries /\ playerId e = 7
                /\ fullName e = Some "Cy"%string /\ lineupSlotId e = 14)
  /\ ((In "ERA"%string hitting_categories /\ 14 <= 12)
      \/ (In "ERA"%string pitching_categories /\ In 14 [13; 14; 15]))
  /\ 14 <> 16 /\ 14 <> 17.
Proof.
  intros league entries.
  apply (started_players_are_active "ERA" league [14] entries 7 "Cy" 14).
  - reflexivity.
  - vm_compute. left. reflexivity.
Defined.

Lemma aggregate_by_key_witness :
  let daily_stats_list : list (gmap string stat_value) :=
    [ {[ "homeRuns"%string := SInt 1 ]}; {[ "homeRuns"%string := SInt 2 ]} ] in
  exists aggregated_stats,
    aggregate daily_stats_list = Ok aggregated_stats
    /\ forall key, aggregated_stats !! key = day_total key daily_stats_list.
Proof.
  intros daily_stats_list. apply (aggregate_by_key daily_stats_list).
  repeat (apply List.Forall_cons;
          [intros key value H; apply lookup_singleton_Some in H;
           destruct H as [<- <-]; reflexivity |]).
  apply List.Forall_nil.
Defined.

(** ** Loops *)

Lemma ret_ok {A : Type} (a b : A) (st st' : State) :
  ret a st = (Ok b, st') -> b = a /\ st' = st.
Proof. unfold ret. intros [= -> ->]. auto. Qed.

Lemma lift_ok {A : Type} (r : result A) (b : A) (st st' : State) :
  lift r st = (Ok b, st') -> r = Ok b /\ st' = st.
Proof. unfold lift. intros [= -> ->]. auto. Qed.

(** A property of the loop-carried value that every turn keeps holds
    when the loop returns. *)
Lemma for_each_invariant {A B : Type} (P : B -> Prop) (l : list A)
    (body : A -> B -> M B) :
  (forall x b st b' st', In x l -> P b -> body x b st = (Ok b', st') -> P b') ->
  forall b st b' st', P b -> for_each l body b st = (Ok b', st') -> P b'.
Proof.
  induction l as [| x l IH]; intros Hbody b st b' st' Hb H; cbn [for_each] in H.
  - apply ret_ok in H. destruct H as [-> _]. exact Hb.
  - apply bind_ok in H. destruct H as (b1 & st1 & H1 & H2).
    apply (IH (fun y b0 st0 b2 st2 Hy => Hbody y b0 st0 b2 st2 (or_intror Hy))
              b1 st1 b' st'); [| exact H2].
    apply (Hbody x b st b1 st1); auto. left. reflexivity.
Qed.

Lemma process_player_keys (w : World) (stat_category : string) (slots : list Z)
    (group : string) (chunk_date : Z) (team_name : string)
    (player : Z * string * Z) (acc acc' : team_stats_t * bool) (st st' : State) :
  process_player w stat_category slots group chunk_date team_name player acc st
  = (Ok acc', st') ->
  od_keys (fst acc') = od_keys (fst acc).
Proof.
  unfold process_player. destruct player as [[player_id player_name] lineup_slot_id].
  intros H. apply bind_ok in H. destruct H as ([mlb_id |] & st1 & _ & H).
  2: { apply ret_ok in H. destruct H as [-> _]. reflexivity. }
  apply bind_ok in H. destruct H as ([fetched_log |] & st2 & _ & H).
  2: { apply ret_ok in H. destruct H as [-> _]. reflexivity. }
  apply bind_ok in H. destruct H as (st3 & st4 & _ & H).
  destruct (map split_stat _) as [| d ds].
  { apply ret_ok in H. destruct H as [-> _]. reflexivity. }
  apply bind_ok in H. destruct H as (aggregated_stats & st5 & _ & H).
  apply bind_ok in H. destruct H as (team_stats & st6 & Hacc & H).
  apply ret_ok in H. destruct H as [-> _]. apply lift_ok in Hacc. destruct Hacc as [Hacc _].
  apply accumulate_ok in Hacc. cbn [fst]. apply Hacc.
Qed.

Lemma process_day_keys (w : World) (stat_category : string) (slots : list Z)
    (team_names : odict Z string) (rosters : gmap Z (list roster_team))
    (chunk_date : Z) (acc acc' : team_stats_t * list Z) (st st' : State) :
  process_day w stat_category slots team_names rosters chunk_date acc st = (Ok acc', st') ->
  od_keys (fst acc') = od_keys (fst acc).
Proof.
  unfold process_day. destruct acc as [team_stats no_data_days].
  intros H. apply bind_ok in H. destruct H as (u & st1 & _ & H).
  destruct (default [] (rosters !! chunk_date)) as [| t roster_data].
  { apply ret_ok in H. destruct H as [-> _]. reflexivity. }
  apply bind_ok in H. destruct H as (started_players & st2 & _ & H).
  apply bind_ok in H. destruct H as (day & st3 & Hday & H).
  apply ret_ok in H. destruct H as [-> _]. cbn [fst].
  revert Hday.
  apply (for_each_invariant (fun d : team_stats_t * bool => od_keys (fst d) = od_keys team_stats));
    [| reflexivity].
  intros team b s b' s' _ Hb Hteam.
  destruct (od_get (fst team) team_names) as [team_name |]; [| discriminate Hteam].
  rewrite <- Hb. revert Hteam.
  apply (for_each_invariant (fun d : team_stats_t * bool => od_keys (fst d) = od_keys (fst b)));
    [| reflexivity].
  intros player b0 s0 b1 s1 _ Hb0 Hp. apply process_player_keys in Hp. congruence.
Qed.

Lemma process_range_keys (w : World) (league_id : Z) (stat_category : string)
    (slots : list Z) (team_names : odict Z string) (start_date effective_end : Z)
    (acc acc' : team_stats_t * list Z) (st st' : State) :
  process_range w league_id stat_category slots team_names start_date effective_end acc st
  = (Ok acc', st') ->
  od_keys (fst acc') = od_keys (fst acc).
Proof.
  unfold process_range.
  apply (for_each_invariant (fun d : team_stats_t * list Z => od_keys (fst d) = od_keys (fst acc)));
    [| reflexivity].
  intros current b s b' s' _ Hb H.
  apply bind_ok in H. destruct H as (rosters & s1 & _ & H).
  rewrite <- Hb. revert H.
  apply (for_each_invariant (fun d : team_stats_t * list Z => od_keys (fst d) = od_keys (fst b)));
    [| reflexivity].
  intros d b0 s0 b1 s1' _ Hb0 Hd. apply process_day_keys in Hd. congruence.
Qed.

(** ** The teams of the rankings *)

Lemma rankings_of_teams (team_stats : team_stats_t) :
  map fst (rankings_of team_stats) = od_keys team_stats.
Proof. unfold rankings_of, od_keys. rewrite map_map. reflexivity. Qed.

Lemma run_aggregation_ok (w : World) (league : League) (stat_category : string)
    (start_date end_date : Z) (st st' : State) (a : aggregation) :
  run_aggregation w league stat_category start_date end_date st = (Ok a, st') ->
  exists team_names st1,
    get_team_names w (espn_league_id league) st = (Ok team_names, st1)
    /\ od_keys (agg_team_stats a)
       = od_keys (fold_left (fun d team_name => od_set team_name (initial_accum stat_category) d)
                            (od_values team_names) ([] : team_stats_t)).
Proof.
  unfold run_aggregation. intros H.
  apply bind_ok in H. destruct H as (team_names & st1 & Hn & H).
  apply bind_ok in H. destruct H as (slots & st1' & _ & H).
  apply bind_ok in H. destruct H as (out & st2 & Hr & H).
  apply ret_ok in H. destruct H as [-> _].
  exists team_names, st1. split; [exact Hn |].
  apply process_range_keys in Hr. exact Hr.
Qed.

(** X7. The rankings computed for a contest that has started (by the
    body of [compute_contest_stats], and so by a call that the memo does not
    answer) list every team name of the league once: no name twice, and a
    name is ranked exactly when some team of the league bears it (teams that
    share a name share one line). *)
Theorem rankings_list_every_team (w : World) (cid : Z) (st st' : State)
    (out : contest_stats) :
  (exists st1, compute_contest_stats_uncached w cid st = (Ok out, st1))
  \/ (memoized_stats w st cid = None /\ compute_contest_stats w cid st = (Ok out, st')) ->
  is_started (snd out) = true ->
  exists contest league team_names st1,
    stored_contest st cid = Some contest
    /\ contest_league contest = Some league
    /\ get_team_names w (espn_league_id league) st = (Ok team_names, st1)
    /\ List.NoDup (map fst (fst (fst (fst out))))
    /\ forall team_name,
         In team_name (map fst (fst (fst (fst out)))) <-> In team_name (od_values team_names).
Proof.
  intros H Hs.
  assert (H' : exists st1, compute_contest_stats_uncached w cid st = (Ok out, st1)).
  { destruct H as [H | [Hmiss H]]; [exact H |].
    apply (compute_contest_stats_miss_ok w cid st st' out Hmiss). exact H. }
  clear H. destruct H' as (st1' & H). apply compute_contest_stats_ok in H.
  destruct H as (contest & league & Hc & Hl & _ & [(_ & -> & _) | (_ & a & Ha & ->)]).
  { discriminate Hs. }
  apply run_aggregation_ok in Ha. destruct Ha as (team_names & st1 & Hn & Hk).
  exists contest, league, team_names, st1.
  split; [exact Hc |]. split; [exact Hl |]. split; [exact Hn |].
  cbn [results_of fst].
  pose proof (rank_perm (PyStr.upper (contest_stat_category contest)) (agg_team_stats a)) as Hp.
  apply (Permutation_map fst) in Hp. rewrite rankings_of_teams, Hk in Hp.
  destruct (od_fold_set_keys (fun n : string => n)
              (fun _ => initial_accum (PyStr.upper (contest_stat_category contest)))
              (od_values team_names) ([] : team_stats_t) (List.NoDup_nil _)) as (Hnd & Hin).
  split.
  - eapply Permutation_NoDup; [symmetry; exact Hp | exact Hnd].
  - intros team_name. split; intros Ht.
    + apply (Permutation_in _ Hp) in Ht. apply Hin in Ht.
      destruct Ht as [[] | Ht]. rewrite map_id in Ht. exact Ht.
    + apply (Permutation_in _ (Permutation_sym Hp)). apply Hin. right.
      rewrite map_id. exact Ht.
Qed.

Lemma rankings_list_every_team_witness :
  let w := Scenario.world (Scenario.day2 + 1) in
  let st := Scenario.state "HR" in
  exists out st',
    compute_contest_stats w 1 st = (Ok out, st')
    /\ exists contest league team_names st1,
         stored_contest st 1 = Some contest
         /\ contest_league contest = Some league
         /\ get_team_names w (espn_league_id league) st = (Ok team_names, st1)
         /\ List.NoDup (map fst (fst (fst (fst out))))
         /\ forall team_name,
              In team_name (map fst (fst (fst (fst out))))
              <-> In team_name (od_values team_names).
Proof.
  intros w st. eexists _, _. split.
  - apply run_ok. vm_compute. reflexivity.
  - apply (rankings_list_every_team w 1 st (snd (compute_contest_stats w 1 st))).
    + right. split; [reflexivity | apply run_ok; vm_compute; reflexivity].
    + vm_compute. reflexivity.
Defined.

(** ** The shape of the results *)

Lemma winners_are_ranked (r : rankings) : incl (winners_of r) (map fst r).
Proof.
  unfold winners_of. destruct r as [| [t top_score] r']; [intros x [] |].
  intros x Hx. apply in_map_iff in Hx. destruct Hx as (tv & <- & Hin).
  apply List.filter_In in Hin. apply in_map. apply Hin.
Qed.

(** X8. What [compute_contest_stats] returns hangs together, be it
    computed by its body or held by a memo of computed results: the chart
    shows the
    rankings (its labels are the ranked teams and its data their values, in
    the same order, under the category in capitals), and the status is one
    of three: not started (no rankings, a positive number of days to the
    start, nothing else set), in progress (a positive number of days
    remaining, no winner), or complete (no day count, and winners that are
    all ranked teams). *)
Theorem results_well_formed (w : World) (cid : Z) (st st' : State)
    (r : rankings) (chart : chart_data) (warning_message : string) (s : status) :
  (exists st1,
      compute_contest_stats_uncached w cid st = (Ok (r, chart, warning_message, s), st1))
  \/ (memo_computed (fun _ => True) w st cid
      /\ compute_contest_stats w cid st = (Ok (r, chart, warning_message, s), st')) ->
  chart_labels chart = map fst r
  /\ chart_values chart = map snd r
  /\ (exists contest,
        stored_contest st cid = Some contest
        /\ chart_label chart = PyStr.upper (contest_stat_category contest))
  /\ ((is_started s = false /\ is_complete s = false /\ r = []
       /\ winner s = None /\ days_remaining s = None
       /\ exists d, days_to_start s = Some d /\ 1 <= d)
      \/ (is_started s = true /\ is_complete s = false
          /\ winner s = None /\ days_to_start s = None
          /\ exists d, days_remaining s = Some d /\ 1 <= d)
      \/ (is_started s = true /\ is_complete s = true
          /\ days_to_start s = None /\ days_remaining s = None
          /\ exists winners, winner s = Some winners /\ incl winners (map fst r))).
Proof.
  intros H.
  assert (H' : exists w0 st0 st0',
             stored_contest st0 cid = stored_contest st cid
             /\ compute_contest_stats_uncached w0 cid st0
                = (Ok (r, chart, warning_message, s), st0')).
  { destruct H as [(st1 & H) | [Hmemo H]]; [exists w, st, st1; auto |].
    destruct (compute_contest_stats_computed _ w cid st st' _ H Hmemo I)
      as (w0 & st0 & st0' & _ & Hsame & H0).
    exists w0, st0, st0'. auto. }
  clear H. destruct H' as (w0 & st0 & st0' & Hsame & H0).
  apply compute_contest_stats_ok in H0.
  destruct H0 as (contest & league & Hc & _ & _ & [(Ht & Hout & _) | (Ht & a & _ & Hout)]);
    rewrite Hsame in Hc.
  - unfold not_started in Hout. inversion Hout; subst. cbn.
    split; [reflexivity |]. split; [reflexivity |].
    split; [exists contest; auto |]. left.
    repeat (split; [reflexivity |]). eexists. split; [reflexivity | lia].
  - unfold results_of, chart_of in Hout. inversion Hout; subst. cbn [chart_labels chart_values chart_label].
    split; [reflexivity |]. split; [reflexivity |].
    split; [exists contest; auto |]. right. unfold status_of.
    destruct (today w0 <? contest_end_date contest) eqn:He; cbn.
    + left. apply Z.ltb_lt in He.
      repeat (split; [reflexivity |]). eexists. split; [reflexivity | lia].
    + right. repeat (split; [reflexivity |]). eexists. split; [reflexivity |].
      apply winners_are_ranked.
Qed.

Lemma results_well_formed_witness :
  let w := Scenario.world (Scenario.day2 + 1) in
  let st := Scenario.state "HR" in
  let r := [("A"%string, PyFloat.of_Z 2); ("B"%string, PyFloat.of_Z 2)] in
  let chart := chart_of "HR" r in
  let s := {| is_started := true; days_to_start := None; days_remaining := None;
              is_complete := true; winner := Some ["A"%string; "B"%string] |} in
  chart_labels chart = map fst r
  /\ chart_values chart = map snd r
  /\ (exists contest,
        stored_contest st 1 = Some contest
        /\ chart_label chart = PyStr.upper (contest_stat_category contest))
  /\ ((is_started s = false /\ is_complete s = false /\ r = []
       /\ winner s = None /\ days_remaining s = None
       /\ exists d, days_to_start s = Some d /\ 1 <= d)
      \/ (is_started s = true /\ is_complete s = false
          /\ winner s = None /\ days_to_start s = None
          /\ exists d, days_remaining s = Some d /\ 1 <= d)
      \/ (is_started s = true /\ is_complete s = true
          /\ days_to_start s = None /\ days_remaining s = None
          /\ exists winners, winner s = Some winners /\ incl winners (map fst r))).
Proof.
  intros w st r chart s.
  apply (results_well_formed w 1 st (snd (compute_contest_stats w 1 st)) r chart ""%string s).
  right. split.
  - intros out Hout. vm_compute in Hout. discriminate Hout.
  - apply run_ok. vm_compute. reflexivity.
Defined.

Lemma eqb_refl (x : spec_float) : PyFloat.is_nan x = false -> PyFloat.eqb x x = true.
Proof. destruct x; intros; float_order. Qed.

Lemma eqb_nan (x y : spec_float) : PyFloat.is_nan y = true -> PyFloat.eqb x y = false.
Proof. destruct y; try discriminate. intros _. destruct x; reflexivity. Qed.

(** X9. A complete contest names the team at the head of its rankings as
    its first winner whenever that team's value is a number; when the value
    at the head is not a number (NaN), the winners are empty although the
    contest is complete and teams are ranked. This holds of what the body of
    [compute_contest_stats] returns and of what a call returns over a memo
    of computed results. *)
Theorem complete_contest_winner (w : World) (cid : Z) (st st' : State)
    (out : contest_stats) (team : string) (value : spec_float) (others : rankings) :
  (exists st1, compute_contest_stats_uncached w cid st = (Ok out, st1))
  \/ (memo_computed (fun _ => True) w st cid
      /\ compute_contest_stats w cid st = (Ok out, st')) ->
  is_complete (snd out) = true ->
  fst (fst (fst out)) = (team, value) :: others ->
  if PyFloat.is_nan value
  then winner (snd out) = Some []
  else exists tied, winner (snd out) = Some (team :: tied).
Proof.
  intros H Hc Hr.
  assert (H' : exists w0 st0 st0', compute_contest_stats_uncached w0 cid st0 = (Ok out, st0')).
  { destruct H as [(st1 & H) | [Hmemo H]]; [exists w, st, st1; exact H |].
    destruct (compute_contest_stats_computed _ w cid st st' _ H Hmemo I)
      as (w0 & st0 & st0' & _ & _ & H0).
    exists w0, st0, st0'. exact H0. }
  clear H. destruct H' as (w0 & st0 & st0' & H0).
  apply compute_contest_stats_ok in H0.
  destruct H0 as (contest & league & _ & _ & _ & [(_ & -> & _) | (_ & a & _ & ->)]).
  { discriminate Hc. }
  cbn [results_of fst snd] in *. unfold status_of in *.
  destruct (today w0 <? contest_end_date contest); [discriminate Hc |].
  cbn [winner]. rewrite Hr. cbn [winners_of List.filter snd].
  destruct (PyFloat.is_nan value) eqn:Hn.
  - rewrite (eqb_nan value value Hn). f_equal.
    assert (Hnone : forall l : rankings,
               List.filter (fun tv => PyFloat.eqb (snd tv) value) l = []).
    { induction l as [| tv l IH]; cbn; [reflexivity |].
      rewrite (eqb_nan (snd tv) value Hn). exact IH. }
    rewrite Hnone. reflexivity.
  - rewrite (eqb_refl value Hn). cbn [map fst]. eexists. reflexivity.
Qed.

Lemma complete_contest_winner_witness :
  let w := Scenario.world (Scenario.day2 + 1) in
  let st := Scenario.state "HR" in
  exists tied,
    winner (snd (Scenario.final_stats)) = Some ("A"%string :: tied).
Proof.
  intros w st.
  apply (complete_contest_winner w 1 st (snd (compute_contest_stats w 1 st))
           Scenario.final_stats "A" (PyFloat.of_Z 2) [("B"%string, PyFloat.of_Z 2)]).
  - right. split.
    + intros out Hout. vm_compute in Hout. discriminate Hout.
    + apply run_ok. vm_compute. reflexivity.
  - reflexivity.
  - reflexivity.
Defined.

(** ** The days of a contest *)

Lemma days_nil (lo hi : Z) : hi < lo -> days lo hi = [].
Proof.
  intros H. unfold days. replace (Z.to_nat (hi - lo + 1)) with 0%nat by lia. reflexivity.
Qed.

Lemma days_cons (lo hi : Z) : lo <= hi -> days lo hi = lo :: days (lo + 1) hi.
Proof.
  intros H. unfold days.
  replace (Z.to_nat (hi - lo + 1)) with (S (Z.to_nat (hi - (lo + 1) + 1))) by lia.
  cbn [seq map]. f_equal; [lia |].
  rewrite <- seq_shift, map_map. apply map_ext. intros i. lia.
Qed.

Lemma days_app (lo mid hi : Z) :
  lo <= mid + 1 -> mid <= hi -> days lo mid ++ days (mid + 1) hi = days lo hi.
Proof.
  intros H1 H2.
  remember (Z.to_nat (mid + 1 - lo)) as n eqn:Hn. revert lo H1 Hn.
  induction n as [| n IH]; intros lo H1 Hn.
  - assert (lo = mid + 1) by lia. subst lo. rewrite days_nil by lia. reflexivity.
  - rewrite (days_cons lo mid) by lia. rewrite (days_cons lo hi) by lia.
    cbn [app]. f_equal. apply IH; lia.
Qed.

Lemma days_sorted (lo hi : Z) : StronglySorted Z.lt (days lo hi).
Proof.
  remember (Z.to_nat (hi - lo + 1)) as n eqn:Hn. revert lo Hn.
  induction n as [| n IH]; intros lo Hn.
  - rewrite days_nil by lia. constructor.
  - rewrite days_cons by lia. constructor; [apply IH; lia |].
    apply List.Forall_forall. intros d Hd. apply in_days in Hd. lia.
Qed.

Lemma days_length (lo hi : Z) : length (days lo hi) = Z.to_nat (hi - lo + 1).
Proof. unfold days. rewrite length_map, length_seq. reflexivity. Qed.

Lemma chunk_starts_nil (start_date effective_end : Z) :
  effective_end < start_date -> chunk_starts start_date effective_end = [].
Proof.
  intros H. unfold chunk_starts.
  assert ((effective_end - start_date) / 7 < 0) by (apply Z.div_lt_upper_bound; lia).
  replace (Z.to_nat ((effective_end - start_date) / 7 + 1)) with 0%nat by lia. reflexivity.
Qed.

Lemma chunk_starts_cons (start_date effective_end : Z) :
  start_date <= effective_end ->
  chunk_starts start_date effective_end
  = start_date :: chunk_starts (start_date + 7) effective_end.
Proof.
  intros H. unfold chunk_starts.
  assert (Hd : (effective_end - (start_date + 7)) / 7 = (effective_end - start_date) / 7 - 1).
  { replace (effective_end - (start_date + 7)) with (effective_end - start_date + (-1) * 7) by lia.
    rewrite Z.div_add by lia. lia. }
  assert (0 <= (effective_end - start_date) / 7) by (apply Z.div_pos; lia).
  rewrite Hd.
  replace (Z.to_nat ((effective_end - start_date) / 7 + 1))
    with (S (Z.to_nat ((effective_end - start_date) / 7 - 1 + 1))) by lia.
  cbn [seq map]. f_equal; [lia |].
  rewrite <- seq_shift, map_map. apply map_ext. intros i. lia.
Qed.

(** The weekly chunks, laid end to end, are the days of the range. *)
Lemma chunk_days_concat (effective_end : Z) (n : nat) :
  forall start_date,
    n = Z.to_nat (effective_end - start_date + 1) ->
    concat (map (fun current => days current (Z.min (current + 6) effective_end))
                (chunk_starts start_date effective_end))
    = days start_date effective_end.
Proof.
  induction n as [n IH] using lt_wf_ind. intros start_date Hn.
  destruct (Z.lt_ge_cases effective_end start_date) as [Hlt | Hge].
  - rewrite chunk_starts_nil, days_nil by lia. reflexivity.
  - rewrite chunk_starts_cons by lia. cbn [map concat].
    rewrite (IH (Z.to_nat (effective_end - (start_date + 7) + 1))); [| lia | reflexivity].
    destruct (Z.le_gt_cases effective_end (start_date + 6)) as [Hshort | Hlong].
    + rewrite Z.min_r by lia. rewrite (days_nil (start_date + 7)) by lia. apply app_nil_r.
    + rewrite Z.min_l by lia.
      replace (start_date + 7) with (start_date + 6 + 1) by lia.
      apply days_app; lia.
Qed.

Lemma in_chunk_starts (start_date effective_end current : Z) :
  In current (chunk_starts start_date effective_end) ->
  start_date <= current <= effective_end.
Proof.
  unfold chunk_starts. intros H. apply in_map_iff in H. destruct H as (i & <- & Hi).
  apply in_seq in Hi.
  assert (Hq : Z.of_nat i <= (effective_end - start_date) / 7) by lia.
  pose proof (Z.mul_div_le (effective_end - start_date) 7 ltac:(lia)). lia.
Qed.

(** X10. The weekly chunks cut the days from the start date to the
    effective end without a gap and without an overlap: laid end to end in
    their order they are these days, each once and in date order, and every
    chunk has between one and seven days. *)
Theorem chunks_cover_range (start_date effective_end : Z) :
  concat (map (fun current => days current (Z.min (current + 6) effective_end))
              (chunk_starts start_date effective_end))
  = days start_date effective_end
  /\ Forall (fun current =>
               (1 <= length (days current (Z.min (current + 6) effective_end)) <= 7)%nat)
            (chunk_starts start_date effective_end)
  /\ StronglySorted Z.lt (days start_date effective_end).
Proof.
  split; [| split].
  - apply (chunk_days_concat effective_end _ start_date eq_refl).
  - apply List.Forall_forall. intros current Hin. apply in_chunk_starts in Hin.
    rewrite days_length. lia.
  - apply days_sorted.
Qed.

(** ** The days without data *)

Lemma StronglySorted_sublist {A : Type} (R : A -> A -> Prop) (l k : list A) :
  l `sublist_of` k -> StronglySorted R k -> StronglySorted R l.
Proof.
  induction 1 as [| x l k Hs IH | x l k Hs IH]; intros Hk.
  - constructor.
  - inversion Hk as [| ? ? Hk' Hx]; subst. constructor; [apply IH; exact Hk' |].
    apply List.Forall_forall. intros y Hy. rewrite List.Forall_forall in Hx. apply Hx.
    apply list_elem_of_In. eapply elem_of_sublist; [| exact Hs].
    apply list_elem_of_In. exact Hy.
  - inversion Hk; subst. apply IH. assumption.
Qed.

(** Every turn of a loop appends to the list it carries some of the
    items of its own share: the loop appends some of the items of all the
    shares, in their order. *)
Lemma for_each_extends {A T : Type} (Q : Z -> Prop) (share : A -> list Z) (l : list A)
    (body : A -> T * list Z -> M (T * list Z)) :
  (forall x b st b' st',
      In x l -> body x b st = (Ok b', st') ->
      exists extra, snd b' = snd b ++ extra
                    /\ extra `sublist_of` share x /\ Forall Q extra) ->
  forall b st b' st',
    for_each l body b st = (Ok b', st') ->
    exists extra, snd b' = snd b ++ extra
                  /\ extra `sublist_of` concat (map share l) /\ Forall Q extra.
Proof.
  induction l as [| x l IH]; intros Hbody b st b' st' H; cbn [for_each] in H.
  - apply ret_ok in H. destruct H as [-> _]. exists [].
    split; [symmetry; apply app_nil_r |]. split; [constructor | apply List.Forall_nil].
  - apply bind_ok in H. destruct H as (b1 & st1 & H1 & H2).
    apply Hbody in H1; [| left; reflexivity]. destruct H1 as (e1 & He1 & Hs1 & Hq1).
    apply IH in H2; [| intros; eapply Hbody; [right |]; eassumption].
    destruct H2 as (e2 & He2 & Hs2 & Hq2).
    exists (e1 ++ e2). split; [rewrite He2, He1, app_assoc; reflexivity |].
    split; [cbn [map concat]; apply sublist_app; assumption |].
    apply List.Forall_app. auto.
Qed.

Lemma concat_singletons {A : Type} (l : list A) : concat (map (fun x => [x]) l) = l.
Proof. induction l as [| x l IH]; cbn; [reflexivity | f_equal; exact IH]. Qed.

Lemma process_day_extends (w : World) (stat_category : string) (slots : list Z)
    (team_names : odict Z string) (rosters : gmap Z (list roster_team))
    (d : Z) (acc acc' : team_stats_t * list Z) (st st' : State) :
  process_day w stat_category slots team_names rosters d acc st = (Ok acc', st') ->
  exists extra,
    snd acc' = snd acc ++ extra
    /\ extra `sublist_of` [d]
    /\ Forall (fun x => ~ (In x all_star_break /\ In stat_category pitching_categories)) extra.
Proof.
  unfold process_day. destruct acc as [team_stats no_data_days].
  intros H. apply bind_ok in H. destruct H as (u & st1 & _ & H).
  assert (Hadd : forall (c : bool) (ts : team_stats_t),
             (c = true -> ~ (In d all_star_break /\ In stat_category pitching_categories)) ->
             exists extra,
               snd (ts, if c then no_data_days ++ [d] else no_data_days)
               = snd (team_stats, no_data_days) ++ extra
               /\ extra `sublist_of` [d]
               /\ Forall (fun x => ~ (In x all_star_break
                                      /\ In stat_category pitching_categories)) extra).
  { intros c ts Hc. destruct c; cbn [snd].
    - exists [d]. split; [reflexivity |]. split; [reflexivity |].
      apply List.Forall_cons; [auto | apply List.Forall_nil].
    - exists []. split; [symmetry; apply app_nil_r |].
      split; [apply sublist_nil_l | apply List.Forall_nil]. }
  destruct (default [] (rosters !! d)) as [| t roster_data].
  - apply ret_ok in H. destruct H as [-> _]. apply Hadd.
    intros Hc. apply empty_roster_is_no_data_spec. exact Hc.
  - apply bind_ok in H. destruct H as (started_players & st2 & _ & H).
    apply bind_ok in H. destruct H as (day & st3 & _ & H).
    apply ret_ok in H. destruct H as [-> _]. apply Hadd.
    unfold no_stats_is_no_data. intros Hc.
    apply andb_true_iff in Hc. destruct Hc as [_ Hc]. apply negb_true_iff in Hc.
    intros [Hb _]. apply in_Zs_In in Hb. congruence.
Qed.

(** X11. The days reported without data stand in date order, each once;
    each is a day between the start date and the effective end, and a day
    of the all-star break is never reported for a pitching category. *)
Theorem no_data_days_in_order (w : World) (league : League) (stat_category : string)
    (start_date end_date : Z) (st st' : State) (a : aggregation) :
  run_aggregation w league stat_category start_date end_date st = (Ok a, st') ->
  StronglySorted Z.lt (agg_no_data_days a)
  /\ forall d, In d (agg_no_data_days a) ->
               start_date <= d <= Z.min end_date (today w)
               /\ ~ (In d all_star_break /\ In stat_category pitching_categories).
Proof.
  unfold run_aggregation. intros H.
  apply bind_ok in H. destruct H as (team_names & st1 & _ & H).
  apply bind_ok in H. destruct H as (slots & st1' & _ & H).
  apply bind_ok in H. destruct H as (out & st2 & Hr & H).
  apply ret_ok in H. destruct H as [-> _]. cbn [agg_no_data_days].
  unfold process_range in Hr.
  apply (for_each_extends
           (fun x => ~ (In x all_star_break /\ In stat_category pitching_categories))
           (fun current => days current (Z.min (current + 6) (Z.min end_date (today w)))))
    in Hr.
  - destruct Hr as (extra & He & Hs & Hq). cbn [snd app] in He. rewrite He.
    rewrite (chunk_days_concat _ _ start_date eq_refl) in Hs. split.
    + eapply StronglySorted_sublist; [exact Hs | apply days_sorted].
    + intros d Hd. split.
      * apply in_days. apply list_elem_of_In. eapply elem_of_sublist; [| exact Hs].
        apply list_elem_of_In. exact Hd.
      * rewrite List.Forall_forall in Hq. apply Hq. exact Hd.
  - intros current b s b' s' _ Hc.
    apply bind_ok in Hc. destruct Hc as (rosters & s1 & _ & Hc).
    apply (for_each_extends
             (fun x => ~ (In x all_star_break /\ In stat_category pitching_categories))
             (fun d => [d])) in Hc.
    + destruct Hc as (extra & He & Hs & Hq). exists extra.
      split; [exact He |]. split; [| exact Hq].
      rewrite concat_singletons in Hs. exact Hs.
    + intros d b0 s0 b1 s1' _ Hd. eapply process_day_extends. exact Hd.
Qed.

Lemma no_data_days_in_order_witness :
  let w := Scenario.world_without_rosters (Date.date 2025 7 20) in
  exists a st',
    run_aggregation w Scenario.league "ERA" (Date.date 2025 7 10) (Date.date 2025 7 17)
                    (Scenario.break_state "ERA") = (Ok a, st')
    /\ StronglySorted Z.lt (agg_no_data_days a)
    /\ forall d, In d (agg_no_data_days a) ->
                 Date.date 2025 7 10 <= d <= Z.min (Date.date 2025 7 17) (today w)
                 /\ ~ (In d all_star_break /\ In "ERA"%string pitching_categories).
Proof.
  intros w. eexists _, _. split.
  - apply run_ok. vm_compute. reflexivity.
  - apply (no_data_days_in_order w Scenario.league "ERA" (Date.date 2025 7 10)
             (Date.date 2025 7 17) (Scenario.break_state "ERA")
             (snd (run_aggregation w Scenario.league "ERA" (Date.date 2025 7 10)
                     (Date.date 2025 7 17) (Scenario.break_state "ERA")))).
    apply run_ok. vm_compute. reflexivity.
Defined.

(** ** The rosters and the team names *)

Lemma bind_run {A B : Type} (m : M A) (k : A -> M B) (st st1 : State) (a : A) :
  m st = (Ok a, st1) -> bind m k st = k a st1.
Proof. unfold bind. intros ->. reflexivity. Qed.

Lemma bind_raise {A B : Type} (m : M A) (k : A -> M B) (st st1 : State) (e : exn) :
  m st = (Raise e, st1) -> bind m k st = (Raise e, st1).
Proof. unfold bind. intros ->. reflexivity. Qed.

Lemma bind_get {B : Type} (k : State -> M B) (st : State) :
  bind get_state k st = k st st.
Proof. reflexivity. Qed.

(** The roster the loop of [get_team_rosters] keeps for an answer. *)
Lemma fetch_rosters (w : World) (league_id season_start_ : Z) (ds : list Z) :
  (forall d e, In d ds -> espn_roster w league_id (d - season_start_ + 1) = Raise e ->
               e = RequestException) ->
  forall (rosters : gmap Z (list roster_team)) (st : State),
  exists rosters' st',
    for_each ds (fun current rosters0 =>
      let scoring_period := current - season_start_ + 1 in
      send (ReqRoster league_id scoring_period) ;;;
      match espn_roster w league_id scoring_period with
      | Raise RequestException => ret (<[current := []]> rosters0)
      | Raise e => raise e
      | Ok roster_data => ret (<[current := roster_data]> rosters0)
      end) rosters st = (Ok rosters', st')
    /\ requests st' = requests st ++ map (fun d => ReqRoster league_id (d - season_start_ + 1)) ds
    /\ roster_cache st' = roster_cache st
    /\ memo st' = memo st
    /\ (forall d, In d ds ->
                  rosters' !! d = Some (match espn_roster w league_id (d - season_start_ + 1) with
                                        | Ok roster_data => roster_data
                                        | Raise _ => []
                                        end))
    /\ (forall d, ~ In d ds -> rosters' !! d = rosters !! d).
Proof.
  induction ds as [| d0 ds IH]; intros Hread rosters st; cbn [for_each].
  - exists rosters, st. split; [reflexivity |]. split; [cbn; symmetry; apply app_nil_r |].
    split; [reflexivity |]. split; [reflexivity |]. split; [intros d [] | reflexivity].
  - set (v := match espn_roster w league_id (d0 - season_start_ + 1) with
              | Ok roster_data => roster_data
              | Raise _ => []
              end).
    set (st1 := snd (send (ReqRoster league_id (d0 - season_start_ + 1)) st)).
    destruct (IH (fun d e Hd => Hread d e (or_intror Hd)) (<[d0 := v]> rosters) st1)
      as (rosters' & st' & Hloop & Hreq & Hcache & Hmemo & Hin & Hout).
    exists rosters', st'. split; [| split; [| split; [| split; [| split]]]].
    + unfold bind at 1. unfold bind at 1. cbn [send modify].
      subst v st1. cbn [send modify snd] in Hloop.
      destruct (espn_roster w league_id (d0 - season_start_ + 1)) as [roster_data | e] eqn:E.
      * cbn [ret]. exact Hloop.
      * rewrite (Hread d0 e (or_introl eq_refl) E). cbn [ret]. exact Hloop.
    + rewrite Hreq. subst st1. cbn. rewrite <- app_assoc. reflexivity.
    + rewrite Hcache. reflexivity.
    + rewrite Hmemo. reflexivity.
    + intros d [<- | Hd].
      * destruct (in_dec Z.eq_dec d0 ds) as [Hi | Hn]; [apply Hin; exact Hi |].
        rewrite (Hout d0 Hn). apply lookup_insert_eq.
      * apply Hin. exact Hd.
    + intros d Hn. rewrite Hout by (intros Hd; apply Hn; right; exact Hd).
      apply lookup_insert_ne. intros Heq. apply Hn. left. exact Heq.
Qed.

(** The loop stops at the first answer that cannot be read. *)
Lemma fetch_rosters_unreadable (w : World) (league_id season_start_ : Z)
    (ds1 : list Z) (d : Z) (ds2 : list Z) (e : exn) :
  (forall d' e', In d' ds1 -> espn_roster w league_id (d' - season_start_ + 1) = Raise e' ->
                 e' = RequestException) ->
  espn_roster w league_id (d - season_start_ + 1) = Raise e -> e <> RequestException ->
  forall (rosters : gmap Z (list roster_team)) (st : State),
  exists st',
    for_each (ds1 ++ d :: ds2) (fun current rosters0 =>
      let scoring_period := current - season_start_ + 1 in
      send (ReqRoster league_id scoring_period) ;;;
      match espn_roster w league_id scoring_period with
      | Raise RequestException => ret (<[current := []]> rosters0)
      | Raise e => raise e
      | Ok roster_data => ret (<[current := roster_data]> rosters0)
      end) rosters st = (Raise e, st')
    /\ requests st'
       = requests st ++ map (fun d => ReqRoster league_id (d - season_start_ + 1)) (ds1 ++ [d])
    /\ roster_cache st' = roster_cache st
    /\ memo st' = memo st.
Proof.
  intros Hread Hd He. induction ds1 as [| d0 ds1 IH]; intros rosters st; cbn [app for_each].
  - eexists. split; [| split; [| split]].
    + unfold bind at 1. unfold bind at 1. cbn [send modify]. rewrite Hd.
      destruct e; try contradiction; reflexivity.
    + reflexivity.
    + reflexivity.
    + reflexivity.
  - set (v := match espn_roster w league_id (d0 - season_start_ + 1) with
              | Ok roster_data => roster_data
              | Raise _ => []
              end).
    set (st1 := snd (send (ReqRoster league_id (d0 - season_start_ + 1)) st)).
    destruct (IH (fun d' e' Hd' => Hread d' e' (or_intror Hd')) (<[d0 := v]> rosters) st1)
      as (st' & Hloop & Hreq & Hcache & Hmemo).
    exists st'. split; [| split; [| split]].
    + unfold bind at 1. unfold bind at 1. cbn [send modify].
      subst v st1. cbn [send modify snd] in Hloop.
      destruct (espn_roster w league_id (d0 - season_start_ + 1)) as [roster_data | e0] eqn:E.
      * cbn [ret]. exact Hloop.
      * rewrite (Hread d0 e0 (or_introl eq_refl) E). cbn [ret]. exact Hloop.
    + rewrite Hreq. subst st1. cbn. rewrite <- app_assoc. reflexivity.
    + rewrite Hcache. reflexivity.
    + rewrite Hmemo. reflexivity.
Qed.

(** X12. A call of [get_team_rosters] for a range that is cached neither
    by the module nor by the memo sends one roster request per day of the
    range, in date order. When every answer can be read (a request that
    fails counts as such) the call returns a roster for each of these days
    and for no other day, empty for a day whose request failed, and the
    result is cached, so that the same call made again returns it without
    sending a request. At the first day whose answer cannot be read the
    call raises what reading it raises, having sent the requests up to that
    day, and caches nothing. *)
Theorem get_team_rosters_requests (w : World) (league_id start_date end_date
    season_start_ : Z) (st : State) :
  roster_cache st !! (league_id, start_date, end_date) = None ->
  cache_get (utcnow w)
            (memo_get_team_rosters (memo st)
               !! (league_id, start_date, end_date, season_start_)) = None ->
  ((forall d e, start_date <= d <= end_date ->
                espn_roster w league_id (d - season_start_ + 1) = Raise e ->
                e = RequestException) ->
   exists rosters st',
     get_team_rosters w league_id start_date end_date season_start_ st = (Ok rosters, st')
     /\ requests st'
        = requests st ++ map (fun d => ReqRoster league_id (d - season_start_ + 1))
                             (days start_date end_date)
     /\ (forall d, start_date <= d <= end_date ->
                   rosters !! d = Some (match espn_roster w league_id (d - season_start_ + 1) with
                                        | Ok roster_data => roster_data
                                        | Raise _ => []
                                        end))
     /\ (forall d, ~ start_date <= d <= end_date -> rosters !! d = None)
     /\ get_team_rosters w league_id start_date end_date season_start_ st' = (Ok rosters, st'))
  /\
  (forall d e,
      start_date <= d <= end_date ->
      (forall d' e', start_date <= d' < d ->
                     espn_roster w league_id (d' - season_start_ + 1) = Raise e' ->
                     e' = RequestException) ->
      espn_roster w league_id (d - season_start_ + 1) = Raise e ->
      e <> RequestException ->
      exists st',
        get_team_rosters w league_id start_date end_date season_start_ st = (Raise e, st')
        /\ requests st'
           = requests st ++ map (fun d => ReqRoster league_id (d - season_start_ + 1))
                                (days start_date d)
        /\ roster_cache st' = roster_cache st
        /\ memo st' = memo st).
Proof.
  intros Hmiss Hmemo. split.
  - intros Hread.
    destruct (fetch_rosters w league_id season_start_ (days start_date end_date)
                (fun d e Hd => Hread d e (proj1 (in_days _ _ _) Hd)) ∅ st)
      as (rosters & st1 & Hloop & Hreq & Hcache & Hm & Hin & Hout).
    assert (Hrun : get_team_rosters_uncached w league_id start_date end_date season_start_ st
                   = (Ok rosters,
                      set_roster_cache (<[(league_id, start_date, end_date) := rosters]>
                                          (roster_cache st1)) st1)).
    { unfold get_team_rosters_uncached. rewrite bind_get, Hmiss.
      rewrite (bind_run _ _ _ _ _ Hloop). reflexivity. }
    eexists rosters, _. split; [| split; [| split; [| split]]].
    + unfold get_team_rosters. rewrite memoize_miss by (intros rv E; congruence).
      rewrite Hrun. reflexivity.
    + cbn. exact Hreq.
    + intros d Hd. apply Hin, in_days. exact Hd.
    + intros d Hd. rewrite Hout; [apply lookup_empty |].
      intros Hi. apply in_days in Hi. contradiction.
    + unfold get_team_rosters. apply memoize_hit; [| reflexivity].
      cbn [memo set_memo memo_get_team_rosters with_memo_get_team_rosters].
      rewrite lookup_insert_eq. cbn [cache_get].
      replace (utcnow w <=? utcnow w + 86400) with true by (symmetry; apply Z.leb_le; lia).
      reflexivity.
  - intros d e Hd Hread He Hne.
    assert (Hdays : days start_date end_date
                    = days start_date (d - 1) ++ d :: days (d + 1) end_date).
    { rewrite <- (days_app start_date (d - 1) end_date) by lia.
      replace (d - 1 + 1) with d by lia. rewrite (days_cons d end_date) by lia. reflexivity. }
    destruct (fetch_rosters_unreadable w league_id season_start_
                (days start_date (d - 1)) d (days (d + 1) end_date) e
                (fun d' e' Hd' => Hread d' e' ltac:(apply in_days in Hd'; lia)) He Hne ∅ st)
      as (st' & Hloop & Hreq & Hcache & Hm).
    rewrite <- Hdays in Hloop.
    exists st'. split; [| split; [| split]].
    + unfold get_team_rosters. rewrite memoize_miss by (intros rv E; congruence).
      unfold get_team_rosters_uncached. rewrite bind_get, Hmiss.
      rewrite (bind_raise _ _ _ _ _ Hloop). reflexivity.
    + rewrite Hreq. do 2 f_equal.
      rewrite <- (days_app start_date (d - 1) d) by lia.
      replace (d - 1 + 1) with d by lia.
      rewrite (days_cons d d) by lia. rewrite (days_nil (d + 1) d) by lia. reflexivity.
    + exact Hcache.
    + exact Hm.
Qed.

Lemma get_team_rosters_requests_witness :
  let w := Scenario.world Scenario.day2 in
  let st := Scenario.state "HR" in
  exists rosters st',
    get_team_rosters w 3438 Scenario.day1 Scenario.day2 (season_start w) st = (Ok rosters, st')
    /\ requests st'
       = requests st ++ map (fun d => ReqRoster 3438 (d - season_start w + 1))
                            (days Scenario.day1 Scenario.day2)
    /\ (forall d, Scenario.day1 <= d <= Scenario.day2 ->
                  rosters !! d = Some (match espn_roster w 3438 (d - season_start w + 1) with
                                       | Ok roster_data => roster_data
                                       | Raise _ => []
                                       end))
    /\ (forall d, ~ Scenario.day1 <= d <= Scenario.day2 -> rosters !! d = None)
    /\ get_team_rosters w 3438 Scenario.day1 Scenario.day2 (season_start w) st'
       = (Ok rosters, st').
Proof.
  intros w st.
  apply (proj1 (get_team_rosters_requests w 3438 Scenario.day1 Scenario.day2
                  (season_start w) st eq_refl eq_refl)).
  intros d e _ H. discriminate H.
Defined.

Lemma team_display_name_nonempty (t : team_json) : team_display_name t <> ""%string.
Proof.
  unfold team_display_name.
  destruct (tj_name t) as [[| c r] |]; cbn [nonempty]; try discriminate;
    destruct (strip _); discriminate.
Qed.

Lemma od_set_values {K V : Type} `{EqDecision K} (P : V -> Prop) (k : K) (v : V)
    (d : odict K V) :
  Forall P (od_values d) -> P v -> Forall P (od_values (od_set k v d)).
Proof.
  intros Hd Hv. induction d as [| [k' v'] d IH]; cbn.
  - apply List.Forall_cons; [exact Hv | apply List.Forall_nil].
  - cbn in Hd. inversion Hd; subst.
    destruct (decide (k = k')); cbn; apply List.Forall_cons; auto.
Qed.

Lemma od_fold_set_values {A K V : Type} `{EqDecision K} (P : V -> Prop)
    (key : A -> K) (val : A -> V) (l : list A) :
  (forall x, P (val x)) ->
  forall d : odict K V,
    Forall P (od_values d) ->
    Forall P (od_values (fold_left (fun d0 x => od_set (key x) (val x) d0) l d)).
Proof.
  intros Hv. induction l as [| x l IH]; intros d Hd; cbn [fold_left]; [exact Hd |].
  apply IH. apply od_set_values; auto.
Qed.

(** X13. A call of [get_team_names] for a league that is cached neither
    by the module nor by the memo sends one request. When the answer can be
    read the call returns a name for each team id of the answer and for no
    other id, none of the names is empty, with distinct ids each team has
    its display name, and the result is cached: the same call made again
    returns it without a request. When the request fails the call raises
    [ValueError], when the answer cannot be read it raises what reading it
    raises, and in both cases it caches nothing. *)
Theorem get_team_names_cached (w : World) (league_id : Z) (st : State) :
  team_names_cache st !! league_id = None ->
  cache_get (utcnow w) (memo_get_team_names (memo st) !! league_id) = None ->
  match espn_teams w league_id with
  | Ok teams_data =>
      exists team_names st',
        get_team_names w league_id st = (Ok team_names, st')
        /\ requests st' = requests st ++ [ReqTeams league_id]
        /\ get_team_names w league_id st' = (Ok team_names, st')
        /\ (forall team_id,
              In team_id (od_keys team_names) <-> In team_id (map tj_id teams_data))
        /\ Forall (fun name => name <> ""%string) (od_values team_names)
        /\ (List.NoDup (map tj_id teams_data) ->
            forall t, In t teams_data ->
                      od_get (tj_id t) team_names = Some (team_display_name t))
  | Raise e =>
      exists st',
        get_team_names w league_id st
        = (Raise (match e with RequestException => ValueError | _ => e end), st')
        /\ requests st' = requests st ++ [ReqTeams league_id]
        /\ team_names_cache st' = team_names_cache st
        /\ memo st' = memo st
  end.
Proof.
  intros Hmiss Hmemo. unfold get_team_names.
  rewrite memoize_miss by (intros rv E; congruence).
  unfold get_team_names_uncached. rewrite bind_get, Hmiss.
  destruct (espn_teams w league_id) as [teams_data | e] eqn:Ht.
  - unfold bind, send, modify, ret.
    eexists _, _. split; [reflexivity |]. split; [reflexivity |].
    split; [| split; [| split]].
    + apply memoize_hit; [| reflexivity].
      cbn [memo set_memo memo_get_team_names with_memo_get_team_names].
      rewrite lookup_insert_eq. cbn [cache_get].
      replace (utcnow w <=? utcnow w + 86400) with true by (symmetry; apply Z.leb_le; lia).
      reflexivity.
    + intros team_id.
      destruct (od_fold_set_keys tj_id team_display_name teams_data
                  ([] : odict Z string) (List.NoDup_nil _)) as (_ & Hk).
      rewrite Hk. cbn. tauto.
    + apply od_fold_set_values; [apply team_display_name_nonempty | apply List.Forall_nil].
    + intros Hd.
      apply (od_fold_set_distinct tj_id team_display_name teams_data Hd ([] : odict Z string)).
      intros; reflexivity.
  - eexists. split; [| split; [| split]].
    + unfold bind, send, modify, raise. destruct e; reflexivity.
    + reflexivity.
    + reflexivity.
    + reflexivity.
Qed.

Lemma get_team_names_cached_witness :
  let w := Scenario.world Scenario.day2 in
  let st := Scenario.state "HR" in
  exists team_names st',
    get_team_names w 3438 st = (Ok team_names, st')
    /\ requests st' = requests st ++ [ReqTeams 3438]
    /\ get_team_names w 3438 st' = (Ok team_names, st')
    /\ (forall team_id,
          In team_id (od_keys team_names) <-> In team_id (map tj_id Scenario.teams))
    /\ Forall (fun name => name <> ""%string) (od_values team_names)
    /\ (List.NoDup (map tj_id Scenario.teams) ->
        forall t, In t Scenario.teams ->
                  od_get (tj_id t) team_names = Some (team_display_name t)).
Proof.
  intros w st. apply (get_team_names_cached w 3438 st); reflexivity.
Defined.

(** ** The identifiers and the game logs of the players *)

Lemma find_update_first {A : Type} (p : A -> bool) (f : A -> A) (l : list A) (r : A) :
  find p l = Some r -> p (f r) = true -> find p (update_first p f l) = Some (f r).
Proof.
  induction l as [| x l IH]; cbn [find update_first]; [discriminate |].
  destruct (p x) eqn:Hx.
  - intros [= ->] Hf. cbn [find]. rewrite Hf. reflexivity.
  - intros Hr Hf. cbn [find]. rewrite Hx. apply IH; assumption.
Qed.

Lemma find_app_new {A : Type} (p : A -> bool) (l : list A) (row : A) :
  find p l = None -> p row = true -> find p (l ++ [row]) = Some row.
Proof.
  induction l as [| x l IH]; cbn [find app].
  - intros _ ->. reflexivity.
  - destruct (p x); [discriminate |]. exact IH.
Qed.

(** The body of [get_mlb_id] does not look at the memo. *)
Lemma get_mlb_id_uncached_memo (w : World) (player_name : string) (player_id : Z)
    (m : Memo) (st : State) :
  get_mlb_id_uncached w player_name player_id (set_memo m st)
  = (fst (get_mlb_id_uncached w player_name player_id st),
     set_memo m (snd (get_mlb_id_uncached w player_name player_id st))).
Proof.
  unfold get_mlb_id_uncached. destruct player_name as [| c name]; [reflexivity |].
  destruct (od_get player_id manual_mlb_mappings) as [manual |]; [reflexivity |].
  rewrite !bind_get. cbn [db_player_cache set_memo].
  destruct (find _ (db_player_cache st)) as [r |].
  - destruct (match pc_mlb_id r with
              | Some id => if id =? 0 then None else Some id
              | None => None
              end); [reflexivity |].
    unfold bind, send, modify, ret, raise.
    destruct (mlb_search w (String c name)) as [[| found rest] | []]; reflexivity.
  - unfold add_player_cache, get_state, bind, send, modify, ret, raise.
    destruct (mlb_search w (String c name)) as [[| found rest] | []]; try reflexivity.
    cbn [fst snd db_player_cache set_memo pc_espn_id].
    destruct (existsb _ (db_player_cache st)); reflexivity.
Qed.

Lemma get_mlb_id_miss (w : World) (player_name : string) (player_id : Z) (st : State) :
  memoized_mlb_id w st player_name player_id = None ->
  get_mlb_id w player_name player_id st
  = match get_mlb_id_uncached w player_name player_id st with
    | (Ok rv, st1) =>
        (Ok rv,
         set_memo (with_memo_get_mlb_id
                     (<[(player_name, player_id) := (utcnow w + 86400, rv)]>
                        (memo_get_mlb_id (memo st1)))
                     (memo st1)) st1)
    | (Raise e, st1) => (Raise e, st1)
    end.
Proof.
  unfold memoized_mlb_id. intros Hmiss. unfold get_mlb_id. apply memoize_miss.
  intros rv E. rewrite E in Hmiss. destruct rv; [discriminate Hmiss | reflexivity].
Qed.

(** An identifier other than 0 that the body of [get_mlb_id] returns is in
    the table of hand-made mappings or in the player's row. *)
Lemma get_mlb_id_uncached_stored (w : World) (player_name : string) (player_id : Z)
    (st st1 : State) (mlb_id : Z) :
  get_mlb_id_uncached w player_name player_id st = (Ok (Some mlb_id), st1) ->
  mlb_id <> 0 ->
  get_mlb_id_uncached w player_name player_id st1 = (Ok (Some mlb_id), st1).
Proof.
  unfold get_mlb_id_uncached. destruct player_name as [| c name]; [discriminate |].
  destruct (od_get player_id manual_mlb_mappings) as [manual |].
  { unfold ret. intros [= -> ->] _. reflexivity. }
  rewrite !bind_get.
  set (same_player := fun r => (pc_espn_id r =? player_id) && (pc_season r =? YEAR w)).
  intros H Hid.
  destruct (find same_player (db_player_cache st)) as [r |] eqn:Hfind.
  - destruct (pc_mlb_id r) as [id |] eqn:Hr; [destruct (id =? 0) eqn:Hz |].
    + (* the stored identifier is 0: the search is made *)
      unfold bind, send, modify, ret, raise in H. cbn [fst snd] in H.
      destruct (mlb_search w (String c name)) as [[| found rest] | []]; try discriminate H.
      injection H as Hm Hst. subst found st1. cbn [db_player_cache set_db_player_cache].
      rewrite (find_update_first same_player (with_mlb_id mlb_id) _ r Hfind)
        by (apply find_some in Hfind; apply Hfind).
      cbn [with_mlb_id pc_mlb_id]. rewrite (proj2 (Z.eqb_neq mlb_id 0) Hid). reflexivity.
    + unfold ret in H. injection H as Hm Hst. subst id st1.
      rewrite Hfind, Hr, Hz. reflexivity.
    + unfold bind, send, modify, ret, raise in H. cbn [fst snd] in H.
      destruct (mlb_search w (String c name)) as [[| found rest] | []]; try discriminate H.
      injection H as Hm Hst. subst found st1. cbn [db_player_cache set_db_player_cache].
      rewrite (find_update_first same_player (with_mlb_id mlb_id) _ r Hfind)
        by (apply find_some in Hfind; apply Hfind).
      cbn [with_mlb_id pc_mlb_id]. rewrite (proj2 (Z.eqb_neq mlb_id 0) Hid). reflexivity.
  - unfold add_player_cache, get_state, bind, send, modify, ret, raise in H.
    cbn [fst snd db_player_cache] in H.
    destruct (mlb_search w (String c name)) as [[| found rest] | []]; try discriminate H.
    cbn [db_player_cache pc_espn_id] in H.
    destruct (existsb (fun r => pc_espn_id r =? player_id) (db_player_cache st));
      [discriminate H |].
    injection H as Hm Hst. subst found st1. cbn [db_player_cache set_db_player_cache].
    rewrite (find_app_new same_player _ _ Hfind)
      by (unfold same_player; cbn; rewrite !Z.eqb_refl; reflexivity).
    cbn [pc_mlb_id]. rewrite (proj2 (Z.eqb_neq mlb_id 0) Hid). reflexivity.
Qed.

(** X14. An identifier that [get_mlb_id] returns is found again: the same
    call made in the state the first one left returns the same identifier
    and leaves that state as it is, sending no request (the memo answers).
    And an identifier other than 0 that the first call did not take from
    the memo does not depend on the memo: whatever the memo holds
    afterwards, the body of the function returns the identifier again
    without a request and without a change (it comes from the table of
    hand-made mappings or from the row stored in the player cache; a stored
    identifier 0 counts as missing in the test of line 215). *)
Theorem get_mlb_id_stored (w : World) (player_name : string) (player_id : Z)
    (st st1 : State) (mlb_id : Z) :
  get_mlb_id w player_name player_id st = (Ok (Some mlb_id), st1) ->
  get_mlb_id w player_name player_id st1 = (Ok (Some mlb_id), st1)
  /\ (mlb_id <> 0 ->
      memoized_mlb_id w st player_name player_id = None ->
      forall m : Memo,
        get_mlb_id_uncached w player_name player_id (set_memo m st1)
        = (Ok (Some mlb_id), set_memo m st1)).
Proof.
  intros H. unfold get_mlb_id in H. apply memoize_cases in H.
  destruct H as [(Hget & Hfound & ->) | (Hmiss & st0 & Hrun & ->)].
  - split.
    + unfold get_mlb_id. apply memoize_hit; assumption.
    + intros _ Hm. unfold memoized_mlb_id in Hm. rewrite Hget in Hm. discriminate Hm.
  - split.
    + unfold get_mlb_id. apply memoize_hit; [| reflexivity].
      cbn [memo set_memo memo_get_mlb_id with_memo_get_mlb_id].
      rewrite lookup_insert_eq. cbn [cache_get].
      replace (utcnow w <=? utcnow w + 86400) with true by (symmetry; apply Z.leb_le; lia).
      reflexivity.
    + intros Hid _ m.
      pose proof (get_mlb_id_uncached_stored w player_name player_id st st0 mlb_id Hrun Hid)
        as Hagain.
      change (set_memo m (set_memo _ st0)) with (set_memo m st0).
      rewrite get_mlb_id_uncached_memo, Hagain. reflexivity.
Qed.

Lemma get_mlb_id_stored_witness :
  let w := Scenario.world Scenario.day1 in
  let st1 := snd (get_mlb_id w "Al" 101 (Scenario.state "HR")) in
  get_mlb_id w "Al" 101 st1 = (Ok (Some 9001), st1)
  /\ (9001 <> 0 ->
      memoized_mlb_id w (Scenario.state "HR") "Al" 101 = None ->
      forall m : Memo,
        get_mlb_id_uncached w "Al" 101 (set_memo m st1) = (Ok (Some 9001), set_memo m st1)).
Proof.
  intros w st1.
  apply (get_mlb_id_stored w "Al" 101 (Scenario.state "HR") st1 9001).
  reflexivity.
Defined.

Lemma fetch_game_log_conflict (w : World) (player_id : Z) (player_name : string)
    (mlb_id : Z) (group : string) (st : State) (game_log : list game_split) :
  find (fun r => (pc_espn_id r =? player_id) && (pc_season r =? YEAR w)
                 && String.eqb (pc_group r) group) (db_player_cache st) = None ->
  Exists (fun r => pc_espn_id r = player_id) (db_player_cache st) ->
  mlb_game_log w mlb_id group = Ok (Some game_log) ->
  exists st',
    fetch_game_log w player_id player_name mlb_id group st = (Raise IntegrityError, st')
    /\ db_player_cache st' = db_player_cache st
    /\ requests st' = requests st ++ [ReqGameLog mlb_id group]
    /\ game_log_cache st' !! (player_id, group) = Some game_log.
Proof.
  intros Hfind Hrow Hlog. unfold fetch_game_log. rewrite bind_get, Hfind.
  cbn [mbind option_bind].
  assert (Hex : existsb (fun r => pc_espn_id r =? player_id) (db_player_cache st) = true).
  { apply existsb_exists. apply List.Exists_exists in Hrow.
    destruct Hrow as (r & Hin & Hr). exists r. split; [exact Hin | apply Z.eqb_eq; exact Hr]. }
  unfold add_player_cache, get_state, bind, send, modify, raise. rewrite Hlog.
  cbn [fst snd db_player_cache set_game_log_cache pc_espn_id]. rewrite Hex.
  eexists. split; [reflexivity |]. cbn.
  split; [reflexivity |]. split; [reflexivity | apply lookup_insert_eq].
Qed.

(** An answer that cannot be read raises where it is read. *)
Lemma fetch_game_log_unreadable (w : World) (player_id : Z) (player_name : string)
    (mlb_id : Z) (group : string) (st : State) (e : exn) :
  find (fun r => (pc_espn_id r =? player_id) && (pc_season r =? YEAR w)
                 && String.eqb (pc_group r) group) (db_player_cache st)
    ≫= pc_game_log = None ->
  mlb_game_log w mlb_id group = Raise e ->
  e <> RequestException -> e <> KeyError -> e <> IndexError ->
  fetch_game_log w player_id player_name mlb_id group st
  = (Raise e, snd (send (ReqGameLog mlb_id group) st)).
Proof.
  intros Hnone Hlog H1 H2 H3. unfold fetch_game_log. rewrite bind_get, Hnone.
  unfold bind, send, modify, raise. rewrite Hlog.
  destruct e; try contradiction; reflexivity.
Qed.

(** X15. The player cache holds one row per player ([espn_id] is
    unique), but a game log is looked up by player, season and group.
    [fetch_game_log] raises in two cases only. It raises [IntegrityError]
    when the table has a row of the player but none for this season and
    group, and the provider returns a game log: the log cannot be stored;
    by then the request was sent and the log put in the in-memory cache,
    and the table is left as it was. And when no log is stored for the
    player and the provider's answer cannot be read, it raises what reading
    the answer raises (the answer is decoded outside the [try] blocks, and
    the inner one handles [KeyError] and [IndexError] only). *)
Theorem game_log_store_fails_iff (w : World) (player_id : Z) (player_name : string)
    (mlb_id : Z) (group : string) (st : State) :
  (forall e,
      fst (fetch_game_log w player_id player_name mlb_id group st) = Raise e <->
      (e = IntegrityError
       /\ find (fun r => (pc_espn_id r =? player_id) && (pc_season r =? YEAR w)
                         && String.eqb (pc_group r) group) (db_player_cache st) = None
       /\ Exists (fun r => pc_espn_id r = player_id) (db_player_cache st)
       /\ exists game_log, mlb_game_log w mlb_id group = Ok (Some game_log))
      \/
      (find (fun r => (pc_espn_id r =? player_id) && (pc_season r =? YEAR w)
                      && String.eqb (pc_group r) group) (db_player_cache st)
         ≫= pc_game_log = None
       /\ mlb_game_log w mlb_id group = Raise e
       /\ e <> RequestException /\ e <> KeyError /\ e <> IndexError))
  /\
  (forall game_log,
      fst (fetch_game_log w player_id player_name mlb_id group st) = Raise IntegrityError ->
      mlb_game_log w mlb_id group = Ok (Some game_log) ->
      let st' := snd (fetch_game_log w player_id player_name mlb_id group st) in
      db_player_cache st' = db_player_cache st
      /\ requests st' = requests st ++ [ReqGameLog mlb_id group]
      /\ game_log_cache st' !! (player_id, group) = Some game_log).
Proof.
  assert (Hraises : forall e,
    fst (fetch_game_log w player_id player_name mlb_id group st) = Raise e ->
    (e = IntegrityError
     /\ find (fun r => (pc_espn_id r =? player_id) && (pc_season r =? YEAR w)
                       && String.eqb (pc_group r) group) (db_player_cache st) = None
     /\ Exists (fun r => pc_espn_id r = player_id) (db_player_cache st)
     /\ exists game_log, mlb_game_log w mlb_id group = Ok (Some game_log))
    \/
    (find (fun r => (pc_espn_id r =? player_id) && (pc_season r =? YEAR w)
                    && String.eqb (pc_group r) group) (db_player_cache st)
       ≫= pc_game_log = None
     /\ mlb_game_log w mlb_id group = Raise e
     /\ e <> RequestException /\ e <> KeyError /\ e <> IndexError)).
  { intros e. unfold fetch_game_log. rewrite bind_get.
    destruct (find _ (db_player_cache st)) as [r |] eqn:Hfind; cbn [mbind option_bind].
    - destruct (pc_game_log r) eqn:Hr; [discriminate |].
      unfold bind, send, modify, ret, raise.
      destruct (mlb_game_log w mlb_id group) as [[game_log |] | e0] eqn:Hlog;
        try discriminate.
      destruct e0; cbn [fst]; try discriminate; intros [= <-]; right;
        (split; [reflexivity |]); (split; [reflexivity |]); repeat split; discriminate.
    - destruct (mlb_game_log w mlb_id group) as [[game_log |] | e0] eqn:Hlog.
      + unfold add_player_cache, get_state, bind, send, modify, ret, raise.
        cbn [fst snd db_player_cache set_game_log_cache pc_espn_id].
        destruct (existsb (fun r => pc_espn_id r =? player_id) (db_player_cache st)) eqn:Hex;
          cbn [fst]; [| discriminate].
        intros [= <-]. left. split; [reflexivity |]. split; [reflexivity |].
        split; [| exists game_log; reflexivity].
        apply existsb_exists in Hex. destruct Hex as (r & Hin & Hr).
        apply List.Exists_exists. exists r. split; [exact Hin | apply Z.eqb_eq; exact Hr].
      + unfold bind, send, modify, ret. discriminate.
      + unfold bind, send, modify, ret, raise.
        destruct e0; cbn [fst]; try discriminate; intros [= <-]; right;
          (split; [reflexivity |]); (split; [reflexivity |]); repeat split; discriminate. }
  split.
  - intros e. split; [apply Hraises |].
    intros [(-> & Hfind & Hrow & game_log & Hlog) | (Hnone & Hlog & H1 & H2 & H3)].
    + destruct (fetch_game_log_conflict w player_id player_name mlb_id group st game_log
                  Hfind Hrow Hlog) as (st' & Hrun & _).
      rewrite Hrun. reflexivity.
    + rewrite (fetch_game_log_unreadable w player_id player_name mlb_id group st e
                 Hnone Hlog H1 H2 H3). reflexivity.
  - intros game_log Hrun Hlog.
    destruct (Hraises _ Hrun) as [(_ & Hfind & Hrow & _) | (_ & Hlog' & _)];
      [| rewrite Hlog in Hlog'; discriminate Hlog'].
    destruct (fetch_game_log_conflict w player_id player_name mlb_id group st game_log
                Hfind Hrow Hlog) as (st' & Hrun' & Hdb & Hreq & Hcache).
    rewrite Hrun'. cbn [snd]. auto.
Qed.

Lemma find_none_forall {A : Type} (p : A -> bool) (l : list A) :
  (forall x, In x l -> p x = false) -> find p l = None.
Proof.
  intros H. induction l as [| x l IH]; cbn [find]; [reflexivity |].
  rewrite (H x) by (left; reflexivity). apply IH. intros y Hy. apply H. right. exact Hy.
Qed.

Lemma find_app_none {A : Type} (p : A -> bool) (l k : list A) :
  find p l = None -> find p (l ++ k) = find p k.
Proof.
  induction l as [| x l IH]; cbn [find app]; [reflexivity |].
  destruct (p x); [discriminate | exact IH].
Qed.

Lemma existsb_false_forall {A : Type} (p : A -> bool) (l : list A) :
  (forall x, In x l -> p x = false) -> existsb p l = false.
Proof.
  intros H. induction l as [| x l IH]; cbn [existsb]; [reflexivity |].
  rewrite (H x) by (left; reflexivity). apply IH. intros y Hy. apply H. right. exact Hy.
Qed.

(** The row [get_mlb_id] stores for a player it found by a search. *)
Lemma get_mlb_id_searched (w : World) (player_name : string) (player_id : Z)
    (st : State) (mlb_id : Z) (rest : list Z) :
  player_name <> ""%string ->
  od_get player_id manual_mlb_mappings = None ->
  memoized_mlb_id w st player_name player_id = None ->
  Forall (fun r => pc_espn_id r <> player_id) (db_player_cache st) ->
  mlb_search w player_name = Ok (mlb_id :: rest) ->
  exists st1,
    get_mlb_id w player_name player_id st = (Ok (Some mlb_id), st1)
    /\ db_player_cache st1
       = db_player_cache st ++
         [{| pc_espn_id := player_id; pc_mlb_id := Some mlb_id;
             pc_player_name := player_name; pc_game_log := None;
             pc_season := YEAR w; pc_group := "hitting" |}]
    /\ mlb_id_cache st1 = mlb_id_cache st
    /\ processed_players st1 = processed_players st.
Proof.
  intros Hname Hmanual Hmemo Hrows Hsearch.
  assert (Hrun : get_mlb_id_uncached w player_name player_id st
                 = (Ok (Some mlb_id),
                    set_db_player_cache
                      (db_player_cache st ++
                       [{| pc_espn_id := player_id; pc_mlb_id := Some mlb_id;
                           pc_player_name := player_name; pc_game_log := None;
                           pc_season := YEAR w; pc_group := "hitting" |}])
                      (snd (send (ReqSearch player_name) st)))).
  { unfold get_mlb_id_uncached.
    destruct player_name as [| c name]; [contradiction |].
    rewrite Hmanual, bind_get. rewrite List.Forall_forall in Hrows.
    rewrite find_none_forall.
    2: { intros r Hr. apply andb_false_iff. left. apply Z.eqb_neq. apply Hrows. exact Hr. }
    rewrite Hsearch.
    unfold add_player_cache, get_state, bind, send, modify, ret, raise.
    cbn [fst snd db_player_cache pc_espn_id].
    rewrite existsb_false_forall; [reflexivity |].
    intros r Hr. apply Z.eqb_neq. apply Hrows. exact Hr. }
  rewrite (get_mlb_id_miss w player_name player_id st Hmemo), Hrun.
  eexists. split; [reflexivity |]. cbn. auto.
Qed.

(** X16. The two steps of a player's processing work against each other
    outside the hitting group: for a player who is not yet known (no
    hand-made mapping, no row in the player cache, no entry in the
    in-memory cache, no identifier in the memo) and whom the search finds,
    [get_mlb_id] stores a row under the group hitting; as the game log is
    looked up under the contest's group, the log that the provider returns
    for another group cannot be stored, and the player's processing raises
    [IntegrityError]. *)
Theorem searched_player_of_other_group_fails (w : World) (stat_category : string)
    (slots : list Z) (group : string) (chunk_date : Z) (team_name : string)
    (player_id : Z) (player_name : string) (lineup_slot_id : Z)
    (acc : team_stats_t * bool) (st : State)
    (mlb_id : Z) (rest : list Z) (game_log : list game_split) :
  player_name <> ""%string ->
  od_get player_id manual_mlb_mappings = None ->
  mlb_id_cache st !! player_id = None ->
  memoized_mlb_id w st player_name player_id = None ->
  Forall (fun r => pc_espn_id r <> player_id) (db_player_cache st) ->
  mlb_search w player_name = Ok (mlb_id :: rest) ->
  mlb_id <> 0 ->
  mlb_id ∉ processed_players st ->
  group <> "hitting"%string ->
  mlb_game_log w mlb_id group = Ok (Some game_log) ->
  fst (process_player w stat_category slots group chunk_date team_name
                      (player_id, player_name, lineup_slot_id) acc st)
  = Raise IntegrityError.
Proof.
  intros Hname Hmanual Hcache Hmemo Hrows Hsearch Hid Hnew Hgroup Hlog.
  destruct (get_mlb_id_searched w player_name player_id st mlb_id rest
              Hname Hmanual Hmemo Hrows Hsearch) as (st1 & Hget & Hdb & Hids & Hproc).
  set (row := {| pc_espn_id := player_id; pc_mlb_id := Some mlb_id;
                 pc_player_name := player_name; pc_game_log := None;
                 pc_season := YEAR w; pc_group := "hitting" |}) in *.
  set (st2 := set_processed_players ({[mlb_id]} ∪ processed_players st1)
                (set_mlb_id_cache (<[player_id := mlb_id]> (mlb_id_cache st1)) st1)).
  assert (Hres : resolve_player w player_id player_name st = (Ok (Some mlb_id), st2)).
  { unfold resolve_player. rewrite bind_get, Hcache.
    unfold bind at 1. rewrite (bind_run _ _ _ _ _ Hget).
    rewrite (proj2 (Z.eqb_neq mlb_id 0) Hid).
    unfold bind at 1. cbn [modify ret negb].
    rewrite bind_get. cbn [set_mlb_id_cache mlb_id_cache processed_players].
    rewrite lookup_insert_eq, (proj2 (Z.eqb_neq mlb_id 0) Hid).
    rewrite bool_decide_false by (rewrite Hproc; exact Hnew). reflexivity. }
  assert (Hfetch : exists st3,
             fetch_game_log w player_id player_name mlb_id group st2
             = (Raise IntegrityError, st3)).
  { destruct (fetch_game_log_conflict w player_id player_name mlb_id group st2 game_log)
      as (st3 & H3 & _); [| | exact Hlog | exists st3; exact H3].
    - cbn [st2 db_player_cache set_processed_players set_mlb_id_cache]. rewrite Hdb.
      rewrite find_app_none.
      + cbn [find row pc_espn_id pc_season pc_group].
        replace (String.eqb "hitting" group) with false; [rewrite andb_false_r; reflexivity |].
        symmetry. apply String.eqb_neq. congruence.
      + apply find_none_forall. intros r Hr. rewrite List.Forall_forall in Hrows.
        apply andb_false_iff. left. apply andb_false_iff. left.
        apply Z.eqb_neq. apply Hrows. exact Hr.
    - cbn [st2 db_player_cache set_processed_players set_mlb_id_cache]. rewrite Hdb.
      apply List.Exists_exists. exists row. split; [| reflexivity].
      apply in_or_app. right. left. reflexivity. }
  destruct Hfetch as (st3 & Hfetch).
  unfold process_player. rewrite (bind_run _ _ _ _ _ Hres).
  rewrite (bind_raise _ _ _ _ _ Hfetch). reflexivity.
Qed.

Lemma searched_player_of_other_group_fails_witness :
  fst (process_player (Scenario.world Scenario.day1) "ERA" [13; 14; 15] "pitching"
                      Scenario.day1 "A" (101, "Al"%string, 14)
                      ([("A"%string, Ratio PyFloat.zero PyFloat.zero)], false)
                      (Scenario.state "ERA"))
  = Raise IntegrityError.
Proof.
  apply (searched_player_of_other_group_fails
           (Scenario.world Scenario.day1) "ERA" [13; 14; 15] "pitching" Scenario.day1 "A"
           101 "Al" 14 ([("A"%string, Ratio PyFloat.zero PyFloat.zero)], false)
           (Scenario.state "ERA") 9001 []
           [Scenario.game Scenario.day1 2; Scenario.game Scenario.day2 0]).
  - discriminate.
  - reflexivity.
  - reflexivity.
  - reflexivity.
  - apply List.Forall_nil.
  - reflexivity.
  - discriminate.
  - apply not_elem_of_empty.
  - discriminate.
  - reflexivity.
Defined.

(** X17. A game log that [fetch_game_log] returns is kept: the same call
    made in the state the first one left returns the same log and leaves
    that state as it is, sending no request (the log comes from the
    player's row in the player cache). *)
Theorem game_log_stored (w : World) (player_id : Z) (player_name : string)
    (mlb_id : Z) (group : string) (st st1 : State) (game_log : list game_split) :
  fetch_game_log w player_id player_name mlb_id group st = (Ok (Some game_log), st1) ->
  fetch_game_log w player_id player_name mlb_id group st1 = (Ok (Some game_log), st1).
Proof.
  unfold fetch_game_log. rewrite !bind_get.
  set (same_row := fun r => (pc_espn_id r =? player_id) && (pc_season r =? YEAR w)
                            && String.eqb (pc_group r) group).
  destruct (find same_row (db_player_cache st)) as [r |] eqn:Hfind; cbn [mbind option_bind].
  - destruct (pc_game_log r) as [stored |] eqn:Hr.
    + unfold ret. intros [= -> ->]. rewrite Hfind. cbn [mbind option_bind]. rewrite Hr.
      reflexivity.
    + unfold bind, send, modify, ret, raise.
      destruct (mlb_game_log w mlb_id group) as [[fetched |] | []]; try discriminate.
      cbn [fst snd]. intros [= -> <-].
      cbn [db_player_cache set_db_player_cache set_game_log_cache].
      rewrite (find_update_first same_row (with_game_log game_log) _ r Hfind)
        by (apply find_some in Hfind; apply Hfind).
      reflexivity.
  - unfold add_player_cache, get_state, bind, send, modify, ret, raise.
    destruct (mlb_game_log w mlb_id group) as [[fetched |] | []]; try discriminate.
    cbn [fst snd db_player_cache set_game_log_cache pc_espn_id].
    destruct (existsb (fun r => pc_espn_id r =? player_id) (db_player_cache st));
      [discriminate |].
    intros [= -> <-]. cbn [db_player_cache set_db_player_cache set_game_log_cache].
    rewrite (find_app_new same_row _ _ Hfind)
      by (unfold same_row; cbn; rewrite !Z.eqb_refl, String.eqb_refl; reflexivity).
    reflexivity.
Qed.

Lemma game_log_stored_witness :
  let w := Scenario.world Scenario.day1 in
  let st1 := snd (fetch_game_log w 101 "Al" 9001 "hitting" (Scenario.state "HR")) in
  fetch_game_log w 101 "Al" 9001 "hitting" st1
  = (Ok (Some [Scenario.game Scenario.day1 2; Scenario.game Scenario.day2 0]), st1).
Proof.
  intros w st1.
  apply (game_log_stored w 101 "Al" 9001 "hitting" (Scenario.state "HR") st1).
  reflexivity.
Defined.

(** ** A player listed twice on a day *)

Lemma resolve_player_skips (w : World) (player_id : Z) (player_name : string)
    (st : State) (mlb_id : Z) :
  mlb_id_cache st !! player_id = Some mlb_id ->
  mlb_id = 0 \/ mlb_id ∈ processed_players st ->
  resolve_player w player_id player_name st = (Ok None, st).
Proof.
  intros Hc Hskip. unfold resolve_player. rewrite bind_get, Hc.
  unfold bind at 1. cbn [ret negb]. rewrite bind_get, Hc.
  destruct (mlb_id =? 0) eqn:Hz; [reflexivity |].
  destruct Hskip as [-> | Hin]; [discriminate Hz |].
  rewrite bool_decide_true by exact Hin. reflexivity.
Qed.

Lemma resolve_player_some (w : World) (player_id : Z) (player_name : string)
    (st st1 : State) (mlb_id : Z) :
  resolve_player w player_id player_name st = (Ok (Some mlb_id), st1) ->
  mlb_id_cache st1 !! player_id = Some mlb_id /\ mlb_id ∈ processed_players st1.
Proof.
  unfold resolve_player. rewrite bind_get. intros H.
  apply bind_ok in H. destruct H as (known & st' & _ & H).
  destruct known; cbn [negb] in H; [| apply ret_ok in H; destruct H; discriminate].
  rewrite bind_get in H.
  destruct (mlb_id_cache st' !! player_id) as [m |] eqn:Hm;
    [| apply ret_ok in H; destruct H; discriminate].
  destruct (m =? 0); [apply ret_ok in H; destruct H; discriminate |].
  destruct (bool_decide (m ∈ processed_players st'));
    [apply ret_ok in H; destruct H; discriminate |].
  unfold bind, modify, ret in H. injection H as -> <-.
  cbn [mlb_id_cache processed_players set_processed_players]. split; [exact Hm |].
  apply elem_of_union. left. apply elem_of_singleton. reflexivity.
Qed.

(** A search that brought no usable identifier brings none the next time. *)
Lemma get_mlb_id_uncached_none_again (w : World) (player_name : string) (player_id : Z)
    (st st1 : State) (found : option Z) :
  get_mlb_id_uncached w player_name player_id st = (Ok found, st1) ->
  found = None \/ found = Some 0 ->
  mlb_id_cache st1 = mlb_id_cache st
  /\ processed_players st1 = processed_players st
  /\ exists found' st2,
       get_mlb_id_uncached w player_name player_id st1 = (Ok found', st2)
       /\ (found' = None \/ found' = Some 0).
Proof.
  unfold get_mlb_id_uncached. destruct player_name as [| c name].
  { unfold ret. intros [= <- <-] _. split; [reflexivity |]. split; [reflexivity |].
    eexists _, _. split; [reflexivity | left; reflexivity]. }
  destruct (od_get player_id manual_mlb_mappings) as [manual |].
  { unfold ret. intros [= <- <-] Hf. split; [reflexivity |]. split; [reflexivity |].
    eexists _, _. split; [reflexivity | exact Hf]. }
  rewrite !bind_get.
  set (same_player := fun r => (pc_espn_id r =? player_id) && (pc_season r =? YEAR w)).
  intros H Hf.
  destruct (find same_player (db_player_cache st)) as [r |] eqn:Hfind.
  - destruct (match pc_mlb_id r with
              | Some id => if id =? 0 then None else Some id
              | None => None
              end) as [id |] eqn:Hcached.
    { exfalso. unfold ret in H. injection H as <- _.
      destruct (pc_mlb_id r) as [id' |]; [| discriminate Hcached].
      destruct (id' =? 0) eqn:Hz; [discriminate Hcached |].
      injection Hcached as ->. destruct Hf as [Hf | Hf]; [discriminate Hf |].
      injection Hf as ->. discriminate Hz. }
    unfold bind, send, modify, ret, raise in H. cbn [fst snd] in H.
    destruct (mlb_search w (String c name)) as [[| m rest] | e] eqn:Hs;
      [| | destruct e; try discriminate H].
    + injection H as <- <-. split; [reflexivity |]. split; [reflexivity |].
      cbn [db_player_cache]. rewrite Hfind, Hcached.
      unfold bind, send, modify, ret, raise. cbn [fst snd]. try rewrite Hs.
      eexists _, _. split; [reflexivity | left; reflexivity].
    + injection H as <- <-. split; [reflexivity |]. split; [reflexivity |].
      destruct Hf as [Hf | Hf]; [discriminate Hf |]. injection Hf as ->.
      cbn [db_player_cache set_db_player_cache].
      rewrite (find_update_first same_player (with_mlb_id 0) _ r Hfind)
        by (apply find_some in Hfind; apply Hfind).
      cbn [with_mlb_id pc_mlb_id Z.eqb].
      unfold bind, send, modify, ret, raise. cbn [fst snd]. try rewrite Hs.
      cbn [db_player_cache set_db_player_cache].
      eexists _, _. split; [reflexivity | right; reflexivity].
    + injection H as <- <-. split; [reflexivity |]. split; [reflexivity |].
      cbn [db_player_cache]. rewrite Hfind, Hcached.
      unfold bind, send, modify, ret, raise. cbn [fst snd]. try rewrite Hs.
      eexists _, _. split; [reflexivity | left; reflexivity].
  - unfold add_player_cache, get_state, bind, send, modify, ret, raise in H.
    cbn [fst snd db_player_cache] in H.
    destruct (mlb_search w (String c name)) as [[| m rest] | e] eqn:Hs;
      [| | destruct e; try discriminate H].
    + injection H as <- <-. split; [reflexivity |]. split; [reflexivity |].
      cbn [db_player_cache]. rewrite Hfind.
      unfold bind, send, modify, ret, raise. cbn [fst snd]. try rewrite Hs.
      eexists _, _. split; [reflexivity | left; reflexivity].
    + cbn [db_player_cache pc_espn_id] in H.
      destruct (existsb (fun r => pc_espn_id r =? player_id) (db_player_cache st));
        [discriminate H |].
      injection H as <- <-. split; [reflexivity |]. split; [reflexivity |].
      destruct Hf as [Hf | Hf]; [discriminate Hf |]. injection Hf as ->.
      cbn [db_player_cache set_db_player_cache].
      rewrite (find_app_new same_player _ _ Hfind)
        by (unfold same_player; cbn; rewrite !Z.eqb_refl; reflexivity).
      cbn [pc_mlb_id Z.eqb].
      unfold bind, send, modify, ret, raise. cbn [fst snd]. try rewrite Hs.
      cbn [db_player_cache set_db_player_cache].
      eexists _, _. split; [reflexivity | right; reflexivity].
    + injection H as <- <-. split; [reflexivity |]. split; [reflexivity |].
      cbn [db_player_cache]. rewrite Hfind.
      unfold bind, send, modify, ret, raise. cbn [fst snd]. try rewrite Hs.
      eexists _, _. split; [reflexivity | left; reflexivity].
Qed.

Lemma get_mlb_id_none_again (w : World) (player_name : string) (player_id : Z)
    (st st1 : State) (found : option Z) :
  get_mlb_id w player_name player_id st = (Ok found, st1) ->
  found = None \/ found = Some 0 ->
  mlb_id_cache st1 = mlb_id_cache st
  /\ processed_players st1 = processed_players st
  /\ exists found' st2,
       get_mlb_id w player_name player_id st1 = (Ok found', st2)
       /\ (found' = None \/ found' = Some 0).
Proof.
  intros H Hf. unfold get_mlb_id in H. apply memoize_cases in H.
  destruct H as [(Hget & Hfound & ->) | (Hmiss & st0 & Hrun & ->)].
  - split; [reflexivity |]. split; [reflexivity |]. exists found, st.
    split; [apply memoize_hit; assumption | exact Hf].
  - destruct (get_mlb_id_uncached_none_again w player_name player_id st st0 found Hrun Hf)
      as (Hc & Hp & found' & st2 & Hrun' & Hf').
    split; [exact Hc |]. split; [exact Hp |].
    assert (Hentry : cache_get (utcnow w)
                       (memo_get_mlb_id
                          (memo (set_memo
                                   (with_memo_get_mlb_id
                                      (<[(player_name, player_id) := (utcnow w + 86400, found)]>
                                         (memo_get_mlb_id (memo st0)))
                                      (memo st0)) st0))
                          !! (player_name, player_id)) = Some found).
    { cbn [memo set_memo memo_get_mlb_id with_memo_get_mlb_id].
      rewrite lookup_insert_eq. cbn [cache_get].
      replace (utcnow w <=? utcnow w + 86400) with true by (symmetry; apply Z.leb_le; lia).
      reflexivity. }
    destruct found as [id |].
    + eexists (Some id), _. split; [| exact Hf].
      unfold get_mlb_id. apply memoize_hit; [exact Hentry | reflexivity].
    + unfold get_mlb_id. rewrite memoize_miss.
      2: { intros rv E. rewrite Hentry in E. injection E as <-. reflexivity. }
      rewrite get_mlb_id_uncached_memo, Hrun'. cbn [fst snd].
      eexists _, _. split; [reflexivity | exact Hf'].
Qed.

Lemma resolve_player_none_again (w : World) (player_id : Z) (player_name : string)
    (st st1 : State) :
  resolve_player w player_id player_name st = (Ok None, st1) ->
  fst (resolve_player w player_id player_name st1) = Ok None.
Proof.
  unfold resolve_player at 1. rewrite bind_get.
  destruct (mlb_id_cache st !! player_id) as [m |] eqn:Hc.
  - unfold bind at 1. cbn [ret negb]. rewrite bind_get, Hc.
    destruct (m =? 0) eqn:Hz.
    + unfold ret. intros [= <-].
      rewrite (resolve_player_skips w player_id player_name st m Hc); [reflexivity |].
      left. apply Z.eqb_eq. exact Hz.
    + destruct (bool_decide (m ∈ processed_players st)) eqn:Hp.
      * unfold ret. intros [= <-]. apply bool_decide_eq_true in Hp.
        rewrite (resolve_player_skips w player_id player_name st m Hc); [reflexivity |].
        right. exact Hp.
      * unfold bind, modify, ret. discriminate.
  - intros H. apply bind_ok in H. destruct H as (known & st' & Hk & H).
    apply bind_ok in Hk. destruct Hk as (found & st0 & Hget & Hk).
    destruct found as [m |]; [destruct (m =? 0) eqn:Hz |].
    + (* the search brought the identifier 0 *)
      apply ret_ok in Hk. destruct Hk as [-> ->]. cbn [negb] in H.
      apply ret_ok in H. destruct H as [_ ->].
      apply Z.eqb_eq in Hz. subst m.
      destruct (get_mlb_id_none_again _ _ _ _ _ _ Hget (or_intror eq_refl))
        as (Hsame & _ & found' & st2 & Hget' & Hf').
      unfold resolve_player. rewrite bind_get, Hsame, Hc.
      unfold bind at 1. rewrite (bind_run _ _ _ _ _ Hget').
      destruct Hf' as [-> | ->]; reflexivity.
    + (* an identifier was found and cached, and it was already processed *)
      unfold bind, modify, ret in Hk. injection Hk as <- <-. cbn [negb] in H.
      rewrite bind_get in H. cbn [set_mlb_id_cache mlb_id_cache processed_players] in H.
      rewrite lookup_insert_eq, Hz in H.
      destruct (bool_decide (m ∈ processed_players st0)) eqn:Hp.
      * apply ret_ok in H. destruct H as [_ ->]. apply bool_decide_eq_true in Hp.
        rewrite (resolve_player_skips w player_id player_name _ m); [reflexivity | |].
        -- cbn [set_mlb_id_cache mlb_id_cache]. apply lookup_insert_eq.
        -- right. exact Hp.
      * unfold bind, modify, ret in H. discriminate H.
    + apply ret_ok in Hk. destruct Hk as [-> ->]. cbn [negb] in H.
      apply ret_ok in H. destruct H as [_ ->].
      destruct (get_mlb_id_none_again _ _ _ _ _ _ Hget (or_introl eq_refl))
        as (Hsame & _ & found' & st2 & Hget' & Hf').
      unfold resolve_player. rewrite bind_get, Hsame, Hc.
      unfold bind at 1. rewrite (bind_run _ _ _ _ _ Hget').
      destruct Hf' as [-> | ->]; reflexivity.
Qed.

Lemma keeps_mlb_id_cache_fetch (w : World) (player_id : Z) (player_name : string)
    (mlb_id : Z) (group : string) :
  keeps mlb_id_cache (fetch_game_log w player_id player_name mlb_id group).
Proof. unfold fetch_game_log, add_player_cache. keeps_auto. Qed.

Lemma keeps_processed_fetch (w : World) (player_id : Z) (player_name : string)
    (mlb_id : Z) (group : string) :
  keeps processed_players (fetch_game_log w player_id player_name mlb_id group).
Proof. unfold fetch_game_log, add_player_cache. keeps_auto. Qed.

(** X18. A player who stands twice in the lineups of a day counts once:
    when a player's processing has returned, processing the same roster
    entry again on that day (before the set of processed players is
    emptied for the next day) returns the accumulators as they are. *)
Theorem player_listed_twice_counts_once (w : World) (stat_category : string)
    (slots : list Z) (group : string) (chunk_date : Z)
    (team_name other_team : string) (player : Z * string * Z)
    (acc acc1 : team_stats_t * bool) (st st1 : State) :
  process_player w stat_category slots group chunk_date team_name player acc st
  = (Ok acc1, st1) ->
  fst (process_player w stat_category slots group chunk_date other_team player acc1 st1)
  = Ok acc1.
Proof.
  destruct player as [[player_id player_name] lineup_slot_id].
  intros H.
  assert (Hres : fst (resolve_player w player_id player_name st1) = Ok None).
  { unfold process_player in H.
    apply bind_ok in H. destruct H as (resolved & st2 & Hr & H).
    destruct resolved as [mlb_id |].
    - apply resolve_player_some in Hr. destruct Hr as [Hc Hp].
      assert (Hkeep : mlb_id_cache st1 = mlb_id_cache st2
                      /\ processed_players st1 = processed_players st2).
      { pose proof (keeps_mlb_id_cache_fetch w player_id player_name mlb_id group st2) as K1.
        pose proof (keeps_processed_fetch w player_id player_name mlb_id group st2) as K2.
        apply bind_ok in H. destruct H as (fetched & st3 & Hf & H).
        rewrite Hf in K1, K2. cbn [snd] in K1, K2.
        destruct fetched as [fetched_log |];
          [| apply ret_ok in H; destruct H as [_ ->]; auto].
        rewrite bind_get in H.
        destruct (map split_stat _) as [| d ds];
          [apply ret_ok in H; destruct H as [_ ->]; auto |].
        apply bind_ok in H. destruct H as (a & st4 & Ha & H).
        apply lift_ok in Ha. destruct Ha as [_ ->].
        apply bind_ok in H. destruct H as (ts & st5 & Hts & H).
        apply lift_ok in Hts. destruct Hts as [_ ->].
        apply ret_ok in H. destruct H as [_ ->]. auto. }
      destruct Hkeep as [K1 K2].
      rewrite (resolve_player_skips w player_id player_name st1 mlb_id);
        [reflexivity | rewrite K1; exact Hc | right; rewrite K2; exact Hp].
    - apply ret_ok in H. destruct H as [_ ->].
      eapply resolve_player_none_again. exact Hr. }
  unfold process_player. unfold bind.
  destruct (resolve_player w player_id player_name st1) as [[resolved | e] st2];
    cbn [fst] in Hres; [| discriminate Hres].
  injection Hres as ->. reflexivity.
Qed.

Lemma player_listed_twice_counts_once_witness :
  let w := Scenario.world Scenario.day1 in
  let player := (101, "Al"%string, 0) in
  let acc : team_stats_t * bool :=
    ([("A"%string, Total PyFloat.zero); ("B"%string, Total PyFloat.zero)], false) in
  let acc1 : team_stats_t * bool :=
    ([("A"%string, Total (PyFloat.of_Z 2)); ("B"%string, Total PyFloat.zero)], true) in
  let st1 := snd (process_player w "HR" [13; 14; 15] "hitting" Scenario.day1 "A" player acc
                                 (Scenario.state "HR")) in
  fst (process_player w "HR" [13; 14; 15] "hitting" Scenario.day1 "B" player acc1 st1)
  = Ok acc1.
Proof.
  intros w player acc acc1 st1.
  apply (player_listed_twice_counts_once w "HR" [13; 14; 15] "hitting" Scenario.day1
           "A" "B" player acc acc1 (Scenario.state "HR") st1).
  vm_compute. reflexivity.
Defined.

(** ** Contests that cannot be computed *)

(** X19. A contest that is not stored, that has no league, or whose
    category in capitals is not one of the twenty supported ones is refused
    with [ValueError] before anything is fetched or changed: by the body of
    [compute_contest_stats], and by the call whenever the memo does not
    answer it; and whatever goes wrong in a computation or in
    [get_contest_data], the exception that comes out is a [ValueError]. *)
Theorem invalid_contest_rejected (w : World) (cid : Z) (st : State) :
  (stored_contest st cid = None
   \/ (exists contest,
         stored_contest st cid = Some contest
         /\ (contest_league contest = None
             \/ in_list (PyStr.upper (contest_stat_category contest)) valid_stats = false)) ->
   compute_contest_stats_uncached w cid st = (Raise ValueError, st)
   /\ (memoized_stats w st cid = None ->
       compute_contest_stats w cid st = (Raise ValueError, st)))
  /\ (stored_contest st cid = None -> get_contest_data w cid st = (Raise ValueError, st))
  /\ (forall e, fst (compute_contest_stats w cid st) = Raise e -> e = ValueError)
  /\ (forall e, fst (get_contest_data w cid st) = Raise e -> e = ValueError).
Proof.
  assert (Hre : forall (A : Type) (m : M A) (e : exn),
             fst (reraise_as_value_error m st) = Raise e -> e = ValueError).
  { intros A m e. unfold reraise_as_value_error.
    destruct (m st) as [[a | e'] st']; cbn [fst]; [discriminate | intros [= <-]; reflexivity]. }
  split; [| split; [| split]].
  - intros Hbad.
    assert (Hbody : compute_contest_stats_uncached w cid st = (Raise ValueError, st)).
    { unfold stored_contest in Hbad.
      unfold compute_contest_stats_uncached, reraise_as_value_error,
        compute_contest_stats_body.
      rewrite bind_get. destruct Hbad as [Hnone | (contest & Hc & Hbad)].
      + rewrite Hnone. reflexivity.
      + rewrite Hc. destruct Hbad as [Hl | Hv].
        * rewrite Hl. reflexivity.
        * destruct (contest_league contest); [| reflexivity]. rewrite Hv. reflexivity. }
    split; [exact Hbody |]. intros Hmiss.
    rewrite (compute_contest_stats_miss w cid st Hmiss), Hbody. reflexivity.
  - unfold stored_contest, get_contest_data, reraise_as_value_error, get_contest_data_body.
    rewrite bind_get. intros ->. reflexivity.
  - intros e. destruct (memoized_stats w st cid) as [out |] eqn:Hmemo.
    + rewrite (compute_contest_stats_hit w cid st out Hmemo). discriminate.
    + rewrite (compute_contest_stats_miss w cid st Hmemo).
      pose proof (Hre _ (compute_contest_stats_body w cid)) as Hbody.
      fold (compute_contest_stats_uncached w cid) in Hbody.
      destruct (compute_contest_stats_uncached w cid st) as [[out | e'] st'];
        cbn [fst] in *; [discriminate | apply Hbody].
  - apply Hre.
Qed.

(** ** A result that was just stored *)

Lemma latest_from_in (cid : Z) (rows : list ContestResult) :
  forall (best : option ContestResult) (b : ContestResult),
    fold_left (fun best r =>
      if cr_contest_id r =? cid then
        match best with
        | Some b => if cr_last_updated b <? cr_last_updated r then Some r else best
        | None => Some r
        end
      else best) rows best = Some b ->
    best = Some b \/ (In b rows /\ cr_contest_id b = cid).
Proof.
  induction rows as [| r rows IH]; intros best b; cbn [fold_left]; [auto |].
  intros H. apply IH in H. destruct H as [H | [Hin Hid]]; [| right; split; [right |]; auto].
  destruct (cr_contest_id r =? cid) eqn:Hr; [| auto].
  apply Z.eqb_eq in Hr.
  destruct best as [b0 |].
  - destruct (cr_last_updated b0 <? cr_last_updated r); [| auto].
    injection H as <-. right. split; [left; reflexivity | exact Hr].
  - injection H as <-. right. split; [left; reflexivity | exact Hr].
Qed.

Lemma latest_result_new (cid : Z) (rows : list ContestResult) (new : ContestResult) :
  cr_contest_id new = cid ->
  (forall r, In r rows -> cr_contest_id r = cid -> cr_last_updated r < cr_last_updated new) ->
  latest_result cid (rows ++ [new]) = Some new.
Proof.
  intros Hid Hold. unfold latest_result. rewrite fold_left_app. cbn [fold_left].
  rewrite (proj2 (Z.eqb_eq _ _) Hid).
  destruct (fold_left _ rows None) as [b |] eqn:Hb; [| reflexivity].
  apply latest_from_in in Hb. destruct Hb as [Hb | [Hin Hb]]; [discriminate Hb |].
  rewrite (proj2 (Z.ltb_lt _ _) (Hold b Hin Hb)). reflexivity.
Qed.

Lemma decode_snapshot_row (w : World) (cid : Z) (cs : contest_stats) :
  decode (snapshot_row w cid cs) = Some cs.
Proof. destruct cs as [[[rk ch] warning_message] s]. reflexivity. Qed.

Lemma keeps_contests_compute (w : World) (cid : Z) :
  keeps db_contests (compute_contest_stats w cid).
Proof.
  unfold compute_contest_stats, compute_contest_stats_uncached.
  apply keeps_memoize; [intros; reflexivity |].
  apply keeps_reraise.
  unfold compute_contest_stats_body, run_aggregation, process_range,
    get_team_names, get_team_rosters, get_team_names_uncached, get_team_rosters_uncached.
  repeat first [apply keeps_process_day; intros; reflexivity
               | apply keeps_memoize; [intros; reflexivity |]
               | keeps_step].
Qed.

(** X20. A result that [get_contest_data] has just returned is served
    again: when the clock's date is not before today and the time stamp of
    the call is later than those of the contest's stored results, the same
    call made next returns the same result from the store, computing
    nothing and writing nothing. *)
Theorem get_contest_data_again (w : World) (cid : Z) (st st1 : State)
    (contest : Contest) (cs : contest_stats) :
  stored_contest st cid = Some contest ->
  today w <= date_of (utcnow w) ->
  (forall r, In r (db_contest_results st) -> cr_contest_id r = cid ->
             cr_last_updated r < utcnow w) ->
  get_contest_data w cid st = (Ok cs, st1) ->
  get_contest_data w cid st1 = (Ok cs, st1).
Proof.
  intros Hc Hclock Hold H.
  destruct (get_contest_data_paths w cid st contest Hc)
    as [(r & cs' & _ & _ & _ & Hg) | (_ & Hg)].
  - rewrite Hg in H. injection H as -> ->. exact Hg.
  - rewrite Hg in H. apply reraise_ok in H.
    assert (Hcontests : db_contests st1 = db_contests st).
    { unfold recompute_and_store in H. apply bind_ok in H.
      destruct H as (cs0 & st0 & Hcomp & H).
      pose proof (keeps_contests_compute w cid st) as Hk. rewrite Hcomp in Hk. cbn [snd] in Hk.
      unfold bind, modify, ret in H. injection H as _ <-. exact Hk. }
    apply recompute_and_store_ok in H. destruct H as [_ Hdb].
    assert (Hlatest : latest_result cid (db_contest_results st1)
                      = Some (snapshot_row w cid cs)).
    { rewrite Hdb. apply latest_result_new.
      - destruct cs as [[[rk ch] wm] s]. reflexivity.
      - intros r Hin Hid. destruct cs as [[[rk ch] wm] s]. cbn. apply Hold; assumption. }
    assert (Hc1 : stored_contest st1 cid = Some contest).
    { unfold stored_contest in *. rewrite Hcontests. exact Hc. }
    destruct (get_contest_data_paths w cid st1 contest Hc1)
      as [(r & cs' & Hr & Hd & _ & Hg1) | (Hstale & _)].
    + rewrite Hlatest in Hr. injection Hr as <-.
      rewrite decode_snapshot_row in Hd. injection Hd as <-. exact Hg1.
    + exfalso. destruct (Hstale _ Hlatest) as [Hd | [Hdate _]].
      * rewrite decode_snapshot_row in Hd. discriminate Hd.
      * destruct cs as [[[rk ch] wm] s]. cbn in Hdate. lia.
Qed.


Lemma get_contest_data_again_witness :
  let w := Scenario.world (Scenario.day2 + 1) in
  let st := Scenario.state "HR" in
  let st1 := snd (get_contest_data w 1 st) in
  get_contest_data w 1 st1 = (Ok Scenario.final_stats, st1).
Proof.
  intros w st st1.
  apply (get_contest_data_again w 1 st st1 (Scenario.contest "HR") Scenario.final_stats).
  - reflexivity.
  - (vm_compute; discriminate).
  - (intros r Hr; vm_compute in Hr; destruct Hr).
  - (vm_compute; reflexivity).
Defined.

(** ** The display of a value *)

Lemma of_Z_exact (n d : Z) :
  1 <= d <= 53 -> 2 ^ (d - 1) <= n < 2 ^ d ->
  PyFloat.of_Z n = S754_finite false (Z.to_pos (n * 2 ^ (53 - d))) (d - 53).
Proof.
  intros Hd Hn.
  assert (Hpos : 0 < 2 ^ (d - 1)) by (apply Z.pow_pos_nonneg; lia).
  destruct n as [| p | p]; try lia.
  unfold PyFloat.of_Z, PyFloat.prec, PyFloat.emax, binary_normalize.
  apply binary_round_narrow; assumption.
Qed.

Lemma trunc_of_Z (n : Z) : 0 <= n < 2 ^ 53 -> PyFloat.trunc (PyFloat.of_Z n) = Ok n.
Proof.
  intros Hn. destruct (Z.eq_dec n 0) as [-> | Hne]; [reflexivity |].
  pose proof (Z.log2_spec n ltac:(lia)) as Hlog.
  pose proof (Z.log2_nonneg n) as Hnn.
  assert (Hlt : Z.log2 n < 53).
  { apply Z.log2_lt_pow2; lia. }
  rewrite (of_Z_exact n (Z.log2 n + 1)); [| lia |].
  2: { replace (Z.log2 n + 1 - 1) with (Z.log2 n) by lia.
       replace (Z.log2 n + 1) with (Z.succ (Z.log2 n)) by lia. exact Hlog. }
  unfold PyFloat.trunc. cbn [cond_Zopp].
  assert (Hs : 0 < 2 ^ (53 - (Z.log2 n + 1))) by (apply Z.pow_pos_nonneg; lia).
  rewrite Z2Pos.id by nia.
  destruct (Z.log2 n + 1 - 53) as [| q | q] eqn:He; try lia.
  - replace (53 - (Z.log2 n + 1)) with 0 by lia. f_equal. cbn. lia.
  - replace (53 - (Z.log2 n + 1)) with (Z.pos q) by lia.
    rewrite Z.div_mul by lia. reflexivity.
Qed.

(** X21. For the counting categories (every category that is neither a
    ratio nor the innings) [format_stat] shows a whole total exactly: the
    float of an integer from 0 up to 2^53 is displayed as that integer; a
    total that is not a number makes it raise [ValueError] and an infinite
    one [OverflowError], whereas for the ratio categories it never
    raises. *)
Theorem format_stat_counts (category : string) :
  (in_list category ratio_categories = false ->
   category <> "INNINGS PITCHED"%string ->
   (forall n, 0 <= n < 2 ^ 53 ->
              format_stat (PyFloat.of_Z n) category = Ok (PyStr.of_int n))
   /\ format_stat S754_nan category = Raise ValueError
   /\ (forall s, format_stat (S754_infinity s) category = Raise OverflowError))
  /\
  (in_list category ratio_categories = true ->
   forall value, exists text, format_stat value category = Ok text).
Proof.
  unfold format_stat. split.
  - intros -> Hne. rewrite (proj2 (String.eqb_neq _ _) Hne).
    split; [| split; [reflexivity | intros s; reflexivity]].
    intros n Hn. rewrite trunc_of_Z by exact Hn. reflexivity.
  - intros -> value. eexists. reflexivity.
Qed.

(** ** Innings with more than one dot *)

Lemma chars_app (s1 s2 : string) :
  PyStr.chars (s1 ++ s2) = PyStr.chars s1 ++ PyStr.chars s2.
Proof.
  unfold PyStr.chars. induction s1 as [| c s1 IH]; [reflexivity |].
  change (String c s1 ++ s2)%string with (String c (s1 ++ s2)).
  cbn [list_ascii_of_string app]. f_equal. exact IH.
Qed.

Lemma split_chars_nonempty (sep : ascii) (s : list ascii) :
  (1 <= length (PyStr.split_chars sep s))%nat.
Proof.
  induction s as [| c s IH]; cbn; [lia |].
  destruct (Ascii.eqb c sep); cbn; [lia |].
  destruct (PyStr.split_chars sep s); cbn in *; lia.
Qed.

Lemma split_chars_length (sep : ascii) (s1 s2 : list ascii) :
  length (PyStr.split_chars sep (s1 ++ sep :: s2))
  = (length (PyStr.split_chars sep s1) + length (PyStr.split_chars sep s2))%nat.
Proof.
  induction s1 as [| c s1 IH]; cbn [app PyStr.split_chars].
  - rewrite Ascii.eqb_refl. cbn. reflexivity.
  - destruct (Ascii.eqb c sep); cbn [length]; [rewrite IH; reflexivity |].
    pose proof (split_chars_nonempty sep (s1 ++ sep :: s2)) as H1.
    pose proof (split_chars_nonempty sep s1) as H2.
    destruct (PyStr.split_chars sep (s1 ++ sep :: s2)) as [| p1 r1];
      destruct (PyStr.split_chars sep s1) as [| p2 r2]; cbn in *; lia.
Qed.

(** X22. An innings text with two dots or more is read as 0.0: the text
    splits in more than two pieces, the unpacking fails, and the failure is
    swallowed. *)
Theorem parse_ip_two_dots (a b c : string) :
  length (PyStr.split "." (a ++ "." ++ b ++ "." ++ c)) = 
    (length (PyStr.split "." a) + length (PyStr.split "." b)
     + length (PyStr.split "." c))%nat
  /\ parse_ip_try (a ++ "." ++ b ++ "." ++ c) = Raise ValueError
  /\ parse_ip (a ++ "." ++ b ++ "." ++ c) = PyFloat.zero.
Proof.
  assert (Hlen : length (PyStr.split "." (a ++ "." ++ b ++ "." ++ c)) =
                 (length (PyStr.split "." a) + length (PyStr.split "." b)
                  + length (PyStr.split "." c))%nat).
  { unfold PyStr.split. rewrite !length_map, !chars_app.
    change (PyStr.chars ".") with ["."%char]. cbn [app].
    rewrite !split_chars_length. lia. }
  assert (Htry : parse_ip_try (a ++ "." ++ b ++ "." ++ c) = Raise ValueError).
  { unfold parse_ip_try.
    assert (Hdot : PyStr.contains_char "." (a ++ "." ++ b ++ "." ++ c) = true).
    { unfold PyStr.contains_char. rewrite chars_app. apply existsb_exists.
      exists "."%char. split; [| reflexivity].
      apply in_or_app. right. left. reflexivity. }
    rewrite Hdot. cbn [negb].
    pose proof (split_chars_nonempty "." (PyStr.chars a)) as Ha.
    pose proof (split_chars_nonempty "." (PyStr.chars b)) as Hb.
    pose proof (split_chars_nonempty "." (PyStr.chars c)) as Hc.
    unfold PyStr.split in Hlen at 2 3 4. rewrite !length_map in Hlen.
    destruct (PyStr.split "." (a ++ "." ++ b ++ "." ++ c)) as [| x [| y [| z l]]];
      cbn [length] in Hlen; try lia. reflexivity. }
  split; [exact Hlen |]. split; [exact Htry |].
  unfold parse_ip. rewrite Htry. reflexivity.
Qed.

(** ** Teams with equal values *)

(** X23. When no team's value is NaN the sort is stable in both
    directions: the teams that share a value stand in the rankings in the
    order in which the league lists them, for the categories sorted
    downwards as for those sorted upwards; so the winners of a tie are named
    in the league's order. *)
Theorem tied_teams_keep_league_order (stat_category : string) (team_stats : team_stats_t)
    (value : spec_float) :
  numbers (rankings_of team_stats) ->
  List.filter (fun tv => PyFloat.eqb (snd tv) value) (rank stat_category team_stats)
  = List.filter (fun tv => PyFloat.eqb (snd tv) value) (rankings_of team_stats)
  /\ (top_value (rank stat_category team_stats) = Some value ->
      winners_of (rank stat_category team_stats)
      = map fst (List.filter (fun tv => PyFloat.eqb (snd tv) value)
                             (rankings_of team_stats))).
Proof.
  intros Hn.
  assert (Hf : List.filter (fun tv => PyFloat.eqb (snd tv) value)
                           (rank stat_category team_stats)
               = List.filter (fun tv => PyFloat.eqb (snd tv) value)
                             (rankings_of team_stats)).
  { unfold rank, sort_by_value.
    destruct (negb (in_list stat_category lower_is_better)).
    - rewrite filter_rev, filter_sort_ascending, filter_rev; [apply rev_involutive |].
      apply (numbers_perm (rankings_of team_stats)); [apply Permutation_rev | exact Hn].
    - apply filter_sort_ascending. exact Hn. }
  split; [exact Hf |].
  intros Htop. rewrite <- Hf. unfold winners_of, top_value in *.
  destruct (rank stat_category team_stats) as [| [t top] r]; [discriminate Htop |].
  injection Htop as ->. reflexivity.
Qed.

Lemma tied_teams_keep_league_order_witness :
  let team_stats := [("A"%string, Total (PyFloat.of_Z 1)); ("B"%string, Total (PyFloat.of_Z 3));
                     ("C"%string, Total (PyFloat.of_Z 1)); ("D"%string, Total (PyFloat.of_Z 3))] in
  numbers (rankings_of team_stats)
  /\ List.filter (fun tv => PyFloat.eqb (snd tv) (PyFloat.of_Z 1))
                 (rank "HITS ALLOWED" team_stats)
     = List.filter (fun tv => PyFloat.eqb (snd tv) (PyFloat.of_Z 1)) (rankings_of team_stats)
  /\ (top_value (rank "HITS ALLOWED" team_stats) = Some (PyFloat.of_Z 1) ->
      winners_of (rank "HITS ALLOWED" team_stats)
      = map fst (List.filter (fun tv => PyFloat.eqb (snd tv) (PyFloat.of_Z 1))
                             (rankings_of team_stats))).
Proof.
  intros team_stats.
  assert (Hn : numbers (rankings_of team_stats)) by (repeat constructor).
  split; [exact Hn |].
  apply (tied_teams_keep_league_order "HITS ALLOWED" team_stats (PyFloat.of_Z 1) Hn).
Defined.

(** With a NaN among the values the order of the tied teams is not kept:
    in a category sorted upwards team H, the last of the three teams with
    the smallest value, is named before team F. *)
Lemma tied_teams_reordered_with_nan :
  let team_stats := [("A"%string, Total (PyFloat.of_Z 1)); ("B"%string, Total S754_nan);
                     ("C"%string, Total (PyFloat.of_Z 9)); ("D"%string, Total (PyFloat.of_Z 10));
                     ("E"%string, Total S754_nan); ("F"%string, Total (PyFloat.of_Z 1));
                     ("G"%string, Total (PyFloat.of_Z 3)); ("H"%string, Total (PyFloat.of_Z 1))] in
  winners_of (rank "HITS ALLOWED" team_stats) = ["A"; "H"; "F"]%string.
Proof.
  vm_compute. reflexivity.
Qed.

(** ** The pages: who may see and delete a contest *)

Lemma missing_contest_raises (w : World) (cid : Z) (st : State) :
  stored_contest st cid = None -> get_contest_data w cid st = (Raise ValueError, st).
Proof.
  unfold stored_contest, get_contest_data, reraise_as_value_error, get_contest_data_body.
  rewrite bind_get. intros ->. reflexivity.
Qed.

Lemma find_map_id {A B : Type} (f : A -> B) (p : B -> bool) (l : list A) :
  find p (map f l) = option_map f (find (fun x => p (f x)) l).
Proof.
  induction l as [| x l IH]; cbn [map find]; [reflexivity |].
  destruct (p (f x)); [reflexivity | exact IH].
Qed.

(** The contest the engine finds is the contest of the table. *)
Lemma stored_contest_engine (s : Site) (cid : Z) :
  stored_contest (engine_state s) cid
  = option_map (contest_of (site_leagues s)) (get_contest s cid).
Proof.
  unfold stored_contest, engine_state, get_contest. cbn [db_contests set_db_contests].
  apply (find_map_id (contest_of (site_leagues s)) (fun c => contest_id c =? cid)).
Qed.

(** X24. A user cannot see or delete what is not theirs: for a contest
    that does not exist or belongs to another user, [results] answers with
    the refusal text and leaves the site as it is (nothing is computed,
    fetched or stored), and [delete_contest] deletes nothing: tables, caches,
    memoized values and stored results stay as they were, and an error is
    flashed. *)
Theorem foreign_contest_untouched (w : World) (uid cid : Z) (s : Site) :
  (forall contest, get_contest s cid = Some contest -> row_user_id contest <> uid) ->
  results w uid cid s = (Text no_access, s)
  /\ fst (delete_contest uid cid s) = Redirect "dashboard" None
  /\ site_contests (snd (delete_contest uid cid s)) = site_contests s
  /\ site_leagues (snd (delete_contest uid cid s)) = site_leagues s
  /\ site_engine (snd (delete_contest uid cid s)) = site_engine s
  /\ site_flashes (snd (delete_contest uid cid s))
     = site_flashes s
       ++ [(Msg "Contest not found or you don't have permission to delete it.",
            "error"%string)].
Proof.
  intros Hforeign. unfold results, delete_contest.
  destruct (get_contest s cid) as [contest |]; [| repeat split; reflexivity].
  rewrite (proj2 (Z.eqb_neq _ _) (Hforeign contest eq_refl)).
  repeat split; reflexivity.
Qed.

Lemma find_filter_none {A : Type} (p : A -> bool) (l : list A) :
  find p (List.filter (fun x => negb (p x)) l) = None.
Proof.
  induction l as [| x l IH]; cbn [List.filter find]; [reflexivity |].
  destruct (p x) eqn:Hx; cbn [negb find]; [exact IH |]. rewrite Hx. exact IH.
Qed.

(** X25. When its owner deletes a contest, the contest is gone with all
    its stored results and with nothing else: no contest with that id is
    left, the other contests and the results of other contests are kept as
    they were, leagues, player cache and requests are untouched, success is
    flashed, and asking the engine for the contest's data afterwards raises
    [ValueError]. The memoized result of the contest is deleted with it, so
    that computing the contest afterwards raises [ValueError] as well; the
    other memoized values are kept. *)
Theorem delete_contest_removes (w : World) (uid cid : Z) (s : Site) (contest : ContestRow) :
  get_contest s cid = Some contest ->
  row_user_id contest = uid ->
  let s' := snd (delete_contest uid cid s) in
  get_contest s' cid = None
  /\ site_contests s' = List.filter (fun c => negb (row_id c =? cid)) (site_contests s)
  /\ db_contest_results (site_engine s')
     = List.filter (fun r => negb (cr_contest_id r =? cid))
                   (db_contest_results (site_engine s))
  /\ (forall r, In r (db_contest_results (site_engine s)) -> cr_contest_id r <> cid ->
                In r (db_contest_results (site_engine s')))
  /\ site_leagues s' = site_leagues s
  /\ db_player_cache (site_engine s') = db_player_cache (site_engine s)
  /\ requests (site_engine s') = requests (site_engine s)
  /\ site_flashes s' = site_flashes s ++ [(Msg "Contest deleted successfully.", "success"%string)]
  /\ fst (run_engine (get_contest_data w cid) s') = Raise ValueError
  /\ memoized_stats w (site_engine s') cid = None
  /\ fst (run_engine (compute_contest_stats w cid) s') = Raise ValueError
  /\ (forall other, other <> cid ->
                    memo_compute_contest_stats (memo (site_engine s')) !! other
                    = memo_compute_contest_stats (memo (site_engine s)) !! other)
  /\ memo_get_mlb_id (memo (site_engine s')) = memo_get_mlb_id (memo (site_engine s))
  /\ memo_get_team_names (memo (site_engine s')) = memo_get_team_names (memo (site_engine s))
  /\ memo_get_team_rosters (memo (site_engine s'))
     = memo_get_team_rosters (memo (site_engine s)).
Proof.
  intros Hc Hown. unfold delete_contest. rewrite Hc, (proj2 (Z.eqb_eq _ _) Hown).
  cbv zeta. cbn [snd].
  set (s' := flash _ _ _).
  assert (Hcontests : site_contests s'
                      = List.filter (fun c => negb (row_id c =? cid)) (site_contests s))
    by reflexivity.
  assert (Hgone : get_contest s' cid = None).
  { unfold get_contest. rewrite Hcontests.
    apply (find_filter_none (fun c => row_id c =? cid)). }
  assert (Hfilter : forall r : ContestResult,
             negb (in_Zs (cr_contest_id r) [cid]) = negb (cr_contest_id r =? cid)).
  { intros r. unfold in_Zs. cbn [existsb]. rewrite orb_false_r. reflexivity. }
  assert (Hmemo : memoized_stats w (site_engine s') cid = None).
  { unfold memoized_stats. subst s'.
    cbn [flash delete_memoized_stats with_engine site_engine memo set_memo
         memo_compute_contest_stats with_memo_compute_contest_stats].
    rewrite lookup_delete_eq. reflexivity. }
  assert (Hstored : stored_contest (engine_state s') cid = None).
  { rewrite stored_contest_engine, Hgone. reflexivity. }
  split; [exact Hgone |]. split; [exact Hcontests |]. split.
  { subst s'. cbn. apply List.filter_ext. exact Hfilter. }
  split.
  { intros r Hin Hne. subst s'.
    cbn [flash with_contests delete_results delete_memoized_stats with_engine site_engine
         db_contest_results set_db_contest_results set_memo].
    apply List.filter_In. split; [exact Hin |].
    rewrite Hfilter. apply negb_true_iff, Z.eqb_neq. exact Hne. }
  split; [reflexivity |]. split; [reflexivity |]. split; [reflexivity |].
  split; [reflexivity |].
  split.
  { unfold run_engine. cbn [fst]. rewrite missing_contest_raises; [reflexivity | exact Hstored]. }
  split; [exact Hmemo |].
  split.
  { unfold run_engine. cbn [fst].
    assert (Hmemo' : memoized_stats w (engine_state s') cid = None) by exact Hmemo.
    rewrite (compute_contest_stats_miss w cid _ Hmemo').
    unfold compute_contest_stats_uncached, reraise_as_value_error, compute_contest_stats_body.
    rewrite bind_get. unfold stored_contest in Hstored. rewrite Hstored. reflexivity. }
  split.
  { intros other Hne. subst s'.
    cbn [flash delete_memoized_stats with_contests delete_results with_engine site_engine
         memo set_memo set_db_contest_results memo_compute_contest_stats
         with_memo_compute_contest_stats].
    apply lookup_delete_ne. congruence. }
  repeat split; reflexivity.
Qed.

Lemma delete_contest_removes_witness :
  let contest := {| row_id := 1; row_user_id := 7; row_league_id := 1;
                    row_stat_category := "HR"; row_start_date := Scenario.day1;
                    row_end_date := Scenario.day2; row_title := "";
                    row_created_at := 0 |} in
  let w := Scenario.world Scenario.day2 in
  let s := {| site_leagues := []; site_contests := [contest];
              site_engine :=
                set_memo (with_memo_compute_contest_stats
                            {[ 1 := (utcnow w + 86400, Scenario.final_stats) ]} empty_memo)
                         (Scenario.state_with "HR" [Scenario.snapshot 0]);
              site_flashes := [] |} in
  let s' := snd (delete_contest 7 1 s) in
  memoized_stats w (site_engine s) 1 = Some Scenario.final_stats
  /\ get_contest s' 1 = None
  /\ site_contests s' = List.filter (fun c => negb (row_id c =? 1)) (site_contests s)
  /\ db_contest_results (site_engine s')
     = List.filter (fun r => negb (cr_contest_id r =? 1))
                   (db_contest_results (site_engine s))
  /\ (forall r, In r (db_contest_results (site_engine s)) -> cr_contest_id r <> 1 ->
                In r (db_contest_results (site_engine s')))
  /\ site_leagues s' = site_leagues s
  /\ db_player_cache (site_engine s') = db_player_cache (site_engine s)
  /\ requests (site_engine s') = requests (site_engine s)
  /\ site_flashes s' = site_flashes s ++ [(Msg "Contest deleted successfully.", "success"%string)]
  /\ fst (run_engine (get_contest_data w 1) s') = Raise ValueError
  /\ memoized_stats w (site_engine s') 1 = None
  /\ fst (run_engine (compute_contest_stats w 1) s') = Raise ValueError
  /\ (forall other, other <> 1 ->
                    memo_compute_contest_stats (memo (site_engine s')) !! other
                    = memo_compute_contest_stats (memo (site_engine s)) !! other)
  /\ memo_get_mlb_id (memo (site_engine s')) = memo_get_mlb_id (memo (site_engine s))
  /\ memo_get_team_names (memo (site_engine s')) = memo_get_team_names (memo (site_engine s))
  /\ memo_get_team_rosters (memo (site_engine s'))
     = memo_get_team_rosters (memo (site_engine s)).
Proof.
  intros contest w s.
  split; [vm_compute; reflexivity |].
  apply (delete_contest_removes w 7 1 s contest); reflexivity.
Defined.

Lemma foreign_contest_untouched_witness :
  let contest := {| row_id := 1; row_user_id := 7; row_league_id := 1;
                    row_stat_category := "HR"; row_start_date := Scenario.day1;
                    row_end_date := Scenario.day2; row_title := "";
                    row_created_at := 0 |} in
  let s := {| site_leagues := []; site_contests := [contest];
              site_engine := Scenario.state "HR"; site_flashes := [] |} in
  let w := Scenario.world Scenario.day2 in
  results w 8 1 s = (Text no_access, s)
  /\ fst (delete_contest 8 1 s) = Redirect "dashboard" None
  /\ site_contests (snd (delete_contest 8 1 s)) = site_contests s
  /\ site_leagues (snd (delete_contest 8 1 s)) = site_leagues s
  /\ site_engine (snd (delete_contest 8 1 s)) = site_engine s
  /\ site_flashes (snd (delete_contest 8 1 s))
     = site_flashes s
       ++ [(Msg "Contest not found or you don't have permission to delete it.",
            "error"%string)].
Proof.
  intros contest s w. apply (foreign_contest_untouched w 8 1 s).
  intros c Hc. vm_compute in Hc. injection Hc as <-. discriminate.
Defined.

(** ** The pages: creating a contest *)

Lemma fold_max_ge (l : list Z) :
  forall a, a <= fold_left Z.max l a /\ forall x, In x l -> x <= fold_left Z.max l a.
Proof.
  induction l as [| y l IH]; intros a; cbn [fold_left].
  - split; [lia | intros x []].
  - destruct (IH (Z.max a y)) as [Ha Hl]. split; [lia |].
    intros x [<- | Hx]; [lia | apply Hl; exact Hx].
Qed.

Lemma next_id_fresh (s : Site) :
  get_contest s (next_id (map row_id (site_contests s))) = None.
Proof.
  unfold get_contest. apply find_none_forall. intros c Hc. apply Z.eqb_neq.
  destruct (fold_max_ge (map row_id (site_contests s)) 0) as [_ Hmax].
  specialize (Hmax (row_id c) (in_map row_id _ _ Hc)). unfold next_id. lia.
Qed.

Lemma store_first_result_spec (w : World) (cid : Z) (attempts : nat) :
  forall s : Site,
    let s' := store_first_result w cid attempts s in
    site_contests s' = site_contests s
    /\ site_leagues s' = site_leagues s
    /\ ((exists data,
           db_contest_results (site_engine s')
           = db_contest_results (site_engine s) ++ [snapshot_row w cid data]
           /\ site_flashes s' = site_flashes s)
        \/ (db_contest_results (site_engine s') = db_contest_results (site_engine s)
            /\ site_flashes s'
               = site_flashes s
                 ++ [(Msg ("Error computing contest stats due to database or API issues. "
                           ++ "Contest created but results not available."),
                      "error"%string)])).
Proof.
  induction attempts as [| n IH]; intros s; cbn [store_first_result].
  - cbv zeta. split; [reflexivity |]. split; [reflexivity |]. right. split; reflexivity.
  - unfold run_engine.
    pose proof (keeps_results_compute w cid (engine_state s)) as Hk.
    destruct (compute_contest_stats w cid (engine_state s)) as [[data | e] st1];
      cbn [fst snd] in *.
    + cbv zeta. split; [reflexivity |]. split; [reflexivity |]. left. exists data.
      cbn. rewrite Hk. split; reflexivity.
    + specialize (IH (with_engine st1 s)). cbv zeta in IH.
      destruct IH as (Hc & Hl & Hr). cbv zeta.
      split; [exact Hc |]. split; [exact Hl |].
      cbn [with_engine site_engine site_flashes] in Hr. rewrite Hk in Hr. exact Hr.
Qed.

(** X26. [create_contest] stores nothing unless the form is in order:
    for a user without a league, for a form that was not submitted or that
    a validator refuses, and for dates of which the first is not before the
    second, no contest is stored, nothing is computed or fetched, and the
    answer is never the redirection to a results page. *)
Theorem create_contest_rejects (w : World) (uid : Z) (form : ContestForm) (s : Site) :
  user_leagues uid s = []
  \/ contest_form_validates (user_leagues uid s) form = false
  \/ (exists start_date end_date,
        form_start_date form = Some start_date
        /\ form_end_date form = Some end_date
        /\ end_date <= start_date) ->
  site_contests (snd (create_contest w uid form s)) = site_contests s
  /\ site_leagues (snd (create_contest w uid form s)) = site_leagues s
  /\ site_engine (snd (create_contest w uid form s)) = site_engine s
  /\ forall cid, fst (create_contest w uid form s) <> Redirect "results" cid.
Proof.
  unfold create_contest. intros H.
  destruct (user_leagues uid s) as [| l leagues] eqn:Hl.
  { repeat split; try reflexivity. intros cid. discriminate. }
  destruct H as [H | [H | (a & b & Ha & Hb & Hab)]]; [discriminate H | |].
  - rewrite H. cbn [negb]. repeat split; try reflexivity. intros cid. discriminate.
  - destruct (contest_form_validates (l :: leagues) form); cbn [negb];
      [| repeat split; try reflexivity; intros cid; discriminate].
    rewrite Ha, Hb, (proj2 (Z.leb_le _ _) Hab).
    repeat split; try reflexivity. intros cid. discriminate.
Qed.

Lemma create_contest_rejects_witness :
  let form := {| form_submitted := true; form_league_id := 1;
                 form_stat_category := "HR"; form_title := "";
                 form_start_date := Some Scenario.day2;
                 form_end_date := Some Scenario.day2 |} in
  let s := {| site_leagues := [ {| league_id := 1; league_user_id := 7;
                                   league_name := "L"; league_espn_id := 3438;
                                   league_slots := None |} ];
              site_contests := []; site_engine := Scenario.state "HR";
              site_flashes := [] |} in
  let w := Scenario.world Scenario.day2 in
  site_contests (snd (create_contest w 7 form s)) = site_contests s
  /\ site_leagues (snd (create_contest w 7 form s)) = site_leagues s
  /\ site_engine (snd (create_contest w 7 form s)) = site_engine s
  /\ forall cid, fst (create_contest w 7 form s) <> Redirect "results" cid.
Proof.
  intros form s w. apply (create_contest_rejects w 7 form s).
  right. right. exists Scenario.day2, Scenario.day2.
  split; [reflexivity |]. split; [reflexivity | lia].
Defined.

Lemma validated_form (leagues : list LeagueRow) (form : ContestForm) :
  contest_form_validates leagues form = true ->
  In (form_league_id form) (map league_id leagues)
  /\ in_list (form_stat_category form) valid_stats = true
  /\ is_Some (form_start_date form) /\ is_Some (form_end_date form).
Proof.
  unfold contest_form_validates. rewrite !andb_true_iff.
  intros [[[[[[[_ Hl] _] Hc] _] _] Hs] He].
  split; [apply in_Zs_In; exact Hl |]. split; [exact Hc |].
  split; eapply bool_decide_eq_true; eassumption.
Qed.

(** X27. A form in order creates a contest: with leagues, a form that
    validates and a start date before the end date, [create_contest] adds one
    contest under an id that no contest had, owned by the user, with the
    form's category, dates and title, and answers with the redirection to
    its results page. The new contest starts before it ends, has one of the
    twenty supported categories and a league of the user. A contest that
    starts after today is stored without anything being computed or fetched;
    otherwise either a first result is stored or the failure is flashed, and
    the contest is kept in both cases. *)
Theorem create_contest_stores (w : World) (uid : Z) (form : ContestForm) (s : Site)
    (start_date end_date : Z) :
  user_leagues uid s <> [] ->
  contest_form_validates (user_leagues uid s) form = true ->
  form_start_date form = Some start_date ->
  form_end_date form = Some end_date ->
  start_date < end_date ->
  let contest := {| row_id := next_id (map row_id (site_contests s));
                    row_user_id := uid;
                    row_league_id := form_league_id form;
                    row_stat_category := form_stat_category form;
                    row_start_date := start_date;
                    row_end_date := end_date;
                    row_title := form_title form;
                    row_created_at := utcnow w |} in
  let s' := snd (create_contest w uid form s) in
  fst (create_contest w uid form s) = Redirect "results" (Some (row_id contest))
  /\ get_contest s (row_id contest) = None
  /\ site_contests s' = site_contests s ++ [contest]
  /\ get_contest s' (row_id contest) = Some contest
  /\ site_leagues s' = site_leagues s
  /\ in_list (row_stat_category contest) valid_stats = true
  /\ (exists league, In league (site_leagues s)
                     /\ league_id league = row_league_id contest
                     /\ league_user_id league = uid)
  /\ (today w < start_date ->
      site_engine s' = site_engine s /\ site_flashes s' = site_flashes s)
  /\ (start_date <= today w ->
      (exists data,
          db_contest_results (site_engine s')
          = db_contest_results (site_engine s) ++ [snapshot_row w (row_id contest) data]
          /\ site_flashes s' = site_flashes s)
      \/ (db_contest_results (site_engine s') = db_contest_results (site_engine s)
          /\ site_flashes s'
             = site_flashes s
               ++ [(Msg ("Error computing contest stats due to database or API issues. "
                         ++ "Contest created but results not available."),
                    "error"%string)])).
Proof.
  intros Hleagues Hvalid Hs He Horder contest s'.
  pose proof (validated_form _ _ Hvalid) as (Hlid & Hcat & _ & _).
  assert (Hrun : create_contest w uid form s
                 = (Redirect "results" (Some (row_id contest)),
                    if start_date <=? today w
                    then store_first_result w (row_id contest) 3
                           (with_contests (site_contests s ++ [contest]) s)
                    else with_contests (site_contests s ++ [contest]) s)).
  { unfold create_contest. destruct (user_leagues uid s) as [| l leagues]; [contradiction |].
    rewrite Hvalid, Hs, He. cbn [negb].
    rewrite (proj2 (Z.leb_gt _ _) Horder). reflexivity. }
  pose proof (store_first_result_spec w (row_id contest) 3
                (with_contests (site_contests s ++ [contest]) s)) as Hfirst.
  cbv zeta in Hfirst. destruct Hfirst as (Hc & Hl & Hres).
  assert (Htables : site_contests s' = site_contests s ++ [contest]
                    /\ site_leagues s' = site_leagues s).
  { subst s'. rewrite Hrun. cbn [snd].
    destruct (start_date <=? today w); [split; [exact Hc | exact Hl] | split; reflexivity]. }
  destruct Htables as [Hcontests Hls].
  split; [rewrite Hrun; reflexivity |].
  split; [apply next_id_fresh |].
  split; [exact Hcontests |].
  split.
  { unfold get_contest. rewrite Hcontests. apply find_app_new.
    - apply next_id_fresh.
    - cbn. apply Z.eqb_refl. }
  split; [exact Hls |].
  split; [exact Hcat |].
  split.
  { apply in_map_iff in Hlid. destruct Hlid as (league & Hid & Hin).
    unfold user_leagues in Hin. apply List.filter_In in Hin. destruct Hin as [Hin Hu].
    exists league. split; [exact Hin |]. split; [exact Hid | apply Z.eqb_eq; exact Hu]. }
  split.
  - intros Hfuture. subst s'. rewrite Hrun. cbn [snd].
    rewrite (proj2 (Z.leb_gt _ _) Hfuture). split; reflexivity.
  - intros Hstarted. subst s'. rewrite Hrun. cbn [snd].
    rewrite (proj2 (Z.leb_le _ _) Hstarted). exact Hres.
Qed.

Lemma create_contest_stores_witness :
  let form := {| form_submitted := true; form_league_id := 1;
                 form_stat_category := "HR"; form_title := "June";
                 form_start_date := Some Scenario.day1;
                 form_end_date := Some Scenario.day2 |} in
  let s := {| site_leagues := [ {| league_id := 1; league_user_id := 7;
                                   league_name := "L"; league_espn_id := 3438;
                                   league_slots := None |} ];
              site_contests := []; site_engine := Scenario.state "HR";
              site_flashes := [] |} in
  let w := Scenario.world (Scenario.day2 + 1) in
  fst (create_contest w 7 form s) = Redirect "results" (Some 1)
  /\ site_contests (snd (create_contest w 7 form s))
     = [ {| row_id := 1; row_user_id := 7; row_league_id := 1;
            row_stat_category := "HR"; row_start_date := Scenario.day1;
            row_end_date := Scenario.day2; row_title := "June";
            row_created_at := utcnow w |} ].
Proof.
  intros form s w.
  pose proof (create_contest_stores w 7 form s Scenario.day1 Scenario.day2) as H.
  cbv zeta in H.
  destruct H as (Hresp & _ & Hstored & _).
  - discriminate.
  - reflexivity.
  - reflexivity.
  - reflexivity.
  - vm_compute. reflexivity.
  - split; [exact Hresp | exact Hstored].
Defined.

(** ** The pages: clearing *)

(** X28. Clearing removes the user's rows and no others: after
    [clear_contests] the user has no contest, the contests of the other
    users are kept in their order, and a stored result is kept exactly when
    it is not a result of one of the user's contests; [clear_leagues] does
    the same and removes the user's leagues as well, keeping those of the
    other users. Neither touches the player cache or sends a request; both
    empty the store of the memoized functions, for every user. *)
Theorem clearing_removes_own_rows (uid : Z) (s : Site) :
  let own := map row_id (user_contests uid s) in
  let kept_results :=
    List.filter (fun r => negb (in_Zs (cr_contest_id r) own))
                (db_contest_results (site_engine s)) in
  let kept_contests := List.filter (fun c => negb (row_user_id c =? uid)) (site_contests s) in
  (let s' := snd (clear_contests uid s) in
   user_contests uid s' = []
   /\ site_contests s' = kept_contests
   /\ db_contest_results (site_engine s') = kept_results
   /\ site_leagues s' = site_leagues s
   /\ db_player_cache (site_engine s') = db_player_cache (site_engine s)
   /\ requests (site_engine s') = requests (site_engine s)
   /\ memo (site_engine s') = empty_memo)
  /\
  (let s' := snd (clear_leagues uid s) in
   user_contests uid s' = []
   /\ user_leagues uid s' = []
   /\ site_contests s' = kept_contests
   /\ db_contest_results (site_engine s') = kept_results
   /\ site_leagues s' = List.filter (fun l => negb (league_user_id l =? uid)) (site_leagues s)
   /\ db_player_cache (site_engine s') = db_player_cache (site_engine s)
   /\ requests (site_engine s') = requests (site_engine s)
   /\ memo (site_engine s') = empty_memo)
  /\
  (forall other c, other <> uid -> In c (user_contests other s) ->
                   In c (site_contests (snd (clear_contests uid s)))
                   /\ In c (site_contests (snd (clear_leagues uid s)))).
Proof.
  assert (Hnone : forall (A : Type) (p : A -> bool) (l : list A),
             List.filter p (List.filter (fun x => negb (p x)) l) = []).
  { intros A p l. induction l as [| x l IH]; cbn [List.filter]; [reflexivity |].
    destruct (p x) eqn:Hx; cbn [negb List.filter]; [exact IH |]. rewrite Hx. exact IH. }
  cbv zeta. split; [| split].
  - unfold clear_contests, user_contests. cbn [snd flash with_contests site_contests
      delete_results cache_clear with_engine site_engine site_leagues].
    split; [apply (Hnone _ (fun c => row_user_id c =? uid)) |].
    repeat split; reflexivity.
  - unfold clear_leagues, user_contests, user_leagues. cbn [snd flash with_contests
      with_leagues site_contests delete_results cache_clear with_engine site_engine
      site_leagues].
    split; [apply (Hnone _ (fun c => row_user_id c =? uid)) |].
    split; [apply (Hnone _ (fun l => league_user_id l =? uid)) |].
    repeat split; reflexivity.
  - intros other c Hne Hc. unfold user_contests in Hc. apply List.filter_In in Hc.
    destruct Hc as [Hin Hu]. apply Z.eqb_eq in Hu.
    assert (Hkeep : In c (List.filter (fun c => negb (row_user_id c =? uid)) (site_contests s))).
    { apply List.filter_In. split; [exact Hin |].
      apply negb_true_iff, Z.eqb_neq. congruence. }
    split; exact Hkeep.
Qed.

(** ** The pages: the dashboard *)

Lemma get_contest_data_raises (w : World) (cid : Z) (st st' : State) (e : exn) :
  get_contest_data w cid st = (Raise e, st') -> e = ValueError.
Proof.
  unfold get_contest_data, reraise_as_value_error.
  destruct (get_contest_data_body w cid st) as [[a | e'] st1]; [discriminate |].
  intros [= <- _]. reflexivity.
Qed.

Lemma dashboard_loop (w : World) (l : list ContestRow) :
  forall (data : list (ContestRow * chart_data * string * status)) (s : Site),
    let shown :=
      fold_left (fun acc contest =>
        match run_engine (get_contest_data w (row_id contest)) (snd acc) with
        | (Ok (_, chart, warning_message, st), s') =>
            (fst acc ++ [(contest, chart, warning_message, st)], s')
        | (Raise e, s') => (fst acc, flash (MsgOf e) "error" s')
        end) l (data, s) in
    exists extra failures,
      fst shown = data ++ extra
      /\ map (fun d => fst (fst (fst d))) extra `sublist_of` l
      /\ site_flashes (snd shown)
         = site_flashes s ++ repeat (MsgOf ValueError, "error"%string) failures
      /\ (length extra + failures = length l)%nat
      /\ site_contests (snd shown) = site_contests s
      /\ site_leagues (snd shown) = site_leagues s.
Proof.
  induction l as [| contest l IH]; intros data s; cbn [fold_left].
  - exists [], 0%nat. cbn [repeat fst snd map length].
    rewrite !app_nil_r. repeat split; try reflexivity.
  - match goal with
    | |- context [fold_left ?f l ?a] => set (step := f) in *; set (next := a)
    end.
    destruct (get_contest_data w (row_id contest) (engine_state s))
      as [[[[[rk chart] warning_message] st] | e] st1] eqn:Hrun.
    + assert (Hnext : next = (data ++ [(contest, chart, warning_message, st)],
                              with_engine st1 s)).
      { subst next. cbn [fst snd]. unfold run_engine. rewrite Hrun. reflexivity. }
      rewrite Hnext.
      specialize (IH (data ++ [(contest, chart, warning_message, st)]) (with_engine st1 s)).
      cbv zeta in IH. fold step in IH.
      destruct IH as (extra & failures & Hd & Hsub & Hfl & Hlen & Hc & Hl).
      exists ((contest, chart, warning_message, st) :: extra), failures.
      split; [rewrite Hd, <- app_assoc; reflexivity |].
      split; [cbn [map fst]; apply sublist_skip; exact Hsub |].
      split; [exact Hfl |]. split; [cbn [length]; lia |]. split; assumption.
    + pose proof (get_contest_data_raises _ _ _ _ _ Hrun) as He. subst e.
      assert (Hnext : next = (data, flash (MsgOf ValueError) "error" (with_engine st1 s))).
      { subst next. cbn [fst snd]. unfold run_engine. rewrite Hrun. reflexivity. }
      rewrite Hnext.
      specialize (IH data (flash (MsgOf ValueError) "error" (with_engine st1 s))).
      cbv zeta in IH. fold step in IH.
      destruct IH as (extra & failures & Hd & Hsub & Hfl & Hlen & Hc & Hl).
      exists extra, (S failures).
      split; [exact Hd |]. split; [apply sublist_cons; exact Hsub |].
      split.
      { rewrite Hfl. cbn [flash with_engine site_flashes repeat].
        rewrite <- app_assoc. reflexivity. }
      split; [cbn [length]; lia |]. split; assumption.
Qed.

Lemma insert_by_created_perm (c : ContestRow) (l : list ContestRow) :
  Permutation (insert_by_created c l) (c :: l).
Proof.
  induction l as [| d l IH]; cbn [insert_by_created]; [reflexivity |].
  destruct (row_created_at c <? row_created_at d); [| reflexivity].
  rewrite IH. apply perm_swap.
Qed.

Lemma latest_first_perm (l : list ContestRow) : Permutation (latest_first l) l.
Proof.
  unfold latest_first. induction l as [| c l IH]; cbn [fold_right]; [reflexivity |].
  rewrite insert_by_created_perm. constructor. exact IH.
Qed.

(** X29. The dashboard of a user with a league shows the user's own
    contests, the latest first, and only those whose data could be had: each
    contest of the user is either shown or answered by one flashed error,
    a contest of another user is never shown, and the tables of contests
    and leagues are left as they were. A user without a league is sent to
    the page that links one, and nothing is computed. *)
Theorem dashboard_shows_own_contests (w : World) (uid : Z) (s : Site) :
  (user_leagues uid s = [] -> dashboard w uid s = (Redirect "link_league" None, s))
  /\
  (user_leagues uid s <> [] ->
   exists shown failures,
     fst (dashboard w uid s) = RenderDashboard shown
     /\ map (fun d => fst (fst (fst d))) shown `sublist_of` latest_first (user_contests uid s)
     /\ Forall (fun d => In (fst (fst (fst d))) (site_contests s)
                         /\ row_user_id (fst (fst (fst d))) = uid) shown
     /\ site_flashes (snd (dashboard w uid s))
        = site_flashes s ++ repeat (MsgOf ValueError, "error"%string) failures
     /\ (length shown + failures = length (user_contests uid s))%nat
     /\ site_contests (snd (dashboard w uid s)) = site_contests s
     /\ site_leagues (snd (dashboard w uid s)) = site_leagues s).
Proof.
  unfold dashboard. split.
  - intros ->. reflexivity.
  - intros Hl. destruct (user_leagues uid s) as [| l leagues]; [contradiction |].
    destruct (dashboard_loop w (latest_first (user_contests uid s)) [] s)
      as (extra & failures & Hd & Hsub & Hfl & Hlen & Hc & Hls).
    cbn [fst snd]. exists extra, failures. cbn [app] in Hd.
    split; [rewrite Hd; reflexivity |]. split; [exact Hsub |].
    split.
    { apply List.Forall_forall. intros d Hin.
      assert (Hrow : In (fst (fst (fst d))) (user_contests uid s)).
      { apply (Permutation_in _ (latest_first_perm _)).
        apply list_elem_of_In. eapply elem_of_sublist; [| exact Hsub].
        apply list_elem_of_In. apply (in_map (fun d => fst (fst (fst d)))). exact Hin. }
      unfold user_contests in Hrow. apply List.filter_In in Hrow.
      destruct Hrow as [Hrow Hu]. split; [exact Hrow | apply Z.eqb_eq; exact Hu]. }
    split; [exact Hfl |].
    split; [rewrite Hlen; apply Permutation_length, latest_first_perm |].
    split; assumption.
Qed.

(** ** Linking a league *)

Lemma to_int_raises (s : string) (e : exn) : to_int s = Raise e -> e = ValueError.
Proof.
  unfold to_int. destruct (PyStr.rstrip (PyStr.lstrip (PyStr.chars s))) as [| c s1];
    [congruence |].
  destruct (PyStr.parse_sign (c :: s1)) as [neg [| c2 s2]]; [congruence |].
  destruct (negb (PyStr.is_digit c2)); [congruence |].
  destruct (PyStr.strip_underscores None (c2 :: s2)) as [ds |]; [| congruence].
  destruct (forallb PyStr.is_digit ds && (length ds <=? 4300)%nat); congruence.
Qed.

Lemma counted_slots_from (lineupSlotCounts : odict string Z) :
  forall slots : list Z,
    fold_left (fun acc kv =>
      rbind acc (fun slots0 =>
        rbind (to_int (fst kv)) (fun k =>
          if (13 <=? k) && (k <=? 15) && (0 <? snd kv)
          then Ok (slots0 ++ [k]) else Ok slots0)))
      lineupSlotCounts (Ok slots)
    = if forallb (fun kv => match to_int (fst kv) with Ok _ => true | Raise _ => false end)
                 lineupSlotCounts
      then Ok (slots ++ flat_map (fun kv =>
                 match to_int (fst kv) with
                 | Ok k => if (13 <=? k) && (k <=? 15) && (0 <? snd kv) then [k] else []
                 | Raise _ => []
                 end) lineupSlotCounts)
      else Raise ValueError.
Proof.
  induction lineupSlotCounts as [| [key v] l IH]; intros slots;
    cbn [fold_left forallb flat_map fst snd rbind].
  - rewrite app_nil_r. reflexivity.
  - destruct (to_int key) as [k | e] eqn:Hk; cbn [rbind andb].
    + destruct ((13 <=? k) && (k <=? 15) && (0 <? v)).
      * rewrite IH. rewrite <- app_assoc. reflexivity.
      * rewrite IH. reflexivity.
    + apply to_int_raises in Hk. subst e.
      apply (fold_rbind_raise (fun slots0 kv =>
               rbind (to_int (fst kv)) (fun k =>
                 if (13 <=? k) && (k <=? 15) && (0 <? snd kv)
                 then Ok (slots0 ++ [k]) else Ok slots0))).
Qed.

(** X30. The pitcher slots stored when a league is linked are the ones
    the engine uses. When every key of the provider's slot counts reads as
    an integer, [linked_slots] returns a list that is not empty and holds
    only 13, 14 and 15; every key from 13 to 15 with a positive count is in
    it; and [pitcher_slots] of a league stored with this list gives the
    list back, so that the engine filters nothing out and never falls back.
    A key that does not read as an integer makes [linked_slots] raise
    [ValueError]. *)
Theorem linked_slots_valid (lineupSlotCounts : odict string Z) :
  (Forall (fun kv => exists k, to_int (fst kv) = Ok k) lineupSlotCounts ->
   exists slots,
     linked_slots lineupSlotCounts = Ok slots
     /\ slots <> []
     /\ Forall (fun slot => In slot [13; 14; 15]) slots
     /\ (forall k, (exists key count, In (key, count) lineupSlotCounts
                                      /\ to_int key = Ok k
                                      /\ 13 <= k <= 15 /\ 0 < count) ->
                   In k slots)
     /\ forall espn_id,
          pitcher_slots {| espn_league_id := espn_id;
                           active_pitcher_slots := dumped_slots slots |}
          = Ok slots)
  /\
  (Exists (fun kv => exists e, to_int (fst kv) = Raise e) lineupSlotCounts ->
   linked_slots lineupSlotCounts = Raise ValueError).
Proof.
  unfold linked_slots, counted_slots. rewrite counted_slots_from. cbn [app].
  set (counted := flat_map _ lineupSlotCounts).
  assert (Hrange : Forall (fun slot => In slot [13; 14; 15]) counted).
  { apply List.Forall_forall. intros k Hk. apply in_flat_map in Hk.
    destruct Hk as ([key v] & _ & Hk). cbn [fst snd] in Hk.
    destruct (to_int key) as [k' |]; [| destruct Hk].
    destruct ((13 <=? k') && (k' <=? 15) && (0 <? v)) eqn:Hc; [| destruct Hk].
    destruct Hk as [<- | []]. apply andb_true_iff in Hc. destruct Hc as [Hc _].
    apply andb_true_iff in Hc. cbn [In]. lia. }
  assert (Hround : forall (slots : list Z) (espn_id : Z),
             slots <> [] -> Forall (fun slot => In slot [13; 14; 15]) slots ->
             pitcher_slots {| espn_league_id := espn_id;
                              active_pitcher_slots := dumped_slots slots |}
             = Ok slots).
  { intros slots espn_id Hne Hall. unfold pitcher_slots, dumped_slots.
    cbn [active_pitcher_slots json_iter rbind]. rewrite omap_as_slot_ints.
    assert (Hf : List.filter (fun slot => in_Zs slot [13; 14; 15]) slots = slots).
    { clear Hne. induction Hall as [| x l Hx Hl IH]; cbn [List.filter]; [reflexivity |].
      rewrite (proj2 (in_Zs_In x [13; 14; 15]) Hx), IH. reflexivity. }
    rewrite Hf. destruct slots; [contradiction | reflexivity]. }
  split.
  - intros Hall.
    assert (Hb : forallb (fun kv => match to_int (fst kv) with
                                    | Ok _ => true
                                    | Raise _ => false
                                    end) lineupSlotCounts = true).
    { apply forallb_forall. intros kv Hin. rewrite List.Forall_forall in Hall.
      destruct (Hall kv Hin) as (k & ->). reflexivity. }
    rewrite Hb. cbn [rbind].
    assert (Hin : forall k, (exists key count, In (key, count) lineupSlotCounts
                                               /\ to_int key = Ok k
                                               /\ 13 <= k <= 15 /\ 0 < count) ->
                            In k counted).
    { intros k (key & count & Hkv & Hk & Hr & Hc). apply in_flat_map.
      exists (key, count). split; [exact Hkv |]. cbn [fst snd]. rewrite Hk.
      replace ((13 <=? k) && (k <=? 15) && (0 <? count)) with true; [left; reflexivity |].
      symmetry. rewrite !andb_true_iff. lia. }
    destruct counted as [| k0 rest] eqn:Hcounted.
    + exists default_pitcher_slots. split; [reflexivity |]. split; [discriminate |].
      split; [unfold default_pitcher_slots;
              repeat (apply List.Forall_cons; [cbn; auto |]); apply List.Forall_nil |].
      split; [intros k Hk; destruct (Hin k Hk) |].
      intros espn_id. reflexivity.
    + exists (k0 :: rest). split; [reflexivity |]. split; [discriminate |].
      split; [exact Hrange |]. split; [exact Hin |].
      intros espn_id. apply Hround; [discriminate | exact Hrange].
  - intros Hex. apply List.Exists_exists in Hex. destruct Hex as (kv & Hin & e & He).
    destruct (forallb _ lineupSlotCounts) eqn:Hb; [| reflexivity].
    rewrite forallb_forall in Hb. specialize (Hb kv Hin). rewrite He in Hb. discriminate Hb.
Qed.
